(** * Point-cloud tile generation: a shallow embedding of
      [samples-generator/lib/createPointCloudTile.js], followed by the
      batch tables of [samples-generator/lib/createBuildingsTile.js]
      (module [Buildings])

    JavaScript numbers are IEEE-754 binary64 values, which is what the
    primitive type [float] is; quantities the source only ever uses as
    integers (lengths, indexes, byte offsets, batch ids) are in [Z] or [nat].
    A [Buffer] is a [list byte].  Thrown exceptions are the [Err] case of
    [result]; the process-wide random generator of [Cesium.Math] is threaded
    explicitly as the [Globals] state. *)

From Stdlib Require Import String Ascii ZArith List Bool Lia Floats.
From Stdlib Require Import Strings.Byte DecimalString DecimalNat.
Import ListNotations.
Open Scope string_scope.
Open Scope list_scope.
Open Scope Z_scope.


(* ================================================================== *)
(** * JavaScript numbers and the [Math] functions the source calls      *)
(* ================================================================== *)

Module Js.

(** The signed integer mantissa of a finite number. *)
Definition signed (s : bool) (m : positive) : Z := if s then Zneg m else Zpos m.

(** A non-negative or negative integer below 2^63 in magnitude, as a number. *)
Definition of_Z (z : Z) : float :=
  match z with
  | Z0 => PrimFloat.zero
  | Zpos _ => PrimFloat.of_uint63 (Uint63.of_Z z)
  | Zneg p => PrimFloat.opp (PrimFloat.of_uint63 (Uint63.of_Z (Zpos p)))
  end.

Definition of_nat (n : nat) : float := of_Z (Z.of_nat n).

(** Truncation toward zero, the integer part used by [ToInt32], [ToUint32]
    and typed-array stores.  NaN and the infinities convert to 0. *)
Definition truncZ (f : float) : Z :=
  match Prim2SF f with
  | S754_finite s m e =>
      let a := Z.shiftl (Zpos m) e in if s then - a else a
  | _ => 0
  end.

(** [Math.floor]: zeros, NaN, infinities and numbers that are already
    integers (exponent >= 0) are returned unchanged. *)
Definition Math_floor (f : float) : float :=
  match Prim2SF f with
  | S754_finite s m e =>
      if 0 <=? e then f else of_Z (Z.shiftl (signed s m) e)
  | _ => f
  end.

(** [Math.round]: the nearest integer, ties toward +infinity; a result of
    zero keeps the sign of the argument. *)
Definition Math_round (f : float) : float :=
  match Prim2SF f with
  | S754_finite s m e =>
      if 0 <=? e then f
      else
        let r := Z.shiftl (signed s m + Z.shiftl 1 (- e - 1)) e in
        if r =? 0 then (if s then PrimFloat.neg_zero else PrimFloat.zero)
        else of_Z r
  | _ => f
  end.

Definition Math_abs (f : float) : float := PrimFloat.abs f.
Definition Math_sqrt (f : float) : float := PrimFloat.sqrt f.

(** [Math.max] on two integers. *)
Definition Math_max (a b : Z) : Z := Z.max a b.

(** [Math.PI], the binary64 number nearest to pi. *)
Definition Math_PI : float := 0x1.921fb54442d18p+1%float.

(** [ToInt32] of an integer: reduction modulo 2^32 into [-2^31, 2^31). *)
Definition ToInt32 (z : Z) : Z := (z + 2 ^ 31) mod 2 ^ 32 - 2 ^ 31.

(** [ToUint32] of an integer. *)
Definition ToUint32 (z : Z) : Z := z mod 2 ^ 32.

(** [a << n] on integer operands. *)
Definition shl (a n : Z) : Z := ToInt32 (Z.shiftl (ToInt32 a) (Z.land n 31)).

(** [a | b] on integer operands. *)
Definition bor (a b : Z) : Z := ToInt32 (Z.lor (ToInt32 a) (ToInt32 b)).

(** [a >>> n] on integer operands. *)
Definition shru (a n : Z) : Z := Z.shiftr (ToUint32 a) (Z.land n 31).

End Js.

(* ================================================================== *)
(** * Errors, results                                                  *)
(* ================================================================== *)

(** What the source or the libraries it calls can throw. *)
Inductive error : Type :=
| EncodingFailed        (* throw 'Error: Encoding Failed.' *)
| TypeError             (* calling or reading a property of [undefined] *)
| RangeError            (* Buffer write out of range *)
| DeveloperError        (* raised by a Cesium debug check *)
| RuntimeError.         (* raised by Cesium, e.g. a matrix that is not invertible *)

Inductive result (A : Type) : Type :=
| Ok (a : A)
| Err (e : error).
Arguments Ok {A} a.
Arguments Err {A} e.

Definition rbind {A B} (r : result A) (k : A -> result B) : result B :=
  match r with
  | Ok a => k a
  | Err e => Err e
  end.

Definition rmap {A B} (f : A -> B) (r : result A) : result B :=
  rbind r (fun a => Ok (f a)).

Definition isOk {A} (r : result A) : bool :=
  match r with Ok _ => true | Err _ => false end.

(* ================================================================== *)
(** * Node's [Buffer]                                                   *)
(* ================================================================== *)

Definition Buffer := list byte.

Definition byte_of_Z (z : Z) : byte :=
  match Byte.of_N (Z.to_N (z mod 256)) with
  | Some b => b
  | None => x00
  end.

Definition Z_of_byte (b : byte) : Z := Z.of_N (Byte.to_N b).

(** [Buffer.alloc(n)]: [n] zero bytes. *)
Definition Buffer_alloc (n : nat) : Buffer := repeat x00 n.

(** [Buffer.concat]. *)
Definition Buffer_concat (l : list Buffer) : Buffer := List.concat l.

(** Stores [bs] at [offset]; a write that does not fit throws. *)
Definition Buffer_store (buf : Buffer) (offset : nat) (bs : list byte) : result Buffer :=
  if (offset + length bs <=? length buf)%nat
  then Ok (firstn offset buf ++ bs ++ skipn (offset + length bs) buf)
  else Err RangeError.

(** The range check Node makes in [writeUInt8], [writeUInt16LE] and
    [writeUInt32LE]: [value > max || value < min] throws; NaN passes both
    comparisons. *)
Definition checkInt (value : float) (max : Z) : bool :=
  negb (PrimFloat.ltb (Js.of_Z max) value || PrimFloat.ltb value PrimFloat.zero).

Definition bytesLE (n : nat) (v : Z) : list byte :=
  map (fun k => byte_of_Z (Js.shru v (8 * Z.of_nat k))) (seq 0 n).

Definition writeUIntLE (width : nat) (buf : Buffer) (value : float) (offset : nat)
  : result Buffer :=
  if checkInt value (2 ^ (8 * Z.of_nat width) - 1)
  then Buffer_store buf offset (bytesLE width (Js.truncZ value))
  else Err RangeError.

Definition writeUInt8 := writeUIntLE 1.
Definition writeUInt16LE := writeUIntLE 2.

(** The binary32 bit pattern [writeFloatLE] stores: the number rounded to
    nearest-even in the format with a 24-bit significand. *)
Definition float32_bits (f : float) : Z :=
  let pack (s : bool) (bexp frac : Z) :=
    (if s then 2 ^ 31 else 0) + bexp * 2 ^ 23 + frac in
  let of_sf (x : spec_float) :=
    match x with
    | S754_zero s => pack s 0 0
    | S754_infinity s => pack s 255 0
    | S754_nan => pack false 255 (2 ^ 22)
    | S754_finite s m e =>
        if Zpos m <? 2 ^ 23 then pack s 0 (Zpos m)
        else pack s (e + 150) (Zpos m - 2 ^ 23)
    end in
  match Prim2SF f with
  | S754_finite s m e => of_sf (binary_round_aux 24 128 s (Zpos m) e loc_Exact)
  | x => of_sf x
  end.

Definition writeFloatLE (buf : Buffer) (value : float) (offset : nat) : result Buffer :=
  Buffer_store buf offset (bytesLE 4 (float32_bits value)).

Declare Scope result_scope.
Delimit Scope result_scope with result.
Notation "'let!' x ':=' c1 'in' c2" := (rbind c1 (fun x => c2))
  (at level 10, x pattern, c1 at level 100, c2 at level 200) : result_scope.
Open Scope result_scope.

(** [for (i = i0; i < i0 + n; ++i) body]: the body updates the loop state
    and may throw. *)
Fixpoint forR {St : Type} (body : nat -> St -> result St) (i n : nat) (s : St)
  : result St :=
  match n with
  | O => Ok s
  | S n' => let! s' := body i s in forR body (S i) n' s'
  end.

(** The same range check and store for a value the source holds as an
    integer (a batch id, an index). *)
Definition writeUIntLE_int (width : nat) (buf : Buffer) (value : Z) (offset : nat)
  : result Buffer :=
  if (value >? 2 ^ (8 * Z.of_nat width) - 1) || (value <? 0)
  then Err RangeError
  else Buffer_store buf offset (bytesLE width value).

(** The element at index [i] of an array known to have it. *)
Definition at_index {A} (l : list A) (i : nat) : result A :=
  match nth_error l i with
  | Some a => Ok a
  | None => Err TypeError
  end.

(* ================================================================== *)
(** * JavaScript objects used as ordered maps                          *)
(* ================================================================== *)

(** [obj[k]]: [None] is [undefined]. *)
Fixpoint obj_get {A} (o : list (string * A)) (k : string) : option A :=
  match o with
  | [] => None
  | (k', v) :: r => if String.eqb k' k then Some v else obj_get r k
  end.

(** [obj[k] = v]: an existing key keeps its place, a new key goes last. *)
Fixpoint obj_set {A} (o : list (string * A)) (k : string) (v : A) : list (string * A) :=
  match o with
  | [] => [(k, v)]
  | (k', v') :: r =>
      if String.eqb k' k then (k, v) :: r else (k', v') :: obj_set r k v
  end.

Definition defined {A} (o : option A) : bool :=
  match o with Some _ => true | None => false end.

(** Cesium's [defaultValue(a, b)]. *)
Definition defaultValue {A} (a : option A) (b : A) : A :=
  match a with Some v => v | None => b end.

Unset Elimination Schemes.
Inductive Json : Type :=
| JUndefined
| JInt (z : Z)
| JNum (f : float)
| JStr (s : string)
| JArr (l : list Json)
| JObj (l : list (string * Json)).
Set Elimination Schemes.

Definition JsObject := list (string * Json).

(* ================================================================== *)
(** * Attribute buffers                                                *)
(* ================================================================== *)

(** The members of Cesium's [ComponentDatatype], named by the strings the
    source stores in [componentType]. *)
Inductive ComponentType : Type :=
| BYTE | UNSIGNED_BYTE | SHORT | UNSIGNED_SHORT | INT | UNSIGNED_INT | FLOAT | DOUBLE.

Definition ComponentType_name (c : ComponentType) : string :=
  match c with
  | BYTE => "BYTE" | UNSIGNED_BYTE => "UNSIGNED_BYTE"
  | SHORT => "SHORT" | UNSIGNED_SHORT => "UNSIGNED_SHORT"
  | INT => "INT" | UNSIGNED_INT => "UNSIGNED_INT"
  | FLOAT => "FLOAT" | DOUBLE => "DOUBLE"
  end.

(** [ComponentDatatype.getSizeInBytes(ComponentDatatype[componentType])]. *)
Definition getSizeInBytes (c : ComponentType) : nat :=
  match c with
  | BYTE | UNSIGNED_BYTE => 1
  | SHORT | UNSIGNED_SHORT => 2
  | INT | UNSIGNED_INT | FLOAT => 4
  | DOUBLE => 8
  end.

Inductive AttributeType : Type := SCALAR | VEC2 | VEC3 | VEC4.

Definition AttributeType_name (t : AttributeType) : string :=
  match t with
  | SCALAR => "SCALAR" | VEC2 => "VEC2" | VEC3 => "VEC3" | VEC4 => "VEC4"
  end.

(** The objects returned by [getPositions], [getBatchIds], ...;
    [batchLength] is only set by [getBatchIds]. *)
Record Property : Type := {
  buffer : Buffer;
  propertyName : string;
  componentType : ComponentType;
  type : AttributeType;
  batchLength : option Z
}.

Definition sizeOfUint8 : nat := 1.
Definition sizeOfUint16 : nat := 2.
Definition sizeOfUint32 : nat := 4.
Definition sizeOfFloat32 : nat := 4.

(* ================================================================== *)
(** * Cesium value types                                               *)
(* ================================================================== *)

Record Cartesian2 : Type := { x2 : float; y2 : float }.
Record Cartesian3 : Type := { x : float; y : float; z : float }.
Record Color : Type := { red : float; green : float; blue : float; alpha : float }.

Module Cartesian3Ops.

Definition ZERO : Cartesian3 := {| x := 0; y := 0; z := 0 |}.

(** Cesium's [Cartesian3.equals]: component-wise [===], so that [-0]
    equals [0] and NaN equals nothing. *)
Definition equals (l r : Cartesian3) : bool :=
  PrimFloat.eqb (x l) (x r) && PrimFloat.eqb (y l) (y r) && PrimFloat.eqb (z l) (z r).

Definition magnitude (c : Cartesian3) : float :=
  Js.Math_sqrt (x c * x c + y c * y c + z c * z c)%float.

Definition hasNaN (c : Cartesian3) : bool :=
  PrimFloat.is_nan (x c) || PrimFloat.is_nan (y c) || PrimFloat.is_nan (z c).

(** Cesium's [Cartesian3.normalize]: each component divided by the
    magnitude; a build of Cesium with its debug checks raises
    [DeveloperError] when a component of the result is NaN. *)
Definition normalize (debug : bool) (c : Cartesian3) : result Cartesian3 :=
  let m := magnitude c in
  let r := {| x := x c / m; y := y c / m; z := z c / m |}%float in
  if debug && hasNaN r then Err DeveloperError else Ok r.

Definition multiplyByScalar (c : Cartesian3) (s : float) : Cartesian3 :=
  {| x := x c * s; y := y c * s; z := z c * s |}%float.

Definition subtract (l r : Cartesian3) : Cartesian3 :=
  {| x := x l - x r; y := y l - y r; z := z l - z r |}%float.

End Cartesian3Ops.

(* ================================================================== *)
(** * The draco3d encoder interface                                    *)
(* ================================================================== *)

Inductive DracoType : Type := DRACO_POSITION | DRACO_NORMAL | DRACO_COLOR | DRACO_GENERIC.

Inductive EncodingMethod : Type := POINT_CLOUD_SEQUENTIAL_ENCODING.

(** What the calls on the [Encoder] object have set before it encodes;
    [encodingMethod = None] leaves the encoder's own default. *)
Record EncoderSettings : Type := {
  speedOptions : option Z;
  attributeQuantization : list (DracoType * Z);
  encodingMethod : option EncodingMethod
}.

(** One [pointCloudBuilder.Add...Attribute] call. *)
Record AddAttributeCall : Type := {
  addFunctionName : string;
  addDracoType : DracoType;
  addPointsLength : nat;
  addNumberOfComponents : Z;
  addTypedArray : Buffer
}.

(** The argument of [createPnts]. *)
Record PntsSections : Type := {
  featureTableJson : JsObject;
  featureTableBinary : Buffer;
  batchTableJson : JsObject;
  batchTableBinary : Buffer
}.

(* ================================================================== *)
(** * External collaborators                                           *)
(* ================================================================== *)

(** The libraries the module calls and whose code is not part of it:
    Cesium's random generator and matrices, simplex-noise, the draco3d
    encoder, the transcendental [Math] functions and [createPnts]. *)
Class Env : Type := {
  (* Cesium.Math: the generator behind setRandomNumberSeed / nextRandomNumber *)
  MersenneTwister : Type;
  MersenneTwister_new : float -> MersenneTwister;
  MersenneTwister_random : MersenneTwister -> float * MersenneTwister;
  (* simplex-noise: [new SimplexNoise(random)] draws from [random] *)
  SimplexNoise : Type;
  SimplexNoise_new : MersenneTwister -> SimplexNoise * MersenneTwister;
  SimplexNoise_noise4D : SimplexNoise -> float -> float -> float -> float -> float;
  (* Math *)
  Math_pow : float -> float -> float;
  Math_cos : float -> float;
  Math_sin : float -> float;
  (* Cesium *)
  cesiumDebug : bool;
  Matrix4 : Type;
  Matrix4_IDENTITY : Matrix4;
  Matrix4_getTranslation : Matrix4 -> Cartesian3;
  Matrix4_transpose : Matrix4 -> Matrix4;
  Matrix4_inverse : Matrix4 -> result Matrix4;
  Matrix4_multiplyByPoint : Matrix4 -> Cartesian3 -> Cartesian3;
  Matrix4_multiplyByPointAsVector : Matrix4 -> Cartesian3 -> Cartesian3;
  Color_fromRandom : MersenneTwister -> Color * MersenneTwister;
  AttributeCompression_octEncode : Cartesian3 -> result Cartesian2;
  (* draco3d *)
  PointCloud : Type;
  PointCloud_new : PointCloud;
  PointCloudBuilder_add : PointCloud -> AddAttributeCall -> Z * PointCloud;
  Encoder_EncodePointCloudToDracoBuffer :
    EncoderSettings -> PointCloud -> Z * (Z -> Z);
  (* ./createPnts, the module of the repository that writes the tile header *)
  createPnts : PntsSections -> Buffer
}.

(* ================================================================== *)
(** * Attribute encoders (Env-independent part of the module)           *)
(* ================================================================== *)

Definition getBatchId (position : Cartesian3) : Z :=
  (* Set to batchId to 0-7 depending on which octant the position is in *)
  let x := if PrimFloat.ltb 0 (x position) then 0 else 1 in
  let y := if PrimFloat.ltb 0 (y position) then 0 else 1 in
  let z := if PrimFloat.ltb 0 (z position) then 0 else 1 in
  Js.bor (Js.bor (Js.shl x 2) (Js.shl y 1)) z.

Definition getPositions (positions : list Cartesian3) : result Property :=
  let pointsLength := length positions in
  let buffer := Buffer_alloc (pointsLength * 3 * sizeOfFloat32) in
  let! buffer :=
    forR (fun i buffer =>
            let! position := at_index positions i in
            let! buffer := writeFloatLE buffer (x position) ((i * 3) * sizeOfFloat32) in
            let! buffer := writeFloatLE buffer (y position) ((i * 3 + 1) * sizeOfFloat32) in
            writeFloatLE buffer (z position) ((i * 3 + 2) * sizeOfFloat32))
         0 pointsLength buffer in
  Ok {| buffer := buffer; propertyName := "POSITION";
        componentType := FLOAT; type := VEC3; batchLength := None |}.

Definition getNormals (normals : list Cartesian3) : result Property :=
  let pointsLength := length normals in
  let buffer := Buffer_alloc (pointsLength * 3 * sizeOfFloat32) in
  let! buffer :=
    forR (fun i buffer =>
            let! normal := at_index normals i in
            let! buffer := writeFloatLE buffer (x normal) ((i * 3) * sizeOfFloat32) in
            let! buffer := writeFloatLE buffer (y normal) ((i * 3 + 1) * sizeOfFloat32) in
            writeFloatLE buffer (z normal) ((i * 3 + 2) * sizeOfFloat32))
         0 pointsLength buffer in
  Ok {| buffer := buffer; propertyName := "NORMAL";
        componentType := FLOAT; type := VEC3; batchLength := None |}.

(** The first loop of [getBatchIds]: [batchLength = Math.max(batchIds[i] + 1, batchLength)]. *)
Definition findBatchLength (batchIds : list Z) : Z :=
  fold_left (fun batchLength id => Js.Math_max (id + 1) batchLength) batchIds 0.

Definition getBatchIds (batchIds : list Z) : result Property :=
  (* Find the batch length which determines whether the BATCH_ID buffer is byte, short, or int. *)
  let pointsLength := length batchIds in
  let batchLength := findBatchLength batchIds in
  let! (buffer, componentType) :=
    if batchLength <=? 256 then
      let buffer := Buffer_alloc (pointsLength * sizeOfUint8) in
      let! buffer :=
        forR (fun i buffer =>
                let! id := at_index batchIds i in
                writeUIntLE_int 1 buffer id (i * sizeOfUint8))
             0 pointsLength buffer in
      Ok (buffer, UNSIGNED_BYTE)
    else if batchLength <=? 65536 then
      let buffer := Buffer_alloc (pointsLength * sizeOfUint16) in
      let! buffer :=
        forR (fun i buffer =>
                let! id := at_index batchIds i in
                writeUIntLE_int 2 buffer id (i * sizeOfUint16))
             0 pointsLength buffer in
      Ok (buffer, UNSIGNED_SHORT)
    else
      let buffer := Buffer_alloc (pointsLength * sizeOfUint32) in
      let! buffer :=
        forR (fun i buffer =>
                let! id := at_index batchIds i in
                writeUIntLE_int 4 buffer id (i * sizeOfUint32))
             0 pointsLength buffer in
      Ok (buffer, UNSIGNED_INT) in
  Ok {| buffer := buffer; propertyName := "BATCH_ID";
        componentType := componentType; type := SCALAR;
        batchLength := Some batchLength |}.

Definition getColorsRGB (colors : list Color) : result Property :=
  let colorsLength := length colors in
  let buffer := Buffer_alloc (colorsLength * 3) in
  let! buffer :=
    forR (fun i buffer =>
            let! color := at_index colors i in
            let r := Js.Math_floor (red color * 255)%float in
            let g := Js.Math_floor (green color * 255)%float in
            let b := Js.Math_floor (blue color * 255)%float in
            let! buffer := writeUInt8 buffer r (i * 3) in
            let! buffer := writeUInt8 buffer g (i * 3 + 1) in
            writeUInt8 buffer b (i * 3 + 2))
         0 colorsLength buffer in
  Ok {| buffer := buffer; propertyName := "RGB";
        componentType := UNSIGNED_BYTE; type := VEC3; batchLength := None |}.

(** The alpha component [getColorsRGBA] stores. *)
Definition encodeAlpha (alpha : float) : float :=
  Js.Math_floor (alpha * 128)%float. (* Make all alphas < 0.5 just so it's obvious *)

Definition getColorsRGBA (colors : list Color) : result Property :=
  let colorsLength := length colors in
  let buffer := Buffer_alloc (colorsLength * 4) in
  let! buffer :=
    forR (fun i buffer =>
            let! color := at_index colors i in
            let r := Js.Math_floor (red color * 255)%float in
            let g := Js.Math_floor (green color * 255)%float in
            let b := Js.Math_floor (blue color * 255)%float in
            let a := encodeAlpha (alpha color) in
            let! buffer := writeUInt8 buffer r (i * 4) in
            let! buffer := writeUInt8 buffer g (i * 4 + 1) in
            let! buffer := writeUInt8 buffer b (i * 4 + 2) in
            writeUInt8 buffer a (i * 4 + 3))
         0 colorsLength buffer in
  Ok {| buffer := buffer; propertyName := "RGBA";
        componentType := UNSIGNED_BYTE; type := VEC4; batchLength := None |}.

(** [(r << 11) + (g << 5) + b]: the shifts convert their operand with
    [ToInt32], [+] is the addition of numbers. *)
Definition packedColor (r g b : float) : float :=
  (Js.of_Z (Js.shl (Js.truncZ r) 11) + Js.of_Z (Js.shl (Js.truncZ g) 5) + b)%float.

Definition getColorsRGB565 (colors : list Color) : result Property :=
  let colorsLength := length colors in
  let buffer := Buffer_alloc (colorsLength * sizeOfUint16) in
  let! buffer :=
    forR (fun i buffer =>
            let! color := at_index colors i in
            let r := Js.Math_floor (red color * 31)%float in (* 5 bits *)
            let g := Js.Math_floor (green color * 63)%float in (* 6 bits *)
            let b := Js.Math_floor (blue color * 31)%float in (* 5 bits *)
            writeUInt16LE buffer (packedColor r g b) (i * sizeOfUint16))
         0 colorsLength buffer in
  Ok {| buffer := buffer; propertyName := "RGB565";
        componentType := UNSIGNED_SHORT; type := SCALAR; batchLength := None |}.

(* ================================================================== *)
(** * Aligned assembly of a table's binary section                     *)
(* ================================================================== *)

(** [Math.ceil(a / b)] for a length [a] and an alignment [b]: both are
    integers and [b] is a power of two, so the binary64 quotient is exact. *)
Definition Math_ceil_div (a b : Z) : Z := - ((- a) / b).

(** The body of the [if] shared by the two table loops of
    [createPointCloudTile]: round the current length up to the required
    alignment, pad with zeros and append the attribute's buffer. *)
Definition appendAligned (binary : Buffer) (property : Property) : Z * Buffer :=
  let byteAlignment := Z.of_nat (getSizeInBytes (componentType property)) in
  let byteOffset :=
    Math_ceil_div (Z.of_nat (length binary)) byteAlignment * byteAlignment in
  let padding := Buffer_alloc (Z.to_nat (byteOffset - Z.of_nat (length binary))) in
  (byteOffset, Buffer_concat [binary; padding; buffer property]).

(** [defined(dracoJson) && defined(dracoJson.properties[name])], with the
    [properties] object of the draco JSON when there is one. *)
Definition dracoCovers (dracoProperties : option (list (string * Z))) (name : string) : bool :=
  match dracoProperties with
  | Some properties => defined (obj_get properties name)
  | None => false
  end.

Definition featureTableEntry (name : string) (byteOffset : Z) (componentType : ComponentType)
  : Json :=
  JObj [("byteOffset", JInt byteOffset);
        ("componentType",
         if String.eqb name "BATCH_ID"
         then JStr (ComponentType_name componentType) else JUndefined)].

Definition batchTableEntry (byteOffset : Z) (property : Property) : Json :=
  JObj [("byteOffset", JInt byteOffset);
        ("componentType", JStr (ComponentType_name (componentType property)));
        ("type", JStr (AttributeType_name (type property)))].

(** [for (i = 0; i < featureTableProperties.length; ++i)], lines 170-185. *)
Fixpoint featureTableLoop (featureTableProperties : list Property)
    (dracoProperties : option (list (string * Z)))
    (featureTableBinary : Buffer) (featureTableJson : JsObject) : Buffer * JsObject :=
  match featureTableProperties with
  | [] => (featureTableBinary, featureTableJson)
  | property :: rest =>
      let name := propertyName property in
      let componentType := componentType property in
      let '(byteOffset, featureTableBinary) :=
        if negb (dracoCovers dracoProperties name)
        then appendAligned featureTableBinary property
        else (0, featureTableBinary) in
      featureTableLoop rest dracoProperties featureTableBinary
        (obj_set featureTableJson name (featureTableEntry name byteOffset componentType))
  end.

(** [for (i = 0; i < batchTableProperties.length; ++i)], lines 187-203. *)
Fixpoint batchTableLoop (batchTableProperties : list Property)
    (dracoProperties : option (list (string * Z)))
    (batchTableBinary : Buffer) (batchTableJson : JsObject) : Buffer * JsObject :=
  match batchTableProperties with
  | [] => (batchTableBinary, batchTableJson)
  | property :: rest =>
      let name := propertyName property in
      let '(byteOffset, batchTableBinary) :=
        if negb (dracoCovers dracoProperties name)
        then appendAligned batchTableBinary property
        else (0, batchTableBinary) in
      batchTableLoop rest dracoProperties batchTableBinary
        (obj_set batchTableJson name (batchTableEntry byteOffset property))
  end.

(* ================================================================== *)
(** * Selection of the attributes to compress                          *)
(* ================================================================== *)

(** [properties.find(element => element.propertyName === name)]; reading
    [propertyName] of an [undefined] element throws. *)
Fixpoint getPropertyByName (properties : list (option Property)) (name : string)
  : result (option Property) :=
  match properties with
  | [] => Ok None
  | None :: _ => Err TypeError
  | Some element :: rest =>
      if String.eqb (propertyName element) name then Ok (Some element)
      else getPropertyByName rest name
  end.

(** An array all of whose elements are defined. *)
Definition allDefined (properties : list Property) : list (option Property) :=
  map (@Some Property) properties.

(** The first lines of [dracoEncode]: the array handed to the compressor. *)
Definition selectDracoProperties (dracoSemantics : option (list string))
    (featureTableProperties batchTableProperties : list Property)
  : result (list (option Property)) :=
  let! dracoProperties :=
    match dracoSemantics with
    | None => Ok (allDefined featureTableProperties)
    | Some dracoSemantics =>
        fold_left
          (fun acc name =>
             let! dracoProperties := acc in
             let! found := getPropertyByName (allDefined featureTableProperties) name in
             Ok (dracoProperties ++ [found]))
          dracoSemantics (Ok [])
    end in
  Ok (dracoProperties ++ allDefined batchTableProperties).

(** Lines 357-362 of [dracoEncode]. *)
Definition choosePreserveOrder (dracoProperties : list (option Property))
    (featureTableProperties batchTableProperties : list Property) : result bool :=
  (* Check if normals are being encoded.
     Currently the octahedron transform for normals only works if preserveOrder is true. *)
  let! normal := getPropertyByName dracoProperties "NORMAL" in
  let encodeNormals := defined normal in
  let hasUncompressedAttributes :=
    (length dracoProperties <?
       length featureTableProperties + length batchTableProperties)%nat in
  Ok (encodeNormals || hasUncompressedAttributes).

Definition getAddAttributeFunctionName (componentDatatype : ComponentType) : option string :=
  match componentDatatype with
  | UNSIGNED_BYTE => Some "AddUInt8Attribute"
  | BYTE => Some "AddInt8Attribute"
  | UNSIGNED_SHORT => Some "AddUInt16Attribute"
  | SHORT => Some "AddInt16Attribute"
  | UNSIGNED_INT => Some "AddUInt32Attribute"
  | INT => Some "AddInt32Attribute"
  | FLOAT => Some "AddFloatAttribute"
  | DOUBLE => None
  end%string.

Definition numberOfComponentsForType (type : AttributeType) : Z :=
  match type with
  | SCALAR => 1
  | VEC2 => 2
  | VEC3 => 3
  | VEC4 => 4
  end.

Definition getDracoType (name : string) : DracoType :=
  if String.eqb name "POSITION" then DRACO_POSITION
  else if String.eqb name "NORMAL" then DRACO_NORMAL
  else if String.eqb name "RGB" || String.eqb name "RGBA" then DRACO_COLOR
  else DRACO_GENERIC.

(** The settings [dracoEncodeProperties] gives the encoder (lines 306-320). *)
Definition encoderSettings (preserveOrder : bool) : EncoderSettings :=
  let dracoCompressionSpeed := 7 in
  let dracoPositionBits := 14 in
  let dracoNormalBits := 8 in
  let dracoColorBits := 8 in
  let dracoGenericBits := 12 in
  {| speedOptions := Some dracoCompressionSpeed;
     attributeQuantization :=
       [(DRACO_POSITION, dracoPositionBits); (DRACO_NORMAL, dracoNormalBits);
        (DRACO_COLOR, dracoColorBits); (DRACO_GENERIC, dracoGenericBits)];
     encodingMethod :=
       if preserveOrder then Some POINT_CLOUD_SEQUENTIAL_ENCODING else None |}.

(** [ComponentDatatype.createArrayBufferView(type, buffer.buffer)]: Cesium
    gives the typed-array constructor the element count
    [byteLength / sizeInBytes], which the constructor truncates to an
    integer; the view is over the whole elements of the buffer, trailing
    bytes that do not make an element are left out, and nothing is thrown. *)
Definition createArrayBufferView (componentDatatype : ComponentType) (buffer : Buffer)
  : Buffer :=
  let sizeInBytes := getSizeInBytes componentDatatype in
  firstn (length buffer / sizeInBytes * sizeInBytes) buffer.

Record DracoFeatureTableJson : Type := {
  properties : list (string * Z);
  byteOffset : Z;
  byteLength : Z
}.

Record DracoBatchTableJson : Type := {
  batchProperties : list (string * Z)
}.

Record DracoResults : Type := {
  dracoBuffer : Buffer;
  dracoFeatureTableJson : option DracoFeatureTableJson;
  dracoBatchTableJson : option DracoBatchTableJson
}.

Definition DracoFeatureTableJson_toJson (d : DracoFeatureTableJson) : Json :=
  JObj [("properties", JObj (map (fun kv => (fst kv, JInt (snd kv))) (properties d)));
        ("byteOffset", JInt (byteOffset d));
        ("byteLength", JInt (byteLength d))].

Definition DracoBatchTableJson_toJson (d : DracoBatchTableJson) : Json :=
  JObj [("properties", JObj (map (fun kv => (fst kv, JInt (snd kv))) (batchProperties d)))].

(* ================================================================== *)
(** * The module, over its external collaborators                      *)
(* ================================================================== *)

Section Module_.
Context {E : Env}.

(** The mutable module-level state: the generator of [Cesium.Math] and the
    [simplex] object of line 26. *)
Record Globals : Type := {
  randomNumberGenerator : MersenneTwister;
  simplex : SimplexNoise
}.

(** Computations that read and update [Globals] and may throw; the state
    reached when an exception is thrown is kept. *)
Definition M (A : Type) : Type := Globals -> result A * Globals.

Definition ret {A} (a : A) : M A := fun g => (Ok a, g).

Definition bind {A B} (m : M A) (k : A -> M B) : M B :=
  fun g =>
    match m g with
    | (Ok a, g') => k a g'
    | (Err e, g') => (Err e, g')
    end.

Definition lift {A} (r : result A) : M A := fun g => (r, g).

Notation "'let*' x ':=' c1 'in' c2" := (bind c1 (fun x => c2))
  (at level 10, x pattern, c1 at level 100, c2 at level 200).

Fixpoint forM {St : Type} (body : nat -> St -> M St) (i n : nat) (s : St) : M St :=
  match n with
  | O => ret s
  | S n' => let* s' := body i s in forM body (S i) n' s'
  end.

(** [CesiumMath.setRandomNumberSeed(seed)]. *)
Definition CesiumMath_setRandomNumberSeed (seed : float) : M unit :=
  fun g => (Ok tt, {| randomNumberGenerator := MersenneTwister_new seed;
                      simplex := simplex g |}).

(** [CesiumMath.nextRandomNumber()]. *)
Definition CesiumMath_nextRandomNumber : M float :=
  fun g =>
    let (r, generator) := MersenneTwister_random (randomNumberGenerator g) in
    (Ok r, {| randomNumberGenerator := generator; simplex := simplex g |}).

(** [Color.fromRandom()], which draws from the same generator. *)
Definition Color_fromRandom_ : M Color :=
  fun g =>
    let (c, generator) := Color_fromRandom (randomNumberGenerator g) in
    (Ok c, {| randomNumberGenerator := generator; simplex := simplex g |}).

(** Lines 25-26, run once when the module is loaded. *)
Definition moduleInit : Globals :=
  let generator := MersenneTwister_new 0 in
  let (noise, generator) := SimplexNoise_new generator in
  {| randomNumberGenerator := generator; simplex := noise |}.

(** Return a position in the range of (-0.5, -0.5, -0.5) to (0.5, 0.5, 0.5)
    based on the index. *)
Definition getPosition (i pointsLength : nat) : Cartesian3 :=
  let i := Js.of_nat i in
  let width := Js.Math_round (Math_pow (Js.of_nat pointsLength) (1 / 3)%float) in
  let z := Js.Math_floor (i / (width * width))%float in
  let y := Js.Math_floor ((i - z * width * width) / width)%float in
  let x := (i - width * (y + width * z))%float in
  let x := (x / (width - 1) - 0.5)%float in
  let y := (y / (width - 1) - 0.5)%float in
  let z := (z / (width - 1) - 0.5)%float in
  {| x := x; y := y; z := z |}.

Definition boxFunction (i pointsLength : nat) (radius : float) : M Cartesian3 :=
  let position := getPosition i pointsLength in
  ret (Cartesian3Ops.multiplyByScalar position radius).

Definition sphereFunction (i pointsLength : nat) (radius : float) : M Cartesian3 :=
  let* r1 := CesiumMath_nextRandomNumber in
  let theta := (r1 * 2 * Js.Math_PI)%float in
  let* r2 := CesiumMath_nextRandomNumber in
  let phi := (r2 * Js.Math_PI - Js.Math_PI / 2)%float in
  let x := (radius * Math_cos theta * Math_cos phi)%float in
  let y := (radius * Math_sin phi)%float in
  let z := (radius * Math_sin theta * Math_cos phi)%float in
  ret {| x := x; y := y; z := z |}.

Definition randomFunction (position : Cartesian3) : M Color :=
  Color_fromRandom_.

Definition gradientFunction (position : Cartesian3) : M Color :=
  let r := (x position + 0.5)%float in
  let g := (y position + 0.5)%float in
  let b := (z position + 0.5)%float in
  ret {| red := r; green := g; blue := b; alpha := 1 |}.

Definition getNoise (position : Cartesian3) (time : option float) : M float :=
  let time := defaultValue time 0%float in
  fun g =>
    (Ok (Js.Math_abs
           (SimplexNoise_noise4D (simplex g) (x position) (y position) (z position) time)),
     g).

Definition getNoiseFunction (time : float) : Cartesian3 -> M Color :=
  fun position =>
    let* noise := getNoise position (Some time) in
    ret {| red := noise; green := noise; blue := noise; alpha := noise |}.

Definition getPositionsQuantized (positions : list Cartesian3) (radius : float)
  : result Property :=
  let min := (- radius)%float in
  let max := radius in
  let range := (Math_pow 2 16 - 1)%float in
  let scale := (max - min)%float in
  let pointsLength := length positions in
  let buffer := Buffer_alloc (pointsLength * 3 * sizeOfUint16) in
  let! buffer :=
    forR (fun i buffer =>
            let! position := at_index positions i in
            let x := ((x position - min) * range / scale)%float in
            let y := ((y position - min) * range / scale)%float in
            let z := ((z position - min) * range / scale)%float in
            let! buffer := writeUInt16LE buffer x ((i * 3) * sizeOfUint16) in
            let! buffer := writeUInt16LE buffer y ((i * 3 + 1) * sizeOfUint16) in
            writeUInt16LE buffer z ((i * 3 + 2) * sizeOfUint16))
         0 pointsLength buffer in
  Ok {| buffer := buffer; propertyName := "POSITION_QUANTIZED";
        componentType := UNSIGNED_SHORT; type := VEC3; batchLength := None |}.

Definition getNormalsOctEncoded (normals : list Cartesian3) : result Property :=
  let pointsLength := length normals in
  let buffer := Buffer_alloc (pointsLength * 2 * sizeOfUint8) in
  let! buffer :=
    forR (fun i buffer =>
            let! normal := at_index normals i in
            let! encodedNormal := AttributeCompression_octEncode normal in
            let! buffer := writeUInt8 buffer (x2 encodedNormal) (i * 2) in
            writeUInt8 buffer (y2 encodedNormal) (i * 2 + 1))
         0 pointsLength buffer in
  Ok {| buffer := buffer; propertyName := "NORMAL_OCT16P";
        componentType := UNSIGNED_BYTE; type := VEC2; batchLength := None |}.

(** The normal of a point before the tile transform is applied
    (lines 481-486 of [getPoints]). *)
Definition localNormal (position : Cartesian3) : result Cartesian3 :=
  if Cartesian3Ops.equals position Cartesian3Ops.ZERO
  then Ok {| x := 1; y := 0; z := 0 |}
  else Cartesian3Ops.normalize cesiumDebug position.

(** Lines 491-493: the normal in world space. *)
Definition worldNormal (inverseTranspose : Matrix4) (normal : Cartesian3)
  : result Cartesian3 :=
  let normal := Matrix4_multiplyByPointAsVector inverseTranspose normal in
  Cartesian3Ops.normalize cesiumDebug normal.

Record PointArrays : Type := {
  positionsArray : list Cartesian3;
  normalsArray : list Cartesian3;
  batchIdsArray : list Z;
  colorsArray : list Color;
  noiseValuesArray : list float
}.

Record Points : Type := {
  positions : Property;
  normals : Property;
  batchIds : Property;
  colors : option Property;
  noiseValues : list float (* Not an attribute - just send this back for generating metadata *)
}.

(** Calling a function variable that may have stayed [undefined]. *)
Definition call {A B} (f : option (A -> M B)) (a : A) : M B :=
  match f with
  | Some f => f a
  | None => lift (Err TypeError)
  end.

(** One iteration of the loop of [getPoints]. *)
Definition getPoints_body (pointsLength : nat) (radius : float)
    (colorFunction : option (Cartesian3 -> M Color))
    (shapeFunction : option (nat * nat * float -> M Cartesian3))
    (quantizePositions relativeToCenter : bool)
    (transform inverseTranspose : Matrix4) (center : Cartesian3) (time : float)
    (i : nat) (arrays : PointArrays) : M PointArrays :=
  let unitPosition := getPosition i pointsLength in
  let* position := call shapeFunction (i, pointsLength, radius) in
  let* normal := lift (localNormal position) in
  let batchId := getBatchId position in
  let* color := call colorFunction unitPosition in
  let* noise := getNoise unitPosition (Some time) in
  let position := Matrix4_multiplyByPoint transform position in
  let* normal := lift (worldNormal inverseTranspose normal) in
  let position :=
    if relativeToCenter || quantizePositions
    then Cartesian3Ops.subtract position center else position in
  ret {| positionsArray := positionsArray arrays ++ [position];
         normalsArray := normalsArray arrays ++ [normal];
         batchIdsArray := batchIdsArray arrays ++ [batchId];
         colorsArray := colorsArray arrays ++ [color];
         noiseValuesArray := noiseValuesArray arrays ++ [noise] |}.

Definition getPoints (pointsLength : nat) (radius : float)
    (colorModeFunction : option (list Color -> result Property))
    (colorFunction : option (Cartesian3 -> M Color))
    (shapeFunction : option (nat * nat * float -> M Cartesian3))
    (quantizePositions octEncodeNormals relativeToCenter : bool)
    (transform : Matrix4) (time : float) : M Points :=
  let inverseTranspose := Matrix4_transpose transform in
  let* inverseTranspose := lift (Matrix4_inverse inverseTranspose) in
  let center := Matrix4_getTranslation transform in
  let* arrays :=
    forM (getPoints_body pointsLength radius colorFunction shapeFunction
            quantizePositions relativeToCenter transform inverseTranspose center time)
         0 pointsLength
         {| positionsArray := []; normalsArray := []; batchIdsArray := [];
            colorsArray := []; noiseValuesArray := [] |} in
  let* positionAttribute :=
    lift (if quantizePositions
          then getPositionsQuantized (positionsArray arrays) radius
          else getPositions (positionsArray arrays)) in
  let* normalAttribute :=
    lift (if octEncodeNormals
          then getNormalsOctEncoded (normalsArray arrays)
          else getNormals (normalsArray arrays)) in
  let* batchIdAttribute := lift (getBatchIds (batchIdsArray arrays)) in
  let* colorAttribute :=
    lift (match colorModeFunction with
          | Some colorModeFunction =>
              let! c := colorModeFunction (colorsArray arrays) in Ok (Some c)
          | None => Ok None
          end) in
  ret {| positions := positionAttribute;
         normals := normalAttribute;
         batchIds := batchIdAttribute;
         colors := colorAttribute;
         noiseValues := noiseValuesArray arrays |}.

(** ['section' + i]. *)
Definition sectionName (i : nat) : string :=
  String.append "section" (NilZero.string_of_uint (Nat.to_uint i)).

Definition getBatchTableForBatchedPoints (batchLength : nat) : M (JsObject * Buffer) :=
  (* Create some sample per-batch properties. Each batch will have a name, dimension, and id. *)
  let dimensionsBuffer := Buffer_alloc (batchLength * 3 * sizeOfFloat32) in
  let idBuffer := Buffer_alloc (batchLength * sizeOfUint32) in
  let* (names, dimensionsBuffer', idBuffer) :=
    forM (fun i '(names, dimensionsBuffer, idBuffer) =>
            let names := names ++ [sectionName i] in
            let* r := CesiumMath_nextRandomNumber in
            let* dimensionsBuffer :=
              lift (writeFloatLE dimensionsBuffer r ((i * 3) * sizeOfFloat32)) in
            let* r := CesiumMath_nextRandomNumber in
            let* dimensionsBuffer :=
              lift (writeFloatLE dimensionsBuffer r ((i * 3 + 1) * sizeOfFloat32)) in
            let* r := CesiumMath_nextRandomNumber in
            let* dimensionsBuffer :=
              lift (writeFloatLE dimensionsBuffer r ((i * 3 + 2) * sizeOfFloat32)) in
            let* idBuffer :=
              lift (writeUIntLE_int 4 idBuffer (Z.of_nat i) (i * sizeOfUint32)) in
            ret (names, dimensionsBuffer, idBuffer))
         0 batchLength ([], dimensionsBuffer, idBuffer) in
  let batchTableJson : JsObject :=
    [("name", JArr (map JStr names));
     ("dimensions",
      JObj [("byteOffset", JInt 0); ("componentType", JStr "FLOAT"); ("type", JStr "VEC3")]);
     ("id",
      JObj [("byteOffset", JInt (Z.of_nat (length dimensionsBuffer)));
            ("componentType", JStr "UNSIGNED_INT"); ("type", JStr "SCALAR")])] in
  (* No need for padding with these sample properties *)
  let batchTableBinary := Buffer_concat [dimensionsBuffer'; idBuffer] in
  ret (batchTableJson, batchTableBinary).

Definition getPerPointBatchTableProperties (pointsLength : nat) (noiseValues : list float)
  : M (list Property) :=
  (* Create some sample per-point properties. Each point will have a temperature,
     secondary color, and id. *)
  let temperaturesBuffer := Buffer_alloc (pointsLength * sizeOfFloat32) in
  let secondaryColorBuffer := Buffer_alloc (pointsLength * 3 * sizeOfFloat32) in
  let idBuffer := Buffer_alloc (pointsLength * sizeOfUint16) in
  let* (temperaturesBuffer, secondaryColorBuffer, idBuffer) :=
    forM (fun i '(temperaturesBuffer, secondaryColorBuffer, idBuffer) =>
            let temperature := nth i noiseValues PrimFloat.nan in
            let* r := CesiumMath_nextRandomNumber in
            let secondaryColor := (r, 0%float, 0%float) in
            let* temperaturesBuffer :=
              lift (writeFloatLE temperaturesBuffer temperature (i * sizeOfFloat32)) in
            let* secondaryColorBuffer :=
              lift (writeFloatLE secondaryColorBuffer (fst (fst secondaryColor))
                      ((i * 3) * sizeOfFloat32)) in
            let* secondaryColorBuffer :=
              lift (writeFloatLE secondaryColorBuffer (snd (fst secondaryColor))
                      ((i * 3 + 1) * sizeOfFloat32)) in
            let* secondaryColorBuffer :=
              lift (writeFloatLE secondaryColorBuffer (snd secondaryColor)
                      ((i * 3 + 2) * sizeOfFloat32)) in
            let* idBuffer :=
              lift (writeUIntLE_int 2 idBuffer (Z.of_nat i) (i * sizeOfUint16)) in
            ret (temperaturesBuffer, secondaryColorBuffer, idBuffer))
         0 pointsLength (temperaturesBuffer, secondaryColorBuffer, idBuffer) in
  ret [ {| buffer := temperaturesBuffer; propertyName := "temperature";
           componentType := FLOAT; type := SCALAR; batchLength := None |};
        {| buffer := secondaryColorBuffer; propertyName := "secondaryColor";
           componentType := FLOAT; type := VEC3; batchLength := None |};
        {| buffer := idBuffer; propertyName := "id";
           componentType := UNSIGNED_SHORT; type := SCALAR; batchLength := None |} ].

(** The first loop of [dracoEncodeProperties]: every property is added to
    the point cloud and its attribute id recorded under its name. *)
Fixpoint addAttributes (pointsLength : nat) (properties : list (option Property))
    (pointCloud : PointCloud) (attributeIds : list (string * Z))
  : result (PointCloud * list (string * Z)) :=
  match properties with
  | [] => Ok (pointCloud, attributeIds)
  | None :: _ => Err TypeError
  | Some property :: rest =>
      let componentDatatype := componentType property in
      let typedArray := createArrayBufferView componentDatatype (buffer property) in
      let numberOfComponents := numberOfComponentsForType (type property) in
      match getAddAttributeFunctionName componentDatatype with
      | None => Err TypeError
      | Some addAttributeFunctionName =>
          let name := propertyName property in
          let dracoType := getDracoType name in
          let (id, pointCloud) :=
            PointCloudBuilder_add pointCloud
              {| addFunctionName := addAttributeFunctionName;
                 addDracoType := dracoType;
                 addPointsLength := pointsLength;
                 addNumberOfComponents := numberOfComponents;
                 addTypedArray := typedArray |} in
          addAttributes pointsLength rest pointCloud (obj_set attributeIds name id)
      end
  end.

Definition dracoEncodeProperties (pointsLength : nat) (properties : list (option Property))
    (preserveOrder : bool) : result (Buffer * list (string * Z)) :=
  let! (pointCloud, attributeIds) :=
    addAttributes pointsLength properties PointCloud_new [] in
  let (encodedLength, encodedDracoDataArray) :=
    Encoder_EncodePointCloudToDracoBuffer (encoderSettings preserveOrder) pointCloud in
  if encodedLength <=? 0 then Err EncodingFailed
  else
    let encodedData :=
      map (fun i => byte_of_Z (encodedDracoDataArray (Z.of_nat i)))
          (seq 0 (Z.to_nat encodedLength)) in
    Ok (encodedData, attributeIds).

(** [for (var name in dracoAttributeIds)], lines 377-386: each compressed
    attribute id goes to the table(s) that have a property of that name. *)
Fixpoint routeAttributeIds (featureTableProperties batchTableProperties : list Property)
    (dracoAttributeIds : list (string * Z))
    (acc : list (string * Z) * list (string * Z))
  : result (list (string * Z) * list (string * Z)) :=
  match dracoAttributeIds with
  | [] => Ok acc
  | (name, id) :: rest =>
      let (featureProperties, batchProperties) := acc in
      let! inFeatureTable := getPropertyByName (allDefined featureTableProperties) name in
      let featureProperties :=
        if defined inFeatureTable then obj_set featureProperties name id
        else featureProperties in
      let! inBatchTable := getPropertyByName (allDefined batchTableProperties) name in
      let batchProperties :=
        if defined inBatchTable then obj_set batchProperties name id
        else batchProperties in
      routeAttributeIds featureTableProperties batchTableProperties rest
        (featureProperties, batchProperties)
  end.

Definition dracoEncode (pointsLength : nat) (dracoSemantics : option (list string))
    (featureTableProperties batchTableProperties : list Property) : result DracoResults :=
  let! dracoProperties :=
    selectDracoProperties dracoSemantics featureTableProperties batchTableProperties in
  let! preserveOrder :=
    choosePreserveOrder dracoProperties featureTableProperties batchTableProperties in
  let! (dracoBuffer, dracoAttributeIds) :=
    dracoEncodeProperties pointsLength dracoProperties preserveOrder in
  let! (featureProperties, batchProperties) :=
    routeAttributeIds featureTableProperties batchTableProperties
      dracoAttributeIds ([], []) in
  let dracoFeatureTableJson :=
    {| properties := featureProperties;
       byteOffset := 0;
       byteLength := Z.of_nat (length dracoBuffer) |} in
  let dracoBatchTableJson := {| batchProperties := batchProperties |} in
  (* Object.keys(...).length === 0, on objects built with three keys and one key *)
  let dracoFeatureTableJson :=
    if (length ["properties"; "byteOffset"; "byteLength"] =? 0)%nat
    then None else Some dracoFeatureTableJson in
  let dracoBatchTableJson :=
    if (length ["properties"] =? 0)%nat then None else Some dracoBatchTableJson in
  Ok {| dracoBuffer := dracoBuffer;
        dracoFeatureTableJson := dracoFeatureTableJson;
        dracoBatchTableJson := dracoBatchTableJson |}.

Record Options : Type := {
  tileWidth : option float;
  transform : option Matrix4;
  pointsLength : option nat;
  colorMode : option string;
  color : option string;
  shape : option string;
  generateNormals : option bool;
  draco : option bool;
  dracoSemantics : option (list string);
  octEncodeNormals : option bool;
  quantizePositions : option bool;
  batched : option bool;
  perPointProperties : option bool;
  relativeToCenter : option bool;
  time : option float
}.

(** [defaultValue.EMPTY_OBJECT]. *)
Definition EMPTY_OBJECT : Options :=
  {| tileWidth := None; transform := None; pointsLength := None; colorMode := None;
     color := None; shape := None; generateNormals := None; draco := None;
     dracoSemantics := None; octEncodeNormals := None; quantizePositions := None;
     batched := None; perPointProperties := None; relativeToCenter := None;
     time := None |}.

(** What [createPointCloudTile] has built when it calls [createPnts]:
    the four sections, [extensionsUsed], and the two arrays of attributes
    the sections were assembled from. *)
Record Tile : Type := {
  sections : PntsSections;
  extensionsUsed : option (list string);
  featureTableProperties : list Property;
  batchTableProperties : list Property
}.

(** The body of [createPointCloudTile] up to the call of [createPnts]. *)
Definition createPointCloudTile_sections (options : option Options) : M Tile :=
  (* Set the random number seed before creating each point cloud so that the
     generated points are the same between runs *)
  let* _ := CesiumMath_setRandomNumberSeed 0 in

  let options := defaultValue options EMPTY_OBJECT in
  let tileWidth := defaultValue options.(tileWidth) 10%float in
  let transform := defaultValue options.(transform) Matrix4_IDENTITY in
  let pointsLength := defaultValue options.(pointsLength) 1000%nat in
  let colorMode := defaultValue options.(colorMode) "rgb" in
  let color := defaultValue options.(color) "random" in
  let shape := defaultValue options.(shape) "box" in
  let generateNormals := defaultValue options.(generateNormals) false in
  let draco := defaultValue options.(draco) false in
  let dracoSemantics := options.(dracoSemantics) in
  let octEncodeNormals := defaultValue options.(octEncodeNormals) false && negb draco in
  let quantizePositions := defaultValue options.(quantizePositions) false && negb draco in
  let batched := defaultValue options.(batched) false in
  let perPointProperties := defaultValue options.(perPointProperties) false in
  let relativeToCenter := defaultValue options.(relativeToCenter) true in
  let time := defaultValue options.(time) 0%float in

  let colorMode :=
    if String.eqb colorMode "rgb565" && draco then "rgb" else colorMode in

  let radius := (tileWidth / 2)%float in
  let center := Matrix4_getTranslation transform in

  let shapeFunction : option (nat * nat * float -> M Cartesian3) :=
    if String.eqb shape "sphere" then
      Some (fun '(i, pointsLength, radius) => sphereFunction i pointsLength radius)
    else if String.eqb shape "box" then
      Some (fun '(i, pointsLength, radius) => boxFunction i pointsLength radius)
    else None in

  let colorFunction :=
    if String.eqb color "random" then Some randomFunction
    else if String.eqb color "gradient" then Some gradientFunction
    else if String.eqb color "noise" then Some (getNoiseFunction time)
    else None in

  let colorModeFunction :=
    if String.eqb colorMode "rgb" then Some getColorsRGB
    else if String.eqb colorMode "rgba" then Some getColorsRGBA
    else if String.eqb colorMode "rgb565" then Some getColorsRGB565
    else None in
  let constantColor :=
    if String.eqb colorMode "rgb" then None
    else if String.eqb colorMode "rgba" then None
    else if String.eqb colorMode "rgb565" then None
    else if String.eqb colorMode "constant" then Some [255; 255; 0; 51]
    else None in

  let* points :=
    getPoints pointsLength radius colorModeFunction colorFunction shapeFunction
      quantizePositions octEncodeNormals relativeToCenter transform time in
  let positions := points.(positions) in
  let normals := points.(normals) in
  let batchIds := points.(batchIds) in
  let colors := points.(colors) in
  let noiseValues := points.(noiseValues) in

  let featureTableProperties := [positions] in
  let featureTableProperties :=
    match colors with
    | Some colors => featureTableProperties ++ [colors]
    | None => featureTableProperties
    end in
  let featureTableProperties :=
    if generateNormals then featureTableProperties ++ [normals]
    else featureTableProperties in
  let featureTableProperties :=
    if batched then featureTableProperties ++ [batchIds]
    else featureTableProperties in

  let* batchTableProperties :=
    if perPointProperties
    then getPerPointBatchTableProperties pointsLength noiseValues
    else ret [] in

  let featureTableJson : JsObject := [] in
  let featureTableBinary := Buffer_alloc 0 in

  let batchTableJson : JsObject := [] in
  let batchTableBinary := Buffer_alloc 0 in

  let* (featureTableJson, featureTableBinary, batchTableJson, extensionsUsed,
         dracoFeatureTableJson, dracoBatchTableJson) :=
    if draco then
      let* dracoResults :=
        lift (dracoEncode pointsLength dracoSemantics
                featureTableProperties batchTableProperties) in
      let dracoBuffer := dracoResults.(dracoBuffer) in
      let dracoFeatureTableJson := dracoResults.(dracoFeatureTableJson) in
      let dracoBatchTableJson := dracoResults.(dracoBatchTableJson) in
      let featureTableBinary := Buffer_concat [featureTableBinary; dracoBuffer] in
      let featureTableJson :=
        match dracoFeatureTableJson with
        | Some d =>
            obj_set featureTableJson "extensions"
              (JObj [("3DTILES_draco_point_compression", DracoFeatureTableJson_toJson d)])
        | None => featureTableJson
        end in
      let batchTableJson :=
        match dracoBatchTableJson with
        | Some d =>
            obj_set batchTableJson "extensions"
              (JObj [("3DTILES_draco_point_compression", DracoBatchTableJson_toJson d)])
        | None => batchTableJson
        end in
      ret (featureTableJson, featureTableBinary, batchTableJson,
           Some ["3DTILES_draco_point_compression"],
           dracoFeatureTableJson, dracoBatchTableJson)
    else
      ret (featureTableJson, featureTableBinary, batchTableJson, None, None, None) in

  let '(featureTableBinary, featureTableJson) :=
    featureTableLoop featureTableProperties
      (option_map properties dracoFeatureTableJson)
      featureTableBinary featureTableJson in

  let '(batchTableBinary, batchTableJson) :=
    batchTableLoop batchTableProperties
      (option_map batchProperties dracoBatchTableJson)
      batchTableBinary batchTableJson in

  let featureTableJson :=
    obj_set featureTableJson "POINTS_LENGTH" (JInt (Z.of_nat pointsLength)) in

  let featureTableJson :=
    match constantColor with
    | Some constantColor =>
        obj_set featureTableJson "CONSTANT_RGBA" (JArr (map JInt constantColor))
    | None => featureTableJson
    end in

  let featureTableJson :=
    if quantizePositions then
      (* Quantized offset is the lower left, unlike RTC_CENTER which is the center *)
      let featureTableJson :=
        obj_set featureTableJson "QUANTIZED_VOLUME_SCALE"
          (JArr [JNum tileWidth; JNum tileWidth; JNum tileWidth]) in
      obj_set featureTableJson "QUANTIZED_VOLUME_OFFSET"
        (JArr [JNum (x center - radius); JNum (y center - radius);
               JNum (z center - radius)])
    else if relativeToCenter then
      obj_set featureTableJson "RTC_CENTER"
        (JArr [JNum (x center); JNum (y center); JNum (z center)])
    else featureTableJson in

  let* (featureTableJson, batchTableJson, batchTableBinary) :=
    if batched then
      match batchIds.(batchLength) with
      | Some batchLength =>
          let* batchTable := getBatchTableForBatchedPoints (Z.to_nat batchLength) in
          ret (obj_set featureTableJson "BATCH_LENGTH" (JInt batchLength),
               fst batchTable, snd batchTable)
      | None => lift (Err TypeError)
      end
    else ret (featureTableJson, batchTableJson, batchTableBinary) in

  ret {| sections :=
           {| featureTableJson := featureTableJson;
              featureTableBinary := featureTableBinary;
              batchTableJson := batchTableJson;
              batchTableBinary := batchTableBinary |};
         extensionsUsed := extensionsUsed;
         featureTableProperties := featureTableProperties;
         batchTableProperties := batchTableProperties |}.

(** The object [createPointCloudTile] returns. *)
Record TileResult : Type := {
  pnts : Buffer;
  resultBatchTableJson : JsObject;
  resultExtensionsUsed : option (list string)
}.

Definition createPointCloudTile (options : option Options) : M TileResult :=
  let* tile := createPointCloudTile_sections options in
  let pnts := createPnts tile.(sections) in
  ret {| pnts := pnts;
         resultBatchTableJson := tile.(sections).(batchTableJson);
         resultExtensionsUsed := tile.(extensionsUsed) |}.

End Module_.

Arguments Globals : clear implicits.
Arguments M : clear implicits.
Arguments Options : clear implicits.

(* ================================================================== *)
(** * A stand-in for the external libraries, to run the model          *)
(* ================================================================== *)

Module Sample.

(** A linear congruential generator in place of the Mersenne twister. *)
Definition lcg (s : Z) : Z := (s * 1103515245 + 12345) mod 2 ^ 31.

Definition random (s : Z) : float * Z :=
  let s' := lcg s in ((Js.of_Z s' / Js.of_Z (2 ^ 31))%float, s').

(** Cube roots by Newton's iteration; [Math.pow(2, 16)] exactly. *)
Fixpoint cbrt_iter (n : nat) (a r : float) : float :=
  match n with
  | O => r
  | S n' => cbrt_iter n' a ((2 * r + a / (r * r)) / 3)%float
  end.

Definition pow (a b : float) : float :=
  if PrimFloat.eqb b 16 then
    (if PrimFloat.eqb a 2 then 65536 else PrimFloat.nan)%float
  else if PrimFloat.eqb a 0 then 0%float
  else cbrt_iter 80 a a.

(** Truncated Taylor series. *)
Fixpoint taylor (n : nat) (k : float) (term x2 acc : float) : float :=
  match n with
  | O => acc
  | S n' =>
      let term' := (- term * x2 / ((k + 1) * (k + 2)))%float in
      taylor n' (k + 2)%float term' x2 (acc + term')%float
  end.

Definition cos (a : float) : float := taylor 30 0 1 (a * a) 1.
Definition sin (a : float) : float := taylor 30 1 a (a * a) a.

(** Tile transforms restricted to translations, for which the
    inverse-transpose leaves vectors unchanged. *)
Definition translate (t p : Cartesian3) : Cartesian3 :=
  {| x := x p + x t; y := y p + y t; z := z p + z t |}%float.

Definition fromRandom (s : Z) : Color * Z :=
  let (r, s) := random s in
  let (g, s) := random s in
  let (b, s) := random s in
  let (a, s) := random s in
  ({| red := r; green := g; blue := b; alpha := a |}, s).

Definition signNotZero (v : float) : float := if PrimFloat.ltb v 0 then (-1)%float else 1%float.

Definition toSNorm (v : float) : float :=
  let c := if PrimFloat.ltb v (-1) then (-1)%float
           else if PrimFloat.ltb 1 v then 1%float else v in
  Js.Math_round ((c * 0.5 + 0.5) * 255)%float.

Definition octEncode (v : Cartesian3) : result Cartesian2 :=
  let d := (PrimFloat.abs (x v) + PrimFloat.abs (y v) + PrimFloat.abs (z v))%float in
  let rx := (x v / d)%float in
  let ry := (y v / d)%float in
  let (rx, ry) :=
    if PrimFloat.ltb (z v) 0
    then ((1 - PrimFloat.abs ry) * signNotZero rx, (1 - PrimFloat.abs rx) * signNotZero ry)%float
    else (rx, ry) in
  Ok {| x2 := toSNorm rx; y2 := toSNorm ry |}.

(** An encoder that assigns attribute ids in the order of the calls and
    reports a blob of five bytes more than the attribute data. *)
Definition encode (settings : EncoderSettings) (cloud : list AddAttributeCall)
  : Z * (Z -> Z) :=
  (5 + Z.of_nat (length (concat (map addTypedArray cloud))),
   fun i => i mod 128).

#[export] Instance env : Env := {|
  MersenneTwister := Z;
  MersenneTwister_new := Js.truncZ;
  MersenneTwister_random := random;
  SimplexNoise := Z;
  SimplexNoise_new := fun s => (lcg s, lcg s);
  SimplexNoise_noise4D := fun n a b c d => (a * b * c - d)%float;
  Math_pow := pow;
  Math_cos := cos;
  Math_sin := sin;
  cesiumDebug := true;
  Matrix4 := Cartesian3;
  Matrix4_IDENTITY := Cartesian3Ops.ZERO;
  Matrix4_getTranslation := fun t => t;
  Matrix4_transpose := fun t => t;
  Matrix4_inverse := fun t => Ok t;
  Matrix4_multiplyByPoint := translate;
  Matrix4_multiplyByPointAsVector := fun _ v => v;
  Color_fromRandom := fromRandom;
  AttributeCompression_octEncode := octEncode;
  PointCloud := list AddAttributeCall;
  PointCloud_new := [];
  PointCloudBuilder_add := fun cloud c => (Z.of_nat (length cloud), cloud ++ [c]);
  Encoder_EncodePointCloudToDracoBuffer := encode;
  createPnts := fun s => featureTableBinary s ++ batchTableBinary s
|}.

(** The same collaborators with a compressor that reports failure. *)
Definition failingEnv : Env := {|
  MersenneTwister := Z;
  MersenneTwister_new := Js.truncZ;
  MersenneTwister_random := random;
  SimplexNoise := Z;
  SimplexNoise_new := fun s => (lcg s, lcg s);
  SimplexNoise_noise4D := fun n a b c d => (a * b * c - d)%float;
  Math_pow := pow;
  Math_cos := cos;
  Math_sin := sin;
  cesiumDebug := true;
  Matrix4 := Cartesian3;
  Matrix4_IDENTITY := Cartesian3Ops.ZERO;
  Matrix4_getTranslation := fun t => t;
  Matrix4_transpose := fun t => t;
  Matrix4_inverse := fun t => Ok t;
  Matrix4_multiplyByPoint := translate;
  Matrix4_multiplyByPointAsVector := fun _ v => v;
  Color_fromRandom := fromRandom;
  AttributeCompression_octEncode := octEncode;
  PointCloud := list AddAttributeCall;
  PointCloud_new := [];
  PointCloudBuilder_add := fun cloud c => (Z.of_nat (length cloud), cloud ++ [c]);
  Encoder_EncodePointCloudToDracoBuffer := fun _ _ => (0, fun _ => 0);
  createPnts := fun s => featureTableBinary s ++ batchTableBinary s
|}.

(** Options with every field left [undefined]. *)
Definition noOptions : Options env := EMPTY_OBJECT.

(** The feature-table and batch-table sections of a call made right after
    the module was loaded. *)
Definition run (options : Options env) : result Tile :=
  fst (createPointCloudTile_sections (Some options) moduleInit).

End Sample.


(* ================================================================== *)
(** * Building tiles: [samples-generator/lib/createBuildingsTile.js]    *)
(* ================================================================== *)

Module Buildings.

Definition sizeOfUint8 : nat := 1.
Definition sizeOfDouble : nat := 8.

(** ** JavaScript arrays, strings and promises *)

(** [new Array(n)]: [n] holes. *)
Definition Array_new {A} (hole : A) (n : nat) : list A := repeat hole n.

(** [arr[i] = v]: an index past the end extends the array with holes. *)
Fixpoint Array_set {A} (hole : A) (arr : list A) (i : nat) (v : A) : list A :=
  match i, arr with
  | O, [] => [v]
  | O, _ :: rest => v :: rest
  | S i', [] => hole :: Array_set hole [] i' v
  | S i', a :: rest => a :: Array_set hole rest i' v
  end.

(** The decimal digits of an index, as ['building' + i] appends them. *)
Definition String_of_index (i : nat) : string := NilZero.string_of_uint (Nat.to_uint i).

(** A settled promise: fulfilled with a value or rejected with an error. *)
Definition Promise (A : Type) : Type := result A.

(** [promise.then(callback)]: a callback that throws rejects the promise. *)
Definition Promise_then {A B} (promise : Promise A) (callback : A -> result B)
  : Promise B :=
  rbind promise callback.

(** A value used as a condition: [undefined] is falsy. *)
Definition truthy (b : option bool) : bool := defaultValue b false.

(** [a || b]. *)
Definition or_ (a b : option bool) : option bool := if truthy a then a else b.

(** ** [Buffer.writeDoubleLE] *)

(** The binary64 bit pattern of a number. *)
Definition float64_bits (f : float) : Z :=
  let pack (s : bool) (bexp frac : Z) :=
    (if s then 2 ^ 63 else 0) + bexp * 2 ^ 52 + frac in
  match Prim2SF f with
  | S754_zero s => pack s 0 0
  | S754_infinity s => pack s 2047 0
  | S754_nan => pack false 2047 (2 ^ 51)
  | S754_finite s m e =>
      if Zpos m <? 2 ^ 52 then pack s 0 (Zpos m)
      else pack s (e + 1075) (Zpos m - 2 ^ 52)
  end.

(** The eight bytes of a 64-bit pattern, least significant first. *)
Definition bytes64LE (v : Z) : list byte :=
  map (fun k => byte_of_Z (Z.shiftr v (8 * Z.of_nat k))) (seq 0 8).

Definition writeDoubleLE (buf : Buffer) (value : float) (offset : nat) : result Buffer :=
  Buffer_store buf offset (bytes64LE (float64_bits value)).

(** ** Cesium's [combine] *)

(** [combine(object1, object2)], shallow: the properties of [object1],
    then those of [object2] that [object1] does not have. *)
Definition combine (object1 object2 : JsObject) : JsObject :=
  let result := fold_left (fun result '(k, v) => obj_set result k v) object1 [] in
  fold_left (fun result '(k, v) =>
               if defined (obj_get result k) then result else obj_set result k v)
            object2 result.

(** ** The objects the module passes around *)

(** What [createBuildings] returns for one building. *)
Record Building (Matrix4 Material : Type) : Type := {
  longitude : float;
  latitude : float;
  height : float;
  matrix : Matrix4;
  material : Material
}.
Arguments longitude {Matrix4 Material} b.
Arguments latitude {Matrix4 Material} b.
Arguments height {Matrix4 Material} b.
Arguments matrix {Matrix4 Material} b.
Arguments material {Matrix4 Material} b.

(** The argument of [createGltf]. *)
Record GltfOptions (Mesh TextureCompressionOptions : Type) : Type := {
  mesh : Mesh;
  gltfUseBatchIds : bool;
  gltfOptimizeForCesium : option bool;
  gltfRelativeToCenter : option bool;
  gltfKhrMaterialsCommon : option bool;
  gltfQuantization : option bool;
  deprecated : option bool;
  gltfTextureCompressionOptions : option TextureCompressionOptions;
  upAxis : option string
}.

(** The argument of [createB3dm]. *)
Record B3dmOptions (Glb : Type) : Type := {
  glb : Glb;
  featureTableJson : JsObject;
  batchTableJson : option JsObject;
  batchTableBinary : option Buffer;
  b3dmDeprecated1 : option bool;
  b3dmDeprecated2 : option bool
}.

(** ** External collaborators *)

(** Cesium's matrices and the modules of the repository that make the
    buildings, the meshes, the glTF and the b3dm container. *)
Class Lib : Type := {
  BuildingOptions : Type;
  Matrix4 : Type;
  Material : Type;
  Mesh : Type;
  TextureCompressionOptions : Type;
  Glb : Type;
  Matrix4_IDENTITY : Matrix4;
  Matrix4_multiply : Matrix4 -> Matrix4 -> Matrix4;
  (* ./createBuildings *)
  createBuildings : option BuildingOptions -> result (list (Building Matrix4 Material));
  (* ./Mesh *)
  Mesh_createCube : Mesh;
  Mesh_transform : Mesh -> Matrix4 -> result Mesh;
  Mesh_setMaterial : Mesh -> Material -> Mesh;
  Mesh_transferMaterialToVertexColors : Mesh -> result Mesh;
  Mesh_batch : list (option Mesh) -> result Mesh;
  (* ./createGltf returns a promise, ./createB3dm a buffer *)
  createGltf : GltfOptions Mesh TextureCompressionOptions -> result (Promise Glb);
  createB3dm : B3dmOptions Glb -> result Buffer
}.

(** ** The batch tables *)

Section BatchTables.
Context {Matrix4 Material : Type}.

Definition generateBatchTable (buildings : list (Building Matrix4 Material))
  : result JsObject :=
  let buildingsLength := length buildings in
  let! (id, Longitude, Latitude, Height) :=
    forR (fun i '(id, Longitude, Latitude, Height) =>
            let! building := at_index buildings i in
            let id := Array_set JUndefined id i (JInt (Z.of_nat i)) in
            let Longitude := Array_set JUndefined Longitude i (JNum building.(longitude)) in
            let Latitude := Array_set JUndefined Latitude i (JNum building.(latitude)) in
            let Height := Array_set JUndefined Height i (JNum building.(height)) in
            Ok (id, Longitude, Latitude, Height))
         0 buildingsLength
         (Array_new JUndefined buildingsLength, Array_new JUndefined buildingsLength,
          Array_new JUndefined buildingsLength, Array_new JUndefined buildingsLength) in
  Ok [("id", JArr id); ("Longitude", JArr Longitude);
      ("Latitude", JArr Latitude); ("Height", JArr Height)].

Definition generateBatchTableExtra (buildings : list (Building Matrix4 Material))
  : result JsObject :=
  let buildingsLength := length buildings in
  let! (info, rooms) :=
    forR (fun i '(info, rooms) =>
            let info :=
              Array_set JUndefined info i
                (JObj [("name", JStr (String.append "building" (String_of_index i)));
                       ("year", JInt (Z.of_nat i))]) in
            let rooms :=
              Array_set JUndefined rooms i
                (JArr [JStr (String.append (String.append "room" (String_of_index i)) "_a");
                       JStr (String.append (String.append "room" (String_of_index i)) "_b");
                       JStr (String.append (String.append "room" (String_of_index i)) "_c")]) in
            Ok (info, rooms))
         0 buildingsLength
         (Array_new JUndefined buildingsLength, Array_new JUndefined buildingsLength) in
  Ok [("info", JArr info); ("rooms", JArr rooms)].

Definition generateBatchTableBinary (buildings : list (Building Matrix4 Material))
  : result (JsObject * Buffer) :=
  let buildingsLength := length buildings in
  let cartographicBuffer := Buffer_alloc (buildingsLength * 3 * sizeOfDouble) in
  let codeBuffer := Buffer_alloc (buildingsLength * sizeOfUint8) in
  let batchTableJson : JsObject :=
    [("cartographic",
      JObj [("byteOffset", JInt 0); ("componentType", JStr "DOUBLE"); ("type", JStr "VEC3")]);
     ("code",
      JObj [("byteOffset", JInt (Z.of_nat (length cartographicBuffer)));
            ("componentType", JStr "UNSIGNED_BYTE"); ("type", JStr "SCALAR")])] in
  let! (cartographicBuffer, codeBuffer) :=
    forR (fun i '(cartographicBuffer, codeBuffer) =>
            let! building := at_index buildings i in
            let code := Js.Math_max (Z.of_nat i) 255 in
            let! cartographicBuffer :=
              writeDoubleLE cartographicBuffer building.(longitude)
                ((i * 3) * sizeOfDouble) in
            let! cartographicBuffer :=
              writeDoubleLE cartographicBuffer building.(latitude)
                ((i * 3 + 1) * sizeOfDouble) in
            let! cartographicBuffer :=
              writeDoubleLE cartographicBuffer building.(height)
                ((i * 3 + 2) * sizeOfDouble) in
            let! codeBuffer := writeUIntLE_int 1 codeBuffer code i in
            Ok (cartographicBuffer, codeBuffer))
         0 buildingsLength (cartographicBuffer, codeBuffer) in
  (* No need for padding with these sample properties *)
  let batchTableBinary := Buffer_concat [cartographicBuffer; codeBuffer] in
  Ok (batchTableJson, batchTableBinary).

End BatchTables.

(** ** [createBuildingsTile] *)

Section Module_.
Context {L : Lib}.

Record Options : Type := {
  buildingOptions : option BuildingOptions;
  useBatchIds : option bool;
  createBatchTable : option bool;
  createBatchTableExtra : option bool;
  createBatchTableBinary : option bool;
  transform : option Matrix4;
  optimizeForCesium : option bool;
  relativeToCenter : option bool;
  khrMaterialsCommon : option bool;
  quantization : option bool;
  useVertexColors : option bool;
  deprecated1 : option bool;
  deprecated2 : option bool;
  textureCompressionOptions : option TextureCompressionOptions;
  gltfUpAxis : option string
}.

(** What [createBuildingsTile] has computed when it calls [createGltf]. *)
Record Tables : Type := {
  tablesGltfOptions : GltfOptions Mesh TextureCompressionOptions;
  tablesFeatureTableJson : JsObject;
  tablesBatchTableJson : option JsObject;
  tablesBatchTableBinary : option Buffer
}.

(** The value the promise resolves with. *)
Record TileResult : Type := {
  b3dm : Buffer;
  resultBatchTableJson : option JsObject
}.

Definition createBuildingsTile_tables (options : Options) : result Tables :=
  let! buildings := createBuildings options.(buildingOptions) in
  let useBatchIds := defaultValue options.(useBatchIds) true in
  let createBatchTable := defaultValue options.(createBatchTable) true && useBatchIds in
  let createBatchTableExtra :=
    defaultValue options.(createBatchTableExtra) false && useBatchIds in
  let createBatchTableBinary :=
    defaultValue options.(createBatchTableBinary) false && useBatchIds in
  let tileTransform := defaultValue options.(transform) Matrix4_IDENTITY in
  let optimizeForCesium := options.(optimizeForCesium) in
  let relativeToCenter := options.(relativeToCenter) in
  let khrMaterialsCommon := options.(khrMaterialsCommon) in
  let quantization := options.(quantization) in
  let useVertexColors := options.(useVertexColors) in
  let deprecated1 := options.(deprecated1) in
  let deprecated2 := options.(deprecated2) in
  let textureCompressionOptions := options.(textureCompressionOptions) in
  let gltfUpAxis := options.(gltfUpAxis) in
  let buildingsLength := length buildings in
  let batchLength := if useBatchIds then buildingsLength else 0%nat in

  let meshes := Array_new None buildingsLength in
  let! meshes :=
    forR (fun i meshes =>
            let! building := at_index buildings i in
            let transform := Matrix4_multiply tileTransform building.(matrix) in
            let mesh := Mesh_createCube in
            let! mesh := Mesh_transform mesh transform in
            let mesh := Mesh_setMaterial mesh building.(material) in
            let! mesh :=
              if truthy useVertexColors
              then Mesh_transferMaterialToVertexColors mesh
              else Ok mesh in
            Ok (Array_set None meshes i (Some mesh)))
         0 buildingsLength meshes in

  let! batchedMesh := Mesh_batch meshes in

  let! (batchTableJson, batchTableBinary) :=
    if createBatchTable then
      let! batchTableJson := generateBatchTable buildings in
      let! batchTableJson :=
        if createBatchTableExtra then
          let! batchTableExtra := generateBatchTableExtra buildings in
          Ok (combine batchTableJson batchTableExtra)
        else Ok batchTableJson in
      let! (batchTableJson, batchTableBinary) :=
        if createBatchTableBinary then
          let! batchTableJsonAndBinary := generateBatchTableBinary buildings in
          Ok (combine batchTableJson (fst batchTableJsonAndBinary),
              Some (snd batchTableJsonAndBinary))
        else Ok (batchTableJson, None) in
      Ok (Some batchTableJson, batchTableBinary)
    else Ok (None, None) in

  let featureTableJson : JsObject := [("BATCH_LENGTH", JInt (Z.of_nat batchLength))] in

  Ok {| tablesGltfOptions :=
          {| mesh := batchedMesh;
             gltfUseBatchIds := useBatchIds;
             gltfOptimizeForCesium := optimizeForCesium;
             gltfRelativeToCenter := relativeToCenter;
             gltfKhrMaterialsCommon := khrMaterialsCommon;
             gltfQuantization := quantization;
             deprecated := or_ deprecated1 deprecated2;
             gltfTextureCompressionOptions := textureCompressionOptions;
             upAxis := gltfUpAxis |};
        tablesFeatureTableJson := featureTableJson;
        tablesBatchTableJson := batchTableJson;
        tablesBatchTableBinary := batchTableBinary |}.

(** The outer result is what the call itself does (returns a promise or
    throws), the promise what the caller gets later. *)
Definition createBuildingsTile (options : Options) : result (Promise TileResult) :=
  let! tables := createBuildingsTile_tables options in
  let! promise := createGltf tables.(tablesGltfOptions) in
  Ok (Promise_then promise (fun glb =>
        let! b3dm :=
          createB3dm {| glb := glb;
                        featureTableJson := tables.(tablesFeatureTableJson);
                        batchTableJson := tables.(tablesBatchTableJson);
                        batchTableBinary := tables.(tablesBatchTableBinary);
                        b3dmDeprecated1 := options.(deprecated1);
                        b3dmDeprecated2 := options.(deprecated2) |} in
        Ok {| b3dm := b3dm;
              resultBatchTableJson := tables.(tablesBatchTableJson) |})).

End Module_.

Arguments Options : clear implicits.
Arguments Tables : clear implicits.
Arguments TileResult : clear implicits.

(** ** A stand-in for the collaborators, to run the model *)

Module Sample.

(** Buildings are given as they are; a mesh is the list of the materials
    it was built from; the glTF and the b3dm only record sizes. *)
#[export] Instance lib : Lib := {|
  BuildingOptions := list (Building unit nat);
  Matrix4 := unit;
  Material := nat;
  Mesh := list nat;
  TextureCompressionOptions := unit;
  Glb := Buffer;
  Matrix4_IDENTITY := tt;
  Matrix4_multiply := fun _ _ => tt;
  createBuildings := fun o => Ok (defaultValue o []);
  Mesh_createCube := [];
  Mesh_transform := fun m _ => Ok m;
  Mesh_setMaterial := fun _ material => [material];
  Mesh_transferMaterialToVertexColors := fun m => Ok m;
  Mesh_batch := fun meshes => Ok (concat (map (fun m => defaultValue m []) meshes));
  createGltf := fun o => Ok (Ok (map (fun k => byte_of_Z (Z.of_nat k)) (mesh _ _ o)));
  createB3dm := fun o => Ok (glb _ o ++ defaultValue (batchTableBinary _ o) [])
|}.

(** A building at the given cartographic position. *)
Definition building (lon lat h : float) : Building unit nat :=
  {| longitude := lon; latitude := lat; height := h; matrix := tt; material := 0%nat |}.

End Sample.

End Buildings.

(* ================================================================== *)
(** * Specification-side definitions                                   *)
(* ================================================================== *)

(** The names the attribute encoders of the module give their buffers. *)
Definition featureAttributeNames : list string :=
  ["POSITION"; "POSITION_QUANTIZED"; "RGB"; "RGBA"; "RGB565";
   "NORMAL"; "NORMAL_OCT16P"; "BATCH_ID"].

(** The attributes of a table that are appended uncompressed. *)
Definition uncompressed (covered : string -> bool) (props : list Property) : list Property :=
  filter (fun p => negb (covered (propertyName p))) props.

Definition totalBytes (props : list Property) : nat :=
  fold_right (fun p n => (length (buffer p) + n)%nat) 0%nat props.

Definition totalPadding (pads : list nat) : nat := fold_right Nat.add 0%nat pads.

(** The alignment rule in the words of the specification: a section that
    starts as [start] and receives the attributes [props] in order, where
    [offsets] has the offset recorded for each attribute and [pads] the
    number of zero bytes inserted before each uncompressed one. *)
Inductive Assembled (covered : string -> bool)
  : Buffer -> list Property -> list Z -> list nat -> Buffer -> Prop :=
| Assembled_done : forall section, Assembled covered section [] [] [] section
| Assembled_compressed : forall section p props offsets pads final,
    covered (propertyName p) = true ->
    Assembled covered section props offsets pads final ->
    Assembled covered section (p :: props) (0 :: offsets) pads final
| Assembled_appended : forall section p props offsets pads final pad,
    covered (propertyName p) = false ->
    (pad < getSizeInBytes (componentType p))%nat ->
    Z.of_nat (length section + pad) =
      Math_ceil_div (Z.of_nat (length section)) (Z.of_nat (getSizeInBytes (componentType p)))
      * Z.of_nat (getSizeInBytes (componentType p)) ->
    Assembled covered (section ++ repeat x00 pad ++ buffer p) props offsets pads final ->
    Assembled covered section (p :: props)
      (Z.of_nat (length section + pad) :: offsets) (pad :: pads) final.

(** The [byteOffset] recorded in a table's JSON under [name]. *)
Definition recordedByteOffset (json : JsObject) (name : string) : option Z :=
  match obj_get json name with
  | Some (JObj fields) =>
      match obj_get fields "byteOffset" with
      | Some (JInt offset) => Some offset
      | _ => None
      end
  | _ => None
  end.


(** What claim C1 states of a table loop that started from [section] and
    returned [result]: the layout is [Assembled], the JSON records each
    attribute's offset, every offset is a multiple of the attribute's
    component size, every padding is shorter than that size, and the final
    length is the sum of the parts. *)
Definition AlignedAssembly (props : list Property) (d : option (list (string * Z)))
    (section : Buffer) (result : Buffer * JsObject) : Prop :=
  exists offsets pads,
    Assembled (dracoCovers d) section props offsets pads (fst result) /\
    Forall2 (fun p off =>
               recordedByteOffset (snd result) (propertyName p) = Some off /\
               off mod Z.of_nat (getSizeInBytes (componentType p)) = 0)
            props offsets /\
    Forall2 (fun p pad => (pad < getSizeInBytes (componentType p))%nat)
            (uncompressed (dracoCovers d) props) pads /\
    length (fst result) =
      (length section + totalBytes (uncompressed (dracoCovers d) props)
       + totalPadding pads)%nat.

(** Eight points, everything else by default. *)
Definition eightPoints : Options Sample.env :=
  {| tileWidth := None; transform := None; pointsLength := Some 8%nat;
     colorMode := None; color := None; shape := None;
     generateNormals := None; draco := None; dracoSemantics := None;
     octEncodeNormals := None; quantizePositions := None; batched := None;
     perPointProperties := None; relativeToCenter := None; time := None |}.

(** Eight points with normals, of which only the positions are compressed. *)
Definition positionsCompressed : Options Sample.env :=
  {| tileWidth := None; transform := None; pointsLength := Some 8%nat;
     colorMode := None; color := None; shape := None;
     generateNormals := Some true; draco := Some true;
     dracoSemantics := Some ["POSITION"];
     octEncodeNormals := None; quantizePositions := None; batched := None;
     perPointProperties := None; relativeToCenter := None; time := None |}.

(** A computation that leaves the [simplex] object as it found it. *)
Definition keeps_simplex {E : Env} {A : Type} (m : M E A) : Prop :=
  forall g, simplex (snd (m g)) = simplex g.

(** The names of the feature-table attributes chosen for compression:
    all of them when [dracoSemantics] is undefined. *)
Definition chosenFeatureNames (dracoSemantics : option (list string))
    (featureTableProperties : list Property) : list string :=
  match dracoSemantics with
  | None => map propertyName featureTableProperties
  | Some names => names
  end.

(** The names of all attributes given to the compressor: the chosen
    feature-table attributes and every batch-table attribute. *)
Definition compressedNames (dracoSemantics : option (list string))
    (featureTableProperties batchTableProperties : list Property) : list string :=
  chosenFeatureNames dracoSemantics featureTableProperties
  ++ map propertyName batchTableProperties.

(** [dracoSemantics], when given, lists distinct names of feature-table
    attributes. *)
Definition wellFormedSemantics (dracoSemantics : option (list string))
    (featureTableProperties : list Property) : Prop :=
  match dracoSemantics with
  | None => True
  | Some names => NoDup names /\ incl names (map propertyName featureTableProperties)
  end.

(** Mixed mode: an attribute is excluded from compression while others
    are included. *)
Definition mixedMode (dracoSemantics : option (list string))
    (featureTableProperties batchTableProperties : list Property) : Prop :=
  (exists p, In p featureTableProperties /\
             ~ In (propertyName p) (chosenFeatureNames dracoSemantics featureTableProperties))
  /\ compressedNames dracoSemantics featureTableProperties batchTableProperties <> [].

(** Every name of [dracoSemantics], when given, is a feature-table
    attribute (a name may be listed more than once). *)
Definition knownSemantics (dracoSemantics : option (list string))
    (featureTableProperties : list Property) : Prop :=
  match dracoSemantics with
  | None => True
  | Some names => incl names (map propertyName featureTableProperties)
  end.

(** The blob the compressor returns for a run of [dracoEncodeProperties]
    with the given settings on the given point cloud, or the error thrown
    when it reports no data. *)
Definition encodedBlob {E : Env} (settings : EncoderSettings) (pointCloud : PointCloud)
  : result Buffer :=
  let encoded := Encoder_EncodePointCloudToDracoBuffer settings pointCloud in
  if fst encoded <=? 0 then Err EncodingFailed
  else Ok (map (fun i => byte_of_Z (snd encoded (Z.of_nat i)))
               (seq 0 (Z.to_nat (fst encoded)))).

(** A position and a colour attribute of two points. *)
Definition positionAndColor : list Property :=
  [ {| buffer := repeat x00 24; propertyName := "POSITION";
       componentType := FLOAT; type := VEC3; batchLength := None |};
    {| buffer := repeat xff 6; propertyName := "RGB";
       componentType := UNSIGNED_BYTE; type := VEC3; batchLength := None |} ].

(** The collaborators of [Sample.env] with a compressor whose output
    tells the encoding method it was set to: two bytes when sequential,
    one byte otherwise. *)
Definition methodEnv : Env := {|
  MersenneTwister := Z;
  MersenneTwister_new := Js.truncZ;
  MersenneTwister_random := Sample.random;
  SimplexNoise := Z;
  SimplexNoise_new := fun s => (Sample.lcg s, Sample.lcg s);
  SimplexNoise_noise4D := fun n a b c d => (a * b * c - d)%float;
  Math_pow := Sample.pow;
  Math_cos := Sample.cos;
  Math_sin := Sample.sin;
  cesiumDebug := true;
  Matrix4 := Cartesian3;
  Matrix4_IDENTITY := Cartesian3Ops.ZERO;
  Matrix4_getTranslation := fun t => t;
  Matrix4_transpose := fun t => t;
  Matrix4_inverse := fun t => Ok t;
  Matrix4_multiplyByPoint := Sample.translate;
  Matrix4_multiplyByPointAsVector := fun _ v => v;
  Color_fromRandom := Sample.fromRandom;
  AttributeCompression_octEncode := Sample.octEncode;
  PointCloud := list AddAttributeCall;
  PointCloud_new := [];
  PointCloudBuilder_add := fun cloud c => (Z.of_nat (length cloud), cloud ++ [c]);
  Encoder_EncodePointCloudToDracoBuffer :=
    fun settings _ =>
      (match encodingMethod settings with Some _ => 2 | None => 1 end, fun _ => 0);
  createPnts := fun s => featureTableBinary s ++ batchTableBinary s
|}.

(** Eight points, compressed with draco, everything else by default. *)
Definition dracoOptions (E : Env) : Options E :=
  {| tileWidth := None; transform := None; pointsLength := Some 8%nat;
     colorMode := None; color := None; shape := None;
     generateNormals := None; draco := Some true; dracoSemantics := None;
     octEncodeNormals := None; quantizePositions := None; batched := None;
     perPointProperties := None; relativeToCenter := None; time := None |}.

(** Lines 108-124 of [createPointCloudTile]: the attributes of the
    feature table, from what [getPoints] returned. *)
Definition featurePropertiesOf {E : Env} (options : Options E) (points : Points)
  : list Property :=
  let generateNormals := defaultValue options.(generateNormals) false in
  let batched := defaultValue options.(batched) false in
  let featureTableProperties := [points.(positions)] in
  let featureTableProperties :=
    match points.(colors) with
    | Some colors => featureTableProperties ++ [colors]
    | None => featureTableProperties
    end in
  let featureTableProperties :=
    if generateNormals then featureTableProperties ++ [points.(normals)]
    else featureTableProperties in
  let featureTableProperties :=
    if batched then featureTableProperties ++ [points.(batchIds)]
    else featureTableProperties in
  featureTableProperties.

(** Lines 52-129 of [createPointCloudTile], the stages before the
    compression: the options are read, the points generated and the
    per-point properties written. *)
Definition attributeStage {E : Env} (options : Options E)
  : M E (Points * list Property) :=
  bind (CesiumMath_setRandomNumberSeed 0) (fun _ =>
  let tileWidth := defaultValue options.(tileWidth) 10%float in
  let transform := defaultValue options.(transform) Matrix4_IDENTITY in
  let pointsLength := defaultValue options.(pointsLength) 1000%nat in
  let colorMode := defaultValue options.(colorMode) "rgb" in
  let color := defaultValue options.(color) "random" in
  let shape := defaultValue options.(shape) "box" in
  let draco := defaultValue options.(draco) false in
  let octEncodeNormals := defaultValue options.(octEncodeNormals) false && negb draco in
  let quantizePositions := defaultValue options.(quantizePositions) false && negb draco in
  let perPointProperties := defaultValue options.(perPointProperties) false in
  let relativeToCenter := defaultValue options.(relativeToCenter) true in
  let time := defaultValue options.(time) 0%float in
  let colorMode :=
    if String.eqb colorMode "rgb565" && draco then "rgb" else colorMode in
  let radius := (tileWidth / 2)%float in
  let shapeFunction : option (nat * nat * float -> M E Cartesian3) :=
    if String.eqb shape "sphere" then
      Some (fun '(i, pointsLength, radius) => sphereFunction i pointsLength radius)
    else if String.eqb shape "box" then
      Some (fun '(i, pointsLength, radius) => boxFunction i pointsLength radius)
    else None in
  let colorFunction :=
    if String.eqb color "random" then Some randomFunction
    else if String.eqb color "gradient" then Some gradientFunction
    else if String.eqb color "noise" then Some (getNoiseFunction time)
    else None in
  let colorModeFunction :=
    if String.eqb colorMode "rgb" then Some getColorsRGB
    else if String.eqb colorMode "rgba" then Some getColorsRGBA
    else if String.eqb colorMode "rgb565" then Some getColorsRGB565
    else None in
  bind (getPoints pointsLength radius colorModeFunction colorFunction shapeFunction
          quantizePositions octEncodeNormals relativeToCenter transform time)
    (fun points =>
  bind (if perPointProperties
        then getPerPointBatchTableProperties pointsLength points.(noiseValues)
        else ret [])
    (fun batchTableProperties =>
  ret (points, batchTableProperties)))).

(** Quantized positions, eight points, everything else by default. *)
Definition quantizedOptions : Options Sample.env :=
  {| tileWidth := None; transform := None; pointsLength := Some 8%nat;
     colorMode := None; color := None; shape := None;
     generateNormals := None; draco := None; dracoSemantics := None;
     octEncodeNormals := None; quantizePositions := Some true; batched := None;
     perPointProperties := None; relativeToCenter := None; time := None |}.

(** The same with draco compression requested as well. *)
Definition quantizedDracoOptions : Options Sample.env :=
  {| tileWidth := None; transform := None; pointsLength := Some 8%nat;
     colorMode := None; color := None; shape := None;
     generateNormals := None; draco := Some true; dracoSemantics := None;
     octEncodeNormals := None; quantizePositions := Some true; batched := None;
     perPointProperties := None; relativeToCenter := None; time := None |}.





Definition white : Color := {| red := 1; green := 1; blue := 1; alpha := 1 |}.
Definition black : Color := {| red := 0; green := 0; blue := 0; alpha := 1 |}.

(** Gradient colors in RGBA mode, eight points, everything else by default. *)
Definition gradientRgbaOptions : Options Sample.env :=
  {| tileWidth := None; transform := None; pointsLength := Some 8%nat;
     colorMode := Some "rgba"; color := Some "gradient"; shape := None;
     generateNormals := None; draco := None; dracoSemantics := None;
     octEncodeNormals := None; quantizePositions := None; batched := None;
     perPointProperties := None; relativeToCenter := None; time := None |}.

(** The alpha bytes of an RGBA attribute that starts at [offset]. *)
Definition alphaBytes (binary : Buffer) (offset count : nat) : list (option byte) :=
  map (fun i => nth_error binary (offset + 4 * i + 3)) (seq 0 count).

Definition unitX : Cartesian3 := {| x := 1; y := 0; z := 0 |}.

(** A lattice of 27 points, whose point 13 is the centre of the box. *)
Definition boxOf27 : Options Sample.env :=
  {| tileWidth := None; transform := None; pointsLength := Some 27%nat;
     colorMode := None; color := None; shape := Some "box";
     generateNormals := Some true; draco := None; dracoSemantics := None;
     octEncodeNormals := None; quantizePositions := None; batched := None;
     perPointProperties := None; relativeToCenter := None; time := None |}.

(** RGB565 colors requested together with draco, eight points. *)
Definition rgb565DracoOptions : Options Sample.env :=
  {| tileWidth := None; transform := None; pointsLength := Some 8%nat;
     colorMode := Some "rgb565"; color := None; shape := None;
     generateNormals := None; draco := Some true; dracoSemantics := Some ["POSITION"];
     octEncodeNormals := None; quantizePositions := None; batched := None;
     perPointProperties := None; relativeToCenter := None; time := None |}.

(** Node's [buf.readUIntLE(0, buf.length)]: the unsigned integer whose
    little-endian bytes are [bytes]. *)
Fixpoint readUIntLE (bytes : list byte) : Z :=
  match bytes with
  | [] => 0
  | b :: rest => Z_of_byte b + 256 * readUIntLE rest
  end.

(** The elements of a typed array of [width]-byte unsigned integers laid
    over [bytes]; [count] is the number of elements. *)
Fixpoint readUIntArrayLE (width count : nat) (bytes : list byte) : list Z :=
  match count with
  | O => []
  | S count' =>
      readUIntLE (firstn width bytes) :: readUIntArrayLE width count' (skipn width bytes)
  end.

(** The bytes of a packed array whose records are encoded one by one by
    [enc]; the first record that cannot be encoded gives the error. *)
Fixpoint encodeEach {A : Type} (enc : A -> result (list byte)) (items : list A)
  : result (list byte) :=
  match items with
  | [] => Ok []
  | a :: rest =>
      let! b := enc a in
      let! bs := encodeEach enc rest in
      Ok (b ++ bs)
  end.

(** The four bytes [writeFloatLE] stores for a number. *)
Definition float32LE (f : float) : list byte := bytesLE 4 (float32_bits f).

(** The twelve bytes of a FLOAT VEC3: x, y, z in this order. *)
Definition vec3Float32LE (v : Cartesian3) : list byte :=
  float32LE (x v) ++ float32LE (y v) ++ float32LE (z v).

(** Whether [writeUInt8] accepts a number: it is neither above 255 nor
    below 0.  NaN compares false both ways, is accepted and stored as 0. *)
Definition fitsUInt8 (v : float) : bool := checkInt v 255.

(** The byte [writeUInt8] stores for an accepted number. *)
Definition uint8Byte (v : float) : byte := byte_of_Z (Js.truncZ v).

(** The numbers [getColorsRGB] stores for a colour. *)
Definition rgbScaled (c : Color) : list float :=
  [Js.Math_floor (red c * 255); Js.Math_floor (green c * 255);
   Js.Math_floor (blue c * 255)]%float.

(** The numbers [getColorsRGBA] stores for a colour. *)
Definition rgbaScaled (c : Color) : list float :=
  [Js.Math_floor (red c * 255); Js.Math_floor (green c * 255);
   Js.Math_floor (blue c * 255); Js.Math_floor (alpha c * 128)]%float.

Definition rgbBuffer (colors : list Color) : Buffer :=
  concat (map (fun c => map uint8Byte (rgbScaled c)) colors).

Definition rgbaBuffer (colors : list Color) : Buffer :=
  concat (map (fun c => map uint8Byte (rgbaScaled c)) colors).

(** A colour with a component above 1. *)
Definition overbright : Color := {| red := 1.5; green := 0; blue := 0; alpha := 1 |}.

(** The number [getColorsRGB565] hands to [writeUInt16LE] for a colour. *)
Definition rgb565Packed (c : Color) : float :=
  packedColor (Js.Math_floor (red c * 31)) (Js.Math_floor (green c * 63))
              (Js.Math_floor (blue c * 31)).

(** Whether [writeUInt16LE] accepts a number. *)
Definition fitsUInt16 (v : float) : bool := checkInt v 65535.

Definition rgb565Buffer (colors : list Color) : Buffer :=
  concat (map (fun c => bytesLE 2 (Js.truncZ (rgb565Packed c))) colors).

(** A green component above 1 on a black background. *)
Definition overgreen : Color := {| red := 0; green := 1.03125; blue := 0; alpha := 1 |}.

(** The darkest non-zero red of the RGB565 format. *)
Definition darkRed : Color := {| red := 0.0625; green := 0; blue := 0; alpha := 1 |}.

(** Batch ids that need all four bytes of an UNSIGNED_INT. *)
Definition wideBatchIds : list Z := [0; 70000; 4294967295].

(** The bit [getBatchId] gives a coordinate: 0 when it is positive, 1
    otherwise (zero, negative or NaN). *)
Definition octantBit (v : float) : Z := if PrimFloat.ltb 0 v then 0 else 1.

(** Eight points with batch ids, everything else by default. *)
Definition batchedOptions : Options Sample.env :=
  {| tileWidth := None; transform := None; pointsLength := Some 8%nat;
     colorMode := None; color := None; shape := None;
     generateNormals := None; draco := None; dracoSemantics := None;
     octEncodeNormals := None; quantizePositions := None; batched := Some true;
     perPointProperties := None; relativeToCenter := None; time := None |}.

(** The temperature of point [k]: its noise value, or [undefined] (stored
    as NaN) when the array of noise values is shorter. *)
Definition temperatureBytes (noiseValues : list float) (k : nat) : list byte :=
  float32LE (nth k noiseValues PrimFloat.nan).

(** The per-point ids 0, 1, ..., n-1. *)
Definition pointIds (n : nat) : list Z := map Z.of_nat (seq 0 n).

(** Per-point properties on more points than an UNSIGNED_SHORT id can number. *)
Definition tooManyPoints (E : Env) : Options E :=
  {| tileWidth := None; transform := None; pointsLength := Some (Z.to_nat 65537);
     colorMode := None; color := None; shape := None;
     generateNormals := None; draco := None; dracoSemantics := None;
     octEncodeNormals := None; quantizePositions := None; batched := None;
     perPointProperties := Some true; relativeToCenter := None; time := None |}.

(** The JSON of the per-batch table: a name per batch in the JSON itself,
    and the places of the two binary properties. *)
Definition batchedTableJson (batchLength : nat) : JsObject :=
  [("name", JArr (map JStr (map sectionName (seq 0 batchLength))));
   ("dimensions",
    JObj [("byteOffset", JInt 0); ("componentType", JStr "FLOAT"); ("type", JStr "VEC3")]);
   ("id",
    JObj [("byteOffset", JInt (Z.of_nat (batchLength * 12)));
          ("componentType", JStr "UNSIGNED_INT"); ("type", JStr "SCALAR")])].

(** Eight points with batch ids and per-point properties. *)
Definition batchedPerPointOptions : Options Sample.env :=
  {| tileWidth := None; transform := None; pointsLength := Some 8%nat;
     colorMode := None; color := None; shape := None;
     generateNormals := None; draco := None; dracoSemantics := None;
     octEncodeNormals := None; quantizePositions := None; batched := Some true;
     perPointProperties := Some true; relativeToCenter := None; time := None |}.

(** The colour mode in force: 'rgb565' is replaced by 'rgb' under draco. *)
Definition effectiveColorMode {E : Env} (options : Options E) : string :=
  let colorMode_ := defaultValue (colorMode options) "rgb" in
  if String.eqb colorMode_ "rgb565" && defaultValue (draco options) false
  then "rgb" else colorMode_.

(** The attributes the options ask for, in the order of the feature table. *)
Definition expectedAttributeNames {E : Env} (options : Options E) : list string :=
  let draco_ := defaultValue (draco options) false in
  let position :=
    if defaultValue (quantizePositions options) false && negb draco_
    then "POSITION_QUANTIZED" else "POSITION" in
  let colour :=
    if String.eqb (effectiveColorMode options) "rgb" then ["RGB"]
    else if String.eqb (effectiveColorMode options) "rgba" then ["RGBA"]
    else if String.eqb (effectiveColorMode options) "rgb565" then ["RGB565"]
    else [] in
  let normal :=
    if defaultValue (generateNormals options) false
    then [if defaultValue (octEncodeNormals options) false && negb draco_
          then "NORMAL_OCT16P" else "NORMAL"]
    else [] in
  let batch := if defaultValue (batched options) false then ["BATCH_ID"] else [] in
  [position] ++ colour ++ normal ++ batch.

(** Eight points of constant colour with oct-encoded normals. *)
Definition constantColorOptions : Options Sample.env :=
  {| tileWidth := None; transform := None; pointsLength := Some 8%nat;
     colorMode := Some "constant"; color := None; shape := None;
     generateNormals := Some true; draco := None; dracoSemantics := None;
     octEncodeNormals := Some true; quantizePositions := None; batched := None;
     perPointProperties := None; relativeToCenter := None; time := None |}.

(** The object stored under [extensions] in a table's JSON. *)
Definition dracoFeatureExtension (properties : list (string * Z)) (byteLength : nat) : Json :=
  JObj [("3DTILES_draco_point_compression",
         JObj [("properties", JObj (map (fun kv => (fst kv, JInt (snd kv))) properties));
               ("byteOffset", JInt 0);
               ("byteLength", JInt (Z.of_nat byteLength))])].

Definition dracoBatchExtension (properties : list (string * Z)) : Json :=
  JObj [("3DTILES_draco_point_compression",
         JObj [("properties", JObj (map (fun kv => (fst kv, JInt (snd kv))) properties))])].

(** Eight points with normals and per-point properties, all compressed. *)
Definition dracoPerPointOptions : Options Sample.env :=
  {| tileWidth := None; transform := None; pointsLength := Some 8%nat;
     colorMode := None; color := None; shape := None;
     generateNormals := Some true; draco := Some true; dracoSemantics := None;
     octEncodeNormals := None; quantizePositions := None; batched := None;
     perPointProperties := Some true; relativeToCenter := None; time := None |}.

(** What [getPoints] throws when the shape function is undefined and
    there is a point to place: the matrix inversion comes first. *)
Definition undefinedShapeError {E : Env} (transform : Matrix4) : error :=
  match Matrix4_inverse (Matrix4_transpose transform) with
  | Ok _ => TypeError
  | Err e => e
  end.

(** Eight points on a shape the module does not know. *)
Definition torusOptions : Options Sample.env :=
  {| tileWidth := None; transform := None; pointsLength := Some 8%nat;
     colorMode := None; color := None; shape := Some "torus";
     generateNormals := None; draco := None; dracoSemantics := None;
     octEncodeNormals := None; quantizePositions := None; batched := None;
     perPointProperties := None; relativeToCenter := None; time := None |}.

(** Eight points with a colour method the module does not know. *)
Definition plaidOptions : Options Sample.env :=
  {| tileWidth := None; transform := None; pointsLength := Some 8%nat;
     colorMode := None; color := Some "plaid"; shape := None;
     generateNormals := None; draco := None; dracoSemantics := None;
     octEncodeNormals := None; quantizePositions := None; batched := None;
     perPointProperties := None; relativeToCenter := None; time := None |}.

(** Draco on the normals of a cloud generated without normals. *)
Definition absentNormalOptions : Options Sample.env :=
  {| tileWidth := None; transform := None; pointsLength := Some 8%nat;
     colorMode := None; color := None; shape := None;
     generateNormals := None; draco := Some true; dracoSemantics := Some ["NORMAL"];
     octEncodeNormals := None; quantizePositions := None; batched := None;
     perPointProperties := None; relativeToCenter := None; time := None |}.

(** The three numbers [getPositionsQuantized] hands to [writeUInt16LE] for
    a position: each coordinate moved from [-radius, radius] to the range
    of an unsigned short. *)
Definition quantizedComponents {E : Env} (radius : float) (p : Cartesian3) : list float :=
  map (fun c => ((c - (- radius)) * (Math_pow 2 16 - 1) / (radius - (- radius)))%float)
      [x p; y p; z p].

(** The integers stored for a list of positions, three per position. *)
Definition quantizedValues {E : Env} (radius : float) (positions : list Cartesian3)
  : list Z :=
  concat (map (fun p => map Js.truncZ (quantizedComponents radius p)) positions).

Definition quantizedBuffer {E : Env} (radius : float) (positions : list Cartesian3)
  : Buffer :=
  concat (map (bytesLE 2) (quantizedValues radius positions)).

(** The two numbers [getNormalsOctEncoded] stores for an encoded normal. *)
Definition octComponents (e : Cartesian2) : list float := [x2 e; y2 e].

Definition octBuffer (encoded : list Cartesian2) : Buffer :=
  concat (map (fun e => map uint8Byte (octComponents e)) encoded).

(** A position outside the cube of half-width 5. *)
Definition outsidePosition : Cartesian3 := {| x := 6; y := 0; z := 0 |}.

(** The eight bytes [writeDoubleLE] stores for a number. *)
Definition float64LE (f : float) : list byte :=
  Buildings.bytes64LE (Buildings.float64_bits f).

(** The 24 bytes of a building in the cartographic property. *)
Definition cartographicBytes {Matrix4 Material : Type}
    (b : Buildings.Building Matrix4 Material) : list byte :=
  float64LE (Buildings.longitude b) ++ float64LE (Buildings.latitude b)
  ++ float64LE (Buildings.height b).

(** The JSON of the binary properties of [n] buildings. *)
Definition binaryTableJson (n : nat) : JsObject :=
  [("cartographic",
    JObj [("byteOffset", JInt 0); ("componentType", JStr "DOUBLE"); ("type", JStr "VEC3")]);
   ("code",
    JObj [("byteOffset", JInt (Z.of_nat (n * 24)));
          ("componentType", JStr "UNSIGNED_BYTE"); ("type", JStr "SCALAR")])].

(** The batch table of [generateBatchTable], array by array. *)
Definition tableJson {Matrix4 Material : Type}
    (buildings : list (Buildings.Building Matrix4 Material)) : JsObject :=
  [("id", JArr (map (fun i => JInt (Z.of_nat i)) (seq 0 (length buildings))));
   ("Longitude", JArr (map (fun b => JNum (Buildings.longitude b)) buildings));
   ("Latitude", JArr (map (fun b => JNum (Buildings.latitude b)) buildings));
   ("Height", JArr (map (fun b => JNum (Buildings.height b)) buildings))].

(** The name given to building [i]. *)
Definition buildingName (i : nat) : string :=
  String.append "building" (Buildings.String_of_index i).

Definition extraInfo (i : nat) : Json :=
  JObj [("name", JStr (buildingName i)); ("year", JInt (Z.of_nat i))].

Definition extraRooms (i : nat) : Json :=
  JArr (map (fun suffix =>
               JStr (String.append (String.append "room" (Buildings.String_of_index i))
                                   suffix))
            ["_a"; "_b"; "_c"]).

(** The batch table of [generateBatchTableExtra] for [n] buildings. *)
Definition extraJson (n : nat) : JsObject :=
  [("info", JArr (map extraInfo (seq 0 n))); ("rooms", JArr (map extraRooms (seq 0 n)))].

(** The options in force once the defaults are applied. *)
Definition useBatchIdsOn {L : Buildings.Lib} (options : Buildings.Options L) : bool :=
  defaultValue (Buildings.useBatchIds options) true.

(** A batch table is made when it is asked for (the default) and the
    glTF has batch ids. *)
Definition batchTableOn {L : Buildings.Lib} (options : Buildings.Options L) : bool :=
  defaultValue (Buildings.createBatchTable options) true && useBatchIdsOn options.

Definition extraOn {L : Buildings.Lib} (options : Buildings.Options L) : bool :=
  batchTableOn options && defaultValue (Buildings.createBatchTableExtra options) false.

Definition binaryOn {L : Buildings.Lib} (options : Buildings.Options L) : bool :=
  batchTableOn options && defaultValue (Buildings.createBatchTableBinary options) false.

(** The batch table JSON the options ask for. *)
Definition expectedBatchTableJson {L : Buildings.Lib} (options : Buildings.Options L)
    (buildings : list (Buildings.Building Buildings.Matrix4 Buildings.Material))
  : option JsObject :=
  if batchTableOn options
  then Some (tableJson buildings
               ++ (if extraOn options then extraJson (length buildings) else [])
               ++ (if binaryOn options then binaryTableJson (length buildings) else []))
  else None.

Definition expectedBatchTableBinary {L : Buildings.Lib} (options : Buildings.Options L)
    (buildings : list (Buildings.Building Buildings.Matrix4 Buildings.Material))
  : option Buffer :=
  if binaryOn options
  then Some (concat (map cartographicBytes buildings) ++ repeat xff (length buildings))
  else None.

(** The library never fails on a mesh. *)
Definition meshesNeverFail (L : Buildings.Lib) : Prop :=
  (forall m t, exists m', Buildings.Mesh_transform m t = Ok m')
  /\ (forall m, exists m', Buildings.Mesh_transferMaterialToVertexColors m = Ok m')
  /\ (forall l, exists m, Buildings.Mesh_batch l = Ok m).

(** Options with the given buildings and batch-table switches. *)
Definition sampleOptions (buildings : list (Buildings.Building unit nat))
    (useBatchIds createBatchTable extra binary : option bool)
  : Buildings.Options Buildings.Sample.lib :=
  {| Buildings.buildingOptions :=
       (Some buildings : option (@Buildings.BuildingOptions Buildings.Sample.lib));
     Buildings.useBatchIds := useBatchIds;
     Buildings.createBatchTable := createBatchTable;
     Buildings.createBatchTableExtra := extra;
     Buildings.createBatchTableBinary := binary;
     Buildings.transform := None;
     Buildings.optimizeForCesium := None;
     Buildings.relativeToCenter := None;
     Buildings.khrMaterialsCommon := None;
     Buildings.quantization := None;
     Buildings.useVertexColors := None;
     Buildings.deprecated1 := None;
     Buildings.deprecated2 := None;
     Buildings.textureCompressionOptions := None;
     Buildings.gltfUpAxis := None |}.

Definition twoBuildings : list (Buildings.Building unit nat) :=
  [Buildings.Sample.building 1 2 3; Buildings.Sample.building (-0.5) 0 infinity].

(** The bytes of one element of an attribute: the size of its component
    type times the number of components of its type. *)
Definition elementSize (p : Property) : nat :=
  (getSizeInBytes (componentType p) * Z.to_nat (numberOfComponentsForType (type p)))%nat.

(** The buffer of the attribute holds exactly [n] elements. *)
Definition holdsPoints (n : nat) (p : Property) : Prop :=
  length (buffer p) = (n * elementSize p)%nat.

(** Every optional attribute at once: coloured, batched points with
    normals and per-point properties. *)
Definition everyAttributeOptions : Options Sample.env :=
  {| tileWidth := None; transform := None; pointsLength := Some 8%nat;
     colorMode := Some "rgba"; color := None; shape := None;
     generateNormals := Some true; draco := None; dracoSemantics := None;
     octEncodeNormals := Some true; quantizePositions := Some true;
     batched := Some true; perPointProperties := Some true;
     relativeToCenter := None; time := None |}.

(** The draco builder has an add function for the component type of the
    attribute. *)
Definition supportedComponent (p : Property) : Prop :=
  getAddAttributeFunctionName (componentType p) <> None.

(** A position and a colour attribute of two points. *)
Definition twoPointAttributes : list Property :=
  [ {| buffer := repeat x00 24; propertyName := "POSITION";
       componentType := FLOAT; type := VEC3; batchLength := None |};
    {| buffer := repeat xff 6; propertyName := "RGB";
       componentType := UNSIGNED_BYTE; type := VEC3; batchLength := None |} ].

(* ================================================================== *)
(** * Proofs                                                           *)
(* ================================================================== *)

(** ** Inversion of the state and error monad *)

Lemma bind_Ok_inv : forall (E : Env) A B (m : M E A) (k : A -> M E B) g b g',
  bind m k g = (Ok b, g') ->
  exists a g1, m g = (Ok a, g1) /\ k a g1 = (Ok b, g').
Proof.
  intros E A B m k g b g' H. unfold bind in H.
  destruct (m g) as [[a | e] g1]; [eauto | discriminate].
Qed.

Lemma lift_Ok_inv : forall (E : Env) A (r : result A) g a g',
  lift r g = (Ok a, g') -> r = Ok a /\ g' = g.
Proof.
  intros E A r g a g' H. unfold lift in H. inversion H. auto.
Qed.

(** ** JavaScript objects *)

Lemma obj_get_set_eq : forall A (o : list (string * A)) k v,
  obj_get (obj_set o k v) k = Some v.
Proof.
  induction o as [|[k' v'] o IH]; intros k v; simpl.
  - rewrite String.eqb_refl. reflexivity.
  - destruct (String.eqb k' k) eqn:Hk; simpl.
    + rewrite String.eqb_refl. reflexivity.
    + rewrite Hk. apply IH.
Qed.

Lemma obj_get_set_ne : forall A (o : list (string * A)) k k' v,
  k <> k' -> obj_get (obj_set o k v) k' = obj_get o k'.
Proof.
  induction o as [|[k0 v0] o IH]; intros k k' v Hne; simpl.
  - destruct (String.eqb k k') eqn:Hk; [apply String.eqb_eq in Hk; contradiction | reflexivity].
  - destruct (String.eqb k0 k) eqn:Hk; simpl.
    + apply String.eqb_eq in Hk. subst k0.
      destruct (String.eqb k k') eqn:Hk'; [apply String.eqb_eq in Hk'; contradiction | reflexivity].
    + destruct (String.eqb k0 k'); [reflexivity | apply IH; assumption].
Qed.

Lemma featureTableLoop_other : forall props d bin json k,
  ~ In k (map propertyName props) ->
  obj_get (snd (featureTableLoop props d bin json)) k = obj_get json k.
Proof.
  induction props as [|p props IH]; intros d bin json k Hk; simpl.
  - reflexivity.
  - simpl in Hk.
    destruct (if negb (dracoCovers d (propertyName p))
              then appendAligned bin p else (0, bin)) as [off bin'].
    rewrite IH by tauto. apply obj_get_set_ne. tauto.
Qed.

Lemma batchTableLoop_other : forall props d bin json k,
  ~ In k (map propertyName props) ->
  obj_get (snd (batchTableLoop props d bin json)) k = obj_get json k.
Proof.
  induction props as [|p props IH]; intros d bin json k Hk; simpl.
  - reflexivity.
  - simpl in Hk.
    destruct (if negb (dracoCovers d (propertyName p))
              then appendAligned bin p else (0, bin)) as [off bin'].
    rewrite IH by tauto. apply obj_get_set_ne. tauto.
Qed.

(** ** What the attribute encoders return *)

Ltac invert_encoder H :=
  repeat match type of H with
         | rbind ?r _ = Ok _ => destruct r eqn:?; cbn [rbind] in H; [| discriminate H]
         | (let (_, _) := ?r in _) = Ok _ => destruct r eqn:?
         | (if ?c then _ else _) = Ok _ => destruct c eqn:?
         end;
  try (inversion H; subst; clear H).

Lemma getPositions_shape : forall l p, getPositions l = Ok p ->
  propertyName p = "POSITION" /\ componentType p = FLOAT /\ type p = VEC3.
Proof. intros l p H. unfold getPositions in H. invert_encoder H. auto. Qed.

Lemma getNormals_shape : forall l p, getNormals l = Ok p ->
  propertyName p = "NORMAL" /\ componentType p = FLOAT /\ type p = VEC3.
Proof. intros l p H. unfold getNormals in H. invert_encoder H. auto. Qed.

Lemma getColorsRGB_shape : forall l p, getColorsRGB l = Ok p ->
  propertyName p = "RGB" /\ componentType p = UNSIGNED_BYTE /\ type p = VEC3.
Proof. intros l p H. unfold getColorsRGB in H. invert_encoder H. auto. Qed.

Lemma getColorsRGBA_shape : forall l p, getColorsRGBA l = Ok p ->
  propertyName p = "RGBA" /\ componentType p = UNSIGNED_BYTE /\ type p = VEC4.
Proof. intros l p H. unfold getColorsRGBA in H. invert_encoder H. auto. Qed.

Lemma getColorsRGB565_shape : forall l p, getColorsRGB565 l = Ok p ->
  propertyName p = "RGB565" /\ componentType p = UNSIGNED_SHORT /\ type p = SCALAR.
Proof. intros l p H. unfold getColorsRGB565 in H. invert_encoder H. auto. Qed.

Lemma getBatchIds_shape : forall l p, getBatchIds l = Ok p ->
  propertyName p = "BATCH_ID" /\ type p = SCALAR /\
  batchLength p = Some (findBatchLength l).
Proof.
  intros l p H. unfold getBatchIds in H.
  destruct (findBatchLength l <=? 256); [| destruct (findBatchLength l <=? 65536)];
    invert_encoder H; auto.
Qed.

Lemma getPositionsQuantized_shape : forall (E : Env) l radius p,
  getPositionsQuantized l radius = Ok p ->
  propertyName p = "POSITION_QUANTIZED" /\ componentType p = UNSIGNED_SHORT /\ type p = VEC3.
Proof. intros E l radius p H. unfold getPositionsQuantized in H. invert_encoder H. auto. Qed.

Lemma getNormalsOctEncoded_shape : forall (E : Env) l p,
  getNormalsOctEncoded l = Ok p ->
  propertyName p = "NORMAL_OCT16P" /\ componentType p = UNSIGNED_BYTE /\ type p = VEC2.
Proof. intros E l p H. unfold getNormalsOctEncoded in H. invert_encoder H. auto. Qed.

(** What [getPoints] returns when it returns. *)
Lemma getPoints_shape :
  forall (E : Env) pointsLength radius colorModeFunction colorFunction shapeFunction
         quantizePositions octEncodeNormals relativeToCenter transform time g points g',
    getPoints pointsLength radius colorModeFunction colorFunction shapeFunction
      quantizePositions octEncodeNormals relativeToCenter transform time g
    = (Ok points, g') ->
    propertyName (positions points)
      = (if quantizePositions then "POSITION_QUANTIZED" else "POSITION") /\
    propertyName (normals points)
      = (if octEncodeNormals then "NORMAL_OCT16P" else "NORMAL") /\
    propertyName (batchIds points) = "BATCH_ID" /\
    match colorModeFunction with
    | Some f => exists l c, f l = Ok c /\ colors points = Some c
    | None => colors points = None
    end.
Proof.
  intros E n radius cmf cf sf q o rel t time g points g' H.
  unfold getPoints in H.
  apply bind_Ok_inv in H. destruct H as (it & g1 & _ & H).
  apply bind_Ok_inv in H. destruct H as (arrays & g2 & _ & H).
  apply bind_Ok_inv in H. destruct H as (pa & g3 & Hpa & H).
  apply bind_Ok_inv in H. destruct H as (na & g4 & Hna & H).
  apply bind_Ok_inv in H. destruct H as (ba & g5 & Hba & H).
  apply bind_Ok_inv in H. destruct H as (ca & g6 & Hca & H).
  apply lift_Ok_inv in Hpa, Hna, Hba, Hca.
  destruct Hpa as [Hpa _], Hna as [Hna _], Hba as [Hba _], Hca as [Hca _].
  unfold ret in H. inversion H; subst; clear H. cbn [positions normals batchIds colors].
  split; [| split; [| split]].
  - destruct q; [apply getPositionsQuantized_shape in Hpa | apply getPositions_shape in Hpa];
      tauto.
  - destruct o; [apply getNormalsOctEncoded_shape in Hna | apply getNormals_shape in Hna];
      tauto.
  - apply getBatchIds_shape in Hba. tauto.
  - destruct cmf as [f |].
    + destruct (f (colorsArray arrays)) as [c |] eqn:Hf; cbn [rbind] in Hca; [| discriminate].
      inversion Hca; subst. eauto.
    + inversion Hca. reflexivity.
Qed.

(** ** Keys of the feature-table JSON *)

Lemma featureTableLoop_absent : forall props d bin json k,
  Forall (fun p => In (propertyName p) featureAttributeNames) props ->
  ~ In k featureAttributeNames ->
  obj_get json k = None ->
  obj_get (snd (featureTableLoop props d bin json)) k = None.
Proof.
  intros props d bin json k Hall Hk Hjson.
  rewrite featureTableLoop_other; [assumption |].
  intros Hin. apply in_map_iff in Hin. destruct Hin as (p & Hp & Hin).
  rewrite Forall_forall in Hall. apply Hk. rewrite <- Hp. apply Hall. assumption.
Qed.

Lemma featureTableLoop_present : forall props d bin json p,
  In p props ->
  obj_get (snd (featureTableLoop props d bin json)) (propertyName p) <> None.
Proof.
  induction props as [|q props IH]; intros d bin json p Hin; [contradiction |].
  cbn [featureTableLoop].
  destruct (if negb (dracoCovers d (propertyName q))
            then appendAligned bin q else (0, bin)) as [off bin'].
  destruct Hin as [-> | Hin]; [| apply IH; assumption].
  destruct (in_dec string_dec (propertyName p) (map propertyName props)) as [Hi | Hni].
  - apply in_map_iff in Hi. destruct Hi as (p' & Hn & Hp'). rewrite <- Hn.
    apply IH. assumption.
  - rewrite featureTableLoop_other by assumption.
    rewrite obj_get_set_eq. discriminate.
Qed.

(** Inversion of a successful run of [createPointCloudTile_sections]. *)
Ltac invert_sections H :=
  unfold createPointCloudTile_sections in H;
  apply bind_Ok_inv in H; destruct H as (?u & ?g1 & _ & H);
  cbv zeta in H; cbn [defaultValue] in H;
  apply bind_Ok_inv in H; destruct H as (?points & ?g2 & ?Hpoints & H);
  apply bind_Ok_inv in H; destruct H as (?bt & ?g3 & ?Hbt & H);
  apply bind_Ok_inv in H;
  destruct H as ([[[[[?ftj ?ftb] ?btj] ?ext] ?dft] ?dbt] & ?g4 & ?Hdraco & H);
  match type of H with
  | context [featureTableLoop ?a ?b ?c ?d] =>
      destruct (featureTableLoop a b c d) as [?ftb' ?ftj'] eqn:?Hloop
  end;
  match type of H with
  | context [batchTableLoop ?a ?b ?c ?d] =>
      destruct (batchTableLoop a b c d) as [?btb' ?btj'] eqn:?Hbloop
  end;
  apply bind_Ok_inv in H; destruct H as ([[?fj ?bj] ?bb] & ?g5 & ?Hbatched & H);
  unfold ret in H; inversion H; subst; clear H.

(** The feature-table JSON before the attribute loop has at most the
    [extensions] key. *)
Lemma draco_stage_json : forall (E : Env) (d : bool) n sem ft bt g
    (ftj : JsObject) ftb (btj : JsObject) ext dft dbt g',
  (if d then
     bind (lift (dracoEncode n sem ft bt))
       (fun dracoResults : DracoResults =>
          ret
            (match dracoFeatureTableJson dracoResults with
             | Some d =>
                 obj_set [] "extensions"
                   (JObj [("3DTILES_draco_point_compression",
                           DracoFeatureTableJson_toJson d)])
             | None => []
             end, Buffer_concat [Buffer_alloc 0; dracoBuffer dracoResults],
             match dracoBatchTableJson dracoResults with
             | Some d =>
                 obj_set [] "extensions"
                   (JObj [("3DTILES_draco_point_compression",
                           DracoBatchTableJson_toJson d)])
             | None => []
             end, Some ["3DTILES_draco_point_compression"],
             dracoFeatureTableJson dracoResults,
             dracoBatchTableJson dracoResults))
   else ret ([], Buffer_alloc 0, [], None, None, None)) g
  = (Ok (ftj, ftb, btj, ext, dft, dbt), g') ->
  forall k, k <> "extensions" -> obj_get ftj k = None.
Proof.
  intros E d n sem ft bt g ftj ftb btj ext dft dbt g' H k Hk.
  destruct d.
  - apply bind_Ok_inv in H. destruct H as (r & g1 & _ & H).
    unfold ret in H. inversion H; subst; clear H.
    destruct (dracoFeatureTableJson r); [| reflexivity].
    cbn [obj_get]. destruct (String.eqb_spec "extensions" k); [congruence | reflexivity].
  - unfold ret in H. inversion H; subst. reflexivity.
Qed.

(** The attributes of the feature table carry the encoders' names. *)
Lemma featureTableProperties_names :
  forall (E : Env) pointsLength radius colorModeFunction colorFunction shapeFunction
         quantizePositions octEncodeNormals relativeToCenter transform time g points g'
         (generateNormals batched : bool),
    getPoints pointsLength radius colorModeFunction colorFunction shapeFunction
      quantizePositions octEncodeNormals relativeToCenter transform time g
    = (Ok points, g') ->
    (colorModeFunction = Some getColorsRGB \/ colorModeFunction = Some getColorsRGBA \/
     colorModeFunction = Some getColorsRGB565 \/ colorModeFunction = None) ->
    Forall (fun p => In (propertyName p) featureAttributeNames)
      (if batched
       then
         (if generateNormals
          then
            match colors points with
            | Some colors => [positions points] ++ [colors]
            | None => [positions points]
            end ++ [normals points]
          else
            match colors points with
            | Some colors => [positions points] ++ [colors]
            | None => [positions points]
            end) ++ [batchIds points]
       else
         if generateNormals
         then
           match colors points with
           | Some colors => [positions points] ++ [colors]
           | None => [positions points]
           end ++ [normals points]
         else
           match colors points with
           | Some colors => [positions points] ++ [colors]
           | None => [positions points]
           end).
Proof.
  intros E n radius cmf cf sf q o rel t time g points g' gn batched Hpoints Hcmf.
  apply getPoints_shape in Hpoints. destruct Hpoints as (Hp & Hn & Hb & Hc).
  assert (Hpos : In (propertyName (positions points)) featureAttributeNames).
  { rewrite Hp. destruct q; simpl; tauto. }
  assert (Hnor : In (propertyName (normals points)) featureAttributeNames).
  { rewrite Hn. destruct o; simpl; tauto. }
  assert (Hbat : In (propertyName (batchIds points)) featureAttributeNames).
  { rewrite Hb. simpl. tauto. }
  assert (Hcol : forall c, colors points = Some c ->
                           In (propertyName c) featureAttributeNames).
  { intros c Hcs.
    destruct Hcmf as [-> | [-> | [-> | ->]]];
      [destruct Hc as (l & c' & Hf & Hc'); apply getColorsRGB_shape in Hf
      |destruct Hc as (l & c' & Hf & Hc'); apply getColorsRGBA_shape in Hf
      |destruct Hc as (l & c' & Hf & Hc'); apply getColorsRGB565_shape in Hf
      |congruence];
      rewrite Hc' in Hcs; inversion Hcs; subst;
      destruct Hf as (-> & _); simpl; tauto. }
  destruct (colors points) as [c |]; [specialize (Hcol c eq_refl) |];
    destruct batched, gn; cbn [app];
    repeat (apply Forall_cons; [assumption |]); apply Forall_nil.
Qed.

Lemma colorModeFunction_cases : forall colorMode : string,
  let f := if String.eqb colorMode "rgb" then Some getColorsRGB
           else if String.eqb colorMode "rgba" then Some getColorsRGBA
           else if String.eqb colorMode "rgb565" then Some getColorsRGB565
           else None in
  f = Some getColorsRGB \/ f = Some getColorsRGBA \/
  f = Some getColorsRGB565 \/ f = None.
Proof.
  intros colorMode.
  destruct (String.eqb colorMode "rgb"); [left; reflexivity |].
  destruct (String.eqb colorMode "rgba"); [right; left; reflexivity |].
  destruct (String.eqb colorMode "rgb565"); [right; right; left; reflexivity |].
  right; right; right; reflexivity.
Qed.

Lemma getSizeInBytes_pos : forall c, (0 < getSizeInBytes c)%nat.
Proof. destruct c; simpl; lia. Qed.

Lemma Math_ceil_div_spec : forall a b, 0 <= a -> 0 < b ->
  let o := Math_ceil_div a b * b in
  a <= o < a + b /\ o mod b = 0.
Proof.
  intros a b Ha Hb o. unfold o, Math_ceil_div.
  split.
  - pose proof (Z.div_mod (- a) b ltac:(lia)) as Hdm.
    pose proof (Z.mod_pos_bound (- a) b Hb). nia.
  - apply Z.mod_mul. lia.
Qed.

Lemma appendAligned_spec : forall binary p,
  exists pad : nat,
    (pad < getSizeInBytes (componentType p))%nat /\
    fst (appendAligned binary p) = Z.of_nat (length binary + pad) /\
    fst (appendAligned binary p) =
      Math_ceil_div (Z.of_nat (length binary)) (Z.of_nat (getSizeInBytes (componentType p)))
      * Z.of_nat (getSizeInBytes (componentType p)) /\
    snd (appendAligned binary p) = binary ++ repeat x00 pad ++ buffer p.
Proof.
  intros binary p. unfold appendAligned. cbn [fst snd].
  set (a := Z.of_nat (getSizeInBytes (componentType p))).
  set (len := Z.of_nat (length binary)).
  pose proof (getSizeInBytes_pos (componentType p)) as Hpos.
  destruct (Math_ceil_div_spec len a ltac:(lia) ltac:(lia)) as [Hb _].
  exists (Z.to_nat (Math_ceil_div len a * a - len)).
  repeat split.
  - lia.
  - lia.
  - unfold Buffer_concat, Buffer_alloc. simpl. rewrite app_nil_r. reflexivity.
Qed.

Lemma recorded_featureTableEntry : forall json name off c,
  recordedByteOffset (obj_set json name (featureTableEntry name off c)) name = Some off.
Proof.
  intros. unfold recordedByteOffset. rewrite obj_get_set_eq. reflexivity.
Qed.

Lemma recorded_batchTableEntry : forall json name off p,
  recordedByteOffset (obj_set json name (batchTableEntry off p)) name = Some off.
Proof.
  intros. unfold recordedByteOffset. rewrite obj_get_set_eq. reflexivity.
Qed.

Lemma featureTableLoop_assembled : forall props d bin json,
  NoDup (map propertyName props) ->
  exists offsets pads,
    Assembled (dracoCovers d) bin props offsets pads
      (fst (featureTableLoop props d bin json)) /\
    Forall2 (fun p off =>
               recordedByteOffset (snd (featureTableLoop props d bin json))
                 (propertyName p) = Some off)
            props offsets.
Proof.
  induction props as [|p props IH]; intros d bin json Hnd.
  - exists [], []. split; constructor.
  - inversion Hnd as [|? ? Hnotin Hnd']; subst.
    cbn [featureTableLoop].
    destruct (dracoCovers d (propertyName p)) eqn:Hc; cbn [negb].
    + destruct (IH d bin
                  (obj_set json (propertyName p)
                     (featureTableEntry (propertyName p) 0 (componentType p))) Hnd')
        as (offs & pads & Ha & Hr).
      exists (0 :: offs), pads. split.
      * apply Assembled_compressed; assumption.
      * constructor; [|assumption].
        unfold recordedByteOffset. rewrite featureTableLoop_other by assumption.
        apply recorded_featureTableEntry.
    + destruct (appendAligned_spec bin p) as (pad & Hlt & Hoff & Hceil & Hbin).
      destruct (appendAligned bin p) as [off bin'] eqn:Happ. cbn [fst snd] in *.
      destruct (IH d bin'
                  (obj_set json (propertyName p)
                     (featureTableEntry (propertyName p) off (componentType p))) Hnd')
        as (offs & pads & Ha & Hr).
      exists (off :: offs), (pad :: pads). split.
      * subst off bin'. apply Assembled_appended; solve [assumption | congruence].
      * constructor; [|assumption].
        unfold recordedByteOffset. rewrite featureTableLoop_other by assumption.
        apply recorded_featureTableEntry.
Qed.

Lemma batchTableLoop_assembled : forall props d bin json,
  NoDup (map propertyName props) ->
  exists offsets pads,
    Assembled (dracoCovers d) bin props offsets pads
      (fst (batchTableLoop props d bin json)) /\
    Forall2 (fun p off =>
               recordedByteOffset (snd (batchTableLoop props d bin json))
                 (propertyName p) = Some off)
            props offsets.
Proof.
  induction props as [|p props IH]; intros d bin json Hnd.
  - exists [], []. split; constructor.
  - inversion Hnd as [|? ? Hnotin Hnd']; subst.
    cbn [batchTableLoop].
    destruct (dracoCovers d (propertyName p)) eqn:Hc; cbn [negb].
    + destruct (IH d bin
                  (obj_set json (propertyName p) (batchTableEntry 0 p)) Hnd')
        as (offs & pads & Ha & Hr).
      exists (0 :: offs), pads. split.
      * apply Assembled_compressed; assumption.
      * constructor; [|assumption].
        unfold recordedByteOffset. rewrite batchTableLoop_other by assumption.
        apply recorded_batchTableEntry.
    + destruct (appendAligned_spec bin p) as (pad & Hlt & Hoff & Hceil & Hbin).
      destruct (appendAligned bin p) as [off bin'] eqn:Happ. cbn [fst snd] in *.
      destruct (IH d bin'
                  (obj_set json (propertyName p) (batchTableEntry off p)) Hnd')
        as (offs & pads & Ha & Hr).
      exists (off :: offs), (pad :: pads). split.
      * subst off bin'. apply Assembled_appended; solve [assumption | congruence].
      * constructor; [|assumption].
        unfold recordedByteOffset. rewrite batchTableLoop_other by assumption.
        apply recorded_batchTableEntry.
Qed.

(** What [Assembled] gives: aligned offsets and the exact final length. *)
Lemma Assembled_aligned : forall covered section props offsets pads final,
  Assembled covered section props offsets pads final ->
  Forall2 (fun p off => off mod Z.of_nat (getSizeInBytes (componentType p)) = 0)
          props offsets.
Proof.
  induction 1; constructor; try assumption.
  - apply Z.mod_0_l. pose proof (getSizeInBytes_pos (componentType p)). lia.
  - rewrite H1. apply Z.mod_mul.
    pose proof (getSizeInBytes_pos (componentType p)). lia.
Qed.

Lemma Assembled_length : forall covered section props offsets pads final,
  Assembled covered section props offsets pads final ->
  length final =
    (length section + totalBytes (uncompressed covered props) + totalPadding pads)%nat.
Proof.
  induction 1; simpl.
  - lia.
  - rewrite H. simpl. assumption.
  - rewrite H. simpl. rewrite IHAssembled.
    rewrite !length_app, repeat_length. lia.
Qed.

Lemma Assembled_padding : forall covered section props offsets pads final,
  Assembled covered section props offsets pads final ->
  Forall2 (fun p pad => (pad < getSizeInBytes (componentType p))%nat)
          (uncompressed covered props) pads.
Proof.
  induction 1; simpl.
  - constructor.
  - rewrite H. simpl. assumption.
  - rewrite H. simpl. constructor; assumption.
Qed.

Lemma Forall2_conj : forall A B (P Q : A -> B -> Prop) l l',
  Forall2 P l l' -> Forall2 Q l l' -> Forall2 (fun a b => P a b /\ Q a b) l l'.
Proof.
  induction 1; intros HQ; inversion HQ; subst; constructor; auto.
Qed.

Lemma AlignedAssembly_intro : forall props d section result,
  (exists offsets pads,
     Assembled (dracoCovers d) section props offsets pads (fst result) /\
     Forall2 (fun p off => recordedByteOffset (snd result) (propertyName p) = Some off)
             props offsets) ->
  AlignedAssembly props d section result.
Proof.
  intros props d section result (offs & pads & Ha & Hr).
  exists offs, pads. split; [assumption | split; [| split]].
  - apply Forall2_conj; [assumption | eapply Assembled_aligned; eassumption].
  - eapply Assembled_padding; eassumption.
  - eapply Assembled_length; eassumption.
Qed.

Lemma getPerPointBatchTableProperties_names :
  forall (E : Env) pointsLength noiseValues g bt g',
    getPerPointBatchTableProperties pointsLength noiseValues g = (Ok bt, g') ->
    map propertyName bt = ["temperature"; "secondaryColor"; "id"].
Proof.
  intros E n noise g bt g' H. unfold getPerPointBatchTableProperties in H.
  apply bind_Ok_inv in H. destruct H as ([[tb sb] ib] & g1 & _ & H).
  unfold ret in H. inversion H; subst. reflexivity.
Qed.

Lemma AlignedAssembly_json : forall props d section binary json json',
  AlignedAssembly props d section (binary, json) ->
  (forall p, In p props -> obj_get json' (propertyName p) = obj_get json (propertyName p)) ->
  AlignedAssembly props d section (binary, json').
Proof.
  intros props d section binary json json' (offs & pads & Ha & Hr & Hp & Hl) Hsame.
  exists offs, pads. cbn [fst snd] in *. split; [assumption | split; [| split; assumption]].
  clear Ha Hp Hl. induction Hr as [| p off props offs [Hrec Hal] Hr IH]; constructor.
  - split; [| assumption]. unfold recordedByteOffset in *.
    rewrite (Hsame p (or_introl eq_refl)). assumption.
  - apply IH. intros q Hq. apply Hsame. right. assumption.
Qed.

Lemma attribute_names_distinct : forall pn cn nn : string,
  In pn ["POSITION"; "POSITION_QUANTIZED"] ->
  In cn ["RGB"; "RGBA"; "RGB565"] ->
  In nn ["NORMAL"; "NORMAL_OCT16P"] ->
  NoDup [pn; cn; nn; "BATCH_ID"] /\ NoDup [pn; cn; nn] /\ NoDup [pn; cn; "BATCH_ID"] /\
  NoDup [pn; cn] /\ NoDup [pn; nn; "BATCH_ID"] /\ NoDup [pn; nn] /\
  NoDup [pn; "BATCH_ID"] /\ NoDup [pn].
Proof.
  intros pn cn nn Hp Hc Hn. cbn [In] in Hp, Hc, Hn.
  destruct Hp as [<- | [<- | []]];
    destruct Hc as [<- | [<- | [<- | []]]];
    destruct Hn as [<- | [<- | []]];
    repeat split; repeat constructor; cbn [In]; intuition discriminate.
Qed.

Lemma attribute_name_not_special : forall k,
  In k featureAttributeNames ->
  k <> "POINTS_LENGTH" /\ k <> "CONSTANT_RGBA" /\ k <> "BATCH_LENGTH" /\
  k <> "QUANTIZED_VOLUME_SCALE" /\ k <> "QUANTIZED_VOLUME_OFFSET" /\ k <> "RTC_CENTER".
Proof.
  intros k Hk. unfold featureAttributeNames in Hk. cbn [In] in Hk.
  repeat (destruct Hk as [<- | Hk]; [repeat split; discriminate |]).
  contradiction.
Qed.

(** The attributes of a generated tile have distinct names, and the keys
    written after the attribute loop are none of them. *)
Lemma sections_tables :
  forall (E : Env) (options : Options E) (g : Globals E) tile g',
    createPointCloudTile_sections (Some options) g = (Ok tile, g') ->
    (exists d start json0 loopJson,
       featureTableLoop (featureTableProperties tile) d start json0
         = (featureTableBinary (sections tile), loopJson) /\
       NoDup (map propertyName (featureTableProperties tile)) /\
       (forall k, In k featureAttributeNames ->
          obj_get (featureTableJson (sections tile)) k = obj_get loopJson k) /\
       Forall (fun p => In (propertyName p) featureAttributeNames)
              (featureTableProperties tile) /\
       (defaultValue (draco options) false = false -> d = None /\ start = []))
    /\ (defaultValue (batched options) false = false ->
        exists d json0,
          batchTableLoop (batchTableProperties tile) d [] json0
            = (batchTableBinary (sections tile), batchTableJson (sections tile)) /\
          NoDup (map propertyName (batchTableProperties tile))).
Proof.
  intros E options g tile g' H.
  invert_sections H.
  cbn [featureTableProperties batchTableProperties featureTableBinary featureTableJson
       batchTableBinary batchTableJson sections].
  assert (Hnames := featureTableProperties_names E _ _ _ _ _ _ _ _ _ _ _ _ _
                      (defaultValue (generateNormals options) false)
                      (defaultValue (batched options) false) Hpoints
                      (colorModeFunction_cases _)).
  assert (Hshape := getPoints_shape E _ _ _ _ _ _ _ _ _ _ _ _ _ Hpoints).
  destruct Hshape as (Hp & Hn & Hb & Hc).
  split.
  - eexists. eexists. eexists. exists ftj'.
    split; [exact Hloop | split; [| split; [| split; [exact Hnames |]]]].
    3:{ intros Hnd. rewrite Hnd in Hdraco.
        unfold ret in Hdraco. inversion Hdraco; subst. split; reflexivity. }
    + assert (Hpn : In (propertyName (positions points))
                       ["POSITION"; "POSITION_QUANTIZED"]).
      { rewrite Hp. match goal with |- In (if ?q then _ else _) _ => destruct q end;
          cbn [In]; tauto. }
      assert (Hnn : In (propertyName (normals points)) ["NORMAL"; "NORMAL_OCT16P"]).
      { rewrite Hn. match goal with |- In (if ?q then _ else _) _ => destruct q end;
          cbn [In]; tauto. }
      assert (Hcn : forall c, colors points = Some c ->
                              In (propertyName c) ["RGB"; "RGBA"; "RGB565"]).
      { intros c Hcs.
        match type of Hc with
        | match ?f with _ => _ end =>
            destruct (colorModeFunction_cases
                        (if (defaultValue (colorMode options) "rgb" =? "rgb565")%string
                            && defaultValue (draco options) false
                         then "rgb" else defaultValue (colorMode options) "rgb"))
              as [Hf | [Hf | [Hf | Hf]]]; cbv zeta in Hf; rewrite Hf in Hc
        end;
        [destruct Hc as (l & c' & Hl & Hc'); apply getColorsRGB_shape in Hl
        |destruct Hc as (l & c' & Hl & Hc'); apply getColorsRGBA_shape in Hl
        |destruct Hc as (l & c' & Hl & Hc'); apply getColorsRGB565_shape in Hl
        |congruence];
        rewrite Hc' in Hcs; inversion Hcs; subst; destruct Hl as (-> & _);
        cbn [In]; tauto. }
      destruct (colors points) as [c |].
      * destruct (attribute_names_distinct _ _ _ Hpn (Hcn c eq_refl) Hnn)
          as (D1 & D2 & D3 & D4 & _).
        destruct (defaultValue (batched options) false),
                 (defaultValue (generateNormals options) false);
          cbn [app map]; rewrite ?Hb; assumption.
      * assert (Hrgb : In "RGB" ["RGB"; "RGBA"; "RGB565"]) by (cbn [In]; tauto).
        destruct (attribute_names_distinct _ _ _ Hpn Hrgb Hnn)
          as (_ & _ & _ & _ & D5 & D6 & D7 & D8).
        destruct (defaultValue (batched options) false),
                 (defaultValue (generateNormals options) false);
          cbn [app map]; rewrite ?Hb; assumption.
    + intros k Hk.
      destruct (attribute_name_not_special k Hk) as (N1 & N2 & N3 & N4 & N5 & N6).
      assert (Hafter : forall (J : JsObject) (q r : bool) S O R,
                obj_get (if q then obj_set (obj_set J "QUANTIZED_VOLUME_SCALE" S)
                                   "QUANTIZED_VOLUME_OFFSET" O
                         else if r then obj_set J "RTC_CENTER" R else J) k
                = obj_get J k).
      { intros J q r S O R. destruct q; [| destruct r];
          rewrite ?obj_get_set_ne by congruence; reflexivity. }
      assert (Hcc : forall (J : JsObject) (cc : option (list Z)),
                obj_get (match cc with
                         | Some c => obj_set J "CONSTANT_RGBA" (JArr (map JInt c))
                         | None => J end) k = obj_get J k).
      { intros J [c |]; rewrite ?obj_get_set_ne by congruence; reflexivity. }
      destruct (defaultValue (batched options) false).
      * destruct (batchLength (batchIds points)) as [bl |];
          [| apply lift_Ok_inv in Hbatched; destruct Hbatched; discriminate].
        apply bind_Ok_inv in Hbatched. destruct Hbatched as (table & g6 & _ & Hret).
        unfold ret in Hret. inversion Hret; subst; clear Hret.
        rewrite obj_get_set_ne by congruence.
        rewrite Hafter, Hcc. apply obj_get_set_ne. congruence.
      * unfold ret in Hbatched. inversion Hbatched; subst; clear Hbatched.
        rewrite Hafter, Hcc. apply obj_get_set_ne. congruence.
  - intros Hnb. rewrite Hnb in Hbatched.
    unfold ret in Hbatched. inversion Hbatched; subst; clear Hbatched.
    eexists. eexists. split; [exact Hbloop |].
    destruct (defaultValue (perPointProperties options) false).
    + apply getPerPointBatchTableProperties_names in Hbt. rewrite Hbt.
      repeat constructor; cbn [In]; intuition discriminate.
    + unfold ret in Hbt. inversion Hbt; subst. constructor.
Qed.

(** C1: in both table loops of [createPointCloudTile], every recorded
    [byteOffset] is a multiple of the size of the attribute's component
    type - the current section length rounded up to that alignment, with
    zero bytes inserted - and the final section length is the initial
    length plus the attributes' byte lengths plus exactly that padding;
    this holds of the feature table of every generated tile, and of its
    batch table when it is assembled by the loop. *)
Theorem section_assembly_aligned :
  (forall (props : list Property) (d : option (list (string * Z)))
          (section : Buffer) (json : JsObject),
     NoDup (map propertyName props) ->
     AlignedAssembly props d section (featureTableLoop props d section json) /\
     AlignedAssembly props d section (batchTableLoop props d section json))
  /\ (forall (E : Env) (options : Options E) (g : Globals E) tile g',
        createPointCloudTile_sections (Some options) g = (Ok tile, g') ->
        (exists d start,
           AlignedAssembly (featureTableProperties tile) d start
             (featureTableBinary (sections tile), featureTableJson (sections tile)) /\
           (defaultValue (draco options) false = false -> d = None /\ start = []))
        /\ (defaultValue (batched options) false = false ->
            exists d,
              AlignedAssembly (batchTableProperties tile) d []
                (batchTableBinary (sections tile), batchTableJson (sections tile)))).
Proof.
  split.
  - intros props d section json Hnd. split; apply AlignedAssembly_intro.
    + apply featureTableLoop_assembled; assumption.
    + apply batchTableLoop_assembled; assumption.
  - intros E options g tile g' H.
    destruct (sections_tables E options g tile g' H) as (Hft & Hbt).
    split.
    + destruct Hft as (d & start & json0 & loopJson & Hloop & Hnd & Hsame & Hnames & Hplain).
      exists d, start. split; [| exact Hplain].
      apply AlignedAssembly_json with (json := loopJson).
      * replace (featureTableBinary (sections tile), loopJson)
          with (featureTableLoop (featureTableProperties tile) d start json0).
        apply AlignedAssembly_intro. apply featureTableLoop_assembled. assumption.
      * intros p Hp. apply Hsame.
        rewrite Forall_forall in Hnames. apply Hnames. assumption.
    + intros Hnb. destruct (Hbt Hnb) as (d & json0 & Hloop & Hnd).
      exists d. rewrite <- Hloop.
      apply AlignedAssembly_intro. apply batchTableLoop_assembled. assumption.
Qed.

Lemma section_assembly_aligned_witness :
  let rgb := {| buffer := [x01; x02; x03]; propertyName := "RGB";
                componentType := UNSIGNED_BYTE; type := VEC3; batchLength := None |} in
  let normal := {| buffer := repeat x07 12; propertyName := "NORMAL";
                   componentType := FLOAT; type := VEC3; batchLength := None |} in
  NoDup (map propertyName [rgb; normal]) /\
  AlignedAssembly [rgb; normal] None [x09; x09] (featureTableLoop [rgb; normal] None [x09; x09] []) /\
  AlignedAssembly [rgb; normal] None [x09; x09] (batchTableLoop [rgb; normal] None [x09; x09] []).
Proof.
  intros rgb normal.
  assert (Hnd : NoDup (map propertyName [rgb; normal])).
  { simpl. repeat constructor; simpl; intuition discriminate. }
  split; [exact Hnd |].
  exact (proj1 section_assembly_aligned [rgb; normal] None [x09; x09] [] Hnd).
Defined.

(** Eight points with random RGB colors: 8 x 3 x 4 bytes of positions and
    8 x 3 bytes of colors, no padding. *)
Lemma scenario_eight_points :
  exists tile,
    Sample.run eightPoints = Ok tile /\
    obj_get (featureTableJson (sections tile)) "POINTS_LENGTH" = Some (JInt 8) /\
    recordedByteOffset (featureTableJson (sections tile)) "POSITION" = Some 0 /\
    recordedByteOffset (featureTableJson (sections tile)) "RGB" = Some 96 /\
    length (featureTableBinary (sections tile)) = (8 * 3 * 4 + 8 * 3)%nat.
Proof.
  eexists. split; [vm_compute; reflexivity |].
  split; [vm_compute; reflexivity |].
  split; [vm_compute; reflexivity |].
  split; vm_compute; reflexivity.
Qed.

(** Normals appended after a compressed blob of 101 bytes and 24 bytes of
    colors start at offset 128, after three bytes of padding. *)
Lemma scenario_padding_after_blob :
  exists tile,
    Sample.run positionsCompressed = Ok tile /\
    recordedByteOffset (featureTableJson (sections tile)) "RGB" = Some 101 /\
    recordedByteOffset (featureTableJson (sections tile)) "NORMAL" = Some 128 /\
    firstn 3 (skipn 125 (featureTableBinary (sections tile))) = [x00; x00; x00] /\
    length (featureTableBinary (sections tile)) = (101 + 24 + 3 + 96)%nat.
Proof.
  eexists. split; [vm_compute; reflexivity |].
  split; [vm_compute; reflexivity |].
  split; [vm_compute; reflexivity |].
  split; vm_compute; reflexivity.
Qed.

Section KeepsSimplex.
Context {E : Env}.

Lemma keeps_ret : forall A (a : A), keeps_simplex (ret a).
Proof. intros A a g. reflexivity. Qed.

Lemma keeps_lift : forall A (r : result A), keeps_simplex (lift r).
Proof. intros A r g. reflexivity. Qed.

Lemma keeps_bind : forall A B (m : M E A) (k : A -> M E B),
  keeps_simplex m -> (forall a, keeps_simplex (k a)) -> keeps_simplex (bind m k).
Proof.
  intros A B m k Hm Hk g. unfold bind. specialize (Hm g).
  destruct (m g) as [[a | e] g1]; cbn [snd] in *.
  - rewrite (Hk a g1). assumption.
  - assumption.
Qed.

Lemma keeps_forM : forall St (body : nat -> St -> M E St) n i s,
  (forall j s0, keeps_simplex (body j s0)) -> keeps_simplex (forM body i n s).
Proof.
  intros St body n. induction n as [|n IH]; intros i s Hbody; cbn [forM].
  - apply keeps_ret.
  - apply keeps_bind; [apply Hbody | intros s'; apply IH; assumption].
Qed.

Lemma keeps_setRandomNumberSeed : forall seed,
  keeps_simplex (CesiumMath_setRandomNumberSeed seed).
Proof. intros seed g. reflexivity. Qed.

Lemma keeps_nextRandomNumber : keeps_simplex CesiumMath_nextRandomNumber.
Proof.
  intros g. unfold CesiumMath_nextRandomNumber.
  destruct (MersenneTwister_random (randomNumberGenerator g)). reflexivity.
Qed.

Lemma keeps_fromRandom : keeps_simplex Color_fromRandom_.
Proof.
  intros g. unfold Color_fromRandom_.
  destruct (Color_fromRandom (randomNumberGenerator g)). reflexivity.
Qed.

Lemma keeps_getNoise : forall position time, keeps_simplex (getNoise position time).
Proof. intros position time g. reflexivity. Qed.

Ltac keeps :=
  repeat first
    [ apply keeps_ret
    | apply keeps_lift
    | apply keeps_setRandomNumberSeed
    | apply keeps_nextRandomNumber
    | apply keeps_fromRandom
    | apply keeps_getNoise
    | apply keeps_forM; intros
    | apply keeps_bind; [| intros]
    | assumption
    | match goal with
      | |- keeps_simplex (if ?c then _ else _) => destruct c
      | |- keeps_simplex (match ?x with _ => _ end) => destruct x
      end ].

Lemma keeps_call : forall A B (f : option (A -> M E B)) a,
  (forall f0 a0, f = Some f0 -> keeps_simplex (f0 a0)) -> keeps_simplex (call f a).
Proof.
  intros A B [f |] a H; unfold call; [apply H; reflexivity | apply keeps_lift].
Qed.

Lemma keeps_getPoints :
  forall pointsLength radius colorModeFunction colorFunction shapeFunction
         quantizePositions octEncodeNormals relativeToCenter transform time,
    (forall f a, colorFunction = Some f -> keeps_simplex (f a)) ->
    (forall f a, shapeFunction = Some f -> keeps_simplex (f a)) ->
    keeps_simplex
      (getPoints pointsLength radius colorModeFunction colorFunction shapeFunction
         quantizePositions octEncodeNormals relativeToCenter transform time).
Proof.
  intros. unfold getPoints. keeps; apply keeps_call; assumption.
Qed.

Lemma keeps_getBatchTableForBatchedPoints : forall batchLength,
  keeps_simplex (getBatchTableForBatchedPoints batchLength).
Proof. intros. unfold getBatchTableForBatchedPoints. keeps. Qed.

Lemma keeps_getPerPointBatchTableProperties : forall pointsLength noiseValues,
  keeps_simplex (getPerPointBatchTableProperties pointsLength noiseValues).
Proof. intros. unfold getPerPointBatchTableProperties. keeps. Qed.

Lemma keeps_sections : forall options,
  keeps_simplex (createPointCloudTile_sections options).
Proof.
  intros options. unfold createPointCloudTile_sections.
  apply keeps_bind; [apply keeps_setRandomNumberSeed | intros _].
  cbv zeta.
  apply keeps_bind.
  { apply keeps_getPoints.
    - intros f a Hf.
      repeat match type of Hf with
             | (if ?c then _ else _) = _ => destruct c
             end; inversion Hf; subst; clear Hf.
      + unfold randomFunction. keeps.
      + unfold gradientFunction. keeps.
      + unfold getNoiseFunction. keeps.
    - intros f [[i n] r] Hf.
      repeat match type of Hf with
             | (if ?c then _ else _) = _ => destruct c
             end; inversion Hf; subst; clear Hf.
      + unfold sphereFunction. keeps.
      + unfold boxFunction. keeps. }
  intros points.
  apply keeps_bind; [destruct (defaultValue (perPointProperties _) false);
                     [apply keeps_getPerPointBatchTableProperties | apply keeps_ret] |].
  intros bt.
  apply keeps_bind.
  { destruct (defaultValue (draco _) false); keeps. }
  intros [[[[[ftj ftb] btj] ext] dft] dbt].
  destruct (featureTableLoop _ _ _ _) as [ftb' ftj'].
  destruct (batchTableLoop _ _ _ _) as [btb' btj'].
  apply keeps_bind; [| intros [[a b] c]; apply keeps_ret].
  destruct (defaultValue (batched _) false); [| apply keeps_ret].
  destruct (batchLength _); [| apply keeps_lift].
  apply keeps_bind; [apply keeps_getBatchTableForBatchedPoints | intros; apply keeps_ret].
Qed.

End KeepsSimplex.

Lemma sections_from_seed : forall (E : Env) options (g1 g2 : Globals E),
  simplex g1 = simplex g2 ->
  createPointCloudTile_sections options g1 = createPointCloudTile_sections options g2.
Proof.
  intros E options g1 g2 Hs.
  unfold createPointCloudTile_sections.
  unfold bind at 1. unfold bind at 2.
  unfold CesiumMath_setRandomNumberSeed. rewrite Hs. reflexivity.
Qed.

(** C2: [createPointCloudTile] starts by re-seeding the generator of
    [Cesium.Math], and the [simplex] noise object - built once, from seed
    0, when the module is loaded - is never modified; so whatever state the
    generator is in, a call with given options returns the same sections,
    and two consecutive calls with identical options return byte-identical
    feature-table and batch-table binaries. *)
Theorem createPointCloudTile_deterministic :
  forall (E : Env) (options : option (Options E)),
    (forall g1 g2 : Globals E,
       simplex g1 = simplex g2 ->
       createPointCloudTile_sections options g1
         = createPointCloudTile_sections options g2 /\
       createPointCloudTile options g1 = createPointCloudTile options g2)
    /\ (forall g : Globals E,
          simplex (snd (createPointCloudTile options g)) = simplex g)
    /\ (forall g : Globals E,
          let first := createPointCloudTile_sections options g in
          let second := createPointCloudTile_sections options (snd first) in
          fst second = fst first /\
          rmap (fun tile => featureTableBinary (sections tile)) (fst second)
            = rmap (fun tile => featureTableBinary (sections tile)) (fst first) /\
          rmap (fun tile => batchTableBinary (sections tile)) (fst second)
            = rmap (fun tile => batchTableBinary (sections tile)) (fst first))
    /\ (forall g : Globals E,
          fst (createPointCloudTile options (snd (createPointCloudTile options g)))
            = fst (createPointCloudTile options g)).
Proof.
  intros E options.
  assert (Hsec : forall g1 g2 : Globals E,
             simplex g1 = simplex g2 ->
             createPointCloudTile_sections options g1
               = createPointCloudTile_sections options g2)
    by (intros; apply sections_from_seed; assumption).
  assert (Hcall : forall g1 g2 : Globals E,
             simplex g1 = simplex g2 ->
             createPointCloudTile options g1 = createPointCloudTile options g2).
  { intros g1 g2 Hs. unfold createPointCloudTile, bind. rewrite (Hsec g1 g2 Hs). reflexivity. }
  assert (Hkeep : forall g : Globals E,
             simplex (snd (createPointCloudTile options g)) = simplex g).
  { intros g. unfold createPointCloudTile.
    apply keeps_bind; [apply keeps_sections | intros; apply keeps_ret]. }
  split; [intros g1 g2 Hs; split; auto |].
  split; [exact Hkeep |].
  split.
  - intros g first second.
    assert (Heq : second = first).
    { unfold second, first. apply Hsec. apply keeps_sections. }
    rewrite Heq. repeat split; reflexivity.
  - intros g. rewrite (Hcall _ g (Hkeep g)). reflexivity.
Qed.

Lemma createPointCloudTile_deterministic_witness :
  let options := Some (dracoOptions Sample.env) in
  let g1 := @moduleInit Sample.env in
  let g2 := snd (createPointCloudTile options g1) in
  simplex g1 = simplex g2 /\
  randomNumberGenerator g1 <> randomNumberGenerator g2 /\
  createPointCloudTile options g1 = createPointCloudTile options g2.
Proof.
  intros options g1 g2.
  assert (Hs : simplex g1 = simplex g2) by (vm_compute; reflexivity).
  split; [exact Hs |].
  split; [vm_compute; discriminate |].
  exact (proj2 (proj1 (createPointCloudTile_deterministic Sample.env options) g1 g2 Hs)).
Defined.

(** ** Loops that succeed *)

Lemma forR_invariant : forall (St : Type) (P : St -> Prop) body n i s,
  P s ->
  (forall j s0, (i <= j < i + n)%nat -> P s0 -> exists s1, body j s0 = Ok s1 /\ P s1) ->
  exists s', @forR St body i n s = Ok s' /\ P s'.
Proof.
  intros St P body n. induction n as [|n IH]; intros i s Hs Hbody; simpl.
  - eauto.
  - destruct (Hbody i s ltac:(lia) Hs) as (s1 & Hb & Hs1).
    rewrite Hb. simpl. apply IH; [assumption |].
    intros j s0 Hj. apply Hbody. lia.
Qed.

Lemma bytesLE_length : forall n v, length (bytesLE n v) = n.
Proof. intros. unfold bytesLE. rewrite length_map, length_seq. reflexivity. Qed.

Lemma Buffer_store_ok : forall buf offset bs,
  (offset + length bs <= length buf)%nat ->
  exists buf', Buffer_store buf offset bs = Ok buf' /\ length buf' = length buf.
Proof.
  intros buf offset bs H. unfold Buffer_store.
  destruct (Nat.leb_spec (offset + length bs) (length buf)); [| lia].
  eexists; split; [reflexivity |].
  rewrite !length_app, length_firstn, length_skipn. lia.
Qed.

Lemma writeUIntLE_int_ok : forall width buf value offset,
  0 <= value < 2 ^ (8 * Z.of_nat width) ->
  (offset + width <= length buf)%nat ->
  exists buf', writeUIntLE_int width buf value offset = Ok buf' /\ length buf' = length buf.
Proof.
  intros width buf value offset Hv Hoff. unfold writeUIntLE_int.
  destruct (value >? 2 ^ (8 * Z.of_nat width) - 1) eqn:H1; [apply Z.gtb_lt in H1; lia |].
  destruct (value <? 0) eqn:H2; [apply Z.ltb_lt in H2; lia |].
  simpl. apply Buffer_store_ok. rewrite bytesLE_length. assumption.
Qed.

Lemma at_index_ok : forall A (l : list A) i, (i < length l)%nat ->
  exists a, at_index l i = Ok a /\ In a l.
Proof.
  intros A l i Hi. unfold at_index.
  destruct (nth_error l i) eqn:Hn.
  - eexists; split; [reflexivity | eapply nth_error_In; eassumption].
  - apply nth_error_None in Hn. lia.
Qed.

(** The write loop of [getBatchIds] for a component of [width] bytes. *)
Lemma batchId_writes_ok : forall width batchIds,
  (forall id, In id batchIds -> 0 <= id < 2 ^ (8 * Z.of_nat width)) ->
  exists buffer,
    forR (fun i buffer =>
            let! id := at_index batchIds i in
            writeUIntLE_int width buffer id (i * width))
         0 (length batchIds) (Buffer_alloc (length batchIds * width)) = Ok buffer /\
    length buffer = (length batchIds * width)%nat.
Proof.
  intros width batchIds Hids.
  apply forR_invariant with (P := fun b : Buffer => length b = (length batchIds * width)%nat).
  - unfold Buffer_alloc. apply repeat_length.
  - intros j s0 Hj Hlen.
    destruct (at_index_ok _ batchIds j ltac:(lia)) as (id & Hid & Hin).
    rewrite Hid. simpl.
    destruct (writeUIntLE_int_ok width s0 id (j * width) (Hids id Hin)) as (b' & Hw & Hl).
    + rewrite Hlen. nia.
    + exists b'. split; [assumption | congruence].
Qed.

Lemma findBatchLength_acc : forall batchIds acc bl,
  bl = fold_left (fun batchLength id => Js.Math_max (id + 1) batchLength) batchIds acc ->
  acc <= bl /\
  (forall id, In id batchIds -> id < bl) /\
  (bl = acc \/ exists id, In id batchIds /\ bl = id + 1).
Proof.
  intros batchIds. induction batchIds as [|a l IH]; intros acc bl Hbl; simpl in Hbl.
  - subst bl. split; [lia | split; [contradiction | left; reflexivity]].
  - destruct (IH _ _ Hbl) as (Hle & Hall & Hex). unfold Js.Math_max in *.
    split; [lia | split].
    + intros id [-> | Hin]; [lia | auto].
    + destruct Hex as [Heq | (id & Hin & Heq)].
      * destruct (Z.max_spec (a + 1) acc) as [[_ Hm] | [_ Hm]]; rewrite Hm in Heq.
        -- left. assumption.
        -- right. exists a. split; [left; reflexivity | assumption].
      * right. exists id. split; [right; assumption | assumption].
Qed.

Lemma findBatchLength_spec : forall batchIds,
  Forall (fun id => 0 <= id) batchIds ->
  (forall id, In id batchIds -> id < findBatchLength batchIds) /\
  (batchIds = [] -> findBatchLength batchIds = 0) /\
  (batchIds <> [] -> exists id, In id batchIds /\ findBatchLength batchIds = id + 1).
Proof.
  intros batchIds Hnn. unfold findBatchLength.
  destruct (findBatchLength_acc batchIds 0 _ eq_refl) as (Hle & Hall & Hex).
  split; [assumption | split].
  - intros ->. reflexivity.
  - intros Hne. destruct Hex as [Heq | Hex]; [| assumption].
    destruct batchIds as [|a l]; [contradiction |].
    specialize (Hall a (or_introl eq_refl)).
    inversion Hnn; subst. lia.
Qed.

(** C3: the BATCH_ID attribute has the narrowest integer component type
    that holds [batchLength = max(batchId) + 1] distinct values:
    UNSIGNED_BYTE up to 256, UNSIGNED_SHORT up to 65536, UNSIGNED_INT above;
    cardinalities 256, 257, 65536 and 65537 give BYTE, SHORT, SHORT, INT. *)
Theorem getBatchIds_narrowest_type :
  (forall batchIds : list Z,
     Forall (fun id => 0 <= id < 2 ^ 32) batchIds ->
     let batchLength_ := findBatchLength batchIds in
     exists p,
       getBatchIds batchIds = Ok p /\
       propertyName p = "BATCH_ID" /\
       batchLength p = Some batchLength_ /\
       (forall id, In id batchIds -> id < batchLength_) /\
       (batchIds <> [] -> exists id, In id batchIds /\ batchLength_ = id + 1) /\
       (batchLength_ <= 256 -> componentType p = UNSIGNED_BYTE) /\
       (256 < batchLength_ <= 65536 -> componentType p = UNSIGNED_SHORT) /\
       (65536 < batchLength_ -> componentType p = UNSIGNED_INT) /\
       (forall id, In id batchIds ->
          id < 2 ^ (8 * Z.of_nat (getSizeInBytes (componentType p)))) /\
       length (buffer p) = (length batchIds * getSizeInBytes (componentType p))%nat)
  /\ rmap componentType (getBatchIds [255]) = Ok UNSIGNED_BYTE
  /\ rmap componentType (getBatchIds [256]) = Ok UNSIGNED_SHORT
  /\ rmap componentType (getBatchIds [65535]) = Ok UNSIGNED_SHORT
  /\ rmap componentType (getBatchIds [65536]) = Ok UNSIGNED_INT.
Proof.
  split; [| repeat split; reflexivity].
  intros batchIds Hrange bl.
  assert (Hnn : Forall (fun id => 0 <= id) batchIds).
  { eapply Forall_impl; [| exact Hrange]. simpl. intros; lia. }
  destruct (findBatchLength_spec batchIds Hnn) as (Hlt & _ & Hmax).
  fold bl in Hlt, Hmax.
  rewrite Forall_forall in Hrange.
  unfold getBatchIds. fold bl.
  destruct (bl <=? 256) eqn:H256; [| destruct (bl <=? 65536) eqn:H65536].
  - apply Z.leb_le in H256.
    destruct (batchId_writes_ok 1 batchIds) as (buf & Hbuf & Hlen).
    { intros id Hin. specialize (Hlt id Hin). specialize (Hrange id Hin). simpl in *. lia. }
    unfold sizeOfUint8. rewrite Hbuf. simpl.
    eexists; split; [reflexivity |]. simpl.
    repeat split; try assumption; try reflexivity; try lia.
    intros id Hin. specialize (Hlt id Hin). lia.
  - apply Z.leb_gt in H256. apply Z.leb_le in H65536.
    destruct (batchId_writes_ok 2 batchIds) as (buf & Hbuf & Hlen).
    { intros id Hin. specialize (Hlt id Hin). specialize (Hrange id Hin). simpl in *. lia. }
    unfold sizeOfUint16. rewrite Hbuf. simpl.
    eexists; split; [reflexivity |]. simpl.
    repeat split; try assumption; try reflexivity; try lia.
    intros id Hin. specialize (Hlt id Hin). lia.
  - apply Z.leb_gt in H256. apply Z.leb_gt in H65536.
    destruct (batchId_writes_ok 4 batchIds) as (buf & Hbuf & Hlen).
    { intros id Hin. specialize (Hrange id Hin). simpl in *. lia. }
    unfold sizeOfUint32. rewrite Hbuf. simpl.
    eexists; split; [reflexivity |]. simpl.
    repeat split; try assumption; try reflexivity; try lia.
    intros id Hin. specialize (Hrange id Hin). simpl in *. lia.
Qed.

Lemma getBatchIds_narrowest_type_witness :
  Forall (fun id => 0 <= id < 2 ^ 32) [0; 7; 3] /\
  exists p, getBatchIds [0; 7; 3] = Ok p /\ componentType p = UNSIGNED_BYTE.
Proof.
  assert (H : Forall (fun id => 0 <= id < 2 ^ 32) [0; 7; 3]).
  { repeat constructor; lia. }
  split; [exact H |].
  destruct (proj1 getBatchIds_narrowest_type [0; 7; 3] H)
    as (p & Hp & _ & _ & _ & _ & Hbyte & _).
  exists p. split; [exact Hp | apply Hbyte; vm_compute; discriminate].
Defined.

Lemma getPropertyByName_allDefined : forall props name,
  getPropertyByName (allDefined props) name
  = Ok (find (fun p => String.eqb (propertyName p) name) props).
Proof.
  induction props as [|p props IH]; intros name; simpl.
  - reflexivity.
  - destruct (String.eqb (propertyName p) name); [reflexivity | apply IH].
Qed.

Lemma find_by_name_In : forall props name,
  In name (map propertyName props) ->
  exists p, find (fun p => String.eqb (propertyName p) name) props = Some p
            /\ propertyName p = name /\ In p props.
Proof.
  induction props as [|q props IH]; intros name Hin; simpl in *.
  - contradiction.
  - destruct (String.eqb (propertyName q) name) eqn:Hq.
    + apply String.eqb_eq in Hq. exists q. auto.
    + destruct Hin as [Heq | Hin].
      * apply String.eqb_neq in Hq. contradiction.
      * destruct (IH name Hin) as (p & Hf & Hn & Hp). exists p. auto.
Qed.

Lemma find_by_name_defined : forall props name,
  defined (find (fun p => String.eqb (propertyName p) name) props) = true
  <-> In name (map propertyName props).
Proof.
  induction props as [|q props IH]; intros name; simpl.
  - split; [discriminate | contradiction].
  - destruct (String.eqb (propertyName q) name) eqn:Hq.
    + apply String.eqb_eq in Hq. simpl. split; auto.
    + apply String.eqb_neq in Hq. rewrite IH. split; [auto | intros [H | H]; [contradiction | assumption]].
Qed.

(** The loop over [dracoSemantics] finds every listed attribute. *)
Lemma select_loop : forall ft names acc,
  incl names (map propertyName ft) ->
  exists found,
    fold_left
      (fun acc name =>
         let! dracoProperties := acc in
         let! found := getPropertyByName (allDefined ft) name in
         Ok (dracoProperties ++ [found]))
      names (Ok (allDefined acc))
    = Ok (allDefined (acc ++ found))
    /\ map propertyName found = names.
Proof.
  intros ft names. induction names as [|name names IH]; intros acc Hincl; simpl.
  - exists []. rewrite app_nil_r. split; reflexivity.
  - destruct (find_by_name_In ft name) as (p & Hfind & Hname & _).
    { apply Hincl. left. reflexivity. }
    rewrite getPropertyByName_allDefined, Hfind. simpl.
    replace (allDefined acc ++ [Some p]) with (allDefined (acc ++ [p]))
      by (unfold allDefined; rewrite map_app; reflexivity).
    destruct (IH (acc ++ [p])) as (found & Hfold & Hnames).
    { intros n Hn. apply Hincl. right. assumption. }
    exists (p :: found). rewrite Hfold, <- app_assoc. simpl.
    split; [reflexivity | congruence].
Qed.

Lemma selectDracoProperties_ok : forall dracoSemantics ft bt,
  wellFormedSemantics dracoSemantics ft ->
  exists chosen,
    selectDracoProperties dracoSemantics ft bt = Ok (allDefined chosen) /\
    map propertyName chosen = compressedNames dracoSemantics ft bt.
Proof.
  intros [names |] ft bt Hwf; unfold selectDracoProperties, compressedNames; simpl.
  - destruct Hwf as [_ Hincl].
    destruct (select_loop ft names [] Hincl) as (found & Hfold & Hnames).
    simpl in Hfold. rewrite Hfold. simpl.
    exists (found ++ bt). unfold allDefined. rewrite !map_app. split; congruence.
  - exists (ft ++ bt). unfold allDefined. rewrite !map_app. split; reflexivity.
Qed.

(** With distinct names, fewer chosen names than attributes means that an
    attribute is left out. *)
Lemma fewer_iff_excluded : forall (names : list string) (ft : list Property),
  NoDup names -> incl names (map propertyName ft) -> NoDup (map propertyName ft) ->
  ((length names < length ft)%nat <->
   exists p, In p ft /\ ~ In (propertyName p) names).
Proof.
  intros names ft Hnd Hincl Hndft. split.
  - intros Hlt.
    destruct (Exists_dec (fun p => ~ In (propertyName p) names) ft) as [Hex | Hno].
    { intros p. destruct (in_dec string_dec (propertyName p) names); [right | left]; tauto. }
    + apply Exists_exists in Hex. exact Hex.
    + exfalso.
      assert (Hall : incl (map propertyName ft) names).
      { intros n Hn. apply in_map_iff in Hn. destruct Hn as (p & <- & Hp).
        destruct (in_dec string_dec (propertyName p) names) as [Hi | Hni]; [assumption |].
        exfalso. apply Hno. apply Exists_exists. exists p. auto. }
      pose proof (NoDup_incl_length Hndft Hall) as Hle.
      rewrite length_map in Hle. lia.
  - intros (p & Hp & Hnot).
    assert (Hincl' : incl names (remove string_dec (propertyName p) (map propertyName ft))).
    { intros n Hn. apply in_in_remove; [congruence | apply Hincl; assumption]. }
    pose proof (NoDup_incl_length Hnd Hincl') as Hle.
    assert (Hrem : (length (remove string_dec (propertyName p) (map propertyName ft))
                    < length (map propertyName ft))%nat).
    { apply remove_length_lt. apply in_map. assumption. }
    rewrite length_map in Hrem. lia.
Qed.

Lemma choosePreserveOrder_allDefined : forall chosen ft bt,
  choosePreserveOrder (allDefined chosen) ft bt
  = Ok (defined (find (fun p => String.eqb (propertyName p) "NORMAL") chosen)
        || (length chosen <? length ft + length bt)%nat).
Proof.
  intros chosen ft bt. unfold choosePreserveOrder.
  rewrite getPropertyByName_allDefined. simpl.
  unfold allDefined. rewrite length_map. reflexivity.
Qed.

Lemma routeAttributeIds_ok : forall ft bt ids acc,
  exists routed, routeAttributeIds ft bt ids acc = Ok routed.
Proof.
  intros ft bt ids. induction ids as [|[name id] ids IH]; intros [fp bp]; simpl.
  - eauto.
  - rewrite !getPropertyByName_allDefined. simpl. apply IH.
Qed.

(** The loop over [dracoSemantics] finds every listed attribute, listed
    twice or not. *)
Lemma selectDracoProperties_known : forall dracoSemantics ft bt,
  knownSemantics dracoSemantics ft ->
  exists chosen,
    selectDracoProperties dracoSemantics ft bt = Ok (allDefined chosen) /\
    map propertyName chosen = compressedNames dracoSemantics ft bt.
Proof.
  intros [names |] ft bt Hknown; unfold selectDracoProperties, compressedNames; simpl.
  - destruct (select_loop ft names [] Hknown) as (found & Hfold & Hnames).
    simpl in Hfold. rewrite Hfold. simpl.
    exists (found ++ bt). unfold allDefined. rewrite !map_app. split; congruence.
  - exists (ft ++ bt). unfold allDefined. rewrite !map_app. split; reflexivity.
Qed.

(** On semantics without duplicates, with something to compress, the
    length test of line 361 is the mixed mode. *)
Lemma fewer_iff_mixedMode : forall sem ft bt,
  wellFormedSemantics sem ft ->
  NoDup (map propertyName ft) ->
  compressedNames sem ft bt <> [] ->
  ((length (compressedNames sem ft bt) < length ft + length bt)%nat
   <-> mixedMode sem ft bt).
Proof.
  intros sem ft bt Hwf Hndft Hne.
  unfold mixedMode. unfold compressedNames at 1. rewrite length_app, length_map.
  destruct sem as [names |]; simpl in *.
  - destruct Hwf as [Hnd Hincl].
    pose proof (fewer_iff_excluded names ft Hnd Hincl Hndft) as Hiff.
    split.
    + intros Hlt. split; [apply Hiff; lia | assumption].
    + intros [Hex _]. apply Hiff in Hex. lia.
  - rewrite length_map. split.
    + intros Hlt. lia.
    + intros [(p & Hp & Hnot) _]. exfalso. apply Hnot. apply in_map. assumption.
Qed.

(** [dracoEncode] returns the blob the encoder gives when it is run with
    the settings of the chosen [preserveOrder]. *)
Lemma dracoEncode_runs_encoder :
  forall (E : Env) pointsLength sem ft bt chosen pointCloud attributeIds,
    selectDracoProperties sem ft bt = Ok (allDefined chosen) ->
    addAttributes pointsLength (allDefined chosen) PointCloud_new []
      = Ok (pointCloud, attributeIds) ->
    forall preserveOrder,
      choosePreserveOrder (allDefined chosen) ft bt = Ok preserveOrder ->
      rmap dracoBuffer (dracoEncode pointsLength sem ft bt)
      = encodedBlob (encoderSettings preserveOrder) pointCloud.
Proof.
  intros E n sem ft bt chosen pc ids Hsel Hadd po Hch.
  unfold dracoEncode, encodedBlob. rewrite Hsel. cbn [rbind]. rewrite Hch. cbn [rbind].
  unfold dracoEncodeProperties. rewrite Hadd. cbn [rbind].
  destruct (Encoder_EncodePointCloudToDracoBuffer (encoderSettings po) pc)
    as [encodedLength data].
  cbn [fst snd].
  destruct (encodedLength <=? 0); cbn [rbind rmap]; [reflexivity |].
  destruct (routeAttributeIds_ok ft bt ids ([], [])) as ([fp bp] & Hr).
  rewrite Hr. reflexivity.
Qed.

(** C4 (amended): [dracoEncode] has the encoder use sequential
    (order-preserving) encoding exactly when NORMAL is among the attributes
    handed to the compressor, or fewer attributes are handed to it - the
    entries of [dracoSemantics], counted with repetitions, and every
    batch-table attribute - than the two tables hold together; otherwise
    the encoding method is left at the encoder's default, and the blob
    [dracoEncode] returns is the one the encoder gives under these
    settings.  For semantics without duplicates and with at least one
    attribute compressed, the second condition is that an attribute is
    excluded from compression while others are included. *)
Theorem preserveOrder_iff_normals_or_fewer_compressed :
  forall (E : Env) (dracoSemantics : option (list string))
         (featureTableProperties batchTableProperties : list Property),
    knownSemantics dracoSemantics featureTableProperties ->
    exists dracoProperties preserveOrder,
      selectDracoProperties dracoSemantics featureTableProperties batchTableProperties
        = Ok (allDefined dracoProperties) /\
      map propertyName dracoProperties
        = compressedNames dracoSemantics featureTableProperties batchTableProperties /\
      choosePreserveOrder (allDefined dracoProperties)
        featureTableProperties batchTableProperties = Ok preserveOrder /\
      (preserveOrder = true <->
         In "NORMAL"
            (compressedNames dracoSemantics featureTableProperties batchTableProperties)
         \/ (length (compressedNames dracoSemantics featureTableProperties
                       batchTableProperties)
             < length featureTableProperties + length batchTableProperties)%nat) /\
      (wellFormedSemantics dracoSemantics featureTableProperties ->
       NoDup (map propertyName featureTableProperties) ->
       compressedNames dracoSemantics featureTableProperties batchTableProperties <> [] ->
       (preserveOrder = true <->
          In "NORMAL"
             (compressedNames dracoSemantics featureTableProperties batchTableProperties)
          \/ mixedMode dracoSemantics featureTableProperties batchTableProperties)) /\
      encodingMethod (encoderSettings preserveOrder)
        = (if preserveOrder then Some POINT_CLOUD_SEQUENTIAL_ENCODING else None) /\
      (forall pointsLength pointCloud attributeIds,
         addAttributes pointsLength (allDefined dracoProperties) PointCloud_new []
           = Ok (pointCloud, attributeIds) ->
         rmap dracoBuffer
           (dracoEncode pointsLength dracoSemantics
              featureTableProperties batchTableProperties)
         = encodedBlob (encoderSettings preserveOrder) pointCloud).
Proof.
  intros E sem ft bt Hknown.
  destruct (selectDracoProperties_known sem ft bt Hknown) as (chosen & Hsel & Hnames).
  exists chosen. eexists. split; [exact Hsel |]. split; [exact Hnames |].
  split; [apply choosePreserveOrder_allDefined |].
  assert (Hiff : defined (find (fun p => String.eqb (propertyName p) "NORMAL") chosen)
                 || (length chosen <? length ft + length bt)%nat = true
                 <-> In "NORMAL" (compressedNames sem ft bt)
                     \/ (length (compressedNames sem ft bt)
                         < length ft + length bt)%nat).
  { rewrite orb_true_iff, find_by_name_defined, Hnames, Nat.ltb_lt.
    rewrite <- (length_map propertyName chosen), Hnames. reflexivity. }
  split; [exact Hiff |].
  split; [| split; [reflexivity |]].
  - intros Hwf Hndft Hne. rewrite Hiff.
    rewrite (fewer_iff_mixedMode sem ft bt Hwf Hndft Hne). reflexivity.
  - intros n pc ids Hadd.
    apply (dracoEncode_runs_encoder E n sem ft bt chosen pc ids Hsel Hadd).
    apply choosePreserveOrder_allDefined.
Qed.

Lemma preserveOrder_iff_normals_or_fewer_compressed_witness :
  knownSemantics (Some ["POSITION"]) positionAndColor
  /\ choosePreserveOrder
       (allDefined [{| buffer := repeat x00 24; propertyName := "POSITION";
                       componentType := FLOAT; type := VEC3; batchLength := None |}])
       positionAndColor [] = Ok true
  /\ rmap dracoBuffer
          (dracoEncode (E := methodEnv) 2 (Some ["POSITION"]) positionAndColor [])
     = Ok [x00; x00].
Proof.
  assert (Hknown : knownSemantics (Some ["POSITION"]) positionAndColor).
  { intros name [<- | []]. left. reflexivity. }
  destruct (preserveOrder_iff_normals_or_fewer_compressed methodEnv
              (Some ["POSITION"]) positionAndColor [] Hknown)
    as (dracoProperties & preserveOrder & Hsel & _ & Hchoose & Hiff & _ & _ & Hrun).
  assert (Hdp : dracoProperties
                = [{| buffer := repeat x00 24; propertyName := "POSITION";
                      componentType := FLOAT; type := VEC3; batchLength := None |}]).
  { assert (Hs : selectDracoProperties (Some ["POSITION"]) positionAndColor []
                 = Ok (allDefined
                         [{| buffer := repeat x00 24; propertyName := "POSITION";
                             componentType := FLOAT; type := VEC3;
                             batchLength := None |}])) by reflexivity.
    rewrite Hs in Hsel. injection Hsel as Hsel.
    destruct dracoProperties as [|p [|q l]]; try discriminate Hsel.
    injection Hsel as <-. reflexivity. }
  assert (Hpo : preserveOrder = true).
  { apply Hiff. right. cbn. lia. }
  subst dracoProperties preserveOrder.
  split; [exact Hknown |]. split; [exact Hchoose |].
  rewrite (Hrun 2%nat _ _ eq_refl). reflexivity.
Defined.

(** C4 as stated fails.  With the semantic POSITION listed twice over the
    attributes POSITION and RGB, RGB is excluded from compression while
    POSITION is included, but two entries are not fewer than two
    attributes and the encoder is left at its default method.  With an
    empty list of semantics and no batch-table attribute nothing is
    included and NORMAL is not chosen, but the encoder is set to the
    sequential method. *)
Lemma preserveOrder_duplicate_semantics_counterexample :
  mixedMode (Some ["POSITION"; "POSITION"]) positionAndColor []
  /\ rmap dracoBuffer
          (dracoEncode (E := methodEnv) 2 (Some ["POSITION"; "POSITION"])
             positionAndColor [])
     = Ok [x00]
  /\ ~ In "NORMAL" (compressedNames (Some []) positionAndColor [])
  /\ ~ mixedMode (Some []) positionAndColor []
  /\ rmap dracoBuffer
          (dracoEncode (E := methodEnv) 2 (Some []) positionAndColor [])
     = Ok [x00; x00].
Proof.
  split; [| split; [| split; [| split]]].
  - split; [| discriminate].
    eexists. split; [right; left; reflexivity |].
    cbn. intros [H | [H | []]]; discriminate H.
  - reflexivity.
  - intros [].
  - intros [_ H]. apply H. reflexivity.
  - reflexivity.
Qed.

Lemma dracoEncodeProperties_cases :
  forall (E : Env) pointsLength properties preserveOrder pointCloud attributeIds
         encodedLength data,
    addAttributes pointsLength properties PointCloud_new [] = Ok (pointCloud, attributeIds) ->
    Encoder_EncodePointCloudToDracoBuffer (encoderSettings preserveOrder) pointCloud
      = (encodedLength, data) ->
    (encodedLength <= 0 ->
       dracoEncodeProperties pointsLength properties preserveOrder = Err EncodingFailed) /\
    (0 < encodedLength ->
       exists blob,
         dracoEncodeProperties pointsLength properties preserveOrder
           = Ok (blob, attributeIds) /\
         Z.of_nat (length blob) = encodedLength /\
         blob = map (fun i => byte_of_Z (data (Z.of_nat i)))
                    (seq 0 (Z.to_nat encodedLength))).
Proof.
  intros E n props po pc ids len data Hadd Henc.
  unfold dracoEncodeProperties. rewrite Hadd. cbn [rbind]. rewrite Henc.
  split; intros Hlen.
  - destruct (Z.leb_spec len 0); [reflexivity | lia].
  - destruct (Z.leb_spec len 0); [lia |].
    eexists. split; [reflexivity |]. split; [| reflexivity].
    rewrite length_map, length_seq. lia.
Qed.

Lemma dracoEncodeProperties_never_ok :
  forall (E : Env),
    (forall settings pointCloud,
       fst (Encoder_EncodePointCloudToDracoBuffer settings pointCloud) <= 0) ->
    forall pointsLength properties preserveOrder,
      exists e, dracoEncodeProperties pointsLength properties preserveOrder = Err e.
Proof.
  intros E Hfail n props po. unfold dracoEncodeProperties.
  destruct (addAttributes n props PointCloud_new []) as [[pc ids] | e]; cbn [rbind]; [| eauto].
  specialize (Hfail (encoderSettings po) pc).
  destruct (Encoder_EncodePointCloudToDracoBuffer (encoderSettings po) pc) as [len data].
  cbn [fst] in Hfail.
  destruct (Z.leb_spec len 0); [eauto | lia].
Qed.

Lemma dracoEncode_never_ok :
  forall (E : Env),
    (forall settings pointCloud,
       fst (Encoder_EncodePointCloudToDracoBuffer settings pointCloud) <= 0) ->
    forall pointsLength sem ft bt,
      exists e, dracoEncode pointsLength sem ft bt = Err e.
Proof.
  intros E Hfail n sem ft bt. unfold dracoEncode.
  destruct (selectDracoProperties sem ft bt) as [dp | e]; cbn [rbind]; [| eauto].
  destruct (choosePreserveOrder dp ft bt) as [po | e]; cbn [rbind]; [| eauto].
  destruct (dracoEncodeProperties_never_ok E Hfail n dp po) as (e & He).
  rewrite He. cbn [rbind]. eauto.
Qed.

Lemma sections_never_ok :
  forall (E : Env) (options : Options E) g,
    draco options = Some true ->
    (forall settings pointCloud,
       fst (Encoder_EncodePointCloudToDracoBuffer settings pointCloud) <= 0) ->
    forall tile g', createPointCloudTile_sections (Some options) g <> (Ok tile, g').
Proof.
  intros E options g Hdraco Hfail tile g' H.
  unfold createPointCloudTile_sections in H.
  apply bind_Ok_inv in H. destruct H as (u & g1 & _ & H).
  cbv zeta in H. cbn [defaultValue] in H. rewrite Hdraco in H. cbn [defaultValue] in H.
  apply bind_Ok_inv in H. destruct H as (points & g2 & _ & H).
  apply bind_Ok_inv in H. destruct H as (bt & g3 & _ & H).
  apply bind_Ok_inv in H. destruct H as (r & g4 & Hdr & _).
  apply bind_Ok_inv in Hdr. destruct Hdr as (dr & g5 & Hdr & _).
  apply lift_Ok_inv in Hdr. destruct Hdr as [Hdr _].
  match type of Hdr with
  | dracoEncode ?n ?sem ?ft ?bt = _ =>
      destruct (dracoEncode_never_ok E Hfail n sem ft bt) as (e & He)
  end.
  congruence.
Qed.

(** The same call with a compressor that succeeds: the feature-table
    binary is the blob, of the length the compressor reported. *)
Lemma encoding_success_example :
  exists tile,
    Sample.run (dracoOptions Sample.env) = Ok tile /\
    length (featureTableBinary (sections tile)) = (5 + 8 * 12 + 8 * 3)%nat /\
    extensionsUsed tile = Some ["3DTILES_draco_point_compression"].
Proof.
  eexists. split; [vm_compute; reflexivity |]. split; vm_compute; reflexivity.
Qed.

(** The three keys of claim C6 are not set by the attribute loop. *)
Lemma volume_keys_not_attributes :
  ~ In "QUANTIZED_VOLUME_SCALE" featureAttributeNames /\
  ~ In "QUANTIZED_VOLUME_OFFSET" featureAttributeNames /\
  ~ In "RTC_CENTER" featureAttributeNames.
Proof.
  unfold featureAttributeNames. repeat split; intros H;
    repeat (destruct H as [H | H]; [discriminate H |]); exact H.
Qed.

(** The feature-table JSON of a generated tile, looked up at a key that is
    neither an attribute name nor [extensions], is what the statements
    after the attribute loop (lines 205-224) have put there. *)
Lemma sections_json_after_loop :
  forall (E : Env) (options : Options E) (g : Globals E) tile g' k,
    createPointCloudTile_sections (Some options) g = (Ok tile, g') ->
    ~ In k featureAttributeNames -> k <> "extensions" ->
    k <> "POINTS_LENGTH" -> k <> "CONSTANT_RGBA" -> k <> "BATCH_LENGTH" ->
    let tileWidth_ := defaultValue (tileWidth options) 10%float in
    let radius := (tileWidth_ / 2)%float in
    let center :=
      Matrix4_getTranslation (defaultValue (transform options) Matrix4_IDENTITY) in
    let quantizePositions_ :=
      defaultValue (quantizePositions options) false
      && negb (defaultValue (draco options) false) in
    obj_get (featureTableJson (sections tile)) k
    = obj_get
        (if quantizePositions_ then
           obj_set
             (obj_set [] "QUANTIZED_VOLUME_SCALE"
                (JArr [JNum tileWidth_; JNum tileWidth_; JNum tileWidth_]))
             "QUANTIZED_VOLUME_OFFSET"
             (JArr [JNum (x center - radius); JNum (y center - radius);
                    JNum (z center - radius)])
         else if defaultValue (relativeToCenter options) true then
           obj_set [] "RTC_CENTER"
             (JArr [JNum (x center); JNum (y center); JNum (z center)])
         else []) k.
Proof.
  intros E options g tile g' k H Hk Hext Hpl Hcc Hbl tileWidth_ radius center q.
  invert_sections H.
  assert (Hnames := featureTableProperties_names E _ _ _ _ _ _ _ _ _ _ _ _ _
                      (defaultValue (generateNormals options) false)
                      (defaultValue (batched options) false) Hpoints
                      (colorModeFunction_cases _)).
  assert (Hftj := draco_stage_json E _ _ _ _ _ _ _ _ _ _ _ _ _ Hdraco k Hext).
  assert (Hloopk : obj_get ftj' k = None).
  { replace ftj' with (snd (ftb', ftj')) by reflexivity. rewrite <- Hloop.
    apply featureTableLoop_absent; assumption. }
  clear Hpoints Hdraco Hloop Hbloop Hnames Hftj Hbt.
  cbn [featureTableJson sections].
  fold tileWidth_ in Hbatched |- *. fold radius in Hbatched |- *.
  fold center in Hbatched |- *. fold q in Hbatched |- *.
  assert (Hfinal :
    forall J : JsObject, obj_get J k = None ->
      obj_get
        (if q then
           obj_set (obj_set J "QUANTIZED_VOLUME_SCALE"
                      (JArr [JNum tileWidth_; JNum tileWidth_; JNum tileWidth_]))
             "QUANTIZED_VOLUME_OFFSET"
             (JArr [JNum (x center - radius); JNum (y center - radius);
                    JNum (z center - radius)])
         else if defaultValue (relativeToCenter options) true then
           obj_set J "RTC_CENTER"
             (JArr [JNum (x center); JNum (y center); JNum (z center)])
         else J) k
      = obj_get
        (if q then
           obj_set (obj_set [] "QUANTIZED_VOLUME_SCALE"
                      (JArr [JNum tileWidth_; JNum tileWidth_; JNum tileWidth_]))
             "QUANTIZED_VOLUME_OFFSET"
             (JArr [JNum (x center - radius); JNum (y center - radius);
                    JNum (z center - radius)])
         else if defaultValue (relativeToCenter options) true then
           obj_set [] "RTC_CENTER"
             (JArr [JNum (x center); JNum (y center); JNum (z center)])
         else []) k).
  { intros J HJ.
    destruct q; [| destruct (defaultValue (relativeToCenter options) true)].
    - destruct (string_dec "QUANTIZED_VOLUME_OFFSET" k) as [<- | Hno].
      + rewrite !obj_get_set_eq. reflexivity.
      + rewrite !(obj_get_set_ne _ _ "QUANTIZED_VOLUME_OFFSET") by assumption.
        destruct (string_dec "QUANTIZED_VOLUME_SCALE" k) as [<- | Hns].
        * rewrite !obj_get_set_eq. reflexivity.
        * rewrite !obj_get_set_ne by assumption. assumption.
    - destruct (string_dec "RTC_CENTER" k) as [<- | Hnr].
      + rewrite !obj_get_set_eq. reflexivity.
      + rewrite !obj_get_set_ne by assumption. assumption.
    - assumption. }
  match type of Hbatched with
  | context [obj_set ftj' "POINTS_LENGTH" ?v] =>
      assert (H1 : obj_get (obj_set ftj' "POINTS_LENGTH" v) k = None)
        by (rewrite obj_get_set_ne by congruence; assumption);
      set (J1 := obj_set ftj' "POINTS_LENGTH" v) in *
  end.
  match type of Hbatched with
  | context [match ?cc with Some c => obj_set J1 "CONSTANT_RGBA" _ | None => J1 end] =>
      assert (H2 : obj_get (match cc with
                            | Some c => obj_set J1 "CONSTANT_RGBA" (JArr (map JInt c))
                            | None => J1 end) k = None)
        by (destruct cc; [rewrite obj_get_set_ne by congruence |]; assumption);
      set (J2 := match cc with
                 | Some c => obj_set J1 "CONSTANT_RGBA" (JArr (map JInt c))
                 | None => J1 end) in *
  end.
  specialize (Hfinal J2 H2).
  destruct (defaultValue (batched options) false).
  - destruct (batchLength (batchIds points)) as [bl |];
      [| apply lift_Ok_inv in Hbatched; destruct Hbatched; discriminate].
    apply bind_Ok_inv in Hbatched. destruct Hbatched as (table & g6 & _ & Hret).
    unfold ret in Hret. inversion Hret; subst; clear Hret.
    rewrite obj_get_set_ne by congruence. exact Hfinal.
  - unfold ret in Hbatched. inversion Hbatched; subst; clear Hbatched.
    exact Hfinal.
Qed.

Lemma volume_keys_side_conditions : forall k,
  k = "QUANTIZED_VOLUME_SCALE" \/ k = "QUANTIZED_VOLUME_OFFSET" \/ k = "RTC_CENTER" ->
  ~ In k featureAttributeNames /\ k <> "extensions" /\
  k <> "POINTS_LENGTH" /\ k <> "CONSTANT_RGBA" /\ k <> "BATCH_LENGTH".
Proof.
  destruct volume_keys_not_attributes as (Ks & Ko & Kr).
  intros k [-> | [-> | ->]]; repeat split; try assumption; discriminate.
Qed.

(** C6 (as amended): when [quantizePositions] is set and draco is not, the
    feature-table JSON has QUANTIZED_VOLUME_OFFSET and
    QUANTIZED_VOLUME_SCALE and no RTC_CENTER; with draco, quantization is
    switched off and neither QUANTIZED field is written; in every tile the
    two groups are never both present. *)
Theorem quantized_volume_excludes_rtc_center :
  forall (E : Env) (options : Options E) (g : Globals E) tile g',
    createPointCloudTile_sections (Some options) g = (Ok tile, g') ->
    let json := featureTableJson (sections tile) in
    let tileWidth_ := defaultValue (tileWidth options) 10%float in
    let radius := (tileWidth_ / 2)%float in
    let center :=
      Matrix4_getTranslation (defaultValue (transform options) Matrix4_IDENTITY) in
    (quantizePositions options = Some true -> draco options <> Some true ->
       obj_get json "QUANTIZED_VOLUME_SCALE"
         = Some (JArr [JNum tileWidth_; JNum tileWidth_; JNum tileWidth_]) /\
       obj_get json "QUANTIZED_VOLUME_OFFSET"
         = Some (JArr [JNum (x center - radius); JNum (y center - radius);
                       JNum (z center - radius)]) /\
       obj_get json "RTC_CENTER" = None)
    /\ (draco options = Some true ->
          obj_get json "QUANTIZED_VOLUME_SCALE" = None /\
          obj_get json "QUANTIZED_VOLUME_OFFSET" = None)
    /\ (obj_get json "RTC_CENTER" <> None ->
          obj_get json "QUANTIZED_VOLUME_SCALE" = None /\
          obj_get json "QUANTIZED_VOLUME_OFFSET" = None).
Proof.
  intros E options g tile g' H json tileWidth_ radius center.
  assert (Hkey : forall k,
             k = "QUANTIZED_VOLUME_SCALE" \/ k = "QUANTIZED_VOLUME_OFFSET"
             \/ k = "RTC_CENTER" ->
             obj_get json k
             = obj_get
                 (if defaultValue (quantizePositions options) false
                     && negb (defaultValue (draco options) false)
                  then
                    obj_set
                      (obj_set [] "QUANTIZED_VOLUME_SCALE"
                         (JArr [JNum tileWidth_; JNum tileWidth_; JNum tileWidth_]))
                      "QUANTIZED_VOLUME_OFFSET"
                      (JArr [JNum (x center - radius); JNum (y center - radius);
                             JNum (z center - radius)])
                  else if defaultValue (relativeToCenter options) true then
                    obj_set [] "RTC_CENTER"
                      (JArr [JNum (x center); JNum (y center); JNum (z center)])
                  else []) k).
  { intros k Hk.
    destruct (volume_keys_side_conditions k Hk) as (H1 & H2 & H3 & H4 & H5).
    exact (sections_json_after_loop E options g tile g' k H H1 H2 H3 H4 H5). }
  pose proof (Hkey "QUANTIZED_VOLUME_SCALE" (or_introl eq_refl)) as Hs.
  pose proof (Hkey "QUANTIZED_VOLUME_OFFSET" (or_intror (or_introl eq_refl))) as Ho.
  pose proof (Hkey "RTC_CENTER" (or_intror (or_intror eq_refl))) as Hr.
  clear Hkey H.
  split; [| split].
  - intros Hq Hd. rewrite Hs, Ho, Hr, Hq.
    assert (Hdraco : defaultValue (draco options) false = false)
      by (destruct (draco options) as [[|] |]; [congruence | reflexivity | reflexivity]).
    rewrite Hdraco. cbn [defaultValue andb negb].
    repeat split; vm_compute; reflexivity.
  - intros Hd. rewrite Hs, Ho, Hd. cbn [defaultValue negb]. rewrite andb_false_r.
    destruct (defaultValue (relativeToCenter options) true); split; reflexivity.
  - intros Hrtc. rewrite Hr in Hrtc. rewrite Hs, Ho.
    destruct (defaultValue (quantizePositions options) false
              && negb (defaultValue (draco options) false)).
    + exfalso. apply Hrtc. reflexivity.
    + destruct (defaultValue (relativeToCenter options) true); split; reflexivity.
Qed.

Lemma quantized_volume_excludes_rtc_center_witness :
  exists tile,
    Sample.run quantizedOptions = Ok tile /\
    obj_get (featureTableJson (sections tile)) "QUANTIZED_VOLUME_SCALE"
      = Some (JArr [JNum 10; JNum 10; JNum 10]) /\
    obj_get (featureTableJson (sections tile)) "QUANTIZED_VOLUME_OFFSET"
      = Some (JArr [JNum (-5); JNum (-5); JNum (-5)]) /\
    obj_get (featureTableJson (sections tile)) "RTC_CENTER" = None.
Proof.
  assert (Hex : exists tile, Sample.run quantizedOptions = Ok tile)
    by (eexists; vm_compute; reflexivity).
  destruct Hex as (tile & Hok). unfold Sample.run in Hok.
  destruct (createPointCloudTile_sections (Some quantizedOptions) moduleInit)
    as [r g'] eqn:Hrun.
  cbn [fst] in Hok. subst r.
  exists tile. split; [unfold Sample.run; rewrite Hrun; reflexivity |].
  exact (proj1 (quantized_volume_excludes_rtc_center
                  Sample.env quantizedOptions moduleInit tile g' Hrun)
               eq_refl ltac:(discriminate)).
Defined.

(** C6 as stated fails: with [quantizePositions = true] and
    [draco = true], line 67 clears the flag, and the tile has RTC_CENTER
    and no QUANTIZED_VOLUME field. *)
Lemma quantizePositions_with_draco_counterexample :
  exists tile,
    quantizePositions quantizedDracoOptions = Some true /\
    Sample.run quantizedDracoOptions = Ok tile /\
    obj_get (featureTableJson (sections tile)) "QUANTIZED_VOLUME_OFFSET" = None /\
    obj_get (featureTableJson (sections tile)) "QUANTIZED_VOLUME_SCALE" = None /\
    obj_get (featureTableJson (sections tile)) "RTC_CENTER"
      = Some (JArr [JNum 0; JNum 0; JNum 0]).
Proof.
  eexists. split; [reflexivity |].
  split; [vm_compute; reflexivity |].
  split; [vm_compute; reflexivity |].
  split; vm_compute; reflexivity.
Qed.










(** C8 (the code at the failing input): a color of alpha 1.0, which is what
    [gradientFunction] gives every point, is stored with the alpha byte
    128, and 128 of 255 is not below one half. *)
Theorem getColorsRGBA_alpha_at_full_opacity :
  encodeAlpha 1 = 128%float
  /\ rmap buffer (getColorsRGBA [white]) = Ok [xff; xff; xff; x80]
  /\ Z_of_byte x80 = 128
  /\ ~ (2 * Z_of_byte x80 < 255)
  /\ (forall (E : Env) (position : Cartesian3) (g : Globals E),
        exists c, fst (gradientFunction position g) = Ok c /\ alpha c = 1%float)
  /\ (exists tile,
        Sample.run gradientRgbaOptions = Ok tile /\
        recordedByteOffset (featureTableJson (sections tile)) "RGBA" = Some 96 /\
        alphaBytes (featureTableBinary (sections tile)) 96 8 = repeat (Some x80) 8).
Proof.
  split; [vm_compute; reflexivity |].
  split; [vm_compute; reflexivity |].
  split; [vm_compute; reflexivity |].
  split; [vm_compute; discriminate |].
  split.
  - intros E position g. eexists. split; reflexivity.
  - eexists. split; [vm_compute; reflexivity |].
    split; vm_compute; reflexivity.
Qed.

(** C9: a point whose local position equals the zero vector gets the
    fixed normal (1,0,0) before the tile transform, so no NaN arises where
    normalizing the zero vector would give one; any other position gets
    its normalized position; and the normal stored is that vector
    multiplied by the inverse-transpose of the transform and normalized
    again. *)
Theorem zero_position_normal_fallback :
  forall (E : Env),
    (forall position,
       Cartesian3Ops.equals position Cartesian3Ops.ZERO = true ->
       localNormal position = Ok unitX)
    /\ localNormal Cartesian3Ops.ZERO = Ok unitX
    /\ Cartesian3Ops.hasNaN unitX = false
    /\ (exists v, Cartesian3Ops.normalize false Cartesian3Ops.ZERO = Ok v /\
                  Cartesian3Ops.hasNaN v = true)
    /\ Cartesian3Ops.normalize true Cartesian3Ops.ZERO = Err DeveloperError
    /\ (forall position,
          Cartesian3Ops.equals position Cartesian3Ops.ZERO = false ->
          localNormal position = Cartesian3Ops.normalize cesiumDebug position)
    /\ (forall pointsLength radius colorFunction shapeFunction quantizePositions
               relativeToCenter transform inverseTranspose center time i arrays g arrays' g',
          getPoints_body pointsLength radius colorFunction shapeFunction quantizePositions
            relativeToCenter transform inverseTranspose center time i arrays g
          = (Ok arrays', g') ->
          exists position g1 normal0 normal,
            call shapeFunction (i, pointsLength, radius) g = (Ok position, g1) /\
            localNormal position = Ok normal0 /\
            Cartesian3Ops.normalize cesiumDebug
              (Matrix4_multiplyByPointAsVector inverseTranspose normal0) = Ok normal /\
            normalsArray arrays' = normalsArray arrays ++ [normal]).
Proof.
  intros E.
  split; [intros position H; unfold localNormal; rewrite H; reflexivity |].
  split; [reflexivity |].
  split; [reflexivity |].
  split; [eexists; split; vm_compute; reflexivity |].
  split; [vm_compute; reflexivity |].
  split; [intros position H; unfold localNormal; rewrite H; reflexivity |].
  intros pointsLength radius colorFunction shapeFunction quantizePositions
      relativeToCenter transform inverseTranspose center time i arrays g arrays' g' H.
    unfold getPoints_body in H.
    apply bind_Ok_inv in H. destruct H as (position & g1 & Hshape & H).
    apply bind_Ok_inv in H. destruct H as (normal0 & g2 & Hn0 & H).
    apply lift_Ok_inv in Hn0. destruct Hn0 as [Hn0 ->].
    apply bind_Ok_inv in H. destruct H as (color & g3 & Hcolor & H).
    apply bind_Ok_inv in H. destruct H as (noise & g4 & Hnoise & H).
    apply bind_Ok_inv in H. destruct H as (normal & g5 & Hn & H).
    apply lift_Ok_inv in Hn. destruct Hn as [Hn ->].
    unfold ret in H. inversion H; subst.
    exists position, g1, normal0, normal. cbn [normalsArray].
    repeat split; assumption.
Qed.

Lemma zero_position_normal_fallback_witness :
  let position := {| x := PrimFloat.neg_zero; y := 0; z := PrimFloat.neg_zero |} in
  Cartesian3Ops.equals position Cartesian3Ops.ZERO = true /\
  @localNormal Sample.env position = Ok unitX.
Proof.
  intros position.
  assert (H : Cartesian3Ops.equals position Cartesian3Ops.ZERO = true)
    by (vm_compute; reflexivity).
  split; [exact H |].
  exact (proj1 (zero_position_normal_fallback Sample.env) position H).
Defined.

(** With Cesium's debug checks on, the lattice of 27 points - whose point
    13 is at the centre of the box - is generated without an error. *)
Lemma centre_point_example :
  fst (boxFunction 13 27 5%float (@moduleInit Sample.env)) = Ok Cartesian3Ops.ZERO /\
  @cesiumDebug Sample.env = true /\
  isOk (Sample.run boxOf27) = true.
Proof.
  split; [vm_compute; reflexivity |].
  split; vm_compute; reflexivity.
Qed.

Lemma obj_get_set_defined : forall A (o : list (string * A)) k v k',
  obj_get o k' <> None -> obj_get (obj_set o k v) k' <> None.
Proof.
  intros A o k v k' H. destruct (string_dec k k') as [<- | Hne].
  - rewrite obj_get_set_eq. discriminate.
  - rewrite obj_get_set_ne by assumption. assumption.
Qed.

(** C10: with [draco = true] and [colorMode = 'rgb565'] the color mode
    becomes 'rgb' before generation: the tile has an RGB attribute of
    UNSIGNED_BYTE VEC3 and no RGB565 attribute. *)
Theorem rgb565_with_draco_becomes_rgb :
  forall (E : Env) (options : Options E) (g : Globals E) tile g',
    createPointCloudTile_sections (Some options) g = (Ok tile, g') ->
    draco options = Some true ->
    colorMode options = Some "rgb565" ->
    (exists p, In p (featureTableProperties tile) /\
               propertyName p = "RGB" /\ componentType p = UNSIGNED_BYTE /\
               type p = VEC3) /\
    (forall p, In p (featureTableProperties tile) -> propertyName p <> "RGB565") /\
    obj_get (featureTableJson (sections tile)) "RGB" <> None /\
    obj_get (featureTableJson (sections tile)) "RGB565" = None.
Proof.
  intros E options g tile g' H Hd Hcm.
  invert_sections H.
  assert (Hftj := draco_stage_json E _ _ _ _ _ _ _ _ _ _ _ _ _ Hdraco).
  rewrite Hd, Hcm in *. cbn [defaultValue] in *.
  cbn [String.eqb Ascii.eqb Bool.eqb andb negb] in Hpoints, Hloop, Hbatched.
  rewrite !andb_false_r in Hpoints, Hbatched.
  apply getPoints_shape in Hpoints. destruct Hpoints as (Hp & Hn & Hb & (l & c & Hc & Hcs)).
  apply getColorsRGB_shape in Hc. destruct Hc as (Hcn & Hct & Hcty).
  rewrite ?andb_false_r in Hn. cbv iota in Hp, Hn.
  cbn [featureTableProperties featureTableJson sections].
  rewrite Hcs in *.
  set (props :=
         if defaultValue (batched options) false
         then (if defaultValue (generateNormals options) false
               then ([positions points] ++ [c]) ++ [normals points]
               else [positions points] ++ [c]) ++ [batchIds points]
         else if defaultValue (generateNormals options) false
              then ([positions points] ++ [c]) ++ [normals points]
              else [positions points] ++ [c]) in *.
  assert (Hin : In c props).
  { unfold props.
    destruct (defaultValue (batched options) false),
             (defaultValue (generateNormals options) false);
      cbn [app In]; tauto. }
  assert (Hnames : forall p, In p props ->
                     In (propertyName p) ["POSITION"; "RGB"; "NORMAL"; "BATCH_ID"]).
  { intros p Hpin. unfold props in Hpin.
    destruct (defaultValue (batched options) false),
             (defaultValue (generateNormals options) false);
      cbn [app In] in Hpin;
      repeat (destruct Hpin as [<- | Hpin]; [cbn [In]; rewrite ?Hp, ?Hcn, ?Hn, ?Hb; tauto |]);
      contradiction. }
  assert (Hno565 : forall p, In p props -> propertyName p <> "RGB565").
  { intros p Hpin Heq. specialize (Hnames p Hpin). rewrite Heq in Hnames.
    cbn [In] in Hnames.
    repeat (destruct Hnames as [Hnames | Hnames]; [discriminate Hnames |]).
    exact Hnames. }
  assert (Hloop_rgb : obj_get ftj' "RGB" <> None).
  { replace ftj' with (snd (ftb', ftj')) by reflexivity. rewrite <- Hloop.
    rewrite <- Hcn. apply featureTableLoop_present. assumption. }
  assert (Hloop_565 : obj_get ftj' "RGB565" = None).
  { replace ftj' with (snd (ftb', ftj')) by reflexivity. rewrite <- Hloop.
    rewrite featureTableLoop_other.
    - apply Hftj. discriminate.
    - intros Hi. apply in_map_iff in Hi. destruct Hi as (p & Hpn & Hpin).
      exact (Hno565 p Hpin Hpn). }
  split; [exists c; auto |]. split; [exact Hno565 |].
  clear Hloop Hbloop Hdraco Hbt.
  assert (Hfj : exists J : JsObject,
            obj_get J "RGB" <> None /\ obj_get J "RGB565" = None /\
            (fj = J \/ exists v, fj = obj_set J "BATCH_LENGTH" v)).
  { match type of Hbatched with
    | context [obj_set (if ?r then ?a else ?b) "BATCH_LENGTH" _] =>
        exists (if r then a else b)
    end.
    split; [| split].
    - destruct (defaultValue (relativeToCenter options) true);
        repeat apply obj_get_set_defined; assumption.
    - destruct (defaultValue (relativeToCenter options) true);
        rewrite ?obj_get_set_ne by discriminate; assumption.
    - destruct (defaultValue (batched options) false).
      + destruct (batchLength (batchIds points)) as [bl |];
          [| apply lift_Ok_inv in Hbatched; destruct Hbatched; discriminate].
        apply bind_Ok_inv in Hbatched. destruct Hbatched as (table & g6 & _ & Hret).
        unfold ret in Hret. inversion Hret; subst; clear Hret. right. eauto.
      + unfold ret in Hbatched. inversion Hbatched; subst. left. reflexivity. }
  destruct Hfj as (J & HJ1 & HJ2 & [-> | (v & ->)]).
  - split; assumption.
  - split; [apply obj_get_set_defined; assumption |].
    rewrite obj_get_set_ne by discriminate. assumption.
Qed.

Lemma rgb565_with_draco_becomes_rgb_witness :
  exists tile,
    Sample.run rgb565DracoOptions = Ok tile /\
    obj_get (featureTableJson (sections tile)) "RGB" <> None /\
    obj_get (featureTableJson (sections tile)) "RGB565" = None.
Proof.
  assert (Hex : exists tile, Sample.run rgb565DracoOptions = Ok tile)
    by (eexists; vm_compute; reflexivity).
  destruct Hex as (tile & Hok). unfold Sample.run in Hok.
  destruct (createPointCloudTile_sections (Some rgb565DracoOptions) moduleInit)
    as [r g'] eqn:Hrun.
  cbn [fst] in Hok. subst r.
  exists tile. split; [unfold Sample.run; rewrite Hrun; reflexivity |].
  exact (proj2 (proj2 (rgb565_with_draco_becomes_rgb
                         Sample.env rgb565DracoOptions moduleInit tile g' Hrun
                         eq_refl eq_refl))).
Defined.

(** ** Loops with an invariant that follows the index *)

Lemma forR_indexed : forall (St : Type) (P : nat -> St -> Prop) body n i s,
  P i s ->
  (forall j s0, (i <= j < i + n)%nat -> P j s0 ->
     exists s1, body j s0 = Ok s1 /\ P (S j) s1) ->
  exists s', @forR St body i n s = Ok s' /\ P (i + n)%nat s'.
Proof.
  intros St P body n. induction n as [|n IH]; intros i s Hs Hbody; cbn [forR].
  - exists s. rewrite Nat.add_0_r. auto.
  - destruct (Hbody i s ltac:(lia) Hs) as (s1 & Hb & Hs1).
    rewrite Hb. cbn [rbind].
    destruct (IH (S i) s1 Hs1) as (s' & Hf & Hs').
    + intros j s0 Hj. apply Hbody. lia.
    + exists s'. split; [exact Hf |].
      replace (i + S n)%nat with (S i + n)%nat by lia. exact Hs'.
Qed.

Lemma forR_app : forall (St : Type) (body : nat -> St -> result St) a b i s,
  forR body i (a + b) s = let! s' := forR body i a s in forR body (i + a) b s'.
Proof.
  intros St body a. induction a as [|a IH]; intros b i s; cbn [forR Nat.add rbind].
  - rewrite Nat.add_0_r. reflexivity.
  - destruct (body i s) as [s1 | e]; cbn [rbind]; [| reflexivity].
    rewrite IH. replace (S i + a)%nat with (i + S a)%nat by lia. reflexivity.
Qed.

Section MonadLoops.
Context {E : Env}.

Lemma forM_indexed : forall (St : Type) (P : nat -> St -> Prop)
    (body : nat -> St -> M E St) n i s g,
  P i s ->
  (forall j s0 g0, (i <= j < i + n)%nat -> P j s0 ->
     exists s1 g1, body j s0 g0 = (Ok s1, g1) /\ P (S j) s1) ->
  exists s' g', forM body i n s g = (Ok s', g') /\ P (i + n)%nat s'.
Proof.
  intros St P body n. induction n as [|n IH]; intros i s g Hs Hbody; cbn [forM].
  - exists s, g. rewrite Nat.add_0_r. split; [reflexivity | assumption].
  - destruct (Hbody i s g ltac:(lia) Hs) as (s1 & g1 & Hb & Hs1).
    unfold bind. rewrite Hb.
    destruct (IH (S i) s1 g1 Hs1) as (s' & g' & Hf & Hs').
    + intros j s0 g0 Hj. apply Hbody. lia.
    + exists s', g'. split; [exact Hf |].
      replace (i + S n)%nat with (S i + n)%nat by lia. exact Hs'.
Qed.

Lemma forM_preserves : forall (St : Type) (P : nat -> St -> Prop)
    (body : nat -> St -> M E St) n i s g s' g',
  forM body i n s g = (Ok s', g') ->
  P i s ->
  (forall j s0 g0 s1 g1, (i <= j < i + n)%nat ->
     body j s0 g0 = (Ok s1, g1) -> P j s0 -> P (S j) s1) ->
  P (i + n)%nat s'.
Proof.
  intros St P body n. induction n as [|n IH]; intros i s g s' g' H Hs Hbody;
    cbn [forM] in H.
  - unfold ret in H. inversion H; subst. rewrite Nat.add_0_r. assumption.
  - unfold bind in H. destruct (body i s g) as [[s1 | e] g1] eqn:Hb; [| discriminate].
    replace (i + S n)%nat with (S i + n)%nat by lia.
    apply (IH (S i) s1 g1 s' g' H).
    + apply (Hbody i s g s1 g1); [lia | assumption | assumption].
    + intros j s0 g0 s2 g2 Hj. apply Hbody. lia.
Qed.

Lemma forM_app : forall (St : Type) (body : nat -> St -> M E St) a b i s g,
  forM body i (a + b) s g
  = bind (forM body i a s) (fun s' => forM body (i + a) b s') g.
Proof.
  intros St body a. induction a as [|a IH]; intros b i s g; cbn [forM Nat.add].
  - unfold bind, ret. rewrite Nat.add_0_r. reflexivity.
  - unfold bind. destruct (body i s g) as [[s1 | e] g1]; [| reflexivity].
    rewrite IH. unfold bind.
    replace (S i + a)%nat with (i + S a)%nat by lia. reflexivity.
Qed.

Lemma bind_Ok : forall A B (m : M E A) (k : A -> M E B) g a g',
  m g = (Ok a, g') -> bind m k g = k a g'.
Proof. intros A B m k g a g' H. unfold bind. rewrite H. reflexivity. Qed.

Lemma bind_Err : forall A B (m : M E A) (k : A -> M E B) g e g',
  m g = (Err e, g') -> bind m k g = (Err e, g').
Proof. intros A B m k g e g' H. unfold bind. rewrite H. reflexivity. Qed.

Lemma bind_lift_Ok : forall A B (r : result A) (k : A -> M E B) g a,
  r = Ok a -> bind (lift r) k g = k a g.
Proof. intros A B r k g a ->. reflexivity. Qed.

Lemma bind_lift_Err : forall A B (r : result A) (k : A -> M E B) g e,
  r = Err e -> bind (lift r) k g = (Err e, g).
Proof. intros A B r k g e ->. reflexivity. Qed.

Lemma nextRandomNumber_run : forall g,
  exists r g', CesiumMath_nextRandomNumber g = (Ok r, g').
Proof.
  intros g. unfold CesiumMath_nextRandomNumber.
  destruct (MersenneTwister_random (randomNumberGenerator g)) as [r gen]. eauto.
Qed.

Lemma forM_count : forall (St : Type) (body : nat -> St -> M E St) n n' i s g,
  n = n' -> forM body i n s g = forM body i n' s g.
Proof. intros St body n n' i s g ->. reflexivity. Qed.

End MonadLoops.

(** ** Stores into a buffer *)

Lemma Buffer_store_mid : forall (pre old post bs : list byte),
  length old = length bs ->
  Buffer_store (pre ++ old ++ post) (length pre) bs = Ok (pre ++ bs ++ post).
Proof.
  intros pre old post bs Hlen. unfold Buffer_store.
  rewrite !length_app.
  destruct (Nat.leb_spec (length pre + length bs) (length pre + (length old + length post)));
    [| lia].
  rewrite firstn_app, Nat.sub_diag, firstn_all. cbn [firstn]. rewrite app_nil_r.
  rewrite skipn_app, skipn_all2 by lia. cbn [app].
  replace (length pre + length bs - length pre)%nat with (length old) by lia.
  rewrite skipn_app, skipn_all, Nat.sub_diag. reflexivity.
Qed.

Lemma Buffer_store_overflow : forall (buf bs : list byte) offset,
  (length buf < offset + length bs)%nat -> Buffer_store buf offset bs = Err RangeError.
Proof.
  intros buf bs offset H. unfold Buffer_store.
  destruct (Nat.leb_spec (offset + length bs) (length buf)); [lia | reflexivity].
Qed.

(** A list of [a + b] bytes is a list of [a] bytes followed by one of [b]. *)
Lemma split_chunk : forall (l : list byte) a b,
  length l = (a + b)%nat ->
  exists l1 l2, l = l1 ++ l2 /\ length l1 = a /\ length l2 = b.
Proof.
  intros l a b H. exists (firstn a l), (skipn a l).
  rewrite firstn_skipn, length_firstn, length_skipn.
  split; [reflexivity | lia].
Qed.

Lemma length_concat_const : forall (A : Type) (f : A -> list byte) k (l : list A),
  (forall a, In a l -> length (f a) = k) ->
  length (concat (map f l)) = (length l * k)%nat.
Proof.
  intros A f k l. induction l as [|a l IH]; intros H; cbn [map concat length].
  - reflexivity.
  - rewrite length_app, H by (left; reflexivity).
    rewrite IH by (intros b Hb; apply H; right; exact Hb).
    cbn [Nat.mul]. reflexivity.
Qed.

Lemma firstn_incl : forall (A : Type) n (l : list A) a, In a (firstn n l) -> In a l.
Proof.
  intros A n l a H. rewrite <- (firstn_skipn n l). apply in_or_app. left. exact H.
Qed.

Lemma firstn_snoc : forall (A : Type) (l : list A) n a,
  nth_error l n = Some a -> firstn (S n) l = firstn n l ++ [a].
Proof.
  intros A l. induction l as [|b l IH]; intros [|n] a H; cbn in H; try discriminate.
  - inversion H. reflexivity.
  - cbn [firstn app]. f_equal. apply IH. exact H.
Qed.

(** The loops of the attribute encoders: iteration [i] replaces record
    [i] of a zero-filled buffer by the encoding of item [i], or throws. *)
Lemma forR_fill_from : forall (A : Type) (k : nat) (enc : A -> result (list byte))
    (body : nat -> Buffer -> result Buffer) (items rest before : list A) (done : list byte),
  items = before ++ rest ->
  length done = (length before * k)%nat ->
  (forall a b, In a items -> enc a = Ok b -> length b = k) ->
  (forall i a done old tail,
     nth_error items i = Some a -> length done = (i * k)%nat -> length old = k ->
     body i (done ++ old ++ tail) = let! b := enc a in Ok (done ++ b ++ tail)) ->
  forR body (length before) (length rest) (done ++ repeat x00 (length rest * k))
  = let! bs := encodeEach enc rest in Ok (done ++ bs).
Proof.
  intros A k enc body items rest. induction rest as [|a rest IH];
    intros before done Hitems Hdone Hlen Hbody; cbn [length forR encodeEach rbind].
  - cbn [Nat.mul repeat]. reflexivity.
  - assert (Ha : nth_error items (length before) = Some a).
    { rewrite Hitems, nth_error_app2, Nat.sub_diag by lia. reflexivity. }
    cbn [Nat.mul]. rewrite repeat_app.
    rewrite (Hbody _ a done (repeat x00 k) _ Ha Hdone (repeat_length _ _)).
    destruct (enc a) as [b | e] eqn:Hb; cbn [rbind]; [| reflexivity].
    assert (Hk : length b = k).
    { apply (Hlen a b); [| exact Hb]. rewrite Hitems. apply in_or_app. right. left. reflexivity. }
    assert (Hl : length (before ++ [a]) = S (length before))
      by (rewrite length_app; cbn [length]; lia).
    specialize (IH (before ++ [a]) (done ++ b)).
    rewrite Hl in IH.
    rewrite (app_assoc done b). rewrite IH.
    + destruct (encodeEach enc rest) as [bs | e]; cbn [rbind]; [| reflexivity].
      rewrite <- app_assoc. reflexivity.
    + rewrite <- app_assoc. exact Hitems.
    + rewrite length_app, Hdone, Hk. lia.
    + exact Hlen.
    + exact Hbody.
Qed.

Lemma forR_fill_result : forall (A : Type) (items : list A) (k : nat)
    (enc : A -> result (list byte)) (body : nat -> Buffer -> result Buffer),
  (forall a b, In a items -> enc a = Ok b -> length b = k) ->
  (forall i a done old tail,
     nth_error items i = Some a -> length done = (i * k)%nat -> length old = k ->
     body i (done ++ old ++ tail) = let! b := enc a in Ok (done ++ b ++ tail)) ->
  forR body 0 (length items) (Buffer_alloc (length items * k)) = encodeEach enc items.
Proof.
  intros A items k enc body Hlen Hbody.
  change (forR body 0 (length items) (Buffer_alloc (length items * k)))
    with (forR body (length (@nil A)) (length items)
            ([] ++ repeat x00 (length items * k))).
  rewrite (forR_fill_from A k enc body items items [] []);
    [| reflexivity | reflexivity | exact Hlen | exact Hbody].
  destruct (encodeEach enc items); reflexivity.
Qed.

Lemma encodeEach_total : forall (A : Type) (enc : A -> list byte) (items : list A),
  encodeEach (fun a => Ok (enc a)) items = Ok (concat (map enc items)).
Proof.
  intros A enc items. induction items as [|a items IH]; cbn [encodeEach map concat rbind].
  - reflexivity.
  - rewrite IH. reflexivity.
Qed.

Lemma encodeEach_ok : forall (A : Type) (enc : A -> result (list byte))
    (bytes : A -> list byte) (items : list A),
  Forall (fun a => enc a = Ok (bytes a)) items ->
  encodeEach enc items = Ok (concat (map bytes items)).
Proof.
  intros A enc bytes items H. induction H as [|a items Ha _ IH];
    cbn [encodeEach map concat rbind].
  - reflexivity.
  - rewrite Ha. cbn [rbind]. rewrite IH. reflexivity.
Qed.

Lemma encodeEach_err : forall (A : Type) (enc : A -> result (list byte)) e
    (items : list A),
  (forall a, In a items -> enc a = Err e \/ exists b, enc a = Ok b) ->
  Exists (fun a => enc a = Err e) items ->
  encodeEach enc items = Err e.
Proof.
  intros A enc e items Hall Hex. induction Hex as [a items Ha | a items _ IH];
    cbn [encodeEach].
  - rewrite Ha. reflexivity.
  - destruct (Hall a (or_introl eq_refl)) as [Ha | (b & Ha)]; rewrite Ha; cbn [rbind].
    + reflexivity.
    + rewrite IH; [reflexivity |]. intros a' Ha'. apply Hall. right. exact Ha'.
Qed.

Lemma forR_fill : forall (A : Type) (items : list A) (k : nat) (enc : A -> list byte)
    (body : nat -> Buffer -> result Buffer),
  (forall a, In a items -> length (enc a) = k) ->
  (forall i a done old tail,
     nth_error items i = Some a -> length done = (i * k)%nat -> length old = k ->
     body i (done ++ old ++ tail) = Ok (done ++ enc a ++ tail)) ->
  forR body 0 (length items) (Buffer_alloc (length items * k))
  = Ok (concat (map enc items)).
Proof.
  intros A items k enc body Hlen Hbody.
  rewrite (forR_fill_result A items k (fun a => Ok (enc a)) body).
  - apply encodeEach_total.
  - intros a b Ha Hb. inversion Hb; subst. apply Hlen. exact Ha.
  - intros i a done old tail Ha Hd Ho. cbn [rbind]. apply Hbody; assumption.
Qed.

(** Record [i] of a packed array of [k]-byte records. *)
Lemma record_at : forall (A : Type) (enc : A -> list byte) k,
  (forall a, length (enc a) = k) ->
  forall (items : list A) i a,
    nth_error items i = Some a ->
    firstn k (skipn (i * k) (concat (map enc items))) = enc a.
Proof.
  intros A enc k Hk items. induction items as [|b items IH]; intros i a H.
  - destruct i; discriminate.
  - cbn [map concat]. destruct i as [|i]; cbn [nth_error] in H.
    + inversion H; subst. cbn [Nat.mul skipn].
      rewrite firstn_app, Hk, Nat.sub_diag, firstn_all2 by (rewrite Hk; lia).
      cbn [firstn]. apply app_nil_r.
    + replace (S i * k)%nat with (length (enc b) + i * k)%nat by (rewrite Hk; lia).
      rewrite skipn_app, skipn_all2 by lia.
      replace (length (enc b) + i * k - length (enc b))%nat with (i * k)%nat by lia.
      cbn [app]. apply IH. exact H.
Qed.

(** One store of a body: the bytes after [pre] are replaced. *)
Lemma Buffer_store_at : forall (pre old post bs : list byte) offset,
  offset = length pre -> length old = length bs ->
  Buffer_store (pre ++ old ++ post) offset bs = Ok (pre ++ bs ++ post).
Proof. intros pre old post bs offset ->. apply Buffer_store_mid. Qed.

(** ** Little-endian integers *)

Lemma Z_of_byte_of_Z : forall z, Z_of_byte (byte_of_Z z) = z mod 256.
Proof.
  intros z. unfold Z_of_byte, byte_of_Z.
  assert (Hr : 0 <= z mod 256 < 256) by (apply Z.mod_pos_bound; lia).
  destruct (Byte.of_N (Z.to_N (z mod 256))) as [b |] eqn:Hb.
  - apply Byte.to_of_N in Hb. rewrite Hb. apply Z2N.id. lia.
  - apply Byte.of_N_None_iff in Hb. lia.
Qed.

Lemma readUIntLE_bytesLE : forall width v, (width <= 4)%nat ->
  readUIntLE (bytesLE width v) = v mod 2 ^ (8 * Z.of_nat width).
Proof.
  intros width v Hw. unfold bytesLE.
  assert (Hu : 0 <= v mod 2 ^ 32 < 2 ^ 32) by (apply Z.mod_pos_bound; lia).
  assert (Hmod : forall k, 0 <= k <= 32 -> v mod 2 ^ k = (v mod 2 ^ 32) mod 2 ^ k).
  { intros k Hk. symmetry. apply Z.mod_mod_divide.
    exists (2 ^ (32 - k)). rewrite <- Z.pow_add_r by lia. f_equal. lia. }
  rewrite Hmod by lia. clear Hmod.
  unfold Js.shru, Js.ToUint32.
  set (u := v mod 2 ^ 32) in *. clearbody u.
  change (2 ^ 32) with 4294967296 in Hu.
  destruct width as [|[|[|[|[|w]]]]]; [| | | | | lia];
    cbn [seq map readUIntLE]; rewrite ?Z_of_byte_of_Z;
    change (Z.land (8 * Z.of_nat 0) 31) with 0;
    change (Z.land (8 * Z.of_nat 1) 31) with 8;
    change (Z.land (8 * Z.of_nat 2) 31) with 16;
    change (Z.land (8 * Z.of_nat 3) 31) with 24;
    rewrite ?Z.shiftr_div_pow2 by lia;
    change (2 ^ 0) with 1; change (2 ^ 8) with 256; change (2 ^ 16) with 65536;
    change (2 ^ 24) with 16777216; rewrite ?Z.div_1_r.
  - symmetry. apply Z.mod_1_r.
  - change (2 ^ (8 * Z.of_nat 1)) with 256. Z.div_mod_to_equations. lia.
  - change (2 ^ (8 * Z.of_nat 2)) with 65536. Z.div_mod_to_equations. lia.
  - change (2 ^ (8 * Z.of_nat 3)) with 16777216. Z.div_mod_to_equations. lia.
  - change (2 ^ (8 * Z.of_nat 4)) with 4294967296. Z.div_mod_to_equations. lia.
Qed.

Lemma readUIntArrayLE_concat : forall width (values : list Z),
  readUIntArrayLE width (length values) (concat (map (bytesLE width) values))
  = map (fun v => readUIntLE (bytesLE width v)) values.
Proof.
  intros width values. induction values as [|v values IH];
    cbn [length readUIntArrayLE map concat].
  - reflexivity.
  - rewrite firstn_app, skipn_app, bytesLE_length, Nat.sub_diag.
    rewrite firstn_all2, skipn_all2 by (rewrite bytesLE_length; lia).
    cbn [firstn skipn app]. rewrite app_nil_r, IH. reflexivity.
Qed.

(** ** Bodies made of consecutive stores *)

(** Rewrites the first store of the goal, whose target starts after the
    bytes written so far, and regroups the buffer for the next store. *)
Ltac store_step :=
  match goal with
  | |- context [Buffer_store (?pre ++ ?old ++ ?post) ?off ?bs] =>
      rewrite (Buffer_store_at pre old post bs off)
        by (rewrite ?length_app, ?bytesLE_length;
            unfold sizeOfUint8, sizeOfUint16, sizeOfUint32, sizeOfFloat32 in *; lia);
      cbn [rbind]; rewrite ?(app_assoc pre bs)
  end.

Lemma float32LE_length : forall f, length (float32LE f) = 4%nat.
Proof. intros f. apply bytesLE_length. Qed.

Lemma vec3Float32LE_length : forall v, length (vec3Float32LE v) = 12%nat.
Proof.
  intros v. unfold vec3Float32LE. rewrite !length_app, !float32LE_length. reflexivity.
Qed.

Lemma at_index_nth : forall A (l : list A) i a,
  nth_error l i = Some a -> at_index l i = Ok a.
Proof. intros A l i a H. unfold at_index. rewrite H. reflexivity. Qed.

(** The loop shared by [getPositions] and [getNormals]. *)
Lemma vec3_loop : forall vectors : list Cartesian3,
  forR (fun i buffer =>
          let! v := at_index vectors i in
          let! buffer := writeFloatLE buffer (x v) ((i * 3) * sizeOfFloat32) in
          let! buffer := writeFloatLE buffer (y v) ((i * 3 + 1) * sizeOfFloat32) in
          writeFloatLE buffer (z v) ((i * 3 + 2) * sizeOfFloat32))
       0 (length vectors) (Buffer_alloc (length vectors * 3 * sizeOfFloat32))
  = Ok (concat (map vec3Float32LE vectors)).
Proof.
  intros vectors.
  replace (length vectors * 3 * sizeOfFloat32)%nat with (length vectors * 12)%nat
    by (unfold sizeOfFloat32; lia).
  apply forR_fill.
  - intros a _. apply vec3Float32LE_length.
  - intros i a done old tail Ha Hdone Hold.
    rewrite (at_index_nth _ _ _ _ Ha). cbn [rbind].
    destruct (split_chunk old 4 8 ltac:(lia)) as (o1 & o23 & -> & Ho1 & Ho23).
    destruct (split_chunk o23 4 4 ltac:(lia)) as (o2 & o3 & -> & Ho2 & Ho3).
    rewrite <- !app_assoc. unfold writeFloatLE.
    do 3 store_step.
    unfold vec3Float32LE, float32LE. rewrite <- !app_assoc. reflexivity.
Qed.

(** X1: [getPositions] and [getNormals] never throw, whatever the numbers
    (NaN and infinities included), and the buffer they return is the
    packed array of the vectors in order, twelve bytes each: the binary32
    bytes of x, y and z, little-endian. *)
Theorem getPositions_packs_float32_triples : forall vectors : list Cartesian3,
  getPositions vectors
    = Ok {| buffer := concat (map vec3Float32LE vectors); propertyName := "POSITION";
            componentType := FLOAT; type := VEC3; batchLength := None |}
  /\ getNormals vectors
    = Ok {| buffer := concat (map vec3Float32LE vectors); propertyName := "NORMAL";
            componentType := FLOAT; type := VEC3; batchLength := None |}
  /\ length (concat (map vec3Float32LE vectors)) = (length vectors * 12)%nat
  /\ forall i v, nth_error vectors i = Some v ->
       firstn 12 (skipn (i * 12) (concat (map vec3Float32LE vectors)))
       = vec3Float32LE v.
Proof.
  intros vectors. split; [| split; [| split]].
  - unfold getPositions. rewrite vec3_loop. reflexivity.
  - unfold getNormals. rewrite vec3_loop. reflexivity.
  - apply length_concat_const. intros a _. apply vec3Float32LE_length.
  - intros i v Hv.
    apply (record_at _ vec3Float32LE 12); [| exact Hv].
    intros a. apply vec3Float32LE_length.
Qed.

Lemma getPositions_packs_float32_triples_witness :
  firstn 12 (skipn (1 * 12)
               (concat (map vec3Float32LE
                          [Cartesian3Ops.ZERO; {| x := 1; y := -2; z := infinity |}])))
  = [x00; x00; x80; x3f; x00; x00; x00; xc0; x00; x00; x80; x7f].
Proof.
  rewrite (proj2 (proj2 (proj2 (getPositions_packs_float32_triples
                                  [Cartesian3Ops.ZERO;
                                   {| x := 1; y := -2; z := infinity |}])))
             1%nat {| x := 1; y := -2; z := infinity |} eq_refl).
  vm_compute. reflexivity.
Defined.

Lemma byte_of_Z_mod : forall z, byte_of_Z (z mod 2 ^ 32) = byte_of_Z z.
Proof.
  intros z. unfold byte_of_Z. rewrite Z.mod_mod_divide; [reflexivity |].
  exists (2 ^ 24). reflexivity.
Qed.

Lemma bytesLE_1 : forall z, bytesLE 1 z = [byte_of_Z z].
Proof.
  intros z. unfold bytesLE. cbn [seq map]. unfold Js.shru, Js.ToUint32.
  change (Z.land (8 * Z.of_nat 0) 31) with 0. rewrite Z.shiftr_0_r, byte_of_Z_mod.
  reflexivity.
Qed.

Lemma writeUInt8_spec : forall buf v offset,
  writeUInt8 buf v offset
  = if fitsUInt8 v then Buffer_store buf offset [uint8Byte v] else Err RangeError.
Proof.
  intros buf v offset. unfold writeUInt8, writeUIntLE, fitsUInt8, uint8Byte.
  change (2 ^ (8 * Z.of_nat 1) - 1) with 255. rewrite bytesLE_1. reflexivity.
Qed.

(** A list of [S n] bytes has a first byte. *)
Lemma split_byte : forall (l : list byte) n,
  length l = S n -> exists b l', l = [b] ++ l' /\ length l' = n.
Proof.
  intros [|b l] n H; [discriminate |]. exists b, l. cbn in H. split; [reflexivity | lia].
Qed.

Ltac store_byte :=
  match goal with
  | |- context [Buffer_store (?pre ++ ?old ++ ?post) ?off ?bs] =>
      rewrite (Buffer_store_at pre old post bs off)
        by (rewrite ?length_app; cbn [length]; lia);
      cbn [rbind]; rewrite ?(app_assoc pre bs)
  end.

Lemma getColorsRGB_loop : forall colors : list Color,
  forR (fun i buffer =>
          let! color := at_index colors i in
          let r := Js.Math_floor (red color * 255)%float in
          let g := Js.Math_floor (green color * 255)%float in
          let b := Js.Math_floor (blue color * 255)%float in
          let! buffer := writeUInt8 buffer r (i * 3) in
          let! buffer := writeUInt8 buffer g (i * 3 + 1) in
          writeUInt8 buffer b (i * 3 + 2))
       0 (length colors) (Buffer_alloc (length colors * 3))
  = encodeEach (fun c => if forallb fitsUInt8 (rgbScaled c)
                         then Ok (map uint8Byte (rgbScaled c)) else Err RangeError)
               colors.
Proof.
  intros colors. apply forR_fill_result.
  - intros a b _ H. destruct (forallb fitsUInt8 (rgbScaled a)); [| discriminate].
    inversion H; subst. reflexivity.
  - intros i a done old tail Ha Hdone Hold.
    rewrite (at_index_nth _ _ _ _ Ha). cbn [rbind]. cbv zeta.
    destruct (split_byte old 2 Hold) as (o1 & old1 & -> & Hold1).
    destruct (split_byte old1 1 Hold1) as (o2 & old2 & -> & Hold2).
    destruct (split_byte old2 0 Hold2) as (o3 & old3 & -> & Hold3).
    rewrite <- !app_assoc. rewrite !writeUInt8_spec.
    unfold rgbScaled. cbn [forallb map].
    destruct (fitsUInt8 (Js.Math_floor (red a * 255))); cbn [andb rbind]; [| reflexivity].
    store_byte. rewrite writeUInt8_spec.
    destruct (fitsUInt8 (Js.Math_floor (green a * 255))); cbn [andb rbind]; [| reflexivity].
    store_byte. rewrite writeUInt8_spec.
    destruct (fitsUInt8 (Js.Math_floor (blue a * 255))); cbn [andb rbind]; [| reflexivity].
    store_byte.
    destruct old3; [| discriminate]. rewrite <- !app_assoc. reflexivity.
Qed.

Lemma getColorsRGBA_loop : forall colors : list Color,
  forR (fun i buffer =>
          let! color := at_index colors i in
          let r := Js.Math_floor (red color * 255)%float in
          let g := Js.Math_floor (green color * 255)%float in
          let b := Js.Math_floor (blue color * 255)%float in
          let a := encodeAlpha (alpha color) in
          let! buffer := writeUInt8 buffer r (i * 4) in
          let! buffer := writeUInt8 buffer g (i * 4 + 1) in
          let! buffer := writeUInt8 buffer b (i * 4 + 2) in
          writeUInt8 buffer a (i * 4 + 3))
       0 (length colors) (Buffer_alloc (length colors * 4))
  = encodeEach (fun c => if forallb fitsUInt8 (rgbaScaled c)
                         then Ok (map uint8Byte (rgbaScaled c)) else Err RangeError)
               colors.
Proof.
  intros colors. apply forR_fill_result.
  - intros a b _ H. destruct (forallb fitsUInt8 (rgbaScaled a)); [| discriminate].
    inversion H; subst. reflexivity.
  - intros i a done old tail Ha Hdone Hold.
    rewrite (at_index_nth _ _ _ _ Ha). cbn [rbind]. cbv zeta.
    destruct (split_byte old 3 Hold) as (o1 & old1 & -> & Hold1).
    destruct (split_byte old1 2 Hold1) as (o2 & old2 & -> & Hold2).
    destruct (split_byte old2 1 Hold2) as (o3 & old3 & -> & Hold3).
    destruct (split_byte old3 0 Hold3) as (o4 & old4 & -> & Hold4).
    rewrite <- !app_assoc. rewrite !writeUInt8_spec.
    unfold rgbaScaled, encodeAlpha. cbn [forallb map].
    destruct (fitsUInt8 (Js.Math_floor (red a * 255))); cbn [andb rbind]; [| reflexivity].
    store_byte. rewrite writeUInt8_spec.
    destruct (fitsUInt8 (Js.Math_floor (green a * 255))); cbn [andb rbind]; [| reflexivity].
    store_byte. rewrite writeUInt8_spec.
    destruct (fitsUInt8 (Js.Math_floor (blue a * 255))); cbn [andb rbind]; [| reflexivity].
    store_byte. rewrite writeUInt8_spec.
    destruct (fitsUInt8 (Js.Math_floor (alpha a * 128))); cbn [andb rbind]; [| reflexivity].
    store_byte.
    destruct old4; [| discriminate]. rewrite <- !app_assoc. reflexivity.
Qed.

(** An array all of whose records fit is the concatenation of their
    bytes; an array with a record that does not fit has no encoding. *)
Lemma encodeEach_fits : forall (A : Type) (fits : A -> bool) (bytes : A -> list byte)
    (items : list A),
  (Forall (fun a => fits a = true) items ->
     encodeEach (fun a => if fits a then Ok (bytes a) else Err RangeError) items
     = Ok (concat (map bytes items)))
  /\ (Exists (fun a => fits a = false) items ->
     encodeEach (fun a => if fits a then Ok (bytes a) else Err RangeError) items
     = Err RangeError).
Proof.
  intros A fits bytes items. split; intros H.
  - apply encodeEach_ok. eapply Forall_impl; [| exact H].
    cbv beta. intros a Ha. rewrite Ha. reflexivity.
  - apply encodeEach_err.
    + intros a _. destruct (fits a); [right; eauto | left; reflexivity].
    + eapply Exists_impl; [| exact H]. cbv beta. intros a Ha. rewrite Ha. reflexivity.
Qed.

(** X2: [getColorsRGB] and [getColorsRGBA] store one byte per component,
    three or four bytes per colour in order, when every scaled component
    is accepted by [writeUInt8]; as soon as one colour has a scaled
    component above 255 or below 0 the call throws a RangeError and
    returns no buffer. *)
Theorem getColors_bytes_or_RangeError : forall colors : list Color,
  (Forall (fun c => forallb fitsUInt8 (rgbScaled c) = true) colors ->
     getColorsRGB colors
     = Ok {| buffer := rgbBuffer colors; propertyName := "RGB";
             componentType := UNSIGNED_BYTE; type := VEC3; batchLength := None |}
     /\ length (rgbBuffer colors) = (length colors * 3)%nat)
  /\ (Exists (fun c => forallb fitsUInt8 (rgbScaled c) = false) colors ->
     getColorsRGB colors = Err RangeError)
  /\ (Forall (fun c => forallb fitsUInt8 (rgbaScaled c) = true) colors ->
     getColorsRGBA colors
     = Ok {| buffer := rgbaBuffer colors; propertyName := "RGBA";
             componentType := UNSIGNED_BYTE; type := VEC4; batchLength := None |}
     /\ length (rgbaBuffer colors) = (length colors * 4)%nat)
  /\ (Exists (fun c => forallb fitsUInt8 (rgbaScaled c) = false) colors ->
     getColorsRGBA colors = Err RangeError).
Proof.
  intros colors.
  destruct (encodeEach_fits Color (fun c => forallb fitsUInt8 (rgbScaled c))
              (fun c => map uint8Byte (rgbScaled c)) colors) as [Hok3 Herr3].
  destruct (encodeEach_fits Color (fun c => forallb fitsUInt8 (rgbaScaled c))
              (fun c => map uint8Byte (rgbaScaled c)) colors) as [Hok4 Herr4].
  split; [| split; [| split]].
  - intros H. split.
    + unfold getColorsRGB. rewrite getColorsRGB_loop, (Hok3 H). reflexivity.
    + apply length_concat_const. intros a _. reflexivity.
  - intros H. unfold getColorsRGB. rewrite getColorsRGB_loop, (Herr3 H). reflexivity.
  - intros H. split.
    + unfold getColorsRGBA. rewrite getColorsRGBA_loop, (Hok4 H). reflexivity.
    + apply length_concat_const. intros a _. reflexivity.
  - intros H. unfold getColorsRGBA. rewrite getColorsRGBA_loop, (Herr4 H). reflexivity.
Qed.

Lemma getColors_bytes_or_RangeError_witness :
  getColorsRGB [white; black] = Ok {| buffer := [xff; xff; xff; x00; x00; x00];
                                      propertyName := "RGB";
                                      componentType := UNSIGNED_BYTE; type := VEC3;
                                      batchLength := None |}
  /\ getColorsRGB [white; overbright] = Err RangeError
  /\ getColorsRGBA [black] = Ok {| buffer := [x00; x00; x00; x80];
                                   propertyName := "RGBA";
                                   componentType := UNSIGNED_BYTE; type := VEC4;
                                   batchLength := None |}
  /\ getColorsRGBA [overbright] = Err RangeError.
Proof.
  split; [| split; [| split]].
  - refine (proj1 (proj1 (getColors_bytes_or_RangeError [white; black]) _)).
    repeat constructor.
  - refine (proj1 (proj2 (getColors_bytes_or_RangeError [white; overbright])) _).
    right. left. reflexivity.
  - refine (proj1 (proj1 (proj2 (proj2 (getColors_bytes_or_RangeError [black]))) _)).
    repeat constructor.
  - refine (proj2 (proj2 (proj2 (getColors_bytes_or_RangeError [overbright]))) _).
    left. reflexivity.
Defined.

Lemma getColorsRGB565_loop : forall colors : list Color,
  forR (fun i buffer =>
          let! color := at_index colors i in
          let r := Js.Math_floor (red color * 31)%float in
          let g := Js.Math_floor (green color * 63)%float in
          let b := Js.Math_floor (blue color * 31)%float in
          writeUInt16LE buffer (packedColor r g b) (i * sizeOfUint16))
       0 (length colors) (Buffer_alloc (length colors * sizeOfUint16))
  = encodeEach (fun c => if fitsUInt16 (rgb565Packed c)
                         then Ok (bytesLE 2 (Js.truncZ (rgb565Packed c)))
                         else Err RangeError)
               colors.
Proof.
  intros colors. apply forR_fill_result.
  - intros a b _ H. destruct (fitsUInt16 (rgb565Packed a)); [| discriminate].
    inversion H; subst. apply bytesLE_length.
  - intros i a done old tail Ha Hdone Hold.
    rewrite (at_index_nth _ _ _ _ Ha). cbn [rbind]. cbv zeta.
    unfold writeUInt16LE, writeUIntLE.
    change (checkInt (packedColor (Js.Math_floor (red a * 31))
                        (Js.Math_floor (green a * 63)) (Js.Math_floor (blue a * 31)))
              (2 ^ (8 * Z.of_nat 2) - 1))
      with (fitsUInt16 (rgb565Packed a)).
    destruct (fitsUInt16 (rgb565Packed a)); cbn [rbind]; [| reflexivity].
    apply Buffer_store_at.
    + unfold sizeOfUint16 in *. lia.
    + rewrite bytesLE_length. exact Hold.
Qed.

(** X3: [getColorsRGB565] stores two little-endian bytes per colour, in
    order, when every packed value is accepted by [writeUInt16LE], and
    throws a RangeError otherwise.  Only the packed sum is checked: a
    green component slightly above 1 is stored without error and reads
    back as the value of another colour. *)
Theorem getColorsRGB565_bytes_or_RangeError : forall colors : list Color,
  (Forall (fun c => fitsUInt16 (rgb565Packed c) = true) colors ->
     getColorsRGB565 colors
     = Ok {| buffer := rgb565Buffer colors; propertyName := "RGB565";
             componentType := UNSIGNED_SHORT; type := SCALAR; batchLength := None |}
     /\ length (rgb565Buffer colors) = (length colors * 2)%nat
     /\ readUIntArrayLE 2 (length colors) (rgb565Buffer colors)
        = map (fun c => Js.truncZ (rgb565Packed c) mod 2 ^ 16) colors)
  /\ (Exists (fun c => fitsUInt16 (rgb565Packed c) = false) colors ->
     getColorsRGB565 colors = Err RangeError)
  /\ rmap buffer (getColorsRGB565 [overgreen]) = Ok [x00; x08]
  /\ rmap buffer (getColorsRGB565 [darkRed]) = Ok [x00; x08].
Proof.
  intros colors.
  destruct (encodeEach_fits Color (fun c => fitsUInt16 (rgb565Packed c))
              (fun c => bytesLE 2 (Js.truncZ (rgb565Packed c))) colors) as [Hok Herr].
  split; [| split; [| split]].
  - intros H. split; [| split].
    + unfold getColorsRGB565. rewrite getColorsRGB565_loop, (Hok H). reflexivity.
    + apply length_concat_const. intros a _. apply bytesLE_length.
    + unfold rgb565Buffer.
      rewrite <- (length_map (fun c => Js.truncZ (rgb565Packed c)) colors).
      rewrite <- (map_map (fun c => Js.truncZ (rgb565Packed c)) (bytesLE 2)).
      rewrite readUIntArrayLE_concat, map_map.
      apply map_ext. intros c. apply (readUIntLE_bytesLE 2). lia.
  - intros H. unfold getColorsRGB565. rewrite getColorsRGB565_loop, (Herr H). reflexivity.
  - vm_compute. reflexivity.
  - vm_compute. reflexivity.
Qed.

Lemma getColorsRGB565_bytes_or_RangeError_witness :
  getColorsRGB565 [white; black]
  = Ok {| buffer := [xff; xff; x00; x00]; propertyName := "RGB565";
          componentType := UNSIGNED_SHORT; type := SCALAR; batchLength := None |}
  /\ getColorsRGB565 [overbright] = Err RangeError.
Proof.
  split.
  - refine (proj1 (proj1 (getColorsRGB565_bytes_or_RangeError [white; black]) _)).
    repeat constructor.
  - refine (proj1 (proj2 (getColorsRGB565_bytes_or_RangeError [overbright])) _).
    left. reflexivity.
Defined.

Lemma batchId_loop : forall width (batchIds : list Z),
  forR (fun i buffer =>
          let! id := at_index batchIds i in
          writeUIntLE_int width buffer id (i * width))
       0 (length batchIds) (Buffer_alloc (length batchIds * width))
  = encodeEach (fun id => if (id >? 2 ^ (8 * Z.of_nat width) - 1) || (id <? 0)
                          then Err RangeError else Ok (bytesLE width id))
               batchIds.
Proof.
  intros width batchIds. apply forR_fill_result.
  - intros a b _ H.
    destruct ((a >? 2 ^ (8 * Z.of_nat width) - 1) || (a <? 0)); [discriminate |].
    inversion H; subst. apply bytesLE_length.
  - intros i a done old tail Ha Hdone Hold.
    rewrite (at_index_nth _ _ _ _ Ha). cbn [rbind]. unfold writeUIntLE_int.
    destruct ((a >? 2 ^ (8 * Z.of_nat width) - 1) || (a <? 0)); cbn [rbind];
      [reflexivity |].
    apply Buffer_store_at; [lia | rewrite bytesLE_length; exact Hold].
Qed.

Lemma batchId_loop_ok : forall width (batchIds : list Z),
  (width <= 4)%nat ->
  (forall id, In id batchIds -> 0 <= id < 2 ^ (8 * Z.of_nat width)) ->
  exists buffer,
    forR (fun i buffer =>
            let! id := at_index batchIds i in
            writeUIntLE_int width buffer id (i * width))
         0 (length batchIds) (Buffer_alloc (length batchIds * width)) = Ok buffer
    /\ readUIntArrayLE width (length batchIds) buffer = batchIds.
Proof.
  intros width batchIds Hw Hrange.
  exists (concat (map (bytesLE width) batchIds)). split.
  - rewrite batchId_loop. apply encodeEach_ok. apply Forall_forall. intros id Hid.
    specialize (Hrange id Hid).
    destruct (Z.gtb_spec id (2 ^ (8 * Z.of_nat width) - 1)); [lia |].
    destruct (Z.ltb_spec id 0); [lia | reflexivity].
  - rewrite readUIntArrayLE_concat.
    rewrite <- (map_id batchIds) at 2. apply map_ext_in. intros id Hid.
    rewrite readUIntLE_bytesLE by exact Hw. apply Z.mod_small. apply Hrange. exact Hid.
Qed.

Lemma batchId_loop_err : forall width (batchIds : list Z) id,
  In id batchIds -> id < 0 \/ 2 ^ (8 * Z.of_nat width) <= id ->
  forR (fun i buffer =>
          let! id := at_index batchIds i in
          writeUIntLE_int width buffer id (i * width))
       0 (length batchIds) (Buffer_alloc (length batchIds * width)) = Err RangeError.
Proof.
  intros width batchIds id Hin Hout. rewrite batchId_loop. apply encodeEach_err.
  - intros a _.
    destruct ((a >? 2 ^ (8 * Z.of_nat width) - 1) || (a <? 0)); [left | right; eauto];
      reflexivity.
  - apply Exists_exists. exists id. split; [exact Hin |].
    destruct (Z.gtb_spec id (2 ^ (8 * Z.of_nat width) - 1)); [reflexivity |].
    destruct (Z.ltb_spec id 0); [reflexivity | lia].
Qed.

(** X4: [getBatchIds] returns a buffer exactly when every id is an
    unsigned 32-bit integer, and then the buffer, read as an array of
    little-endian unsigned integers of the chosen component type, gives
    the ids back in order; an id that is negative or not below 2^32 makes
    the call throw a RangeError. *)
Theorem getBatchIds_round_trip : forall batchIds : list Z,
  (Forall (fun id => 0 <= id < 2 ^ 32) batchIds ->
     exists p,
       getBatchIds batchIds = Ok p /\
       readUIntArrayLE (getSizeInBytes (componentType p)) (length batchIds) (buffer p)
       = batchIds)
  /\ (Exists (fun id => id < 0 \/ 2 ^ 32 <= id) batchIds ->
     getBatchIds batchIds = Err RangeError).
Proof.
  intros batchIds.
  destruct (findBatchLength_acc batchIds 0 _ eq_refl) as (_ & Hlt & _).
  fold (findBatchLength batchIds) in Hlt.
  split.
  - intros Hrange. rewrite Forall_forall in Hrange.
    unfold getBatchIds.
    destruct (Z.leb_spec (findBatchLength batchIds) 256) as [H256 | H256];
      [| destruct (Z.leb_spec (findBatchLength batchIds) 65536) as [H65536 | H65536]].
    + destruct (batchId_loop_ok 1 batchIds ltac:(lia)) as (buf & Hrun & Hread).
      { intros id Hid. specialize (Hlt id Hid). specialize (Hrange id Hid).
        change (2 ^ (8 * Z.of_nat 1)) with 256. lia. }
      unfold sizeOfUint8. rewrite Hrun. cbn [rbind].
      eexists. split; [reflexivity | exact Hread].
    + destruct (batchId_loop_ok 2 batchIds ltac:(lia)) as (buf & Hrun & Hread).
      { intros id Hid. specialize (Hlt id Hid). specialize (Hrange id Hid).
        change (2 ^ (8 * Z.of_nat 2)) with 65536. lia. }
      unfold sizeOfUint16. rewrite Hrun. cbn [rbind].
      eexists. split; [reflexivity | exact Hread].
    + destruct (batchId_loop_ok 4 batchIds ltac:(lia)) as (buf & Hrun & Hread).
      { intros id Hid. specialize (Hrange id Hid).
        change (2 ^ (8 * Z.of_nat 4)) with (2 ^ 32). lia. }
      unfold sizeOfUint32. rewrite Hrun. cbn [rbind].
      eexists. split; [reflexivity | exact Hread].
  - intros Hex. apply Exists_exists in Hex. destruct Hex as (id & Hin & Hout).
    specialize (Hlt id Hin).
    unfold getBatchIds.
    destruct (Z.leb_spec (findBatchLength batchIds) 256) as [H256 | H256];
      [| destruct (Z.leb_spec (findBatchLength batchIds) 65536) as [H65536 | H65536]].
    + unfold sizeOfUint8. rewrite (batchId_loop_err 1 batchIds id Hin); [reflexivity |].
      change (2 ^ (8 * Z.of_nat 1)) with 256. lia.
    + unfold sizeOfUint16. rewrite (batchId_loop_err 2 batchIds id Hin); [reflexivity |].
      change (2 ^ (8 * Z.of_nat 2)) with 65536. lia.
    + unfold sizeOfUint32. rewrite (batchId_loop_err 4 batchIds id Hin); [reflexivity |].
      change (2 ^ (8 * Z.of_nat 4)) with (2 ^ 32). lia.
Qed.

Lemma getBatchIds_round_trip_witness :
  (exists p,
     getBatchIds wideBatchIds = Ok p /\
     readUIntArrayLE (getSizeInBytes (componentType p)) 3 (buffer p) = wideBatchIds)
  /\ getBatchIds [3; -1] = Err RangeError.
Proof.
  split.
  - apply (proj1 (getBatchIds_round_trip wideBatchIds)).
    repeat constructor; lia.
  - apply (proj2 (getBatchIds_round_trip [3; -1])).
    right. left. lia.
Defined.

(** ** What [getPoints] is made of *)

(** One iteration of the loop of [getPoints] appends one element to each
    of the five arrays; the batch id is that of some position. *)
Lemma getPoints_body_inv :
  forall (E : Env) pointsLength radius colorFunction shapeFunction quantizePositions
         relativeToCenter transform inverseTranspose center time i arrays g arrays' g',
    getPoints_body pointsLength radius colorFunction shapeFunction quantizePositions
      relativeToCenter transform inverseTranspose center time i arrays g
    = (Ok arrays', g') ->
    exists position normal batchPosition color noise,
      positionsArray arrays' = positionsArray arrays ++ [position] /\
      normalsArray arrays' = normalsArray arrays ++ [normal] /\
      batchIdsArray arrays' = batchIdsArray arrays ++ [getBatchId batchPosition] /\
      colorsArray arrays' = colorsArray arrays ++ [color] /\
      noiseValuesArray arrays' = noiseValuesArray arrays ++ [noise].
Proof.
  intros E n radius cf sf q rel t it center time i arrays g arrays' g' H.
  unfold getPoints_body in H. cbv zeta in H.
  apply bind_Ok_inv in H. destruct H as (position & g1 & _ & H).
  apply bind_Ok_inv in H. destruct H as (normal0 & g2 & _ & H).
  apply bind_Ok_inv in H. destruct H as (color & g3 & _ & H).
  apply bind_Ok_inv in H. destruct H as (noise & g4 & _ & H).
  apply bind_Ok_inv in H. destruct H as (normal & g5 & _ & H).
  unfold ret in H. inversion H; subst; clear H.
  cbn [positionsArray normalsArray batchIdsArray colorsArray noiseValuesArray].
  eexists. exists normal, position, color, noise.
  repeat split; reflexivity.
Qed.

(** The five arrays the loop of [getPoints] has filled, and the
    attributes made from them. *)
Lemma getPoints_inv :
  forall (E : Env) pointsLength radius colorModeFunction colorFunction shapeFunction
         quantizePositions octEncodeNormals relativeToCenter transform time g points g',
    getPoints pointsLength radius colorModeFunction colorFunction shapeFunction
      quantizePositions octEncodeNormals relativeToCenter transform time g
    = (Ok points, g') ->
    exists arrays,
      length (positionsArray arrays) = pointsLength /\
      length (normalsArray arrays) = pointsLength /\
      length (batchIdsArray arrays) = pointsLength /\
      length (colorsArray arrays) = pointsLength /\
      length (noiseValuesArray arrays) = pointsLength /\
      (forall id, In id (batchIdsArray arrays) -> exists position, id = getBatchId position) /\
      (if quantizePositions
       then getPositionsQuantized (positionsArray arrays) radius
       else getPositions (positionsArray arrays)) = Ok (positions points) /\
      (if octEncodeNormals
       then getNormalsOctEncoded (normalsArray arrays)
       else getNormals (normalsArray arrays)) = Ok (normals points) /\
      getBatchIds (batchIdsArray arrays) = Ok (batchIds points) /\
      match colorModeFunction with
      | Some f => exists c, f (colorsArray arrays) = Ok c /\ colors points = Some c
      | None => colors points = None
      end /\
      noiseValues points = noiseValuesArray arrays.
Proof.
  intros E n radius cmf cf sf q o rel t time g points g' H.
  unfold getPoints in H.
  apply bind_Ok_inv in H. destruct H as (it & g1 & _ & H).
  apply bind_Ok_inv in H. destruct H as (arrays & g2 & Hloop & H).
  apply bind_Ok_inv in H. destruct H as (pa & g3 & Hpa & H).
  apply bind_Ok_inv in H. destruct H as (na & g4 & Hna & H).
  apply bind_Ok_inv in H. destruct H as (ba & g5 & Hba & H).
  apply bind_Ok_inv in H. destruct H as (ca & g6 & Hca & H).
  apply lift_Ok_inv in Hpa, Hna, Hba, Hca.
  destruct Hpa as [Hpa _], Hna as [Hna _], Hba as [Hba _], Hca as [Hca _].
  unfold ret in H. inversion H; subst; clear H.
  cbn [positions normals batchIds colors noiseValues].
  exists arrays.
  pose proof (forM_preserves PointArrays
                (fun i a =>
                   length (positionsArray a) = i /\ length (normalsArray a) = i /\
                   length (batchIdsArray a) = i /\ length (colorsArray a) = i /\
                   length (noiseValuesArray a) = i /\
                   forall id, In id (batchIdsArray a) ->
                              exists position, id = getBatchId position)
                _ _ _ _ _ _ _ Hloop) as Hinv.
  cbn [Nat.add positionsArray normalsArray batchIdsArray colorsArray noiseValuesArray
       length] in Hinv.
  destruct Hinv as (L1 & L2 & L3 & L4 & L5 & Hids).
  - repeat split; try reflexivity. intros id [].
  - intros j s0 g0 s1 g7 _ Hbody (L1 & L2 & L3 & L4 & L5 & Hids).
    apply getPoints_body_inv in Hbody.
    destruct Hbody as (p & nrm & bp & c & noise & -> & -> & -> & -> & ->).
    rewrite !length_app. cbn [length].
    repeat split; try lia.
    intros id Hid. apply in_app_or in Hid. destruct Hid as [Hid | [<- | []]].
    + apply Hids. exact Hid.
    + exists bp. reflexivity.
  - repeat split; try assumption.
    destruct cmf as [f |].
    + destruct (f (colorsArray arrays)) as [c |] eqn:Hf; cbn [rbind] in Hca; [| discriminate].
      inversion Hca; subst. eauto.
    + inversion Hca. reflexivity.
Qed.

(** ** Keys set after the attribute loop *)

Lemma obj_get_after_volume : forall (J : JsObject) (q r : bool) S O R k,
  k <> "QUANTIZED_VOLUME_SCALE" -> k <> "QUANTIZED_VOLUME_OFFSET" -> k <> "RTC_CENTER" ->
  obj_get (if q then obj_set (obj_set J "QUANTIZED_VOLUME_SCALE" S)
                       "QUANTIZED_VOLUME_OFFSET" O
           else if r then obj_set J "RTC_CENTER" R else J) k
  = obj_get J k.
Proof.
  intros J q r S O R k H1 H2 H3. destruct q; [| destruct r];
    rewrite ?obj_get_set_ne by congruence; reflexivity.
Qed.

Lemma obj_get_after_constant : forall (J : JsObject) (cc : option (list Z)) k,
  k <> "CONSTANT_RGBA" ->
  obj_get (match cc with
           | Some c => obj_set J "CONSTANT_RGBA" (JArr (map JInt c))
           | None => J
           end) k = obj_get J k.
Proof.
  intros J [c |] k Hk; rewrite ?obj_get_set_ne by congruence; reflexivity.
Qed.

(** The entry the feature-table loop leaves for an attribute. *)
Lemma featureTableLoop_entry : forall props d bin json p,
  NoDup (map propertyName props) -> In p props ->
  exists off,
    obj_get (snd (featureTableLoop props d bin json)) (propertyName p)
    = Some (featureTableEntry (propertyName p) off (componentType p)).
Proof.
  induction props as [|q props IH]; intros d bin json p Hnd Hin; [contradiction |].
  cbn [featureTableLoop]. cbn [map] in Hnd. inversion Hnd as [| ? ? Hq Hnd']; subst.
  destruct (if negb (dracoCovers d (propertyName q))
            then appendAligned bin q else (0, bin)) as [off bin'].
  destruct Hin as [-> | Hin].
  - exists off. rewrite featureTableLoop_other by exact Hq. apply obj_get_set_eq.
  - apply IH; assumption.
Qed.

(** ** Batch ids *)

Lemma getBatchId_octant : forall position,
  getBatchId position
  = 4 * octantBit (x position) + 2 * octantBit (y position) + octantBit (z position).
Proof.
  intros position. unfold getBatchId, octantBit.
  destruct (PrimFloat.ltb 0 (x position)), (PrimFloat.ltb 0 (y position)),
           (PrimFloat.ltb 0 (z position)); reflexivity.
Qed.

Lemma getBatchId_range : forall position, 0 <= getBatchId position <= 7.
Proof.
  intros position. rewrite getBatchId_octant. unfold octantBit.
  destruct (PrimFloat.ltb 0 (x position)), (PrimFloat.ltb 0 (y position)),
           (PrimFloat.ltb 0 (z position)); lia.
Qed.

(** The batch ids [getPoints] computes are octants, so that the BATCH_ID
    attribute takes the narrowest component type. *)
Lemma getPoints_batchIds :
  forall (E : Env) pointsLength radius colorModeFunction colorFunction shapeFunction
         quantizePositions octEncodeNormals relativeToCenter transform time g points g',
    getPoints pointsLength radius colorModeFunction colorFunction shapeFunction
      quantizePositions octEncodeNormals relativeToCenter transform time g
    = (Ok points, g') ->
    propertyName (batchIds points) = "BATCH_ID" /\
    componentType (batchIds points) = UNSIGNED_BYTE /\
    length (buffer (batchIds points)) = pointsLength /\
    exists bl, batchLength (batchIds points) = Some bl /\ 0 <= bl <= 8.
Proof.
  intros E n radius cmf cf sf q o rel t time g points g' Hpoints.
  apply getPoints_inv in Hpoints.
  destruct Hpoints as (arrays & _ & _ & Lids & _ & _ & Hids & _ & _ & Hbi & _ & _).
  assert (Hrange : forall id, In id (batchIdsArray arrays) -> 0 <= id <= 7).
  { intros id Hid. destruct (Hids id Hid) as (position & ->). apply getBatchId_range. }
  destruct (findBatchLength_acc (batchIdsArray arrays) 0 _ eq_refl) as (Hge & Hlt & Hmax).
  fold (findBatchLength (batchIdsArray arrays)) in Hge, Hlt, Hmax.
  assert (Hbl : 0 <= findBatchLength (batchIdsArray arrays) <= 8).
  { destruct Hmax as [-> | (id & Hid & ->)]; [lia |]. specialize (Hrange id Hid). lia. }
  unfold getBatchIds in Hbi.
  destruct (Z.leb_spec (findBatchLength (batchIdsArray arrays)) 256); [| lia].
  unfold sizeOfUint8 in Hbi. rewrite batchId_loop in Hbi.
  rewrite (encodeEach_ok _ _ (bytesLE 1)) in Hbi.
  - cbn [rbind] in Hbi. inversion Hbi; subst; clear Hbi.
    cbn [componentType buffer propertyName batchLength].
    split; [reflexivity |]. split; [reflexivity |]. split.
    + rewrite (length_concat_const _ _ 1); [lia | intros; apply bytesLE_length].
    + eexists. split; [reflexivity | exact Hbl].
  - apply Forall_forall. intros id Hid. specialize (Hrange id Hid).
    change (2 ^ (8 * Z.of_nat 1) - 1) with 255.
    destruct (Z.gtb_spec id 255); [lia |]. destruct (Z.ltb_spec id 0); [lia |].
    reflexivity.
Qed.

(** X5: a batch id is the octant of the position - 4, 2 and 1 for a
    non-positive x, y and z - so it lies in 0..7; hence in every tile
    generated with [batched] the BATCH_ID attribute has one UNSIGNED_BYTE
    per point, BATCH_LENGTH is at most 8, and the feature-table JSON
    records both. *)
Theorem batch_ids_are_octants :
  (forall position,
     getBatchId position
     = 4 * octantBit (x position) + 2 * octantBit (y position) + octantBit (z position)
     /\ 0 <= getBatchId position <= 7)
  /\ (forall (E : Env) (options : Options E) (g : Globals E) tile g',
        createPointCloudTile_sections (Some options) g = (Ok tile, g') ->
        batched options = Some true ->
        exists p bl off,
          In p (featureTableProperties tile) /\
          propertyName p = "BATCH_ID" /\
          componentType p = UNSIGNED_BYTE /\
          length (buffer p) = defaultValue (pointsLength options) 1000%nat /\
          batchLength p = Some bl /\ 0 <= bl <= 8 /\
          obj_get (featureTableJson (sections tile)) "BATCH_LENGTH" = Some (JInt bl) /\
          obj_get (featureTableJson (sections tile)) "BATCH_ID"
          = Some (JObj [("byteOffset", JInt off);
                        ("componentType", JStr "UNSIGNED_BYTE")])).
Proof.
  split.
  - intros position. split; [apply getBatchId_octant | apply getBatchId_range].
  - intros E options g tile g' H Hb.
    destruct (sections_tables E options g tile g' H) as (Hft & _).
    destruct Hft as (d & start & json0 & loopJson & Hloop' & Hnd & Hsame & _ & _).
    invert_sections H.
    match type of Hnd with
    | NoDup (map propertyName (featureTableProperties ?t)) => set (tile_ := t) in *
    end.
    apply getPoints_batchIds in Hpoints.
    destruct Hpoints as (Hname & Hct & Hlen & bl & Hblen & Hbl).
    assert (Hin : In (batchIds points) (featureTableProperties tile_)).
    { unfold tile_. cbn [featureTableProperties]. rewrite Hb. cbn [defaultValue].
      apply in_or_app. right. left. reflexivity. }
    destruct (featureTableLoop_entry _ d start json0 (batchIds points) Hnd Hin)
      as (off & Hentry).
    rewrite Hloop' in Hentry. cbn [snd] in Hentry.
    rewrite <- Hsame in Hentry
      by (rewrite Hname; unfold featureAttributeNames; cbn [In]; tauto).
    rewrite Hname, Hct in Hentry.
    exists (batchIds points), bl, off.
    split; [exact Hin |]. split; [exact Hname |]. split; [exact Hct |].
    split; [exact Hlen |]. split; [exact Hblen |]. split; [exact Hbl |].
    split; [| exact Hentry].
    unfold tile_. cbn [featureTableJson sections].
    rewrite Hb, Hblen in Hbatched. cbn [defaultValue] in Hbatched.
    apply bind_Ok_inv in Hbatched. destruct Hbatched as (table & g6 & _ & Hret).
    unfold ret in Hret. inversion Hret; subst; clear Hret.
    apply obj_get_set_eq.
Qed.

Lemma batch_ids_are_octants_witness :
  exists tile g' p bl,
    createPointCloudTile_sections (Some batchedOptions) moduleInit = (Ok tile, g') /\
    In p (featureTableProperties tile) /\
    propertyName p = "BATCH_ID" /\ componentType p = UNSIGNED_BYTE /\
    0 <= bl <= 8 /\
    obj_get (featureTableJson (sections tile)) "BATCH_LENGTH" = Some (JInt bl).
Proof.
  assert (Hok : isOk (fst (createPointCloudTile_sections (Some batchedOptions) moduleInit))
                = true) by (vm_compute; reflexivity).
  destruct (createPointCloudTile_sections (Some batchedOptions) moduleInit)
    as [[tile | e] g'] eqn:Hrun; [| discriminate Hok].
  destruct (proj2 batch_ids_are_octants Sample.env batchedOptions moduleInit tile g'
              Hrun eq_refl)
    as (p & bl & off & Hin & Hname & Hct & _ & _ & Hbl & Hjson & _).
  exists tile, g', p, bl.
  split; [reflexivity |].
  split; [exact Hin |]. split; [exact Hname |]. split; [exact Hct |].
  split; [exact Hbl | exact Hjson].
Defined.

Lemma concat_map_snoc : forall (A : Type) (f : A -> list byte) l a,
  concat (map f (l ++ [a])) = concat (map f l) ++ f a.
Proof.
  intros A f l a. rewrite map_app, concat_app. cbn [map concat]. rewrite app_nil_r.
  reflexivity.
Qed.

Lemma pointIds_S : forall j, pointIds (S j) = pointIds j ++ [Z.of_nat j].
Proof. intros j. unfold pointIds. rewrite seq_S, map_app. reflexivity. Qed.

Lemma pointIds_length : forall j, length (pointIds j) = j.
Proof. intros j. unfold pointIds. rewrite length_map, length_seq. reflexivity. Qed.

Lemma repeat_S_mul : forall n j k, (j < n)%nat ->
  repeat x00 ((n - j) * k) = repeat x00 k ++ repeat x00 ((n - S j) * k).
Proof.
  intros n j k Hj. rewrite <- repeat_app. f_equal. nia.
Qed.

(** One iteration of the loop of [getPerPointBatchTableProperties] on
    point [j] of [n], from buffers filled up to [j]. *)
Lemma perPoint_step : forall (E : Env) n (noiseValues : list float) j
    (done_t done_i scb : list byte) (g : Globals E),
  (j < n)%nat ->
  length done_t = (j * 4)%nat -> length done_i = (j * 2)%nat ->
  length scb = (n * 12)%nat ->
  let temperature := nth j noiseValues PrimFloat.nan in
  exists scb' g',
    length scb' = (n * 12)%nat /\
    (bind CesiumMath_nextRandomNumber (fun r =>
     bind (lift (writeFloatLE (done_t ++ repeat x00 ((n - j) * 4)) temperature
                   (j * sizeOfFloat32))) (fun temperaturesBuffer =>
     bind (lift (writeFloatLE scb (fst (fst (r, 0%float, 0%float)))
                   ((j * 3) * sizeOfFloat32))) (fun secondaryColorBuffer =>
     bind (lift (writeFloatLE secondaryColorBuffer (snd (fst (r, 0%float, 0%float)))
                   ((j * 3 + 1) * sizeOfFloat32))) (fun secondaryColorBuffer =>
     bind (lift (writeFloatLE secondaryColorBuffer (snd (r, 0%float, 0%float))
                   ((j * 3 + 2) * sizeOfFloat32))) (fun secondaryColorBuffer =>
     bind (lift (writeUIntLE_int 2 (done_i ++ repeat x00 ((n - j) * 2)) (Z.of_nat j)
                   (j * sizeOfUint16))) (fun idBuffer =>
     ret (temperaturesBuffer, secondaryColorBuffer, idBuffer))))))) g
    = (if Z.of_nat j <=? 65535
       then Ok (done_t ++ float32LE temperature ++ repeat x00 ((n - S j) * 4),
                scb',
                done_i ++ bytesLE 2 (Z.of_nat j) ++ repeat x00 ((n - S j) * 2))
       else Err RangeError, g')).
Proof.
  intros E n noiseValues j done_t done_i scb g Hj Ht Hi Hs temperature.
  unfold bind at 1. unfold CesiumMath_nextRandomNumber.
  destruct (MersenneTwister_random (randomNumberGenerator g)) as [r gen].
  set (g1 := {| randomNumberGenerator := gen; simplex := simplex g |}).
  cbn [fst snd].
  unfold writeFloatLE, sizeOfFloat32, sizeOfUint16.
  rewrite (repeat_S_mul n j 4 Hj), (repeat_S_mul n j 2 Hj).
  unfold bind at 1. unfold lift at 1.
  rewrite Buffer_store_at by (rewrite ?repeat_length, ?bytesLE_length; lia).
  destruct (Buffer_store_ok scb (j * 3 * 4) (bytesLE 4 (float32_bits r)))
    as (s1 & Hs1 & L1); [rewrite bytesLE_length; lia |].
  destruct (Buffer_store_ok s1 ((j * 3 + 1) * 4) (bytesLE 4 (float32_bits 0)))
    as (s2 & Hs2 & L2); [rewrite bytesLE_length; lia |].
  destruct (Buffer_store_ok s2 ((j * 3 + 2) * 4) (bytesLE 4 (float32_bits 0)))
    as (s3 & Hs3 & L3); [rewrite bytesLE_length; lia |].
  exists s3, g1. split; [lia |].
  unfold bind, lift. rewrite Hs1, Hs2, Hs3.
  unfold writeUIntLE_int. change (2 ^ (8 * Z.of_nat 2) - 1) with 65535.
  destruct (Z.leb_spec (Z.of_nat j) 65535).
  - destruct (Z.gtb_spec (Z.of_nat j) 65535); [lia |].
    destruct (Z.ltb_spec (Z.of_nat j) 0); [lia |]. cbn [orb].
    rewrite Buffer_store_at by (rewrite ?repeat_length, ?bytesLE_length; lia).
    reflexivity.
  - destruct (Z.gtb_spec (Z.of_nat j) 65535); [| lia]. reflexivity.
Qed.

(** The first [m] iterations of the loop, for [n] points. *)
Lemma perPoint_loop : forall (E : Env) n (noiseValues : list float)
    (body : nat -> Buffer * Buffer * Buffer -> M E (Buffer * Buffer * Buffer)),
  (forall j tb scb ib g,
     body j (tb, scb, ib) g
     = bind CesiumMath_nextRandomNumber (fun r =>
       bind (lift (writeFloatLE tb (nth j noiseValues PrimFloat.nan)
                     (j * sizeOfFloat32))) (fun temperaturesBuffer =>
       bind (lift (writeFloatLE scb (fst (fst (r, 0%float, 0%float)))
                     ((j * 3) * sizeOfFloat32))) (fun secondaryColorBuffer =>
       bind (lift (writeFloatLE secondaryColorBuffer (snd (fst (r, 0%float, 0%float)))
                     ((j * 3 + 1) * sizeOfFloat32))) (fun secondaryColorBuffer =>
       bind (lift (writeFloatLE secondaryColorBuffer (snd (r, 0%float, 0%float))
                     ((j * 3 + 2) * sizeOfFloat32))) (fun secondaryColorBuffer =>
       bind (lift (writeUIntLE_int 2 ib (Z.of_nat j) (j * sizeOfUint16)))
         (fun idBuffer =>
       ret (temperaturesBuffer, secondaryColorBuffer, idBuffer))))))) g) ->
  forall m g, (m <= n)%nat -> Z.of_nat m <= 65536 ->
    exists scb g',
      length scb = (n * 12)%nat /\
      forM body 0 m
        (Buffer_alloc (n * sizeOfFloat32), Buffer_alloc (n * 3 * sizeOfFloat32),
         Buffer_alloc (n * sizeOfUint16)) g
      = (Ok (concat (map (temperatureBytes noiseValues) (seq 0 m))
               ++ repeat x00 ((n - m) * 4),
             scb,
             concat (map (bytesLE 2) (pointIds m)) ++ repeat x00 ((n - m) * 2)), g').
Proof.
  intros E n noiseValues body Hbody m g Hm H16.
  destruct (forM_indexed (Buffer * Buffer * Buffer)
              (fun j s =>
                 exists scb,
                   length scb = (n * 12)%nat /\
                   s = (concat (map (temperatureBytes noiseValues) (seq 0 j))
                          ++ repeat x00 ((n - j) * 4),
                        scb,
                        concat (map (bytesLE 2) (pointIds j)) ++ repeat x00 ((n - j) * 2)))
              body m 0
              (Buffer_alloc (n * sizeOfFloat32), Buffer_alloc (n * 3 * sizeOfFloat32),
               Buffer_alloc (n * sizeOfUint16)) g)
    as (s' & g' & Hrun & scb & Hlen & ->).
  - exists (Buffer_alloc (n * 3 * sizeOfFloat32)). unfold Buffer_alloc, sizeOfFloat32, sizeOfUint16.
    split; [rewrite repeat_length; lia |].
    cbn [seq map concat pointIds app]. rewrite Nat.sub_0_r. reflexivity.
  - intros j s0 g0 Hj (scb & Hlen & ->). rewrite Hbody.
    destruct (perPoint_step E n noiseValues j
                (concat (map (temperatureBytes noiseValues) (seq 0 j)))
                (concat (map (bytesLE 2) (pointIds j))) scb g0)
      as (scb' & g1 & Hlen' & Hstep); [lia | | | exact Hlen |].
    + rewrite (length_concat_const _ _ 4), length_seq; [reflexivity |].
      intros a _. apply float32LE_length.
    + rewrite (length_concat_const _ _ 2), pointIds_length; [reflexivity |].
      intros a _. apply bytesLE_length.
    + cbv zeta in Hstep. rewrite Hstep.
      destruct (Z.leb_spec (Z.of_nat j) 65535); [| lia].
      eexists. exists g1. split; [reflexivity |].
      exists scb'. split; [exact Hlen' |].
      rewrite seq_S, pointIds_S, !concat_map_snoc, <- !app_assoc. reflexivity.
  - exists scb, g'. split; [exact Hlen |]. exact Hrun.
Qed.

(** X6: [getPerPointBatchTableProperties] numbers the points with
    UNSIGNED_SHORT ids.  For up to 65536 points it returns the three
    properties temperature, secondaryColor and id, with 4, 12 and 2 bytes
    per point, the temperatures being the noise values and the ids reading
    back as 0, 1, ..., n-1; for more points, [writeUInt16LE] rejects the
    id 65536 and the call throws a RangeError, so that
    [createPointCloudTile] with [perPointProperties] returns no tile. *)
Theorem perPointProperties_up_to_65536_points :
  forall (E : Env),
    (forall (n : nat) (noiseValues : list float) (g : Globals E),
       Z.of_nat n <= 65536 ->
       exists t s i g',
         getPerPointBatchTableProperties n noiseValues g
         = (Ok [ {| buffer := t; propertyName := "temperature";
                    componentType := FLOAT; type := SCALAR; batchLength := None |};
                 {| buffer := s; propertyName := "secondaryColor";
                    componentType := FLOAT; type := VEC3; batchLength := None |};
                 {| buffer := i; propertyName := "id";
                    componentType := UNSIGNED_SHORT; type := SCALAR;
                    batchLength := None |} ], g') /\
         t = concat (map (temperatureBytes noiseValues) (seq 0 n)) /\
         length t = (n * 4)%nat /\
         length s = (n * 12)%nat /\
         length i = (n * 2)%nat /\
         readUIntArrayLE 2 n i = pointIds n)
    /\ (forall (n : nat) (noiseValues : list float) (g : Globals E),
          65536 < Z.of_nat n ->
          exists g',
            getPerPointBatchTableProperties n noiseValues g = (Err RangeError, g'))
    /\ (forall (options : Options E) (g : Globals E),
          perPointProperties options = Some true ->
          65536 < Z.of_nat (defaultValue (pointsLength options) 1000%nat) ->
          forall tile g', createPointCloudTile_sections (Some options) g <> (Ok tile, g')).
Proof.
  intros E.
  assert (Hfail : forall (n : nat) (noiseValues : list float) (g : Globals E),
            65536 < Z.of_nat n ->
            exists g',
              getPerPointBatchTableProperties n noiseValues g = (Err RangeError, g')).
  { intros n noiseValues g Hn. unfold getPerPointBatchTableProperties.
    match goal with
    | |- context [forM ?body 0 n ?init] =>
        destruct (perPoint_loop E n noiseValues body ltac:(intros; reflexivity)
                    (Z.to_nat 65536) g ltac:(lia) ltac:(lia))
          as (scb & g1 & Hlen & Hrun);
        destruct (perPoint_step E n noiseValues (Z.to_nat 65536)
                    (concat (map (temperatureBytes noiseValues) (seq 0 (Z.to_nat 65536))))
                    (concat (map (bytesLE 2) (pointIds (Z.to_nat 65536)))) scb g1)
          as (scb' & g2 & _ & Hstep);
        [lia
        |rewrite (length_concat_const _ _ 4), length_seq;
           [reflexivity | intros a _; apply float32LE_length]
        |rewrite (length_concat_const _ _ 2), pointIds_length;
           [reflexivity | intros a _; apply bytesLE_length]
        |exact Hlen
        |];
        exists g2; apply bind_Err;
        rewrite (forM_count _ body n (Z.to_nat 65536 + S (n - S (Z.to_nat 65536))))
          by lia;
        rewrite forM_app, (bind_Ok _ _ _ _ _ _ _ Hrun)
    end.
    cbn [forM Nat.add]. apply bind_Err.
    cbv zeta in Hstep. cbv beta iota. rewrite Hstep.
    destruct (Z.leb_spec (Z.of_nat (Z.to_nat 65536)) 65535); [lia | reflexivity]. }
  split; [| split; [exact Hfail |]].
  - intros n noiseValues g Hn. unfold getPerPointBatchTableProperties.
    match goal with
    | |- context [forM ?body 0 n ?init] =>
        destruct (perPoint_loop E n noiseValues body ltac:(intros; reflexivity)
                    n g ltac:(lia) Hn)
          as (scb & g1 & Hlen & Hrun)
    end.
    rewrite (bind_Ok _ _ _ _ _ _ _ Hrun). unfold ret.
    rewrite Nat.sub_diag. cbn [Nat.mul repeat]. rewrite !app_nil_r.
    eexists. eexists. eexists. exists g1. split; [reflexivity |].
    split; [reflexivity |]. split; [| split; [exact Hlen | split]].
    + rewrite (length_concat_const _ _ 4), length_seq; [reflexivity |].
      intros a _. apply float32LE_length.
    + rewrite (length_concat_const _ _ 2), pointIds_length; [reflexivity |].
      intros a _. apply bytesLE_length.
    + rewrite <- (pointIds_length n) at 1. rewrite readUIntArrayLE_concat.
      rewrite <- (map_id (pointIds n)) at 2. apply map_ext_in. intros id Hid.
      rewrite readUIntLE_bytesLE by lia. apply Z.mod_small.
      unfold pointIds in Hid. apply in_map_iff in Hid. destruct Hid as (k & <- & Hk).
      apply in_seq in Hk. change (2 ^ (8 * Z.of_nat 2)) with 65536. lia.
  - intros options g Hpp Hn tile g' H.
    unfold createPointCloudTile_sections in H.
    apply bind_Ok_inv in H. destruct H as (u & g1 & _ & H).
    cbv zeta in H. cbn [defaultValue] in H. rewrite Hpp in H. cbn [defaultValue] in H.
    apply bind_Ok_inv in H. destruct H as (points & g2 & _ & H).
    apply bind_Ok_inv in H. destruct H as (bt & g3 & Hbt & _).
    destruct (Hfail _ (noiseValues points) g2 Hn) as (g4 & Hf).
    cbn [defaultValue] in Hf. rewrite Hf in Hbt. discriminate.
Qed.

Lemma perPointProperties_up_to_65536_points_witness :
  (exists t s i g',
     getPerPointBatchTableProperties 3 [0.5; 0.25; 1]%float (@moduleInit Sample.env)
     = (Ok [ {| buffer := t; propertyName := "temperature";
                componentType := FLOAT; type := SCALAR; batchLength := None |};
             {| buffer := s; propertyName := "secondaryColor";
                componentType := FLOAT; type := VEC3; batchLength := None |};
             {| buffer := i; propertyName := "id";
                componentType := UNSIGNED_SHORT; type := SCALAR;
                batchLength := None |} ], g') /\
     readUIntArrayLE 2 3 i = [0; 1; 2])
  /\ (exists g',
        getPerPointBatchTableProperties (Z.to_nat 65537) [] (@moduleInit Sample.env)
        = (Err RangeError, g'))
  /\ forall tile g',
       createPointCloudTile_sections (Some (tooManyPoints Sample.env)) moduleInit
       <> (Ok tile, g').
Proof.
  split; [| split].
  - destruct (proj1 (perPointProperties_up_to_65536_points Sample.env)
                3%nat [0.5; 0.25; 1]%float moduleInit ltac:(lia))
      as (t & s & i & g' & Hrun & _ & _ & _ & _ & Hids).
    exists t, s, i, g'. split; [exact Hrun | exact Hids].
  - apply (proj1 (proj2 (perPointProperties_up_to_65536_points Sample.env))). lia.
  - apply (proj2 (proj2 (perPointProperties_up_to_65536_points Sample.env)));
      [reflexivity | cbn [tooManyPoints pointsLength defaultValue]; lia].
Defined.

(** The loop of [getBatchTableForBatchedPoints], for [n] batches. *)
Lemma batchedTable_loop : forall (E : Env) n (g : Globals E),
  Z.of_nat n <= 2 ^ 32 ->
  exists dims g',
    length dims = (n * 12)%nat /\
    forM (fun i '(names, dimensionsBuffer, idBuffer) =>
            let names := names ++ [sectionName i] in
            bind CesiumMath_nextRandomNumber (fun r =>
            bind (lift (writeFloatLE dimensionsBuffer r ((i * 3) * sizeOfFloat32)))
              (fun dimensionsBuffer =>
            bind CesiumMath_nextRandomNumber (fun r =>
            bind (lift (writeFloatLE dimensionsBuffer r ((i * 3 + 1) * sizeOfFloat32)))
              (fun dimensionsBuffer =>
            bind CesiumMath_nextRandomNumber (fun r =>
            bind (lift (writeFloatLE dimensionsBuffer r ((i * 3 + 2) * sizeOfFloat32)))
              (fun dimensionsBuffer =>
            bind (lift (writeUIntLE_int 4 idBuffer (Z.of_nat i) (i * sizeOfUint32)))
              (fun idBuffer =>
            ret (names, dimensionsBuffer, idBuffer)))))))))
         0 n
         ([], Buffer_alloc (n * 3 * sizeOfFloat32), Buffer_alloc (n * sizeOfUint32)) g
    = (Ok (map sectionName (seq 0 n), dims, concat (map (bytesLE 4) (pointIds n))), g').
Proof.
  intros E n g Hn.
  match goal with
  | |- context [forM ?body 0 n ?init g] =>
      destruct (forM_indexed (list string * Buffer * Buffer)
                  (fun j s =>
                     exists dims,
                       length dims = (n * 12)%nat /\
                       s = (map sectionName (seq 0 j), dims,
                            concat (map (bytesLE 4) (pointIds j))
                              ++ repeat x00 ((n - j) * 4)))
                  body n 0 init g)
        as (s' & g' & Hrun & dims & Hlen & ->)
  end.
  - exists (Buffer_alloc (n * 3 * sizeOfFloat32)).
    unfold Buffer_alloc, sizeOfFloat32, sizeOfUint32.
    split; [rewrite repeat_length; lia |].
    cbn [seq map concat pointIds app]. rewrite Nat.sub_0_r. reflexivity.
  - intros j s0 g0 Hj (dims & Hlen & ->). cbv beta iota zeta.
    unfold writeFloatLE, sizeOfFloat32, sizeOfUint32.
    destruct (nextRandomNumber_run g0) as (r1 & g1 & Hr1).
    rewrite (bind_Ok _ _ _ _ _ _ _ Hr1).
    destruct (Buffer_store_ok dims (j * 3 * 4) (bytesLE 4 (float32_bits r1)))
      as (d1 & Hd1 & L1); [rewrite bytesLE_length; lia |].
    rewrite (bind_lift_Ok _ _ _ _ _ _ Hd1).
    destruct (nextRandomNumber_run g1) as (r2 & g2 & Hr2).
    rewrite (bind_Ok _ _ _ _ _ _ _ Hr2).
    destruct (Buffer_store_ok d1 ((j * 3 + 1) * 4) (bytesLE 4 (float32_bits r2)))
      as (d2 & Hd2 & L2); [rewrite bytesLE_length; lia |].
    rewrite (bind_lift_Ok _ _ _ _ _ _ Hd2).
    destruct (nextRandomNumber_run g2) as (r3 & g3 & Hr3).
    rewrite (bind_Ok _ _ _ _ _ _ _ Hr3).
    destruct (Buffer_store_ok d2 ((j * 3 + 2) * 4) (bytesLE 4 (float32_bits r3)))
      as (d3 & Hd3 & L3); [rewrite bytesLE_length; lia |].
    rewrite (bind_lift_Ok _ _ _ _ _ _ Hd3).
    assert (Hid : writeUIntLE_int 4
                    (concat (map (bytesLE 4) (pointIds j)) ++ repeat x00 ((n - j) * 4))
                    (Z.of_nat j) (j * 4)
                  = Ok (concat (map (bytesLE 4) (pointIds (S j)))
                          ++ repeat x00 ((n - S j) * 4))).
    { unfold writeUIntLE_int. change (2 ^ (8 * Z.of_nat 4) - 1) with (2 ^ 32 - 1).
      destruct (Z.gtb_spec (Z.of_nat j) (2 ^ 32 - 1)); [lia |].
      destruct (Z.ltb_spec (Z.of_nat j) 0); [lia |]. cbn [orb].
      rewrite (repeat_S_mul n j 4) by lia.
      rewrite Buffer_store_at.
      - rewrite pointIds_S, concat_map_snoc, <- app_assoc. reflexivity.
      - rewrite (length_concat_const _ _ 4), pointIds_length; [reflexivity |].
        intros a _. apply bytesLE_length.
      - rewrite repeat_length, bytesLE_length. reflexivity. }
    rewrite (bind_lift_Ok _ _ _ _ _ _ Hid). unfold ret.
    eexists. exists g3. split; [reflexivity |].
    exists d3. split; [lia |].
    rewrite seq_S, map_app. reflexivity.
  - exists dims, g'. split; [exact Hlen |].
    rewrite Hrun. cbn [Nat.add]. rewrite Nat.sub_diag. cbn [Nat.mul repeat].
    rewrite app_nil_r. reflexivity.
Qed.

Lemma getBatchTableForBatchedPoints_layout : forall (E : Env) n (g : Globals E),
  Z.of_nat n <= 2 ^ 32 ->
  exists dims ids g',
    getBatchTableForBatchedPoints n g = (Ok (batchedTableJson n, dims ++ ids), g') /\
    length dims = (n * 12)%nat /\ length ids = (n * 4)%nat /\
    readUIntArrayLE 4 n ids = pointIds n.
Proof.
  intros E n g Hn. unfold getBatchTableForBatchedPoints.
  destruct (batchedTable_loop E n g Hn) as (dims & g' & Hlen & Hrun).
  rewrite (bind_Ok _ _ _ _ _ _ _ Hrun). unfold ret.
  exists dims, (concat (map (bytesLE 4) (pointIds n))), g'.
  split; [| split; [exact Hlen | split]].
  - unfold batchedTableJson, Buffer_concat, Buffer_alloc, sizeOfFloat32.
    cbn [concat]. rewrite app_nil_r, repeat_length.
    replace (n * 3 * 4)%nat with (n * 12)%nat by lia. reflexivity.
  - rewrite (length_concat_const _ _ 4), pointIds_length; [reflexivity |].
    intros a _. apply bytesLE_length.
  - rewrite <- (pointIds_length n) at 1. rewrite readUIntArrayLE_concat.
    rewrite <- (map_id (pointIds n)) at 2. apply map_ext_in. intros id Hid.
    rewrite readUIntLE_bytesLE by lia. apply Z.mod_small.
    unfold pointIds in Hid. apply in_map_iff in Hid. destruct Hid as (k & <- & Hk).
    apply in_seq in Hk. change (2 ^ (8 * Z.of_nat 4)) with (2 ^ 32). lia.
Qed.

(** X7: [getBatchTableForBatchedPoints] returns, for any number of batches
    an UNSIGNED_INT can count, the JSON {name, dimensions, id} with the
    names section0, section1, ... and a binary of 12 bytes of dimensions
    per batch followed by the ids 0, 1, ... as 4-byte integers, the id
    section starting at the 4-byte aligned offset 12 * batchLength; and a
    tile generated with [batched] has exactly this table as its batch
    table, with BATCH_LENGTH batches, whatever [perPointProperties] or
    [draco] asked for. *)
Theorem batched_tile_has_the_per_batch_table :
  forall (E : Env),
    (forall n (g : Globals E),
       Z.of_nat n <= 2 ^ 32 ->
       exists dims ids g',
         getBatchTableForBatchedPoints n g = (Ok (batchedTableJson n, dims ++ ids), g') /\
         length dims = (n * 12)%nat /\ length ids = (n * 4)%nat /\
         readUIntArrayLE 4 n ids = pointIds n /\
         Z.of_nat (n * 12) mod 4 = 0)
    /\ (forall (options : Options E) (g : Globals E) tile g',
          createPointCloudTile_sections (Some options) g = (Ok tile, g') ->
          batched options = Some true ->
          exists n dims ids,
            (n <= 8)%nat /\
            obj_get (featureTableJson (sections tile)) "BATCH_LENGTH"
            = Some (JInt (Z.of_nat n)) /\
            batchTableJson (sections tile) = batchedTableJson n /\
            batchTableBinary (sections tile) = dims ++ ids /\
            length dims = (n * 12)%nat /\ length ids = (n * 4)%nat /\
            readUIntArrayLE 4 n ids = pointIds n).
Proof.
  intros E. split.
  - intros n g Hn.
    destruct (getBatchTableForBatchedPoints_layout E n g Hn)
      as (dims & ids & g' & Hrun & Hd & Hi & Hread).
    exists dims, ids, g'. repeat (split; [assumption |]).
    rewrite Nat2Z.inj_mul. change (Z.of_nat 12) with (3 * 4).
    rewrite Z.mul_assoc. apply Z.mod_mul. lia.
  - intros options g tile g' H Hb.
    unfold createPointCloudTile_sections in H.
    apply bind_Ok_inv in H. destruct H as (u & g1 & _ & H).
    cbv zeta in H. cbn [defaultValue] in H. rewrite Hb in H. cbn [defaultValue] in H.
    apply bind_Ok_inv in H. destruct H as (points & g2 & Hpoints & H).
    apply bind_Ok_inv in H. destruct H as (bt & g3 & _ & H).
    apply bind_Ok_inv in H. destruct H as (stage & g4 & _ & H).
    destruct stage as [[[[[ftj ftb] btj] ext] dft] dbt].
    apply getPoints_batchIds in Hpoints.
    destruct Hpoints as (_ & _ & _ & bl & Hblen & Hbl).
    match type of H with
    | context [featureTableLoop ?a ?b ?c ?d] =>
        destruct (featureTableLoop a b c d) as [ftb' ftj']
    end.
    match type of H with
    | context [batchTableLoop ?a ?b ?c ?d] =>
        destruct (batchTableLoop a b c d) as [btb' btj']
    end.
    rewrite Hblen in H.
    apply bind_Ok_inv in H. destruct H as (final & g5 & Hfinal & H).
    apply bind_Ok_inv in Hfinal. destruct Hfinal as (table & g6 & Htable & Hret).
    unfold ret in Hret. inversion Hret; subst; clear Hret.
    unfold ret in H. inversion H; subst; clear H.
    cbn [sections featureTableJson batchTableJson batchTableBinary].
    match type of Htable with
    | getBatchTableForBatchedPoints _ ?g0 = _ =>
        destruct (getBatchTableForBatchedPoints_layout E (Z.to_nat bl) g0 ltac:(lia))
          as (dims & ids & g7 & Hrun & Hd & Hi & Hread)
    end.
    rewrite Hrun in Htable. inversion Htable; subst; clear Htable. cbn [fst snd].
    exists (Z.to_nat bl), dims, ids.
    split; [lia |]. split; [rewrite obj_get_set_eq, Z2Nat.id by lia; reflexivity |].
    split; [reflexivity |]. split; [reflexivity |].
    split; [exact Hd |]. split; [exact Hi | exact Hread].
Qed.

Lemma batched_tile_has_the_per_batch_table_witness :
  (exists dims ids g',
     getBatchTableForBatchedPoints 2 (@moduleInit Sample.env)
     = (Ok (batchedTableJson 2, dims ++ ids), g') /\
     readUIntArrayLE 4 2 ids = [0; 1])
  /\ exists tile g' n,
       createPointCloudTile_sections (Some batchedPerPointOptions) moduleInit
       = (Ok tile, g') /\
       batchTableJson (sections tile) = batchedTableJson n /\
       length (batchTableBinary (sections tile)) = (n * 16)%nat.
Proof.
  split.
  - destruct (proj1 (batched_tile_has_the_per_batch_table Sample.env) 2%nat moduleInit
                ltac:(lia))
      as (dims & ids & g' & Hrun & _ & _ & Hread & _).
    exists dims, ids, g'. split; [exact Hrun | exact Hread].
  - assert (Hok : isOk (fst (createPointCloudTile_sections (Some batchedPerPointOptions)
                               moduleInit)) = true) by (vm_compute; reflexivity).
    destruct (createPointCloudTile_sections (Some batchedPerPointOptions) moduleInit)
      as [[tile | e] g'] eqn:Hrun; [| discriminate Hok].
    destruct (proj2 (batched_tile_has_the_per_batch_table Sample.env)
                batchedPerPointOptions moduleInit tile g' Hrun eq_refl)
      as (n & dims & ids & _ & _ & Hjson & Hbin & Hd & Hi & _).
    exists tile, g', n.
    split; [reflexivity |]. split; [exact Hjson |].
    rewrite Hbin, length_app, Hd, Hi. lia.
Defined.

(** The last statements of [createPointCloudTile] (lines 219-224) leave
    every key of the feature-table JSON but BATCH_LENGTH as it was. *)
Lemma obj_get_after_batched :
  forall (E : Env) (batched : bool) (blo : option Z) (J btj : JsObject) (btb : Buffer)
         (g : Globals E) fj bj bb g',
    (if batched
     then match blo with
          | Some bl =>
              bind (getBatchTableForBatchedPoints (Z.to_nat bl))
                (fun batchTable =>
                   ret (obj_set J "BATCH_LENGTH" (JInt bl), fst batchTable, snd batchTable))
          | None => lift (Err TypeError)
          end
     else ret (J, btj, btb)) g = (Ok (fj, bj, bb), g') ->
    forall k, k <> "BATCH_LENGTH" -> obj_get fj k = obj_get J k.
Proof.
  intros E b blo J btj btb g fj bj bb g' H k Hk.
  destruct b.
  - destruct blo as [bl |]; [| apply lift_Ok_inv in H; destruct H; discriminate].
    apply bind_Ok_inv in H. destruct H as (table & g1 & _ & H).
    unfold ret in H. inversion H; subst. apply obj_get_set_ne. congruence.
  - unfold ret in H. inversion H; subst. reflexivity.
Qed.

Lemma attribute_name_not_late : forall k,
  In k featureAttributeNames ->
  k <> "POINTS_LENGTH" /\ k <> "CONSTANT_RGBA" /\ k <> "QUANTIZED_VOLUME_SCALE" /\
  k <> "QUANTIZED_VOLUME_OFFSET" /\ k <> "RTC_CENTER" /\ k <> "BATCH_LENGTH" /\
  k <> "extensions".
Proof.
  intros k Hk. unfold featureAttributeNames in Hk. cbn [In] in Hk.
  repeat (destruct Hk as [<- | Hk]; [repeat split; discriminate |]).
  contradiction.
Qed.

(** The names of the attributes [getPoints] returned, as the options
    order them in the feature table. *)
Lemma featureTableProperties_expected :
  forall (E : Env) (options : Options E) pointsLength radius colorFunction shapeFunction
         transform time g points g',
    getPoints pointsLength radius
      (if String.eqb (effectiveColorMode options) "rgb" then Some getColorsRGB
       else if String.eqb (effectiveColorMode options) "rgba" then Some getColorsRGBA
       else if String.eqb (effectiveColorMode options) "rgb565" then Some getColorsRGB565
       else None)
      colorFunction shapeFunction
      (defaultValue (quantizePositions options) false
       && negb (defaultValue (draco options) false))
      (defaultValue (octEncodeNormals options) false
       && negb (defaultValue (draco options) false))
      (defaultValue (relativeToCenter options) true) transform time g
    = (Ok points, g') ->
    map propertyName
      (let featureTableProperties := [positions points] in
       let featureTableProperties :=
         match colors points with
         | Some colors => featureTableProperties ++ [colors]
         | None => featureTableProperties
         end in
       let featureTableProperties :=
         if defaultValue (generateNormals options) false
         then featureTableProperties ++ [normals points]
         else featureTableProperties in
       if defaultValue (batched options) false
       then featureTableProperties ++ [batchIds points]
       else featureTableProperties)
    = expectedAttributeNames options.
Proof.
  intros E options n radius cf sf t time g points g' H.
  apply getPoints_shape in H. destruct H as (Hp & Hn & Hb & Hc).
  unfold expectedAttributeNames. cbv zeta.
  assert (Hcol : map propertyName
                   match colors points with
                   | Some colors => [positions points] ++ [colors]
                   | None => [positions points]
                   end
                 = [if defaultValue (quantizePositions options) false
                       && negb (defaultValue (draco options) false)
                    then "POSITION_QUANTIZED" else "POSITION"]
                   ++ (if String.eqb (effectiveColorMode options) "rgb" then ["RGB"]
                       else if String.eqb (effectiveColorMode options) "rgba" then ["RGBA"]
                       else if String.eqb (effectiveColorMode options) "rgb565"
                            then ["RGB565"] else [])).
  { destruct (String.eqb (effectiveColorMode options) "rgb");
      [| destruct (String.eqb (effectiveColorMode options) "rgba");
         [| destruct (String.eqb (effectiveColorMode options) "rgb565")]].
    - destruct Hc as (l & c & Hl & ->). apply getColorsRGB_shape in Hl.
      destruct Hl as (Hcn & _). cbn [map app]. rewrite Hp, Hcn. reflexivity.
    - destruct Hc as (l & c & Hl & ->). apply getColorsRGBA_shape in Hl.
      destruct Hl as (Hcn & _). cbn [map app]. rewrite Hp, Hcn. reflexivity.
    - destruct Hc as (l & c & Hl & ->). apply getColorsRGB565_shape in Hl.
      destruct Hl as (Hcn & _). cbn [map app]. rewrite Hp, Hcn. reflexivity.
    - rewrite Hc. cbn [map app]. rewrite Hp. reflexivity. }
  destruct (defaultValue (batched options) false),
           (defaultValue (generateNormals options) false);
    rewrite ?map_app, Hcol; cbn [map]; rewrite ?Hn, ?Hb, <- ?app_assoc;
    cbn [app]; rewrite ?app_nil_r; reflexivity.
Qed.

Lemma expected_names_known : forall (E : Env) (options : Options E),
  incl (expectedAttributeNames options) featureAttributeNames.
Proof.
  intros E options k Hk. unfold expectedAttributeNames in Hk. cbv zeta in Hk.
  unfold featureAttributeNames.
  destruct (defaultValue (quantizePositions options) false
            && negb (defaultValue (draco options) false)),
           (String.eqb (effectiveColorMode options) "rgb"),
           (String.eqb (effectiveColorMode options) "rgba"),
           (String.eqb (effectiveColorMode options) "rgb565"),
           (defaultValue (generateNormals options) false),
           (defaultValue (octEncodeNormals options) false
            && negb (defaultValue (draco options) false)),
           (defaultValue (batched options) false);
    cbn [app In] in Hk |- *; intuition auto.
Qed.

(** X8: the options alone decide which keys the feature-table JSON has.
    The attributes of a generated tile are, in order, the position
    (quantized or not), the colour of the colour mode in force if it is
    'rgb', 'rgba' or 'rgb565', the normal (oct-encoded or not) if
    [generateNormals], and BATCH_ID if [batched]; an attribute key is in
    the JSON exactly when it is one of these; POINTS_LENGTH is always
    there; and CONSTANT_RGBA is there, as [255,255,0,51], exactly in the
    mode 'constant', in which no colour attribute is written. *)
Theorem feature_table_keys_follow_options :
  forall (E : Env) (options : Options E) (g : Globals E) tile g',
    createPointCloudTile_sections (Some options) g = (Ok tile, g') ->
    map propertyName (featureTableProperties tile) = expectedAttributeNames options /\
    (forall k, In k featureAttributeNames ->
       (obj_get (featureTableJson (sections tile)) k <> None
        <-> In k (expectedAttributeNames options))) /\
    obj_get (featureTableJson (sections tile)) "POINTS_LENGTH"
      = Some (JInt (Z.of_nat (defaultValue (pointsLength options) 1000%nat))) /\
    obj_get (featureTableJson (sections tile)) "CONSTANT_RGBA"
      = (if String.eqb (effectiveColorMode options) "constant"
         then Some (JArr [JInt 255; JInt 255; JInt 0; JInt 51]) else None).
Proof.
  intros E options g tile g' H.
  invert_sections H.
  cbn [featureTableProperties featureTableJson sections].
  assert (Hnames := featureTableProperties_expected E options _ _ _ _ _ _ _ _ _ Hpoints).
  cbv zeta in Hnames.
  assert (Hftj := draco_stage_json E _ _ _ _ _ _ _ _ _ _ _ _ _ Hdraco).
  pose proof (obj_get_after_batched _ _ _ _ _ _ _ _ _ _ _ Hbatched) as Hfinal.
  clear Hpoints Hdraco Hbatched Hbloop Hbt.
  match type of Hloop with
  | featureTableLoop ?l _ _ _ = _ => set (props := l) in *
  end.
  assert (Hloopj : ftj' = snd (featureTableLoop props (option_map properties dft) ftb ftj))
    by (rewrite Hloop; reflexivity).
  clear Hloop.
  assert (Hknown : Forall (fun p => In (propertyName p) featureAttributeNames) props).
  { apply Forall_forall. intros p Hp. apply (expected_names_known E options).
    rewrite <- Hnames. apply in_map. exact Hp. }
  assert (Hattr : forall k, In k featureAttributeNames -> obj_get fj k = obj_get ftj' k).
  { intros k Hk.
    destruct (attribute_name_not_late k Hk) as (N1 & N2 & N3 & N4 & N5 & N6 & N7).
    rewrite Hfinal by exact N6.
    rewrite obj_get_after_volume by assumption.
    rewrite obj_get_after_constant by assumption.
    apply obj_get_set_ne. congruence. }
  split; [exact Hnames |]. split; [| split].
  - intros k Hk. rewrite (Hattr k Hk), Hloopj.
    destruct (attribute_name_not_late k Hk) as (_ & _ & _ & _ & _ & _ & N7).
    split.
    + intros Hsome.
      destruct (in_dec string_dec k (expectedAttributeNames options)) as [Hi | Hni];
        [exact Hi |].
      exfalso. apply Hsome. rewrite featureTableLoop_other.
      * apply Hftj. exact N7.
      * rewrite Hnames. exact Hni.
    + intros Hin. rewrite <- Hnames in Hin. apply in_map_iff in Hin.
      destruct Hin as (p & <- & Hp). apply featureTableLoop_present. exact Hp.
  - rewrite Hfinal by discriminate.
    rewrite obj_get_after_volume by discriminate.
    rewrite obj_get_after_constant by discriminate.
    apply obj_get_set_eq.
  - rewrite Hfinal by discriminate.
    rewrite obj_get_after_volume by discriminate.
    assert (Hnone : obj_get (obj_set ftj' "POINTS_LENGTH"
                               (JInt (Z.of_nat (defaultValue (pointsLength options) 1000%nat))))
                      "CONSTANT_RGBA" = None).
    { rewrite obj_get_set_ne by discriminate. rewrite Hloopj.
      apply featureTableLoop_absent; [exact Hknown | | apply Hftj; discriminate].
      unfold featureAttributeNames. cbn [In]. intuition discriminate. }
    unfold effectiveColorMode. cbv zeta.
    match goal with
    | |- context [String.eqb ?cm "constant"] => remember cm as cm_ eqn:Hcm
    end.
    clear Hcm.
    destruct (String.eqb_spec cm_ "rgb") as [Heq | _]; [rewrite Heq; exact Hnone |].
    destruct (String.eqb_spec cm_ "rgba") as [Heq | _]; [rewrite Heq; exact Hnone |].
    destruct (String.eqb_spec cm_ "rgb565") as [Heq | _]; [rewrite Heq; exact Hnone |].
    destruct (String.eqb cm_ "constant"); [apply obj_get_set_eq | exact Hnone].
Qed.

Lemma feature_table_keys_follow_options_witness :
  exists tile g',
    createPointCloudTile_sections (Some constantColorOptions) moduleInit = (Ok tile, g') /\
    map propertyName (featureTableProperties tile) = ["POSITION"; "NORMAL_OCT16P"] /\
    obj_get (featureTableJson (sections tile)) "POINTS_LENGTH" = Some (JInt 8) /\
    obj_get (featureTableJson (sections tile)) "CONSTANT_RGBA"
      = Some (JArr [JInt 255; JInt 255; JInt 0; JInt 51]).
Proof.
  assert (Hok : isOk (fst (createPointCloudTile_sections (Some constantColorOptions)
                             moduleInit)) = true) by (vm_compute; reflexivity).
  destruct (createPointCloudTile_sections (Some constantColorOptions) moduleInit)
    as [[tile | e] g'] eqn:Hrun; [| discriminate Hok].
  destruct (feature_table_keys_follow_options Sample.env constantColorOptions moduleInit
              tile g' Hrun) as (Hnames & _ & Hpl & Hcc).
  exists tile, g'.
  split; [reflexivity |]. split; [exact Hnames |]. split; [exact Hpl | exact Hcc].
Defined.

(** ** Keys of objects *)

Lemma obj_get_keys : forall A (o : list (string * A)) k,
  obj_get o k <> None <-> In k (map fst o).
Proof.
  induction o as [|[k' v] o IH]; intros k; cbn [obj_get map fst In].
  - split; [intros H; contradiction | intros []].
  - destruct (String.eqb_spec k' k).
    + split; [auto | discriminate].
    + rewrite IH. split; [auto | intros [H | H]; [contradiction | exact H]].
Qed.

Lemma obj_set_keys : forall A (o : list (string * A)) k v k',
  In k' (map fst (obj_set o k v)) <-> k' = k \/ In k' (map fst o).
Proof.
  intros A o k v k'. rewrite <- !obj_get_keys.
  destruct (string_dec k k') as [-> | Hne].
  - rewrite obj_get_set_eq. split; [auto | discriminate].
  - rewrite obj_get_set_ne by exact Hne.
    split; [auto | intros [H | H]; [congruence | exact H]].
Qed.

(** ** What the compressor was given and what it returned *)

(** The attribute ids [dracoEncodeProperties] records are those of the
    properties it was given. *)
Lemma addAttributes_keys :
  forall (E : Env) pointsLength properties pointCloud attributeIds pointCloud' attributeIds',
    addAttributes pointsLength properties pointCloud attributeIds
      = Ok (pointCloud', attributeIds') ->
    forall k, In k (map fst attributeIds')
              <-> In k (map fst attributeIds)
                  \/ exists p, In (Some p) properties /\ propertyName p = k.
Proof.
  intros E n props. induction props as [|[p |] props IH];
    intros pc ids pc' ids' H k; cbn [addAttributes] in H.
  - inversion H; subst. split; [auto | intros [H1 | (p & [] & _)]; exact H1].
  - cbv zeta in H.
    destruct (getAddAttributeFunctionName (componentType p)) as [fn |]; [| discriminate].
    destruct (PointCloudBuilder_add pc _) as [id pc1].
    rewrite (IH _ _ _ _ H k), obj_set_keys.
    split.
    + intros [[-> | Hk] | (q & Hq & Hn)].
      * right. exists p. split; [left; reflexivity | reflexivity].
      * left. exact Hk.
      * right. exists q. split; [right; exact Hq | exact Hn].
    + intros [Hk | (q & [Hq | Hq] & Hn)].
      * left. right. exact Hk.
      * inversion Hq; subst. left. left. reflexivity.
      * right. exists q. split; assumption.
  - discriminate.
Qed.

(** Each recorded id goes to the table, or tables, that have a property
    of that name. *)
Lemma routeAttributeIds_keys :
  forall ft bt ids fp0 bp0 fp bp,
    routeAttributeIds ft bt ids (fp0, bp0) = Ok (fp, bp) ->
    (forall k, In k (map fst fp)
               <-> In k (map fst fp0)
                   \/ (In k (map fst ids) /\ In k (map propertyName ft))) /\
    (forall k, In k (map fst bp)
               <-> In k (map fst bp0)
                   \/ (In k (map fst ids) /\ In k (map propertyName bt))).
Proof.
  intros ft bt ids. induction ids as [|[name id] ids IH]; intros fp0 bp0 fp bp H;
    cbn [routeAttributeIds] in H.
  - inversion H; subst. split; intros k; (split; [auto | intros [H1 | [[] _]]; exact H1]).
  - rewrite !getPropertyByName_allDefined in H. cbn [rbind] in H.
    apply IH in H. destruct H as [Hf Hb].
    split; intros k; [rewrite (Hf k) | rewrite (Hb k)]; cbn [map fst In].
    + destruct (defined (find (fun p => (propertyName p =? name)%string) ft)) eqn:Hd.
      * apply find_by_name_defined in Hd. rewrite obj_set_keys.
        split; [intros [[-> | H1] | [H1 H2]] | intros [H1 | [[<- | H1] H2]]]; auto.
      * assert (Hn : ~ In name (map propertyName ft)).
        { intros Hi. apply find_by_name_defined in Hi. congruence. }
        split; [intros [H1 | [H1 H2]] | intros [H1 | [[<- | H1] H2]]]; auto.
        contradiction.
    + destruct (defined (find (fun p => (propertyName p =? name)%string) bt)) eqn:Hd.
      * apply find_by_name_defined in Hd. rewrite obj_set_keys.
        split; [intros [[-> | H1] | [H1 H2]] | intros [H1 | [[<- | H1] H2]]]; auto.
      * assert (Hn : ~ In name (map propertyName bt)).
        { intros Hi. apply find_by_name_defined in Hi. congruence. }
        split; [intros [H1 | [H1 H2]] | intros [H1 | [[<- | H1] H2]]]; auto.
        contradiction.
Qed.

(** What a successful [dracoEncode] has done. *)
Lemma dracoEncode_inv :
  forall (E : Env) pointsLength dracoSemantics ft bt r,
    dracoEncode pointsLength dracoSemantics ft bt = Ok r ->
    exists dracoProperties preserveOrder pointCloud attributeIds fp bp,
      selectDracoProperties dracoSemantics ft bt = Ok dracoProperties /\
      choosePreserveOrder dracoProperties ft bt = Ok preserveOrder /\
      addAttributes pointsLength dracoProperties PointCloud_new []
        = Ok (pointCloud, attributeIds) /\
      routeAttributeIds ft bt attributeIds ([], []) = Ok (fp, bp) /\
      (0 < length (dracoBuffer r))%nat /\
      dracoFeatureTableJson r
        = Some {| properties := fp; byteOffset := 0;
                  byteLength := Z.of_nat (length (dracoBuffer r)) |} /\
      dracoBatchTableJson r = Some {| batchProperties := bp |}.
Proof.
  intros E n sem ft bt r H. unfold dracoEncode in H.
  destruct (selectDracoProperties sem ft bt) as [dp |] eqn:Hsel;
    cbn [rbind] in H; [| discriminate].
  destruct (choosePreserveOrder dp ft bt) as [po |] eqn:Hpo;
    cbn [rbind] in H; [| discriminate].
  destruct (dracoEncodeProperties n dp po) as [[buf ids] |] eqn:Henc;
    cbn [rbind] in H; [| discriminate].
  destruct (routeAttributeIds ft bt ids ([], [])) as [[fp bp] |] eqn:Hroute;
    cbn [rbind] in H; [| discriminate].
  inversion H; subst; clear H. cbn [dracoBuffer dracoFeatureTableJson dracoBatchTableJson].
  unfold dracoEncodeProperties in Henc.
  destruct (addAttributes n dp PointCloud_new []) as [[pc ids'] |] eqn:Hadd;
    cbn [rbind] in Henc; [| discriminate].
  destruct (Encoder_EncodePointCloudToDracoBuffer (encoderSettings po) pc) as [len data].
  destruct (Z.leb_spec len 0); [discriminate |].
  inversion Henc; subst; clear Henc.
  exists dp, po, pc, ids, fp, bp.
  split; [first [reflexivity | exact Hsel] |].
  split; [first [reflexivity | exact Hpo] |]. split; [exact Hadd |].
  split; [exact Hroute |]. split; [| split; reflexivity].
  rewrite length_map, length_seq. lia.
Qed.

(** ** The table loops on compressed attributes *)

Lemma featureTableLoop_prefix : forall props d bin json,
  exists rest, fst (featureTableLoop props d bin json) = bin ++ rest.
Proof.
  induction props as [|p props IH]; intros d bin json; cbn [featureTableLoop].
  - exists []. rewrite app_nil_r. reflexivity.
  - destruct (negb (dracoCovers d (propertyName p))).
    + unfold appendAligned, Buffer_concat. cbn [concat]. rewrite app_nil_r.
      match goal with
      | |- context [featureTableLoop props d (bin ++ ?x) ?j] =>
          destruct (IH d (bin ++ x) j) as (rest & ->); exists (x ++ rest);
          rewrite <- !app_assoc; reflexivity
      end.
    + apply IH.
Qed.

Lemma featureTableLoop_covered : forall props d bin json,
  (forall p, In p props -> dracoCovers d (propertyName p) = true) ->
  fst (featureTableLoop props d bin json) = bin.
Proof.
  induction props as [|p props IH]; intros d bin json H; cbn [featureTableLoop].
  - reflexivity.
  - rewrite (H p (or_introl eq_refl)). cbn [negb].
    apply IH. intros q Hq. apply H. right. exact Hq.
Qed.

Lemma batchTableLoop_covered : forall props d bin json,
  (forall p, In p props -> dracoCovers d (propertyName p) = true) ->
  fst (batchTableLoop props d bin json) = bin.
Proof.
  induction props as [|p props IH]; intros d bin json H; cbn [batchTableLoop].
  - reflexivity.
  - rewrite (H p (or_introl eq_refl)). cbn [negb].
    apply IH. intros q Hq. apply H. right. exact Hq.
Qed.

Lemma dracoCovers_keys : forall properties name,
  dracoCovers (Some properties) name = true <-> In name (map fst properties).
Proof.
  intros properties name. unfold dracoCovers. rewrite <- obj_get_keys.
  destruct (obj_get properties name); cbn [defined]; split; congruence.
Qed.


Lemma extensions_not_attribute : ~ In "extensions" featureAttributeNames.
Proof. unfold featureAttributeNames. cbn [In]. intuition discriminate. Qed.



(** The compressor is always given every batch-table attribute, and every
    feature-table attribute when [dracoSemantics] is undefined. *)
Lemma selectDracoProperties_inv : forall dracoSemantics ft bt dracoProperties,
  selectDracoProperties dracoSemantics ft bt = Ok dracoProperties ->
  (forall p, In p bt -> In (Some p) dracoProperties) /\
  (dracoSemantics = None -> forall p, In p ft -> In (Some p) dracoProperties).
Proof.
  intros sem ft bt dp H. unfold selectDracoProperties in H.
  destruct sem as [names |].
  - match type of H with
    | rbind ?sel _ = _ => destruct sel as [chosen |]; cbn [rbind] in H; [| discriminate]
    end.
    inversion H; subst. split; [| discriminate].
    intros p Hp. apply in_or_app. right. unfold allDefined. apply in_map. exact Hp.
  - cbn [rbind] in H. inversion H; subst. split; intros; apply in_or_app.
    + right. unfold allDefined. apply in_map. assumption.
    + left. unfold allDefined. apply in_map. assumption.
Qed.

(** X10: under draco, when the tile is not [batched], every batch-table
    attribute is inside the compressed blob: the batch-table binary is
    empty and the batch-table extension lists an attribute id for each of
    them; and when [dracoSemantics] is undefined the same holds of the
    feature table, whose binary is then exactly the blob that the
    extension's byteLength describes. *)
Theorem draco_compresses_batch_attributes :
  forall (E : Env) (options : Options E) (g : Globals E) tile g',
    createPointCloudTile_sections (Some options) g = (Ok tile, g') ->
    defaultValue (draco options) false = true ->
    defaultValue (batched options) false = false ->
    batchTableBinary (sections tile) = [] /\
    (exists bp,
       obj_get (batchTableJson (sections tile)) "extensions"
       = Some (dracoBatchExtension bp) /\
       forall p, In p (batchTableProperties tile) -> In (propertyName p) (map fst bp)) /\
    (dracoSemantics options = None ->
     exists fp,
       obj_get (featureTableJson (sections tile)) "extensions"
       = Some (dracoFeatureExtension fp (length (featureTableBinary (sections tile)))) /\
       (0 < length (featureTableBinary (sections tile)))%nat /\
       forall p, In p (featureTableProperties tile) -> In (propertyName p) (map fst fp)).
Proof.
  intros E options g tile g' H Hd Hb.
  invert_sections H.
  cbn [featureTableProperties batchTableProperties featureTableJson featureTableBinary
       batchTableJson batchTableBinary sections].
  assert (Hnames := featureTableProperties_expected E options _ _ _ _ _ _ _ _ _ Hpoints).
  cbv zeta in Hnames.
  pose proof (obj_get_after_batched _ _ _ _ _ _ _ _ _ _ _ Hbatched "extensions"
                ltac:(discriminate)) as Hfinal.
  rewrite obj_get_after_volume in Hfinal by discriminate.
  rewrite obj_get_after_constant in Hfinal by discriminate.
  rewrite obj_get_set_ne in Hfinal by discriminate.
  rewrite Hb in Hbatched. unfold ret in Hbatched. inversion Hbatched; subst; clear Hbatched.
  match type of Hloop with
  | featureTableLoop ?l _ _ _ = _ => set (props := l) in *
  end.
  assert (Hbtnames : ~ In "extensions" (map propertyName bt)).
  { destruct (defaultValue (perPointProperties options) false).
    - apply getPerPointBatchTableProperties_names in Hbt. rewrite Hbt.
      cbn [In]. intuition discriminate.
    - unfold ret in Hbt. inversion Hbt; subst. intros []. }
  clear Hbt Hpoints.
  rewrite Hd in Hdraco.
  apply bind_Ok_inv in Hdraco. destruct Hdraco as (r & g6 & Hr & Hret).
  apply lift_Ok_inv in Hr. destruct Hr as [Hr _].
  apply dracoEncode_inv in Hr.
  destruct Hr as (dp & po & pc & ids & fp & bp & Hsel & _ & Hadd & Hroute & Hpos & Hfj & Hbj).
  rewrite Hfj, Hbj in Hret. unfold ret in Hret. inversion Hret; subst; clear Hret.
  cbn [option_map properties batchProperties] in Hloop, Hbloop.
  destruct (selectDracoProperties_inv _ _ _ _ Hsel) as (Hinbt & Hinft).
  destruct (routeAttributeIds_keys _ _ _ _ _ _ _ Hroute) as (Hfkeys & Hbkeys).
  assert (Hcovb : forall p, In p bt -> In (propertyName p) (map fst bp)).
  { intros p Hp. apply Hbkeys. right. split; [| apply in_map; exact Hp].
    apply (addAttributes_keys _ _ _ _ _ _ _ Hadd). right.
    exists p. split; [apply Hinbt; exact Hp | reflexivity]. }
  split; [| split].
  - match type of Hbloop with
    | batchTableLoop ?l ?d ?b ?j = (?x, _) =>
        replace x with (fst (batchTableLoop l d b j)) by (rewrite Hbloop; reflexivity)
    end.
    rewrite batchTableLoop_covered; [reflexivity |].
    intros p Hp. apply dracoCovers_keys. apply Hcovb. exact Hp.
  - exists bp. split; [| exact Hcovb].
    match type of Hbloop with
    | batchTableLoop ?l ?d ?b ?j = (_, ?y) =>
        replace y with (snd (batchTableLoop l d b j)) by (rewrite Hbloop; reflexivity)
    end.
    rewrite batchTableLoop_other by exact Hbtnames. reflexivity.
  - intros Hsem. exists fp.
    assert (Hcovf : forall p, In p props -> In (propertyName p) (map fst fp)).
    { intros p Hp. apply Hfkeys. right. split; [| apply in_map; exact Hp].
      apply (addAttributes_keys _ _ _ _ _ _ _ Hadd). right.
      exists p. split; [apply Hinft; [exact Hsem | exact Hp] | reflexivity]. }
    assert (Hbin : ftb' = dracoBuffer r).
    { match type of Hloop with
      | featureTableLoop ?l ?d ?b ?j = (?x, _) =>
          replace x with (fst (featureTableLoop l d b j)) by (rewrite Hloop; reflexivity)
      end.
      rewrite featureTableLoop_covered.
      - unfold Buffer_concat, Buffer_alloc. cbn [concat repeat app]. apply app_nil_r.
      - intros p Hp. apply dracoCovers_keys. apply Hcovf. exact Hp. }
    rewrite Hbin. split; [| split; [exact Hpos | exact Hcovf]].
    rewrite Hfinal.
    match type of Hloop with
    | featureTableLoop ?l ?d ?b ?j = (_, ?y) =>
        replace y with (snd (featureTableLoop l d b j)) by (rewrite Hloop; reflexivity)
    end.
    rewrite featureTableLoop_other; [reflexivity |].
    fold props. rewrite Hnames. intros Hin.
    apply extensions_not_attribute. apply (expected_names_known E options). exact Hin.
Qed.

Lemma draco_compresses_batch_attributes_witness :
  exists tile g',
    createPointCloudTile_sections (Some dracoPerPointOptions) moduleInit = (Ok tile, g') /\
    batchTableBinary (sections tile) = [] /\
    length (batchTableProperties tile) = 3%nat /\
    (0 < length (featureTableBinary (sections tile)))%nat.
Proof.
  assert (Hok : isOk (fst (createPointCloudTile_sections (Some dracoPerPointOptions)
                             moduleInit)) = true) by (vm_compute; reflexivity).
  assert (Hlen : rmap (fun t => length (batchTableProperties t))
                   (fst (createPointCloudTile_sections (Some dracoPerPointOptions)
                           moduleInit)) = Ok 3%nat) by (vm_compute; reflexivity).
  destruct (createPointCloudTile_sections (Some dracoPerPointOptions) moduleInit)
    as [[tile | e] g'] eqn:Hrun; [| discriminate Hok].
  destruct (draco_compresses_batch_attributes Sample.env dracoPerPointOptions
              moduleInit tile g' Hrun eq_refl eq_refl)
    as (Hbin & _ & Hft).
  destruct (Hft eq_refl) as (fp & _ & Hpos & _).
  exists tile, g'.
  split; [reflexivity |]. split; [exact Hbin |]. split; [| exact Hpos].
  cbn [fst rmap rbind] in Hlen. inversion Hlen. reflexivity.
Defined.

Lemma getPoints_undefined_shape :
  forall (E : Env) m radius colorModeFunction colorFunction
         quantizePositions octEncodeNormals relativeToCenter transform time g,
    getPoints (S m) radius colorModeFunction colorFunction None
      quantizePositions octEncodeNormals relativeToCenter transform time g
    = (Err (undefinedShapeError transform), g).
Proof.
  intros E m radius cmf cf q o rel t time g.
  unfold getPoints, undefinedShapeError.
  destruct (Matrix4_inverse (Matrix4_transpose t)) as [it | e].
  - rewrite (bind_lift_Ok _ _ (Ok it) _ g it eq_refl).
    apply bind_Err. cbn [forM]. apply bind_Err.
    unfold getPoints_body. apply bind_Err. reflexivity.
  - apply bind_lift_Err. reflexivity.
Qed.

Lemma getPoints_undefined_color :
  forall (E : Env) m radius colorModeFunction shapeFunction
         quantizePositions octEncodeNormals relativeToCenter transform time g points g',
    getPoints (S m) radius colorModeFunction None shapeFunction
      quantizePositions octEncodeNormals relativeToCenter transform time g
    <> (Ok points, g').
Proof.
  intros E m radius cmf sf q o rel t time g points g' H.
  unfold getPoints in H.
  apply bind_Ok_inv in H. destruct H as (it & g1 & _ & H).
  apply bind_Ok_inv in H. destruct H as (arrays & g2 & Hloop & _).
  cbn [forM] in Hloop.
  apply bind_Ok_inv in Hloop. destruct Hloop as (s1 & g3 & Hbody & _).
  unfold getPoints_body in Hbody. cbv zeta in Hbody.
  apply bind_Ok_inv in Hbody. destruct Hbody as (position & g4 & _ & Hbody).
  apply bind_Ok_inv in Hbody. destruct Hbody as (normal & g5 & _ & Hbody).
  apply bind_Ok_inv in Hbody. destruct Hbody as (color & g6 & Hcolor & _).
  unfold call, lift in Hcolor. discriminate.
Qed.

(** X11: a [shape] other than 'sphere' and 'box', or a [color] other than
    'random', 'gradient' and 'noise', leaves the function variable
    undefined; it is called for the first point, so with at least one
    point the call returns no tile.  For the shape the error thrown is a
    TypeError, unless inverting the transposed transform already threw. *)
Theorem undefined_shape_or_color_throws :
  forall (E : Env) (options : Options E) (g : Globals E),
    (0 < defaultValue (pointsLength options) 1000)%nat ->
    (defaultValue (shape options) "box" <> "sphere" ->
     defaultValue (shape options) "box" <> "box" ->
     exists g',
       createPointCloudTile (Some options) g
       = (Err (undefinedShapeError (defaultValue (transform options) Matrix4_IDENTITY)),
          g'))
    /\ (defaultValue (color options) "random" <> "random" ->
        defaultValue (color options) "random" <> "gradient" ->
        defaultValue (color options) "random" <> "noise" ->
        forall r g', createPointCloudTile (Some options) g <> (Ok r, g')).
Proof.
  intros E options g Hn.
  destruct (defaultValue (pointsLength options) 1000%nat) as [|m] eqn:Hm; [lia |].
  split.
  - intros Hs Hb. eexists.
    unfold createPointCloudTile. apply bind_Err.
    unfold createPointCloudTile_sections.
    rewrite (bind_Ok _ _ (CesiumMath_setRandomNumberSeed 0) _ g tt _ eq_refl).
    cbv zeta. cbn [defaultValue]. apply bind_Err.
    apply String.eqb_neq in Hs, Hb. rewrite Hs, Hb, Hm.
    apply getPoints_undefined_shape.
  - intros H1 H2 H3 r g' H.
    unfold createPointCloudTile in H.
    apply bind_Ok_inv in H. destruct H as (tile & g1 & H & _).
    unfold createPointCloudTile_sections in H.
    apply bind_Ok_inv in H. destruct H as (u & g2 & _ & H).
    cbv zeta in H. cbn [defaultValue] in H.
    apply bind_Ok_inv in H. destruct H as (points & g3 & Hpoints & _).
    apply String.eqb_neq in H1, H2, H3. rewrite H1, H2, H3, Hm in Hpoints.
    exact (getPoints_undefined_color _ _ _ _ _ _ _ _ _ _ _ _ _ Hpoints).
Qed.

Lemma undefined_shape_or_color_throws_witness :
  (exists g', createPointCloudTile (Some torusOptions) moduleInit = (Err TypeError, g'))
  /\ forall r g', createPointCloudTile (Some plaidOptions) moduleInit <> (Ok r, g').
Proof.
  split.
  - exact (proj1 (undefined_shape_or_color_throws Sample.env torusOptions moduleInit
                    ltac:(cbn; lia))
             ltac:(discriminate) ltac:(discriminate)).
  - exact (proj2 (undefined_shape_or_color_throws Sample.env plaidOptions moduleInit
                    ltac:(cbn; lia))
             ltac:(discriminate) ltac:(discriminate) ltac:(discriminate)).
Defined.

(** The loop over [dracoSemantics] pushes what [getPropertyByName] finds,
    [undefined] included. *)
Lemma select_loop_found : forall ft names acc,
  fold_left
    (fun acc name =>
       let! dracoProperties := acc in
       let! found := getPropertyByName (allDefined ft) name in
       Ok (dracoProperties ++ [found]))
    names (Ok acc)
  = Ok (acc ++ map (fun name => find (fun p => String.eqb (propertyName p) name) ft) names).
Proof.
  intros ft names. induction names as [|name names IH]; intros acc; cbn [fold_left map].
  - rewrite app_nil_r. reflexivity.
  - rewrite getPropertyByName_allDefined. cbn [rbind]. rewrite IH, <- app_assoc.
    reflexivity.
Qed.

Lemma addAttributes_undefined :
  forall (E : Env) pointsLength properties pointCloud attributeIds,
    In None properties ->
    addAttributes pointsLength properties pointCloud attributeIds = Err TypeError.
Proof.
  intros E n props. induction props as [|[p |] props IH]; intros pc ids Hin.
  - contradiction.
  - destruct Hin as [Hin | Hin]; [discriminate |].
    cbn [addAttributes]. cbv zeta.
    destruct (getAddAttributeFunctionName (componentType p)); [| reflexivity].
    destruct (PointCloudBuilder_add pc _) as [id pc1].
    apply IH. exact Hin.
  - reflexivity.
Qed.

Lemma dracoEncode_absent_semantic :
  forall (E : Env) pointsLength names ft bt name,
    In name names -> ~ In name (map propertyName ft) ->
    dracoEncode pointsLength (Some names) ft bt = Err TypeError.
Proof.
  intros E n names ft bt name Hin Hnot.
  unfold dracoEncode, selectDracoProperties.
  rewrite (select_loop_found ft names []). cbn [rbind app].
  set (dp := map (fun name => find (fun p => String.eqb (propertyName p) name) ft) names
             ++ allDefined bt).
  assert (Hnone : In None dp).
  { unfold dp. apply in_or_app. left. apply in_map_iff. exists name. split; [| exact Hin].
    destruct (find (fun p => String.eqb (propertyName p) name) ft) as [p |] eqn:Hf;
      [| reflexivity].
    exfalso. apply Hnot. apply find_some in Hf. destruct Hf as [Hp Hn].
    apply String.eqb_eq in Hn. rewrite <- Hn. apply in_map. exact Hp. }
  unfold choosePreserveOrder.
  destruct (getPropertyByName dp "NORMAL") as [normal | e] eqn:Hnormal; cbn [rbind].
  - unfold dracoEncodeProperties.
    rewrite (addAttributes_undefined E n dp PointCloud_new [] Hnone). reflexivity.
  - f_equal. clear - Hnormal. induction dp as [|[p |] dp IH]; cbn in Hnormal.
    + discriminate.
    + destruct (String.eqb (propertyName p) "NORMAL"); [discriminate | auto].
    + inversion Hnormal. reflexivity.
Qed.

(** X12: when [dracoSemantics] names a semantic that is not an attribute
    of the feature table, [getPropertyByName] returns [undefined], which
    is pushed to the properties to compress, and [dracoEncode] throws a
    TypeError on reading a member of [undefined] instead of compressing
    the others; so [createPointCloudTile] returns no tile, for instance
    for the semantic NORMAL without [generateNormals]. *)
Theorem absent_draco_semantic_throws :
  forall (E : Env),
    (forall pointsLength names ft bt name,
       In name names -> ~ In name (map propertyName ft) ->
       dracoEncode pointsLength (Some names) ft bt = Err TypeError)
    /\ (forall (options : Options E) (g : Globals E) names name,
          defaultValue (draco options) false = true ->
          dracoSemantics options = Some names ->
          In name names -> ~ In name (expectedAttributeNames options) ->
          forall tile g', createPointCloudTile_sections (Some options) g <> (Ok tile, g')).
Proof.
  intros E. split; [apply dracoEncode_absent_semantic |].
  intros options g names name Hd Hsem Hin Hnot tile g' H.
  unfold createPointCloudTile_sections in H.
  apply bind_Ok_inv in H. destruct H as (u & g1 & _ & H).
  cbv zeta in H. cbn [defaultValue] in H.
  apply bind_Ok_inv in H. destruct H as (points & g2 & Hpoints & H).
  apply bind_Ok_inv in H. destruct H as (bt & g3 & _ & H).
  apply bind_Ok_inv in H. destruct H as (stage & g4 & Hdraco & _).
  assert (Hnames := featureTableProperties_expected E options _ _ _ _ _ _ _ _ _ Hpoints).
  cbv zeta in Hnames.
  rewrite Hd, Hsem in Hdraco.
  apply bind_Ok_inv in Hdraco. destruct Hdraco as (r & g5 & Hr & _).
  apply lift_Ok_inv in Hr. destruct Hr as [Hr _].
  match type of Hr with
  | dracoEncode ?n _ ?ft ?b = _ =>
      rewrite (dracoEncode_absent_semantic E n names ft b name Hin) in Hr
  end;
    [discriminate Hr | rewrite Hnames; exact Hnot].
Qed.

Lemma absent_draco_semantic_throws_witness :
  defaultValue (draco absentNormalOptions) false = true
  /\ ~ In "NORMAL" (expectedAttributeNames absentNormalOptions)
  /\ forall tile g',
       createPointCloudTile_sections (Some absentNormalOptions) moduleInit <> (Ok tile, g').
Proof.
  assert (Hdraco : defaultValue (draco absentNormalOptions) false = true) by reflexivity.
  assert (Hout : ~ In "NORMAL" (expectedAttributeNames absentNormalOptions))
    by (vm_compute; intuition discriminate).
  split; [exact Hdraco |]. split; [exact Hout |].
  apply (proj2 (absent_draco_semantic_throws Sample.env)
           absentNormalOptions moduleInit ["NORMAL"] "NORMAL" Hdraco eq_refl).
  - left. reflexivity.
  - exact Hout.
Defined.

Lemma writeUInt16LE_spec : forall buf v offset,
  writeUInt16LE buf v offset
  = if fitsUInt16 v then Buffer_store buf offset (bytesLE 2 (Js.truncZ v))
    else Err RangeError.
Proof. intros buf v offset. reflexivity. Qed.

Lemma concat_map_concat : forall (A B : Type) (f : B -> list byte) (g : A -> list B)
    (l : list A),
  concat (map (fun a => concat (map f (g a))) l) = concat (map f (concat (map g l))).
Proof.
  intros A B f g l. induction l as [|a l IH]; cbn [map concat].
  - reflexivity.
  - rewrite map_app, concat_app, IH. reflexivity.
Qed.

Section Quantized.
Context {E : Env}.

Lemma getPositionsQuantized_loop : forall (positions : list Cartesian3) (radius : float),
  forR (fun i buffer =>
          let! position := at_index positions i in
          let x := ((x position - (- radius)) * (Math_pow 2 16 - 1)
                    / (radius - (- radius)))%float in
          let y := ((y position - (- radius)) * (Math_pow 2 16 - 1)
                    / (radius - (- radius)))%float in
          let z := ((z position - (- radius)) * (Math_pow 2 16 - 1)
                    / (radius - (- radius)))%float in
          let! buffer := writeUInt16LE buffer x ((i * 3) * sizeOfUint16) in
          let! buffer := writeUInt16LE buffer y ((i * 3 + 1) * sizeOfUint16) in
          writeUInt16LE buffer z ((i * 3 + 2) * sizeOfUint16))
       0 (length positions) (Buffer_alloc (length positions * 3 * sizeOfUint16))
  = encodeEach (fun p => if forallb fitsUInt16 (quantizedComponents radius p)
                         then Ok (concat (map (fun v => bytesLE 2 (Js.truncZ v))
                                              (quantizedComponents radius p)))
                         else Err RangeError)
               positions.
Proof.
  intros positions radius.
  replace (length positions * 3 * sizeOfUint16)%nat with (length positions * 6)%nat
    by (unfold sizeOfUint16; lia).
  apply forR_fill_result.
  - intros a b _ H. destruct (forallb fitsUInt16 (quantizedComponents radius a));
      [| discriminate].
    injection H as <-. reflexivity.
  - intros i a done old tail Ha Hdone Hold.
    rewrite (at_index_nth _ _ _ _ Ha). cbn [rbind]. cbv zeta.
    destruct (split_chunk old 2 4 ltac:(lia)) as (o1 & o23 & -> & Ho1 & Ho23).
    destruct (split_chunk o23 2 2 ltac:(lia)) as (o2 & o3 & -> & Ho2 & Ho3).
    rewrite <- !app_assoc. rewrite !writeUInt16LE_spec.
    cbv [quantizedComponents forallb map concat].
    match goal with |- context [fitsUInt16 ?v] => destruct (fitsUInt16 v) end;
      cbn [andb rbind]; [| reflexivity].
    store_step. rewrite writeUInt16LE_spec.
    match goal with |- context [fitsUInt16 ?v] => destruct (fitsUInt16 v) end;
      cbn [andb rbind]; [| reflexivity].
    store_step. rewrite writeUInt16LE_spec.
    match goal with |- context [fitsUInt16 ?v] => destruct (fitsUInt16 v) end;
      cbn [andb rbind]; [| reflexivity].
    store_step.
    rewrite app_nil_r, <- !app_assoc. reflexivity.
Qed.

Lemma getNormalsOctEncoded_loop : forall normals : list Cartesian3,
  forR (fun i buffer =>
          let! normal := at_index normals i in
          let! encodedNormal := AttributeCompression_octEncode normal in
          let! buffer := writeUInt8 buffer (x2 encodedNormal) (i * 2) in
          writeUInt8 buffer (y2 encodedNormal) (i * 2 + 1))
       0 (length normals) (Buffer_alloc (length normals * 2 * sizeOfUint8))
  = encodeEach (fun n => let! e := AttributeCompression_octEncode n in
                         if forallb fitsUInt8 (octComponents e)
                         then Ok (map uint8Byte (octComponents e))
                         else Err RangeError)
               normals.
Proof.
  intros normals.
  replace (length normals * 2 * sizeOfUint8)%nat with (length normals * 2)%nat
    by (unfold sizeOfUint8; lia).
  apply forR_fill_result.
  - intros a b _ H. destruct (AttributeCompression_octEncode a) as [e | err];
      cbn [rbind] in H; [| discriminate].
    destruct (forallb fitsUInt8 (octComponents e)); [| discriminate].
    inversion H; subst. reflexivity.
  - intros i a done old tail Ha Hdone Hold.
    rewrite (at_index_nth _ _ _ _ Ha). cbn [rbind].
    destruct (AttributeCompression_octEncode a) as [e | err]; cbn [rbind]; [| reflexivity].
    destruct (split_byte old 1 Hold) as (o1 & old1 & -> & Hold1).
    destruct (split_byte old1 0 Hold1) as (o2 & old2 & -> & Hold2).
    rewrite <- !app_assoc. rewrite !writeUInt8_spec.
    unfold octComponents. cbn [forallb map].
    destruct (fitsUInt8 (x2 e)); cbn [andb rbind]; [| reflexivity].
    store_byte. rewrite writeUInt8_spec.
    destruct (fitsUInt8 (y2 e)); cbn [andb rbind]; [| reflexivity].
    store_byte.
    destruct old2; [| discriminate]. rewrite <- !app_assoc. reflexivity.
Qed.

(** The encoder of one normal, once [octEncode] has returned [e]. *)
Lemma encodeEach_octEncoded : forall (normals : list Cartesian3)
    (encoded : list Cartesian2),
  Forall2 (fun n e => AttributeCompression_octEncode n = Ok e) normals encoded ->
  encodeEach (fun n => let! e := AttributeCompression_octEncode n in
                       if forallb fitsUInt8 (octComponents e)
                       then Ok (map uint8Byte (octComponents e))
                       else Err RangeError)
             normals
  = encodeEach (fun e => if forallb fitsUInt8 (octComponents e)
                         then Ok (map uint8Byte (octComponents e))
                         else Err RangeError)
               encoded.
Proof.
  intros normals encoded H. induction H as [|n e normals encoded Hn _ IH];
    cbn [encodeEach].
  - reflexivity.
  - rewrite Hn, IH. reflexivity.
Qed.

Lemma quantizedValues_length : forall (radius : float) (positions : list Cartesian3),
  length (quantizedValues radius positions) = (length positions * 3)%nat.
Proof.
  intros radius positions. unfold quantizedValues.
  induction positions as [|p positions IH]; cbn [map concat length].
  - reflexivity.
  - rewrite length_app, IH. reflexivity.
Qed.

End Quantized.

(** X13: [getPositionsQuantized] stores three little-endian unsigned
    shorts per position, in order, which read back as the quantized
    coordinates, when [writeUInt16LE] accepts all of them; a position with
    a quantized coordinate above 65535 or below 0 (a point outside the
    cube of half-width [radius]) makes it throw a RangeError.
    [getNormalsOctEncoded] stores the two components [octEncode] returns,
    one byte each, and throws a RangeError when one is not a byte. *)
Theorem quantized_attributes_or_RangeError :
  forall (E : Env) (radius : float),
    (forall positions : list Cartesian3,
       (Forall (fun p => forallb fitsUInt16 (quantizedComponents radius p) = true)
               positions ->
          getPositionsQuantized positions radius
          = Ok {| buffer := quantizedBuffer radius positions;
                  propertyName := "POSITION_QUANTIZED";
                  componentType := UNSIGNED_SHORT; type := VEC3; batchLength := None |}
          /\ length (quantizedBuffer radius positions) = (length positions * 6)%nat
          /\ readUIntArrayLE 2 (length positions * 3) (quantizedBuffer radius positions)
             = map (fun v => v mod 2 ^ 16) (quantizedValues radius positions))
       /\ (Exists (fun p => forallb fitsUInt16 (quantizedComponents radius p) = false)
                  positions ->
          getPositionsQuantized positions radius = Err RangeError))
    /\ (forall (normals : list Cartesian3) (encoded : list Cartesian2),
          Forall2 (fun n e => AttributeCompression_octEncode n = Ok e) normals encoded ->
          (Forall (fun e => forallb fitsUInt8 (octComponents e) = true) encoded ->
             getNormalsOctEncoded normals
             = Ok {| buffer := octBuffer encoded; propertyName := "NORMAL_OCT16P";
                     componentType := UNSIGNED_BYTE; type := VEC2; batchLength := None |}
             /\ length (octBuffer encoded) = (length normals * 2)%nat)
          /\ (Exists (fun e => forallb fitsUInt8 (octComponents e) = false) encoded ->
             getNormalsOctEncoded normals = Err RangeError)).
Proof.
  intros E radius. split.
  - intros positions.
    destruct (encodeEach_fits Cartesian3
                (fun p => forallb fitsUInt16 (quantizedComponents radius p))
                (fun p => concat (map (fun v => bytesLE 2 (Js.truncZ v))
                                      (quantizedComponents radius p)))
                positions) as [Hok Herr].
    assert (Hbuf : concat (map (fun p => concat (map (fun v => bytesLE 2 (Js.truncZ v))
                                                     (quantizedComponents radius p)))
                               positions)
                   = quantizedBuffer radius positions).
    { unfold quantizedBuffer, quantizedValues.
      rewrite <- (concat_map_concat _ _ (bytesLE 2)
                    (fun p => map Js.truncZ (quantizedComponents radius p))).
      reflexivity. }
    assert (Hlen : length (quantizedValues radius positions) = (length positions * 3)%nat).
    { apply quantizedValues_length. }
    split.
    + intros H. split; [| split].
      * unfold getPositionsQuantized. cbv zeta.
        rewrite getPositionsQuantized_loop, (Hok H). cbn [rbind]. rewrite Hbuf. reflexivity.
      * unfold quantizedBuffer.
        rewrite (length_concat_const _ _ 2); [rewrite Hlen; lia |].
        intros a Ha. apply bytesLE_length.
      * rewrite <- Hlen. unfold quantizedBuffer. rewrite readUIntArrayLE_concat.
        apply map_ext. intros v. apply (readUIntLE_bytesLE 2). lia.
    + intros H. unfold getPositionsQuantized. cbv zeta.
      rewrite getPositionsQuantized_loop, (Herr H). reflexivity.
  - intros normals encoded Henc.
    destruct (encodeEach_fits Cartesian2
                (fun e => forallb fitsUInt8 (octComponents e))
                (fun e => map uint8Byte (octComponents e)) encoded) as [Hok Herr].
    split.
    + intros H. split.
      * unfold getNormalsOctEncoded. cbv zeta.
        rewrite getNormalsOctEncoded_loop, (encodeEach_octEncoded _ _ Henc), (Hok H).
        reflexivity.
      * rewrite (Forall2_length Henc). apply length_concat_const. intros a _. reflexivity.
    + intros H. unfold getNormalsOctEncoded. cbv zeta.
      rewrite getNormalsOctEncoded_loop, (encodeEach_octEncoded _ _ Henc), (Herr H).
      reflexivity.
Qed.

Lemma quantized_attributes_or_RangeError_witness :
  rmap buffer (getPositionsQuantized (E := Sample.env)
                 [Cartesian3Ops.ZERO; {| x := 5; y := -5; z := 0 |}] 5)
  = Ok [xff; x7f; xff; x7f; xff; x7f; xff; xff; x00; x00; xff; x7f]
  /\ getPositionsQuantized (E := Sample.env) [outsidePosition] 5 = Err RangeError
  /\ rmap buffer (getNormalsOctEncoded (E := Sample.env) [{| x := 1; y := 0; z := 0 |}])
     = Ok [xff; x80].
Proof.
  split; [| split].
  - rewrite (proj1 (proj1 (proj1 (quantized_attributes_or_RangeError Sample.env 5)
                             [Cartesian3Ops.ZERO; {| x := 5; y := -5; z := 0 |}])
                      ltac:(repeat constructor))).
    vm_compute. reflexivity.
  - refine (proj2 (proj1 (quantized_attributes_or_RangeError Sample.env 5)
                     [outsidePosition]) _).
    left. vm_compute. reflexivity.
  - rewrite (proj1 (proj1 (proj2 (quantized_attributes_or_RangeError Sample.env 5)
                             [{| x := 1; y := 0; z := 0 |}]
                             [{| x2 := 255; y2 := 128 |}]
                             ltac:(repeat constructor))
                      ltac:(repeat constructor))).
    vm_compute. reflexivity.
Defined.

Lemma bytes64LE_length : forall v, length (Buildings.bytes64LE v) = 8%nat.
Proof. intros v. reflexivity. Qed.

Lemma float64LE_length : forall f, length (float64LE f) = 8%nat.
Proof. intros f. reflexivity. Qed.

Lemma cartographicBytes_length : forall (Matrix4 Material : Type)
    (b : Buildings.Building Matrix4 Material),
  length (cartographicBytes b) = 24%nat.
Proof. intros Matrix4 Material b. reflexivity. Qed.

Lemma repeat_snoc : forall (b : byte) n, repeat b (S n) = repeat b n ++ [b].
Proof.
  intros b n. induction n as [|n IH]; [reflexivity |].
  cbn [repeat app] in *. rewrite <- IH. reflexivity.
Qed.

Ltac store_double :=
  match goal with
  | |- context [Buffer_store (?pre ++ ?old ++ ?post) ?off ?bs] =>
      rewrite (Buffer_store_at pre old post bs off)
        by (rewrite ?length_app, ?repeat_length, ?bytes64LE_length;
            unfold Buildings.sizeOfDouble in *; lia);
      cbn [rbind]; rewrite ?(app_assoc pre bs)
  end.

(** One iteration of the loop of [generateBatchTableBinary] on building
    [j] of [n], from buffers filled up to [j]. *)
Lemma binaryTable_step : forall (Matrix4 Material : Type)
    (buildings : list (Buildings.Building Matrix4 Material)) j b (done : list byte),
  nth_error buildings j = Some b ->
  length done = (j * 24)%nat ->
  let n := length buildings in
  (let! building := at_index buildings j in
   let code := Js.Math_max (Z.of_nat j) 255 in
   let! cartographicBuffer :=
     Buildings.writeDoubleLE (done ++ repeat x00 ((n - j) * 24))
       (Buildings.longitude building) ((j * 3) * Buildings.sizeOfDouble) in
   let! cartographicBuffer :=
     Buildings.writeDoubleLE cartographicBuffer (Buildings.latitude building)
       ((j * 3 + 1) * Buildings.sizeOfDouble) in
   let! cartographicBuffer :=
     Buildings.writeDoubleLE cartographicBuffer (Buildings.height building)
       ((j * 3 + 2) * Buildings.sizeOfDouble) in
   let! codeBuffer := writeUIntLE_int 1 (repeat xff j ++ repeat x00 (n - j)) code j in
   Ok (cartographicBuffer, codeBuffer))
  = if (j <? 256)%nat
    then Ok (done ++ cartographicBytes b ++ repeat x00 ((n - S j) * 24),
             repeat xff (S j) ++ repeat x00 (n - S j))
    else Err RangeError.
Proof.
  intros Matrix4 Material buildings j b done Hb Hdone n.
  assert (Hj : (j < n)%nat) by (apply nth_error_Some; rewrite Hb; discriminate).
  rewrite (at_index_nth _ _ _ _ Hb). cbn [rbind]. cbv zeta.
  rewrite (repeat_S_mul n j 24 Hj).
  change (repeat x00 24) with (repeat x00 8 ++ repeat x00 8 ++ repeat x00 8).
  rewrite <- !app_assoc. unfold Buildings.writeDoubleLE.
  do 3 store_double.
  unfold writeUIntLE_int, Js.Math_max. change (2 ^ (8 * Z.of_nat 1) - 1) with 255.
  destruct (Nat.ltb_spec j 256) as [Hlt | Hge].
  - rewrite Z.max_r by lia. cbn [Z.gtb Z.compare Z.ltb orb Pos.compare Pos.compare_cont].
    replace (n - j)%nat with (S (n - S j)) by lia.
    change (repeat x00 (S (n - S j))) with ([x00] ++ repeat x00 (n - S j)).
    rewrite (Buffer_store_at (repeat xff j) [x00] (repeat x00 (n - S j)) (bytesLE 1 255) j)
      by (rewrite ?repeat_length; reflexivity).
    rewrite repeat_snoc, <- !app_assoc. reflexivity.
  - rewrite Z.max_l by lia.
    destruct (Z.gtb_spec (Z.of_nat j) 255); [reflexivity | lia].
Qed.

(** The first [m] iterations, for [m] up to 256. *)
Lemma binaryTable_loop : forall (Matrix4 Material : Type)
    (buildings : list (Buildings.Building Matrix4 Material))
    (body : nat -> Buffer * Buffer -> result (Buffer * Buffer)) m,
  let n := length buildings in
  (forall j cb kb,
     body j (cb, kb)
     = let! building := at_index buildings j in
       let code := Js.Math_max (Z.of_nat j) 255 in
       let! cartographicBuffer :=
         Buildings.writeDoubleLE cb (Buildings.longitude building)
           ((j * 3) * Buildings.sizeOfDouble) in
       let! cartographicBuffer :=
         Buildings.writeDoubleLE cartographicBuffer (Buildings.latitude building)
           ((j * 3 + 1) * Buildings.sizeOfDouble) in
       let! cartographicBuffer :=
         Buildings.writeDoubleLE cartographicBuffer (Buildings.height building)
           ((j * 3 + 2) * Buildings.sizeOfDouble) in
       let! codeBuffer := writeUIntLE_int 1 kb code j in
       Ok (cartographicBuffer, codeBuffer)) ->
  (m <= n)%nat -> (m <= 256)%nat ->
  forR body 0 m
    (Buffer_alloc (n * 3 * Buildings.sizeOfDouble), Buffer_alloc (n * Buildings.sizeOfUint8))
  = Ok (concat (map cartographicBytes (firstn m buildings)) ++ repeat x00 ((n - m) * 24),
        repeat xff m ++ repeat x00 (n - m)).
Proof.
  intros Matrix4 Material buildings body m n Hbody Hm H256.
  destruct (forR_indexed (Buffer * Buffer)
              (fun j s =>
                 s = (concat (map cartographicBytes (firstn j buildings))
                        ++ repeat x00 ((n - j) * 24),
                      repeat xff j ++ repeat x00 (n - j)))
              body m 0
              (Buffer_alloc (n * 3 * Buildings.sizeOfDouble),
               Buffer_alloc (n * Buildings.sizeOfUint8)))
    as (s' & Hrun & ->).
  - unfold Buffer_alloc, Buildings.sizeOfDouble, Buildings.sizeOfUint8.
    cbn [firstn map concat repeat app]. rewrite !Nat.sub_0_r.
    f_equal; f_equal; lia.
  - intros j s0 Hj ->. rewrite Hbody.
    destruct (nth_error buildings j) as [b |] eqn:Hb;
      [| apply nth_error_None in Hb; fold n in Hb; lia].
    rewrite (binaryTable_step _ _ buildings j b _ Hb).
    + destruct (Nat.ltb_spec j 256); [| lia].
      eexists. split; [reflexivity |].
      rewrite (firstn_snoc _ _ _ _ Hb), concat_map_snoc, <- !app_assoc. reflexivity.
    + rewrite (length_concat_const _ _ 24), length_firstn; [fold n; lia |].
      intros a _. reflexivity.
  - exact Hrun.
Qed.

Lemma generateBatchTableBinary_ok : forall (Matrix4 Material : Type)
    (buildings : list (Buildings.Building Matrix4 Material)),
  (length buildings <= 256)%nat ->
  Buildings.generateBatchTableBinary buildings
  = Ok (binaryTableJson (length buildings),
        concat (map cartographicBytes buildings) ++ repeat xff (length buildings)).
Proof.
  intros Matrix4 Material buildings Hn.
  unfold Buildings.generateBatchTableBinary. cbv zeta.
  match goal with
  | |- context [forR ?body 0 _ _] =>
      rewrite (binaryTable_loop _ _ buildings body (length buildings)
                 ltac:(intros; reflexivity) (Nat.le_refl _) Hn)
  end.
  cbn [rbind]. rewrite firstn_all, Nat.sub_diag. cbn [repeat Nat.mul].
  unfold Buffer_concat. cbn [concat]. rewrite !app_nil_r.
  unfold binaryTableJson, Buffer_alloc, Buildings.sizeOfDouble.
  rewrite repeat_length.
  replace (length buildings * 3 * 8)%nat with (length buildings * 24)%nat by lia.
  reflexivity.
Qed.

Lemma generateBatchTableBinary_err : forall (Matrix4 Material : Type)
    (buildings : list (Buildings.Building Matrix4 Material)),
  (256 < length buildings)%nat ->
  Buildings.generateBatchTableBinary buildings = Err RangeError.
Proof.
  intros Matrix4 Material buildings Hn.
  unfold Buildings.generateBatchTableBinary. cbv zeta.
  match goal with
  | |- context [forR ?body 0 (length buildings) ?init] =>
      replace (forR body 0 (length buildings) init)
        with (forR body 0 (256 + S (length buildings - 257)) init) by (f_equal; lia);
      rewrite forR_app;
      rewrite (binaryTable_loop _ _ buildings body 256
                 ltac:(intros; reflexivity) ltac:(lia) (Nat.le_refl _))
  end.
  cbn [rbind Nat.add forR].
  destruct (nth_error buildings 256) as [b |] eqn:Hb;
    [| apply nth_error_None in Hb; lia].
  rewrite (binaryTable_step _ _ buildings 256 b _ Hb).
  - reflexivity.
  - rewrite (length_concat_const _ _ 24), length_firstn; [lia |].
    intros a _. reflexivity.
Qed.

(** X14: [generateBatchTableBinary] works for up to 256 buildings: the
    binary is then the cartographic property, 24 bytes per building (the
    binary64 bytes of longitude, latitude and height), followed at byte
    24*n by one code byte per building, and every code is 255 since the
    code is [Math.max(i, 255)].  With more than 256 buildings the code of
    building 256 is 256, [writeUInt8] rejects it and the call throws a
    RangeError. *)
Theorem generateBatchTableBinary_up_to_256_buildings :
  forall (Matrix4 Material : Type)
         (buildings : list (Buildings.Building Matrix4 Material)),
    ((length buildings <= 256)%nat ->
       Buildings.generateBatchTableBinary buildings
       = Ok (binaryTableJson (length buildings),
             concat (map cartographicBytes buildings)
               ++ repeat xff (length buildings))
       /\ length (concat (map cartographicBytes buildings)) = (length buildings * 24)%nat
       /\ forall i b, nth_error buildings i = Some b ->
            firstn 24 (skipn (i * 24) (concat (map cartographicBytes buildings)))
            = cartographicBytes b)
    /\ ((256 < length buildings)%nat ->
       Buildings.generateBatchTableBinary buildings = Err RangeError).
Proof.
  intros Matrix4 Material buildings. split.
  - intros Hn. split; [| split].
    + apply generateBatchTableBinary_ok. exact Hn.
    + apply length_concat_const. intros a _. reflexivity.
    + intros i b Hb. apply (record_at _ cartographicBytes 24); [| exact Hb].
      intros a. reflexivity.
  - apply generateBatchTableBinary_err.
Qed.

Lemma generateBatchTableBinary_up_to_256_buildings_witness :
  Buildings.generateBatchTableBinary
    [Buildings.Sample.building 1 2 3; Buildings.Sample.building (-0.5) 0 infinity]
  = Ok (binaryTableJson 2,
        [x00; x00; x00; x00; x00; x00; xf0; x3f;
         x00; x00; x00; x00; x00; x00; x00; x40;
         x00; x00; x00; x00; x00; x00; x08; x40;
         x00; x00; x00; x00; x00; x00; xe0; xbf;
         x00; x00; x00; x00; x00; x00; x00; x00;
         x00; x00; x00; x00; x00; x00; xf0; x7f;
         xff; xff])
  /\ Buildings.generateBatchTableBinary
       (repeat (Buildings.Sample.building 0 0 0) 257) = Err RangeError.
Proof.
  split.
  - rewrite (proj1 (proj1 (generateBatchTableBinary_up_to_256_buildings unit nat
                             [Buildings.Sample.building 1 2 3;
                              Buildings.Sample.building (-0.5) 0 infinity])
                      ltac:(cbn; lia))).
    vm_compute. reflexivity.
  - apply (proj2 (generateBatchTableBinary_up_to_256_buildings unit nat
                    (repeat (Buildings.Sample.building 0 0 0) 257))).
    rewrite repeat_length. lia.
Defined.

(** Writing the first hole of an array filled up to there. *)
Lemma Array_set_next : forall (A : Type) (hole : A) (done : list A) k v,
  Buildings.Array_set hole (done ++ repeat hole (S k)) (length done) v
  = (done ++ [v]) ++ repeat hole k.
Proof.
  intros A hole done k v. induction done as [|a done IH];
    cbn [app length Buildings.Array_set repeat].
  - reflexivity.
  - rewrite <- IH. reflexivity.
Qed.

Lemma Array_set_fill : forall (A B : Type) (hole : B) (f : A -> B) (items : list A)
    n j (v : B),
  (j < n)%nat -> length items = j ->
  Buildings.Array_set hole (map f items ++ repeat hole (n - j)) j v
  = (map f items ++ [v]) ++ repeat hole (n - S j).
Proof.
  intros A B hole f items n j v Hj Hlen.
  replace (n - j)%nat with (S (n - S j)) by lia.
  rewrite <- (Array_set_next B hole (map f items) (n - S j) v), length_map, Hlen.
  reflexivity.
Qed.

Lemma generateBatchTable_loop : forall (Matrix4 Material : Type)
    (buildings : list (Buildings.Building Matrix4 Material))
    (body : nat -> list Json * list Json * list Json * list Json
            -> result (list Json * list Json * list Json * list Json)),
  let n := length buildings in
  (forall i id Longitude Latitude Height,
     body i (id, Longitude, Latitude, Height)
     = let! building := at_index buildings i in
       Ok (Buildings.Array_set JUndefined id i (JInt (Z.of_nat i)),
           Buildings.Array_set JUndefined Longitude i (JNum (Buildings.longitude building)),
           Buildings.Array_set JUndefined Latitude i (JNum (Buildings.latitude building)),
           Buildings.Array_set JUndefined Height i (JNum (Buildings.height building)))) ->
  forR body 0 n
    (Buildings.Array_new JUndefined n, Buildings.Array_new JUndefined n,
     Buildings.Array_new JUndefined n, Buildings.Array_new JUndefined n)
  = Ok (map (fun i => JInt (Z.of_nat i)) (seq 0 n),
        map (fun b => JNum (Buildings.longitude b)) buildings,
        map (fun b => JNum (Buildings.latitude b)) buildings,
        map (fun b => JNum (Buildings.height b)) buildings).
Proof.
  intros Matrix4 Material buildings body n Hbody.
  destruct (forR_indexed (list Json * list Json * list Json * list Json)
              (fun j s =>
                 s = (map (fun i => JInt (Z.of_nat i)) (seq 0 j)
                        ++ repeat JUndefined (n - j),
                      map (fun b => JNum (Buildings.longitude b)) (firstn j buildings)
                        ++ repeat JUndefined (n - j),
                      map (fun b => JNum (Buildings.latitude b)) (firstn j buildings)
                        ++ repeat JUndefined (n - j),
                      map (fun b => JNum (Buildings.height b)) (firstn j buildings)
                        ++ repeat JUndefined (n - j)))
              body n 0
              (Buildings.Array_new JUndefined n, Buildings.Array_new JUndefined n,
               Buildings.Array_new JUndefined n, Buildings.Array_new JUndefined n))
    as (s' & Hrun & ->).
  - unfold Buildings.Array_new. cbn [seq firstn map app]. rewrite Nat.sub_0_r. reflexivity.
  - intros j s0 Hj ->. rewrite Hbody.
    destruct (nth_error buildings j) as [b |] eqn:Hb;
      [| apply nth_error_None in Hb; fold n in Hb; lia].
    rewrite (at_index_nth _ _ _ _ Hb). cbn [rbind].
    eexists. split; [reflexivity |].
    assert (Hlen : length (firstn j buildings) = j) by (rewrite length_firstn; fold n; lia).
    rewrite !Array_set_fill by (first [lia | exact Hlen | apply length_seq]).
    rewrite seq_S, (firstn_snoc _ _ _ _ Hb), !map_app. reflexivity.
  - rewrite Hrun. cbn [Nat.add]. subst n. rewrite Nat.sub_diag, firstn_all. cbn [repeat].
    rewrite !app_nil_r. reflexivity.
Qed.

Lemma generateBatchTableExtra_loop : forall n
    (body : nat -> list Json * list Json -> result (list Json * list Json)),
  (forall i info rooms,
     body i (info, rooms)
     = Ok (Buildings.Array_set JUndefined info i (extraInfo i),
           Buildings.Array_set JUndefined rooms i (extraRooms i))) ->
  forR body 0 n (Buildings.Array_new JUndefined n, Buildings.Array_new JUndefined n)
  = Ok (map extraInfo (seq 0 n), map extraRooms (seq 0 n)).
Proof.
  intros n body Hbody.
  destruct (forR_indexed (list Json * list Json)
              (fun j s =>
                 s = (map extraInfo (seq 0 j) ++ repeat JUndefined (n - j),
                      map extraRooms (seq 0 j) ++ repeat JUndefined (n - j)))
              body n 0
              (Buildings.Array_new JUndefined n, Buildings.Array_new JUndefined n))
    as (s' & Hrun & ->).
  - unfold Buildings.Array_new. cbn [seq map app]. rewrite Nat.sub_0_r. reflexivity.
  - intros j s0 Hj ->. rewrite Hbody.
    eexists. split; [reflexivity |].
    rewrite !Array_set_fill by (first [lia | apply length_seq]).
    rewrite seq_S, !map_app. reflexivity.
  - rewrite Hrun. cbn [Nat.add]. rewrite Nat.sub_diag. cbn [repeat].
    rewrite !app_nil_r. reflexivity.
Qed.

Lemma to_uint_not_Nil : forall n, Nat.to_uint n <> Decimal.Nil.
Proof.
  intros n H.
  assert (Hn : n = 0%nat) by (rewrite <- (DecimalNat.Unsigned.of_to n), H; reflexivity).
  subst n. discriminate H.
Qed.

Lemma String_of_index_inj : forall i j,
  Buildings.String_of_index i = Buildings.String_of_index j -> i = j.
Proof.
  intros i j H. unfold Buildings.String_of_index in H.
  apply (f_equal NilZero.uint_of_string) in H.
  rewrite !NilZero.usu in H by apply to_uint_not_Nil.
  injection H as H. apply (f_equal Nat.of_uint) in H.
  rewrite !DecimalNat.Unsigned.of_to in H. exact H.
Qed.

Lemma buildingName_inj : forall i j, buildingName i = buildingName j -> i = j.
Proof.
  intros i j H. unfold buildingName in H. cbn [String.append] in H.
  injection H as H. apply String_of_index_inj. exact H.
Qed.

Lemma generateBatchTable_ok : forall (Matrix4 Material : Type)
    (buildings : list (Buildings.Building Matrix4 Material)),
  Buildings.generateBatchTable buildings = Ok (tableJson buildings).
Proof.
  intros Matrix4 Material buildings.
  unfold Buildings.generateBatchTable. cbv zeta.
  match goal with
  | |- context [forR ?body 0 _ _] =>
      rewrite (generateBatchTable_loop _ _ buildings body)
        by (intros; reflexivity)
  end.
  reflexivity.
Qed.

Lemma generateBatchTableExtra_ok : forall (Matrix4 Material : Type)
    (buildings : list (Buildings.Building Matrix4 Material)),
  Buildings.generateBatchTableExtra buildings = Ok (extraJson (length buildings)).
Proof.
  intros Matrix4 Material buildings.
  unfold Buildings.generateBatchTableExtra. cbv zeta.
  match goal with
  | |- context [forR ?body 0 _ _] =>
      rewrite (generateBatchTableExtra_loop (length buildings) body)
        by (intros; reflexivity)
  end.
  reflexivity.
Qed.

(** X15: [generateBatchTable] and [generateBatchTableExtra] never throw
    and return arrays without holes, one entry per building in order:
    the ids are 0, 1, ..., n-1, Longitude, Latitude and Height are those
    of the buildings, info and rooms are those of the indexes; the names
    'building0', 'building1', ... are pairwise distinct. *)
Theorem generateBatchTable_one_entry_per_building :
  forall (Matrix4 Material : Type)
         (buildings : list (Buildings.Building Matrix4 Material)),
    Buildings.generateBatchTable buildings = Ok (tableJson buildings)
    /\ Buildings.generateBatchTableExtra buildings = Ok (extraJson (length buildings))
    /\ Forall (fun entry => exists l, snd entry = JArr l
                                      /\ length l = length buildings
                                      /\ ~ In JUndefined l)
              (tableJson buildings ++ extraJson (length buildings))
    /\ NoDup (map buildingName (seq 0 (length buildings))).
Proof.
  intros Matrix4 Material buildings. split; [| split; [| split]].
  - apply generateBatchTable_ok.
  - apply generateBatchTableExtra_ok.
  - unfold tableJson, extraJson. cbn [app].
    repeat (apply Forall_cons; [eexists; split; [reflexivity |]; split;
                                [rewrite length_map, ?length_seq; reflexivity |] |]);
      try apply Forall_nil;
      intros Hin; apply in_map_iff in Hin; destruct Hin as (a & Ha & _); discriminate.
  - apply NoDup_map_NoDup_ForallPairs; [| apply seq_NoDup].
    intros i j _ _. apply buildingName_inj.
Qed.

Section BuildingsTile.
Context {L : Buildings.Lib}.

(** The batch table part of [createBuildingsTile] (lines 77-90). *)
Lemma batch_table_stage : forall (options : Buildings.Options L)
    (buildings : list (Buildings.Building Buildings.Matrix4 Buildings.Material)),
  (if defaultValue (Buildings.createBatchTable options) true
      && defaultValue (Buildings.useBatchIds options) true
   then
     let! batchTableJson := Buildings.generateBatchTable buildings in
     let! batchTableJson :=
       if defaultValue (Buildings.createBatchTableExtra options) false
          && defaultValue (Buildings.useBatchIds options) true
       then
         let! batchTableExtra := Buildings.generateBatchTableExtra buildings in
         Ok (Buildings.combine batchTableJson batchTableExtra)
       else Ok batchTableJson in
     let! (batchTableJson, batchTableBinary) :=
       if defaultValue (Buildings.createBatchTableBinary options) false
          && defaultValue (Buildings.useBatchIds options) true
       then
         let! batchTableJsonAndBinary := Buildings.generateBatchTableBinary buildings in
         Ok (Buildings.combine batchTableJson (fst batchTableJsonAndBinary),
             Some (snd batchTableJsonAndBinary))
       else Ok (batchTableJson, None) in
     Ok (Some batchTableJson, batchTableBinary)
   else Ok (None, None))
  = if binaryOn options && (256 <? length buildings)%nat
    then Err RangeError
    else Ok (expectedBatchTableJson options buildings,
             expectedBatchTableBinary options buildings).
Proof.
  intros options buildings.
  unfold expectedBatchTableJson, expectedBatchTableBinary, binaryOn, extraOn,
    batchTableOn, useBatchIdsOn.
  rewrite generateBatchTable_ok, generateBatchTableExtra_ok.
  destruct (defaultValue (Buildings.useBatchIds options) true);
    destruct (defaultValue (Buildings.createBatchTable options) true);
    destruct (defaultValue (Buildings.createBatchTableExtra options) false);
    destruct (defaultValue (Buildings.createBatchTableBinary options) false);
    cbn [andb rbind]; try reflexivity;
    (destruct (Nat.ltb_spec 256 (length buildings)) as [Hn | Hn];
     [rewrite generateBatchTableBinary_err by exact Hn; reflexivity
     | rewrite generateBatchTableBinary_ok by exact Hn; reflexivity]).
Qed.

Lemma tables_inv : forall (options : Buildings.Options L) buildings tables,
  Buildings.createBuildings (Buildings.buildingOptions options) = Ok buildings ->
  Buildings.createBuildingsTile_tables options = Ok tables ->
  Buildings.tablesBatchTableJson tables = expectedBatchTableJson options buildings
  /\ Buildings.tablesBatchTableBinary tables = expectedBatchTableBinary options buildings
  /\ Buildings.tablesFeatureTableJson tables
     = [("BATCH_LENGTH",
         JInt (Z.of_nat (if useBatchIdsOn options then length buildings else 0%nat)))]
  /\ Buildings.gltfUseBatchIds _ _ (Buildings.tablesGltfOptions tables)
     = useBatchIdsOn options
  /\ (binaryOn options = true -> (length buildings <= 256)%nat).
Proof.
  intros options buildings tables Hb H.
  unfold Buildings.createBuildingsTile_tables in H.
  rewrite Hb in H. cbn [rbind] in H. cbv zeta in H.
  match type of H with
  | context [forR ?body 0 ?n ?init] =>
      destruct (forR body 0 n init) as [meshes | e]; [| discriminate H]
  end.
  cbn [rbind] in H.
  destruct (Buildings.Mesh_batch meshes) as [batchedMesh | e]; [| discriminate H].
  cbn [rbind] in H.
  rewrite batch_table_stage in H.
  destruct (binaryOn options) eqn:Hbin; cbn [andb] in H.
  - destruct (Nat.ltb_spec 256 (length buildings)) as [Hn | Hn]; [discriminate H |].
    cbn [rbind] in H. injection H as <-. cbn. repeat split. intros _. exact Hn.
  - cbn [rbind] in H. injection H as <-. cbn. repeat split. intros Hf. discriminate Hf.
Qed.

Lemma tables_total : forall (options : Buildings.Options L) buildings,
  Buildings.createBuildings (Buildings.buildingOptions options) = Ok buildings ->
  meshesNeverFail L ->
  (binaryOn options = true -> (length buildings <= 256)%nat) ->
  exists tables, Buildings.createBuildingsTile_tables options = Ok tables.
Proof.
  intros options buildings Hb (Htransform & Hcolors & Hbatch) Hn.
  unfold Buildings.createBuildingsTile_tables.
  rewrite Hb. cbn [rbind]. cbv zeta.
  match goal with
  | |- context [forR ?body 0 ?n ?init] =>
      destruct (forR_indexed _ (fun _ _ => True) body n 0 init I) as (meshes & -> & _)
  end.
  { intros j meshes Hj _.
    destruct (nth_error buildings j) as [b |] eqn:Hbj;
      [| apply nth_error_None in Hbj; lia].
    rewrite (at_index_nth _ _ _ _ Hbj). cbn [rbind].
    match goal with
    | |- context [Buildings.Mesh_transform ?m ?t] =>
        destruct (Htransform m t) as (m' & ->)
    end.
    cbn [rbind].
    destruct (Buildings.truthy (Buildings.useVertexColors options)).
    - match goal with
      | |- context [Buildings.Mesh_transferMaterialToVertexColors ?m] =>
          destruct (Hcolors m) as (m'' & ->)
      end.
      cbn [rbind]. eexists. split; [reflexivity | exact I].
    - cbn [rbind]. eexists. split; [reflexivity | exact I]. }
  cbn [rbind].
  destruct (Hbatch meshes) as (batchedMesh & ->). cbn [rbind].
  rewrite batch_table_stage.
  destruct (binaryOn options) eqn:Hbin; cbn [andb].
  - destruct (Nat.ltb_spec 256 (length buildings)) as [Hgt | Hle];
      [specialize (Hn eq_refl); lia |].
    cbn [rbind]. eexists. reflexivity.
  - cbn [rbind]. eexists. reflexivity.
Qed.

End BuildingsTile.

(** X16: in [createBuildingsTile] the batch table follows the options.
    Without batch ids, or with [createBatchTable] false, there is no
    batch table JSON and no binary, whatever the two other switches say;
    otherwise the JSON has the keys of [generateBatchTable], then those of
    the extra table and of the binary table when asked for, and the binary
    is that of [generateBatchTableBinary].  BATCH_LENGTH is the number of
    buildings, or 0 without batch ids.  The promise resolves with the same
    batch table JSON.  With the binary table and more than 256 buildings
    the call throws and returns no promise; when the binary table is off
    or there are at most 256 buildings, and the mesh library does not
    fail, the tables are produced. *)
Theorem buildings_batch_table_follows_options :
  forall (L : Buildings.Lib) (options : Buildings.Options L)
         (buildings : list (Buildings.Building Buildings.Matrix4 Buildings.Material)),
    Buildings.createBuildings (Buildings.buildingOptions options) = Ok buildings ->
    (forall tables,
       Buildings.createBuildingsTile_tables options = Ok tables ->
       Buildings.tablesBatchTableJson tables = expectedBatchTableJson options buildings
       /\ Buildings.tablesBatchTableBinary tables
          = expectedBatchTableBinary options buildings
       /\ Buildings.tablesFeatureTableJson tables
          = [("BATCH_LENGTH",
              JInt (Z.of_nat (if useBatchIdsOn options
                              then length buildings else 0%nat)))]
       /\ Buildings.gltfUseBatchIds _ _ (Buildings.tablesGltfOptions tables)
          = useBatchIdsOn options)
    /\ (forall tile,
          Buildings.createBuildingsTile options = Ok (Ok tile) ->
          Buildings.resultBatchTableJson tile = expectedBatchTableJson options buildings)
    /\ (binaryOn options = true -> (256 < length buildings)%nat ->
        forall promise, Buildings.createBuildingsTile options <> Ok promise)
    /\ (meshesNeverFail L ->
        (binaryOn options = true -> (length buildings <= 256)%nat) ->
        exists tables, Buildings.createBuildingsTile_tables options = Ok tables)
    /\ (useBatchIdsOn options = false ->
        expectedBatchTableJson options buildings = None
        /\ expectedBatchTableBinary options buildings = None)
    /\ (Buildings.createBatchTable options = Some false ->
        expectedBatchTableJson options buildings = None
        /\ expectedBatchTableBinary options buildings = None).
Proof.
  intros L options buildings Hb. split; [| split; [| split; [| split; [| split]]]].
  - intros tables Ht.
    destruct (tables_inv options buildings tables Hb Ht) as (H1 & H2 & H3 & H4 & _).
    auto.
  - intros tile Htile. unfold Buildings.createBuildingsTile in Htile.
    destruct (Buildings.createBuildingsTile_tables options) as [tables | e] eqn:Ht;
      [| discriminate Htile].
    cbn [rbind] in Htile.
    destruct (Buildings.createGltf (Buildings.tablesGltfOptions tables)) as [promise | e];
      [| discriminate Htile].
    cbn [rbind] in Htile. injection Htile as Htile.
    unfold Buildings.Promise_then in Htile.
    destruct promise as [glb | e]; [| discriminate Htile].
    cbn [rbind] in Htile.
    match type of Htile with
    | context [Buildings.createB3dm ?o] =>
        destruct (Buildings.createB3dm o) as [b3dm | e]; [| discriminate Htile]
    end.
    cbn [rbind] in Htile. injection Htile as <-. cbn [Buildings.resultBatchTableJson].
    apply (tables_inv options buildings tables Hb Ht).
  - intros Hbin Hn promise Hp. unfold Buildings.createBuildingsTile in Hp.
    destruct (Buildings.createBuildingsTile_tables options) as [tables | e] eqn:Ht;
      [| discriminate Hp].
    destruct (tables_inv options buildings tables Hb Ht) as (_ & _ & _ & _ & Hle).
    specialize (Hle Hbin). lia.
  - apply tables_total. exact Hb.
  - unfold expectedBatchTableJson, expectedBatchTableBinary, binaryOn, batchTableOn.
    intros ->. rewrite !andb_false_r. split; reflexivity.
  - unfold expectedBatchTableJson, expectedBatchTableBinary, binaryOn, batchTableOn.
    intros ->. split; reflexivity.
Qed.

Lemma buildings_batch_table_follows_options_witness :
  (exists tables,
     Buildings.createBuildingsTile_tables
       (sampleOptions twoBuildings None None (Some true) (Some true)) = Ok tables
     /\ option_map (map fst) (Buildings.tablesBatchTableJson tables)
        = Some ["id"; "Longitude"; "Latitude"; "Height"; "info"; "rooms";
                "cartographic"; "code"]
     /\ option_map (@length byte) (Buildings.tablesBatchTableBinary tables) = Some 50%nat
     /\ Buildings.tablesFeatureTableJson tables = [("BATCH_LENGTH", JInt 2)])
  /\ (exists tables,
        Buildings.createBuildingsTile_tables
          (sampleOptions twoBuildings (Some false) None (Some true) (Some true))
        = Ok tables
        /\ Buildings.tablesBatchTableJson tables = None
        /\ Buildings.tablesBatchTableBinary tables = None
        /\ Buildings.tablesFeatureTableJson tables = [("BATCH_LENGTH", JInt 0)])
  /\ (forall promise,
        Buildings.createBuildingsTile
          (sampleOptions (repeat (Buildings.Sample.building 0 0 0) 257)
             None None None (Some true))
        <> Ok promise).
Proof.
  assert (Hmesh : meshesNeverFail Buildings.Sample.lib).
  { split; [| split]; intros; eexists; reflexivity. }
  split; [| split].
  - pose proof (buildings_batch_table_follows_options Buildings.Sample.lib
                  (sampleOptions twoBuildings None None (Some true) (Some true))
                  twoBuildings eq_refl) as (Hinv & _ & _ & Htotal & _).
    destruct (Htotal Hmesh ltac:(intros _; cbn; lia)) as (tables & Ht).
    destruct (Hinv tables Ht) as (H1 & H2 & H3 & _).
    exists tables. split; [exact Ht |].
    rewrite H1, H2, H3. repeat split.
  - pose proof (buildings_batch_table_follows_options Buildings.Sample.lib
                  (sampleOptions twoBuildings (Some false) None (Some true) (Some true))
                  twoBuildings eq_refl) as (Hinv & _ & _ & Htotal & Hoff & _).
    destruct (Htotal Hmesh ltac:(intros Hf; discriminate Hf)) as (tables & Ht).
    destruct (Hinv tables Ht) as (H1 & H2 & H3 & _).
    destruct (Hoff eq_refl) as (H5 & H6).
    exists tables. split; [exact Ht |].
    rewrite H1, H2, H3, H5, H6. repeat split.
  - apply (proj1 (proj2 (proj2 (buildings_batch_table_follows_options Buildings.Sample.lib
                    (sampleOptions (repeat (Buildings.Sample.building 0 0 0) 257)
                       None None None (Some true))
                    (repeat (Buildings.Sample.building 0 0 0) 257) eq_refl)))).
    + reflexivity.
    + rewrite repeat_length. lia.
Defined.

(** ** Writes never change the length of a buffer *)

Lemma Buffer_store_length : forall buf offset bs buf',
  Buffer_store buf offset bs = Ok buf' -> length buf' = length buf.
Proof.
  intros buf offset bs buf' H. unfold Buffer_store in H.
  destruct (Nat.leb_spec (offset + length bs) (length buf)); [| discriminate].
  injection H as <-. rewrite !length_app, length_firstn, length_skipn. lia.
Qed.

Lemma writeUIntLE_length : forall width buf v offset buf',
  writeUIntLE width buf v offset = Ok buf' -> length buf' = length buf.
Proof.
  intros width buf v offset buf' H. unfold writeUIntLE in H.
  destruct (checkInt v (2 ^ (8 * Z.of_nat width) - 1)); [| discriminate].
  apply Buffer_store_length in H. exact H.
Qed.

Lemma writeUIntLE_int_length : forall width buf v offset buf',
  writeUIntLE_int width buf v offset = Ok buf' -> length buf' = length buf.
Proof.
  intros width buf v offset buf' H. unfold writeUIntLE_int in H.
  destruct ((v >? 2 ^ (8 * Z.of_nat width) - 1) || (v <? 0)); [discriminate |].
  apply Buffer_store_length in H. exact H.
Qed.

Lemma writeFloatLE_length : forall buf v offset buf',
  writeFloatLE buf v offset = Ok buf' -> length buf' = length buf.
Proof.
  intros buf v offset buf' H. unfold writeFloatLE in H.
  apply Buffer_store_length in H. exact H.
Qed.

(** What holds before a loop and is kept by every iteration that returns
    holds after the loop, if it returns. *)
Lemma forR_preserves : forall (St : Type) (P : St -> Prop) body n i s s',
  @forR St body i n s = Ok s' ->
  P s ->
  (forall j s0 s1, body j s0 = Ok s1 -> P s0 -> P s1) ->
  P s'.
Proof.
  intros St P body n. induction n as [|n IH]; intros i s s' H Hs Hbody; cbn [forR] in H.
  - injection H as <-. exact Hs.
  - destruct (body i s) as [s1 | e] eqn:Hb; cbn [rbind] in H; [| discriminate].
    apply (IH (S i) s1 s' H); [| exact Hbody].
    apply (Hbody i s s1 Hb Hs).
Qed.

(** Takes a body made of successive writes apart and chains the lengths. *)
Ltac chain_writes H :=
  repeat match type of H with
         | rbind ?r _ = Ok _ =>
             let E := fresh "Hw" in
             destruct r eqn:E; cbn [rbind] in H; [| discriminate H]
         end;
  try (injection H as <-);
  repeat match goal with
         | Hw : writeUIntLE _ _ _ _ = Ok _ |- _ => apply writeUIntLE_length in Hw
         | Hw : writeUInt8 _ _ _ = Ok _ |- _ => apply writeUIntLE_length in Hw
         | Hw : writeUInt16LE _ _ _ = Ok _ |- _ => apply writeUIntLE_length in Hw
         | Hw : writeUIntLE_int _ _ _ _ = Ok _ |- _ => apply writeUIntLE_int_length in Hw
         | Hw : writeFloatLE _ _ _ = Ok _ |- _ => apply writeFloatLE_length in Hw
         end;
  congruence.

(** An encoder whose loop only writes returns the buffer it allocated. *)
Ltac encoder_length H size :=
  match type of H with
  | context [forR ?body 0 ?n ?init] =>
      let Hloop := fresh "Hloop" in
      let Hlen := fresh "Hlen" in
      destruct (forR body 0 n init) as [b | e] eqn:Hloop; cbn [rbind] in H;
      [| discriminate H];
      injection H as <-;
      assert (Hlen : length b = size)
        by (apply (forR_preserves Buffer (fun b => length b = size) _ _ _ _ _ Hloop);
            [ unfold Buffer_alloc; apply repeat_length
            | let j := fresh "j" in
              let s0 := fresh "s0" in
              let s1 := fresh "s1" in
              let Hb := fresh "Hb" in
              let Hs := fresh "Hs" in
              intros j s0 s1 Hb Hs; cbv zeta in Hb; chain_writes Hb ]);
      unfold holdsPoints, elementSize;
      cbn [buffer componentType type getSizeInBytes numberOfComponentsForType];
      rewrite Hlen;
      unfold sizeOfUint8, sizeOfUint16, sizeOfUint32, sizeOfFloat32;
      cbn [Z.to_nat Pos.to_nat Pos.iter_op Nat.add]; lia
  end.

Lemma getPositions_holds : forall l p,
  getPositions l = Ok p -> holdsPoints (length l) p.
Proof.
  intros l p H. unfold getPositions in H. cbv zeta in H.
  encoder_length H (length l * 3 * sizeOfFloat32)%nat.
Qed.

Lemma getNormals_holds : forall l p,
  getNormals l = Ok p -> holdsPoints (length l) p.
Proof.
  intros l p H. unfold getNormals in H. cbv zeta in H.
  encoder_length H (length l * 3 * sizeOfFloat32)%nat.
Qed.

Lemma getColorsRGB_holds : forall l p,
  getColorsRGB l = Ok p -> holdsPoints (length l) p.
Proof.
  intros l p H. unfold getColorsRGB in H. cbv zeta in H.
  encoder_length H (length l * 3)%nat.
Qed.

Lemma getColorsRGBA_holds : forall l p,
  getColorsRGBA l = Ok p -> holdsPoints (length l) p.
Proof.
  intros l p H. unfold getColorsRGBA in H. cbv zeta in H.
  encoder_length H (length l * 4)%nat.
Qed.

Lemma getColorsRGB565_holds : forall l p,
  getColorsRGB565 l = Ok p -> holdsPoints (length l) p.
Proof.
  intros l p H. unfold getColorsRGB565 in H. cbv zeta in H.
  encoder_length H (length l * sizeOfUint16)%nat.
Qed.

Lemma getBatchIds_holds : forall l p,
  getBatchIds l = Ok p -> holdsPoints (length l) p.
Proof.
  intros l p H. unfold getBatchIds in H. cbv zeta in H.
  destruct (findBatchLength l <=? 256); [| destruct (findBatchLength l <=? 65536)].
  - encoder_length H (length l * sizeOfUint8)%nat.
  - encoder_length H (length l * sizeOfUint16)%nat.
  - encoder_length H (length l * sizeOfUint32)%nat.
Qed.

Lemma getPositionsQuantized_holds : forall (E : Env) l radius p,
  getPositionsQuantized l radius = Ok p -> holdsPoints (length l) p.
Proof.
  intros E l radius p H. unfold getPositionsQuantized in H. cbv zeta in H.
  encoder_length H (length l * 3 * sizeOfUint16)%nat.
Qed.

Lemma getNormalsOctEncoded_holds : forall (E : Env) l p,
  getNormalsOctEncoded l = Ok p -> holdsPoints (length l) p.
Proof.
  intros E l p H. unfold getNormalsOctEncoded in H. cbv zeta in H.
  encoder_length H (length l * 2 * sizeOfUint8)%nat.
Qed.

Lemma getPerPointBatchTableProperties_holds :
  forall (E : Env) pointsLength noiseValues g bt g',
    getPerPointBatchTableProperties pointsLength noiseValues g = (Ok bt, g') ->
    Forall (holdsPoints pointsLength) bt.
Proof.
  intros E n noise g bt g' H. unfold getPerPointBatchTableProperties in H.
  apply bind_Ok_inv in H. destruct H as ([[tb sb] ib] & g1 & Hloop & H).
  unfold ret in H. injection H as <- _.
  pose proof (forM_preserves (Buffer * Buffer * Buffer)
                (fun _ s =>
                   length (fst (fst s)) = (n * 4)%nat /\
                   length (snd (fst s)) = (n * 12)%nat /\
                   length (snd s) = (n * 2)%nat)
                _ _ _ _ _ _ _ Hloop) as Hinv.
  cbn [fst snd] in Hinv.
  destruct Hinv as (Lt & Ls & Li).
  - unfold Buffer_alloc, sizeOfFloat32, sizeOfUint16. rewrite !repeat_length. lia.
  - intros j [[tb0 sb0] ib0] g0 [[tb1 sb1] ib1] g2 _ Hbody (Lt & Ls & Li).
    cbn [fst snd] in *. cbv zeta in Hbody.
    apply bind_Ok_inv in Hbody. destruct Hbody as (r & g3 & _ & Hbody).
    apply bind_Ok_inv in Hbody. destruct Hbody as (t1 & g4 & H1 & Hbody).
    apply bind_Ok_inv in Hbody. destruct Hbody as (s1 & g5 & H2 & Hbody).
    apply bind_Ok_inv in Hbody. destruct Hbody as (s2 & g6 & H3 & Hbody).
    apply bind_Ok_inv in Hbody. destruct Hbody as (s3 & g7 & H4 & Hbody).
    apply bind_Ok_inv in Hbody. destruct Hbody as (i1 & g8 & H5 & Hbody).
    apply lift_Ok_inv in H1, H2, H3, H4, H5.
    destruct H1 as [H1 _], H2 as [H2 _], H3 as [H3 _], H4 as [H4 _], H5 as [H5 _].
    unfold ret in Hbody. injection Hbody as <- <- <- _.
    apply writeFloatLE_length in H1, H2, H3, H4.
    apply writeUIntLE_int_length in H5.
    repeat split; congruence.
  - unfold holdsPoints, elementSize.
    repeat constructor;
      cbn [buffer componentType type getSizeInBytes numberOfComponentsForType
           Z.to_nat Pos.to_nat Pos.iter_op Nat.add]; lia.
Qed.

(** The attributes [getPoints] returns hold one element per point. *)
Lemma getPoints_holds :
  forall (E : Env) pointsLength radius colorModeFunction colorFunction shapeFunction
         quantizePositions octEncodeNormals relativeToCenter transform time g points g',
    getPoints pointsLength radius colorModeFunction colorFunction shapeFunction
      quantizePositions octEncodeNormals relativeToCenter transform time g
    = (Ok points, g') ->
    (forall f l c, colorModeFunction = Some f -> f l = Ok c -> holdsPoints (length l) c) ->
    holdsPoints pointsLength (positions points) /\
    holdsPoints pointsLength (normals points) /\
    holdsPoints pointsLength (batchIds points) /\
    (forall c, colors points = Some c -> holdsPoints pointsLength c) /\
    length (noiseValues points) = pointsLength.
Proof.
  intros E n radius cmf cf sf q o rel t time g points g' H Hcmf.
  apply getPoints_inv in H.
  destruct H as (arrays & L1 & L2 & L3 & L4 & L5 & _ & Hp & Hn & Hb & Hc & Hnoise).
  split; [| split; [| split; [| split]]].
  - rewrite <- L1. destruct q;
      [apply (getPositionsQuantized_holds E _ _ _ Hp) | apply (getPositions_holds _ _ Hp)].
  - rewrite <- L2. destruct o;
      [apply (getNormalsOctEncoded_holds E _ _ Hn) | apply (getNormals_holds _ _ Hn)].
  - rewrite <- L3. apply (getBatchIds_holds _ _ Hb).
  - intros c Hcol. destruct cmf as [f |].
    + destruct Hc as (c' & Hf & Hc'). rewrite Hc' in Hcol. injection Hcol as <-.
      rewrite <- L4. apply (Hcmf f _ _ eq_refl Hf).
    + rewrite Hc in Hcol. discriminate Hcol.
  - rewrite Hnoise. exact L5.
Qed.

(** X17: in every tile [createPointCloudTile] generates, with or without
    draco, each attribute of the feature table and each per-point property
    of the batch table holds exactly one element per point: the length of
    its buffer is the number of points times the size of its component
    type times the number of components of its type. *)
Theorem attributes_hold_one_element_per_point :
  forall (E : Env) (options : Options E) (g : Globals E) tile g',
    createPointCloudTile_sections (Some options) g = (Ok tile, g') ->
    Forall (holdsPoints (defaultValue (pointsLength options) 1000%nat))
           (featureTableProperties tile)
    /\ Forall (holdsPoints (defaultValue (pointsLength options) 1000%nat))
              (batchTableProperties tile).
Proof.
  intros E options g tile g' H.
  invert_sections H.
  cbn [featureTableProperties batchTableProperties].
  apply getPoints_holds in Hpoints.
  - destruct Hpoints as (Hp & Hn & Hb & Hc & _). split.
    + destruct (colors points) as [c |] eqn:Hcol;
        destruct (defaultValue (generateNormals options) false);
        destruct (defaultValue (batched options) false);
        cbn [app]; repeat constructor; auto.
    + destruct (defaultValue (perPointProperties options) false).
      * apply (getPerPointBatchTableProperties_holds E _ _ _ _ _ Hbt).
      * unfold ret in Hbt. injection Hbt as <- _. constructor.
  - intros f l c Hf Hfl.
    match type of Hf with
    | context [String.eqb ?cm "rgb"] =>
        destruct (String.eqb cm "rgb");
        [| destruct (String.eqb cm "rgba"); [| destruct (String.eqb cm "rgb565")]]
    end;
      try discriminate Hf; injection Hf as <-.
    + apply (getColorsRGB_holds _ _ Hfl).
    + apply (getColorsRGBA_holds _ _ Hfl).
    + apply (getColorsRGB565_holds _ _ Hfl).
Qed.

Lemma attributes_hold_one_element_per_point_witness :
  exists tile g',
    createPointCloudTile_sections (Some everyAttributeOptions) moduleInit = (Ok tile, g')
    /\ map propertyName (featureTableProperties tile)
       = ["POSITION_QUANTIZED"; "RGBA"; "NORMAL_OCT16P"; "BATCH_ID"]
    /\ Forall (holdsPoints 8) (featureTableProperties tile)
    /\ map propertyName (batchTableProperties tile) = ["temperature"; "secondaryColor"; "id"]
    /\ Forall (holdsPoints 8) (batchTableProperties tile).
Proof.
  assert (Hok : isOk (fst (createPointCloudTile_sections (Some everyAttributeOptions)
                             moduleInit)) = true) by (vm_compute; reflexivity).
  assert (Hf : rmap (fun t => map propertyName (featureTableProperties t))
                 (fst (createPointCloudTile_sections (Some everyAttributeOptions)
                         moduleInit))
               = Ok ["POSITION_QUANTIZED"; "RGBA"; "NORMAL_OCT16P"; "BATCH_ID"])
    by (vm_compute; reflexivity).
  assert (Hb : rmap (fun t => map propertyName (batchTableProperties t))
                 (fst (createPointCloudTile_sections (Some everyAttributeOptions)
                         moduleInit))
               = Ok ["temperature"; "secondaryColor"; "id"])
    by (vm_compute; reflexivity).
  destruct (createPointCloudTile_sections (Some everyAttributeOptions) moduleInit)
    as [[tile | e] g'] eqn:Hrun; [| discriminate Hok].
  cbn [fst rmap rbind] in Hf, Hb. injection Hf as Hf. injection Hb as Hb.
  destruct (attributes_hold_one_element_per_point Sample.env everyAttributeOptions
              moduleInit tile g' Hrun) as (H1 & H2).
  exists tile, g'.
  split; [reflexivity |]. split; [exact Hf |]. split; [exact H1 |].
  split; [exact Hb | exact H2].
Defined.

Lemma getPropertyByName_total : forall (props : list (option Property)) name,
  ~ In None props -> exists r, getPropertyByName props name = Ok r.
Proof.
  intros props. induction props as [|[p |] props IH]; intros name Hnone;
    cbn [getPropertyByName].
  - eexists. reflexivity.
  - destruct (String.eqb (propertyName p) name); [eexists; reflexivity |].
    apply IH. intros Hin. apply Hnone. right. exact Hin.
  - exfalso. apply Hnone. left. reflexivity.
Qed.

(** With known semantics, the array handed to the compressor has no
    undefined element and only attributes of the two tables. *)
Lemma selectDracoProperties_members : forall dracoSemantics ft bt,
  knownSemantics dracoSemantics ft ->
  exists dracoProperties,
    selectDracoProperties dracoSemantics ft bt = Ok dracoProperties /\
    Forall (fun o => exists p, o = Some p /\ In p (ft ++ bt)) dracoProperties.
Proof.
  intros [names |] ft bt Hknown; unfold selectDracoProperties.
  - rewrite (select_loop_found ft names []). cbn [rbind app].
    eexists. split; [reflexivity |].
    apply Forall_app. split.
    + apply Forall_forall. intros o Ho. apply in_map_iff in Ho.
      destruct Ho as (name & <- & Hname).
      destruct (find_by_name_In ft name (Hknown name Hname)) as (p & -> & _ & Hp).
      exists p. split; [reflexivity |]. apply in_or_app. left. exact Hp.
    + apply Forall_forall. intros o Ho. apply in_map_iff in Ho.
      destruct Ho as (p & <- & Hp).
      exists p. split; [reflexivity |]. apply in_or_app. right. exact Hp.
  - cbn [rbind]. eexists. split; [reflexivity |].
    unfold allDefined. rewrite <- map_app.
    apply Forall_forall. intros o Ho. apply in_map_iff in Ho.
    destruct Ho as (p & <- & Hp). exists p. split; [reflexivity | exact Hp].
Qed.

(** The typed array over a buffer of whole elements is the whole buffer. *)
Lemma createArrayBufferView_holds : forall n p,
  holdsPoints n p -> createArrayBufferView (componentType p) (buffer p) = buffer p.
Proof.
  intros n p H. unfold createArrayBufferView. cbv zeta.
  unfold holdsPoints, elementSize in H.
  assert (Hsize : getSizeInBytes (componentType p) <> 0%nat)
    by (destruct (componentType p); discriminate).
  assert (Hlen : (length (buffer p) / getSizeInBytes (componentType p)
                  * getSizeInBytes (componentType p))%nat = length (buffer p)).
  { assert (Hm : length (buffer p)
                 = (n * Z.to_nat (numberOfComponentsForType (type p))
                    * getSizeInBytes (componentType p))%nat) by lia.
    rewrite Hm at 1. rewrite Nat.div_mul by exact Hsize. symmetry. exact Hm. }
  rewrite Hlen. apply firstn_all.
Qed.

Lemma addAttributes_ok :
  forall (E : Env) pointsLength (props : list (option Property)) pointCloud attributeIds,
    Forall (fun o => exists p, o = Some p /\ holdsPoints pointsLength p
                               /\ supportedComponent p) props ->
    exists pointCloud' attributeIds',
      addAttributes pointsLength props pointCloud attributeIds
      = Ok (pointCloud', attributeIds').
Proof.
  intros E n props. induction props as [|o props IH];
    intros pointCloud attributeIds Hall; cbn [addAttributes].
  - eexists. eexists. reflexivity.
  - inversion Hall as [| o' l' (p & -> & Hholds & Hsup) Hrest]; subst.
    cbv zeta. rewrite (createArrayBufferView_holds n p Hholds).
    unfold supportedComponent in Hsup.
    destruct (getAddAttributeFunctionName (componentType p)) as [name |];
      [| exfalso; apply Hsup; reflexivity].
    match goal with
    | |- context [PointCloudBuilder_add ?c ?a] =>
        destruct (PointCloudBuilder_add c a) as [id pointCloud1]
    end.
    apply IH. exact Hrest.
Qed.

Lemma dracoEncode_ok :
  forall (E : Env) pointsLength dracoSemantics ft bt,
    knownSemantics dracoSemantics ft ->
    Forall (holdsPoints pointsLength) (ft ++ bt) ->
    Forall supportedComponent (ft ++ bt) ->
    (forall settings pointCloud,
       0 < fst (Encoder_EncodePointCloudToDracoBuffer settings pointCloud)) ->
    exists r, dracoEncode pointsLength dracoSemantics ft bt = Ok r.
Proof.
  intros E n sem ft bt Hknown Hholds Hsup Hpos.
  destruct (selectDracoProperties_members sem ft bt Hknown) as (dp & Hsel & Hdp).
  unfold dracoEncode. rewrite Hsel. cbn [rbind].
  assert (Hnone : ~ In None dp).
  { intros Hin. rewrite Forall_forall in Hdp.
    destruct (Hdp None Hin) as (p & Hp & _). discriminate Hp. }
  unfold choosePreserveOrder.
  destruct (getPropertyByName_total dp "NORMAL" Hnone) as (normal & ->). cbn [rbind].
  unfold dracoEncodeProperties.
  destruct (addAttributes_ok E n dp PointCloud_new []) as (pointCloud & ids & ->).
  { rewrite Forall_forall in Hdp, Hholds, Hsup. apply Forall_forall. intros o Ho.
    destruct (Hdp o Ho) as (p & -> & Hp). exists p. auto. }
  cbn [rbind].
  match goal with
  | |- context [Encoder_EncodePointCloudToDracoBuffer ?s ?c] =>
      specialize (Hpos s c);
      destruct (Encoder_EncodePointCloudToDracoBuffer s c) as [encodedLength data]
  end.
  cbn [fst] in Hpos.
  destruct (Z.leb_spec encodedLength 0); [lia |]. cbn [rbind].
  destruct (routeAttributeIds_ok ft bt ids ([], [])) as ([fp bp] & ->). cbn [rbind].
  eexists. reflexivity.
Qed.

Lemma getBatchIds_supported : forall l p,
  getBatchIds l = Ok p -> supportedComponent p.
Proof.
  intros l p H. unfold getBatchIds in H. cbv zeta in H. unfold supportedComponent.
  destruct (findBatchLength l <=? 256); [| destruct (findBatchLength l <=? 65536)];
    match type of H with
    | context [forR ?body 0 ?n ?init] =>
        destruct (forR body 0 n init); cbn [rbind] in H; [| discriminate H]
    end;
    injection H as <-; discriminate.
Qed.

Lemma getPerPointBatchTableProperties_supported :
  forall (E : Env) pointsLength noiseValues g bt g',
    getPerPointBatchTableProperties pointsLength noiseValues g = (Ok bt, g') ->
    Forall supportedComponent bt.
Proof.
  intros E n noise g bt g' H. unfold getPerPointBatchTableProperties in H.
  apply bind_Ok_inv in H. destruct H as ([[tb sb] ib] & g1 & _ & H).
  unfold ret in H. injection H as <- _.
  repeat constructor; discriminate.
Qed.

(** The component types of the attributes of a generated tile. *)
Lemma tile_attributes_supported :
  forall (E : Env) (options : Options E) (g : Globals E) tile g',
    createPointCloudTile_sections (Some options) g = (Ok tile, g') ->
    Forall supportedComponent (featureTableProperties tile ++ batchTableProperties tile).
Proof.
  intros E options g tile g' H.
  invert_sections H.
  cbn [featureTableProperties batchTableProperties].
  apply getPoints_inv in Hpoints.
  destruct Hpoints as (arrays & _ & _ & _ & _ & _ & _ & Hp & Hn & Hb & Hc & _).
  assert (Spos : supportedComponent (positions points)).
  { unfold supportedComponent.
    match type of Hp with
    | (if ?q then _ else _) = _ => destruct q
    end.
    - destruct (getPositionsQuantized_shape E _ _ _ Hp) as (_ & -> & _). discriminate.
    - destruct (getPositions_shape _ _ Hp) as (_ & -> & _). discriminate. }
  assert (Snor : supportedComponent (normals points)).
  { unfold supportedComponent.
    match type of Hn with
    | (if ?o then _ else _) = _ => destruct o
    end.
    - destruct (getNormalsOctEncoded_shape E _ _ Hn) as (_ & -> & _). discriminate.
    - destruct (getNormals_shape _ _ Hn) as (_ & -> & _). discriminate. }
  assert (Sbat : supportedComponent (batchIds points))
    by (apply (getBatchIds_supported _ _ Hb)).
  assert (Scol : forall c, colors points = Some c -> supportedComponent c).
  { intros c Hcol. unfold supportedComponent.
    match type of Hc with
    | match ?cmf with _ => _ end =>
        match cmf with
        | context [String.eqb ?cm "rgb"] =>
            destruct (String.eqb cm "rgb");
            [| destruct (String.eqb cm "rgba"); [| destruct (String.eqb cm "rgb565")]]
        end
    end.
    - destruct Hc as (c' & Hf & Hc'). rewrite Hc' in Hcol. injection Hcol as <-.
      destruct (getColorsRGB_shape _ _ Hf) as (_ & -> & _). discriminate.
    - destruct Hc as (c' & Hf & Hc'). rewrite Hc' in Hcol. injection Hcol as <-.
      destruct (getColorsRGBA_shape _ _ Hf) as (_ & -> & _). discriminate.
    - destruct Hc as (c' & Hf & Hc'). rewrite Hc' in Hcol. injection Hcol as <-.
      destruct (getColorsRGB565_shape _ _ Hf) as (_ & -> & _). discriminate.
    - rewrite Hc in Hcol. discriminate Hcol. }
  apply Forall_app. split.
  - destruct (colors points) as [c |] eqn:Hcol;
      destruct (defaultValue (generateNormals options) false);
      destruct (defaultValue (batched options) false);
      cbn [app]; repeat constructor; auto.
  - destruct (defaultValue (perPointProperties options) false).
    + apply (getPerPointBatchTableProperties_supported E _ _ _ _ _ Hbt).
    + unfold ret in Hbt. injection Hbt as <- _. constructor.
Qed.

(** X18: [dracoEncode] fails on well-formed input only if the encoder
    does.  When every attribute holds one element per point and has a
    component type the draco builder can add (every type but DOUBLE), and
    the names of [dracoSemantics], if given, are feature-table attributes,
    then an encoder that returns data makes [dracoEncode] return a
    result, and an encoder that returns no data makes it throw 'Encoding
    Failed'.  The attributes of every generated tile have such a
    component type. *)
Theorem dracoEncode_fails_only_with_the_encoder :
  forall (E : Env),
    (forall pointsLength dracoSemantics ft bt,
       knownSemantics dracoSemantics ft ->
       Forall (holdsPoints pointsLength) (ft ++ bt) ->
       Forall supportedComponent (ft ++ bt) ->
       ((forall settings pointCloud,
           0 < fst (Encoder_EncodePointCloudToDracoBuffer settings pointCloud)) ->
        exists r, dracoEncode pointsLength dracoSemantics ft bt = Ok r)
       /\ ((forall settings pointCloud,
              fst (Encoder_EncodePointCloudToDracoBuffer settings pointCloud) <= 0) ->
           dracoEncode pointsLength dracoSemantics ft bt = Err EncodingFailed))
    /\ (forall (options : Options E) (g : Globals E) tile g',
          createPointCloudTile_sections (Some options) g = (Ok tile, g') ->
          Forall supportedComponent
                 (featureTableProperties tile ++ batchTableProperties tile)).
Proof.
  intros E. split.
  - intros n sem ft bt Hknown Hholds Hsup. split.
    + apply dracoEncode_ok; assumption.
    + intros Hfail.
      destruct (selectDracoProperties_members sem ft bt Hknown) as (dp & Hsel & Hdp).
      unfold dracoEncode. rewrite Hsel. cbn [rbind].
      assert (Hnone : ~ In None dp).
      { intros Hin. rewrite Forall_forall in Hdp.
        destruct (Hdp None Hin) as (p & Hp & _). discriminate Hp. }
      unfold choosePreserveOrder.
      destruct (getPropertyByName_total dp "NORMAL" Hnone) as (normal & ->). cbn [rbind].
      unfold dracoEncodeProperties.
      destruct (addAttributes_ok E n dp PointCloud_new []) as (pointCloud & ids & ->).
      { rewrite Forall_forall in Hdp, Hholds, Hsup. apply Forall_forall. intros o Ho.
        destruct (Hdp o Ho) as (p & -> & Hp). exists p. auto. }
      cbn [rbind].
      match goal with
      | |- context [Encoder_EncodePointCloudToDracoBuffer ?s ?c] =>
          specialize (Hfail s c);
          destruct (Encoder_EncodePointCloudToDracoBuffer s c) as [encodedLength data]
      end.
      cbn [fst] in Hfail.
      destruct (Z.leb_spec encodedLength 0); [reflexivity | lia].
  - apply tile_attributes_supported.
Qed.

Lemma dracoEncode_fails_only_with_the_encoder_witness :
  (exists r,
     dracoEncode (E := Sample.env) 2 (Some ["POSITION"]) twoPointAttributes [] = Ok r)
  /\ dracoEncode (E := Sample.failingEnv) 2 (Some ["POSITION"]) twoPointAttributes []
     = Err EncodingFailed.
Proof.
  assert (Hknown : knownSemantics (Some ["POSITION"]) twoPointAttributes).
  { intros name [<- | []]. left. reflexivity. }
  assert (Hholds : Forall (holdsPoints 2) (twoPointAttributes ++ []))
    by (repeat constructor).
  assert (Hsup : Forall supportedComponent (twoPointAttributes ++ []))
    by (repeat constructor; discriminate).
  split.
  - apply (proj1 (proj1 (dracoEncode_fails_only_with_the_encoder Sample.env)
                    2%nat (Some ["POSITION"]) twoPointAttributes [] Hknown Hholds Hsup)).
    intros settings pointCloud. unfold Sample.env, Sample.encode. cbn [fst].
    cbn [Encoder_EncodePointCloudToDracoBuffer fst]. lia.
  - apply (proj2 (proj1 (dracoEncode_fails_only_with_the_encoder Sample.failingEnv)
                    2%nat (Some ["POSITION"]) twoPointAttributes [] Hknown Hholds Hsup)).
    intros settings pointCloud. cbn. lia.
Defined.

(** What [dracoEncode] returns is decided by the length the encoder
    reports for the point cloud built from the chosen attributes. *)
Lemma dracoEncode_by_encoder :
  forall (E : Env) n sem ft bt dp po cloud ids,
    selectDracoProperties sem ft bt = Ok dp ->
    choosePreserveOrder dp ft bt = Ok po ->
    addAttributes n dp PointCloud_new [] = Ok (cloud, ids) ->
    (fst (Encoder_EncodePointCloudToDracoBuffer (encoderSettings po) cloud) <= 0 ->
       dracoEncode n sem ft bt = Err EncodingFailed) /\
    (0 < fst (Encoder_EncodePointCloudToDracoBuffer (encoderSettings po) cloud) ->
       exists res,
         dracoEncode n sem ft bt = Ok res /\
         encodedBlob (encoderSettings po) cloud = Ok (dracoBuffer res) /\
         Z.of_nat (length (dracoBuffer res))
           = fst (Encoder_EncodePointCloudToDracoBuffer (encoderSettings po) cloud)).
Proof.
  intros E n sem ft bt dp po cloud ids Hsel Hch Hadd.
  unfold dracoEncode, encodedBlob. rewrite Hsel. cbn [rbind]. rewrite Hch. cbn [rbind].
  unfold dracoEncodeProperties. rewrite Hadd. cbn [rbind].
  destruct (Encoder_EncodePointCloudToDracoBuffer (encoderSettings po) cloud)
    as [encodedLength data].
  cbn [fst snd].
  split; intros Hlen.
  - destruct (Z.leb_spec encodedLength 0); [reflexivity | lia].
  - destruct (Z.leb_spec encodedLength 0); [lia |]. cbn [rbind].
    destruct (routeAttributeIds_ok ft bt ids ([], [])) as ([fp bp] & Hr).
    rewrite Hr. cbn [rbind]. eexists. split; [reflexivity |].
    cbn [dracoBuffer]. split; [reflexivity |].
    rewrite length_map, length_seq. lia.
Qed.

(** The stages of [attributeStage] are the first stages of the call. *)
Ltac stage_inv H Hseed Hpoints Hbt :=
  unfold attributeStage in H;
  apply bind_Ok_inv in H; destruct H as (?u & ?g0 & Hseed & H);
  cbv zeta in H; cbn [defaultValue] in H;
  apply bind_Ok_inv in H; destruct H as (?points' & ?g0 & Hpoints & H);
  apply bind_Ok_inv in H; destruct H as (?bt' & ?g0 & Hbt & H);
  unfold ret in H; inversion H; subst; clear H.

Ltac step_in Hrun H :=
  match type of Hrun with
  | bind ?m ?k ?g = _ => rewrite (bind_Ok _ _ m k g _ _ H) in Hrun
  end.

Ltac step H :=
  match goal with
  | |- bind ?m ?k ?g = _ => rewrite (bind_Ok _ _ m k g _ _ H)
  end.

Lemma sections_encoding_error :
  forall (E : Env) (options : Options E) g points bt g1 e,
    draco options = Some true ->
    attributeStage options g = (Ok (points, bt), g1) ->
    dracoEncode (defaultValue (pointsLength options) 1000%nat) (dracoSemantics options)
      (featurePropertiesOf options points) bt = Err e ->
    createPointCloudTile_sections (Some options) g = (Err e, g1).
Proof.
  intros E options g points bt g1 e Hdraco Hstage Henc.
  stage_inv Hstage Hseed Hpoints Hbt.
  unfold createPointCloudTile_sections.
  step Hseed. cbv zeta. cbn [defaultValue].
  step Hpoints. step Hbt.
  rewrite Hdraco. cbn [defaultValue].
  apply bind_Err. apply bind_lift_Err. exact Henc.
Qed.

Lemma sections_encoding_ok :
  forall (E : Env) (options : Options E) g points bt g1 res,
    draco options = Some true ->
    attributeStage options g = (Ok (points, bt), g1) ->
    dracoEncode (defaultValue (pointsLength options) 1000%nat) (dracoSemantics options)
      (featurePropertiesOf options points) bt = Ok res ->
    exists tile g2 rest,
      createPointCloudTile_sections (Some options) g = (Ok tile, g2) /\
      featureTableBinary (sections tile) = dracoBuffer res ++ rest /\
      extensionsUsed tile = Some ["3DTILES_draco_point_compression"].
Proof.
  intros E options g points bt g1 res Hdraco Hstage Henc.
  stage_inv Hstage Hseed Hpoints Hbt.
  destruct (createPointCloudTile_sections (Some options) g) as [r gEnd] eqn:Hrun.
  unfold createPointCloudTile_sections in Hrun.
  step_in Hrun Hseed. cbv zeta in Hrun. cbn [defaultValue] in Hrun.
  step_in Hrun Hpoints. step_in Hrun Hbt.
  rewrite Hdraco in Hrun. cbn [defaultValue] in Hrun.
  match type of Hrun with
  | bind ?m ?k ?g = _ =>
      eassert (Hd : m g = (Ok _, g))
        by (rewrite (bind_lift_Ok _ _ _ _ _ _ Henc); unfold ret; reflexivity);
      rewrite (bind_Ok _ _ m k g _ _ Hd) in Hrun; clear Hd
  end.
  match type of Hrun with
  | context [featureTableLoop ?a ?b ?c ?d] =>
      destruct (featureTableLoop_prefix a b c d) as (rest & Hprefix);
      destruct (featureTableLoop a b c d) as [ftb' ftj'] eqn:Hloop
  end.
  match type of Hrun with
  | context [batchTableLoop ?a ?b ?c ?d] =>
      destruct (batchTableLoop a b c d) as [btb' btj']
  end.
  cbn [fst] in Hprefix.
  unfold Buffer_concat, Buffer_alloc in Hprefix. cbn [concat repeat app] in Hprefix.
  rewrite app_nil_r in Hprefix.
  destruct (defaultValue (batched options) false) eqn:Hb.
  - apply getPoints_batchIds in Hpoints.
    destruct Hpoints as (_ & _ & _ & bl & Hblen & Hbl).
    rewrite Hblen in Hrun.
    match type of Hrun with
    | context [getBatchTableForBatchedPoints ?n] =>
        destruct (getBatchTableForBatchedPoints_layout E n g1 ltac:(lia))
          as (dims & ids & g3 & Htable & _)
    end.
    match type of Hrun with
    | bind ?m ?k ?g = _ =>
        eassert (Hd : m g = (Ok _, g3))
          by (rewrite (bind_Ok _ _ _ _ _ _ _ Htable); unfold ret; reflexivity);
        rewrite (bind_Ok _ _ m k g _ _ Hd) in Hrun; clear Hd
    end.
    unfold ret in Hrun. inversion Hrun; subst; clear Hrun.
    eexists. exists gEnd, rest. split; [reflexivity |].
    split; [first [exact Hprefix | reflexivity] | reflexivity].
  - match type of Hrun with
    | bind ?m ?k ?g = _ =>
        rewrite (bind_Ok _ _ m k g _ _ eq_refl) in Hrun
    end.
    unfold ret in Hrun. inversion Hrun; subst; clear Hrun.
    eexists. exists gEnd, rest. split; [reflexivity |].
    split; [first [exact Hprefix | reflexivity] | reflexivity].
Qed.

Lemma sections_went_through_stage :
  forall (E : Env) (options : Options E) g tile g',
    createPointCloudTile_sections (Some options) g = (Ok tile, g') ->
    exists points bt g1,
      attributeStage options g = (Ok (points, bt), g1) /\
      featureTableProperties tile = featurePropertiesOf options points /\
      batchTableProperties tile = bt.
Proof.
  intros E options g tile g' H.
  unfold createPointCloudTile_sections in H.
  apply bind_Ok_inv in H. destruct H as (u & g1 & Hseed & H).
  cbv zeta in H. cbn [defaultValue] in H.
  apply bind_Ok_inv in H. destruct H as (points & g2 & Hpoints & H).
  apply bind_Ok_inv in H. destruct H as (bt & g3 & Hbt & H).
  apply bind_Ok_inv in H.
  destruct H as ([[[[[ftj ftb] btj] ext] dft] dbt] & g4 & _ & H).
  match type of H with
  | context [featureTableLoop ?a ?b ?c ?d] =>
      destruct (featureTableLoop a b c d) as [ftb' ftj']
  end.
  match type of H with
  | context [batchTableLoop ?a ?b ?c ?d] =>
      destruct (batchTableLoop a b c d) as [btb' btj']
  end.
  apply bind_Ok_inv in H.
  destruct H as ([[ftj2 btj2] btb2] & g5 & _ & H).
  unfold ret in H. inversion H; subst; clear H.
  exists points, bt, g3. split; [| split; reflexivity].
  unfold attributeStage.
  step Hseed. cbv zeta. cbn [defaultValue].
  step Hpoints. step Hbt. reflexivity.
Qed.

(** C5: when the compression is on and the stages before it succeed, the
    call is decided by the length the encoder reports for the point cloud
    of the chosen attributes.  A length that is zero or negative makes
    [dracoEncodeProperties] throw 'Error: Encoding Failed.'; [dracoEncode]
    and the generation call do not catch it, so the call returns that error
    and no tile, with the state the earlier stages left.  A positive length
    raises no error: the call returns a tile whose feature-table binary
    starts with the blob, of exactly that length.  Every tile the call
    produces went through these stages. *)
Theorem encoding_failure_aborts :
  forall (E : Env),
    (forall pointsLength properties preserveOrder pointCloud attributeIds
            encodedLength data,
       addAttributes pointsLength properties PointCloud_new []
         = Ok (pointCloud, attributeIds) ->
       Encoder_EncodePointCloudToDracoBuffer (encoderSettings preserveOrder) pointCloud
         = (encodedLength, data) ->
       (encodedLength <= 0 ->
          dracoEncodeProperties pointsLength properties preserveOrder
            = Err EncodingFailed) /\
       (0 < encodedLength ->
          exists blob,
            dracoEncodeProperties pointsLength properties preserveOrder
              = Ok (blob, attributeIds) /\
            Z.of_nat (length blob) = encodedLength))
    /\ (forall pointsLength dracoSemantics featureTableProperties batchTableProperties
               dracoProperties preserveOrder e,
          selectDracoProperties dracoSemantics featureTableProperties batchTableProperties
            = Ok dracoProperties ->
          choosePreserveOrder dracoProperties featureTableProperties batchTableProperties
            = Ok preserveOrder ->
          dracoEncodeProperties pointsLength dracoProperties preserveOrder = Err e ->
          dracoEncode pointsLength dracoSemantics featureTableProperties batchTableProperties
            = Err e)
    /\ (forall (options : Options E) (g : Globals E) points batchAttributes g1
               dracoProperties preserveOrder pointCloud attributeIds,
          draco options = Some true ->
          attributeStage options g = (Ok (points, batchAttributes), g1) ->
          selectDracoProperties (dracoSemantics options)
            (featurePropertiesOf options points) batchAttributes
            = Ok dracoProperties ->
          choosePreserveOrder dracoProperties
            (featurePropertiesOf options points) batchAttributes
            = Ok preserveOrder ->
          addAttributes (defaultValue (pointsLength options) 1000%nat)
            dracoProperties PointCloud_new []
            = Ok (pointCloud, attributeIds) ->
          (fst (Encoder_EncodePointCloudToDracoBuffer
                  (encoderSettings preserveOrder) pointCloud) <= 0 ->
             createPointCloudTile (Some options) g = (Err EncodingFailed, g1)) /\
          (0 < fst (Encoder_EncodePointCloudToDracoBuffer
                      (encoderSettings preserveOrder) pointCloud) ->
             exists tile g2 blob rest,
               createPointCloudTile_sections (Some options) g = (Ok tile, g2) /\
               createPointCloudTile (Some options) g
                 = (Ok {| pnts := createPnts (sections tile);
                          resultBatchTableJson := batchTableJson (sections tile);
                          resultExtensionsUsed := extensionsUsed tile |}, g2) /\
               encodedBlob (encoderSettings preserveOrder) pointCloud = Ok blob /\
               Z.of_nat (length blob)
                 = fst (Encoder_EncodePointCloudToDracoBuffer
                          (encoderSettings preserveOrder) pointCloud) /\
               featureTableBinary (sections tile) = blob ++ rest /\
               extensionsUsed tile = Some ["3DTILES_draco_point_compression"]))
    /\ (forall (options : Options E) (g : Globals E) tile g',
          createPointCloudTile_sections (Some options) g = (Ok tile, g') ->
          exists points batchAttributes g1,
            attributeStage options g = (Ok (points, batchAttributes), g1) /\
            featureTableProperties tile = featurePropertiesOf options points /\
            batchTableProperties tile = batchAttributes).
Proof.
  intros E. split; [| split; [| split]].
  - intros n props po pc ids len data Hadd Henc.
    destruct (dracoEncodeProperties_cases E n props po pc ids len data Hadd Henc)
      as [Hfail Hok].
    split; [exact Hfail |].
    intros Hpos. destruct (Hok Hpos) as (blob & Hb & Hl & _). eauto.
  - intros n sem ft bt dp po e Hsel Hch Henc.
    unfold dracoEncode. rewrite Hsel. cbn [rbind]. rewrite Hch. cbn [rbind].
    rewrite Henc. reflexivity.
  - intros options g points bt g1 dp po cloud ids Hdraco Hstage Hsel Hch Hadd.
    destruct (dracoEncode_by_encoder E _ _ _ _ dp po cloud ids Hsel Hch Hadd)
      as [Hfail Hok].
    split; intros Hlen.
    + unfold createPointCloudTile. apply bind_Err.
      exact (sections_encoding_error E options g points bt g1 EncodingFailed
               Hdraco Hstage (Hfail Hlen)).
    + destruct (Hok Hlen) as (res & Hres & Hblob & Hbl).
      destruct (sections_encoding_ok E options g points bt g1 res Hdraco Hstage Hres)
        as (tile & g2 & rest & Hrun & Hbin & Hext).
      exists tile, g2, (dracoBuffer res), rest.
      split; [exact Hrun |].
      split; [unfold createPointCloudTile; rewrite (bind_Ok _ _ _ _ _ _ _ Hrun);
              reflexivity |].
      split; [exact Hblob |]. split; [exact Hbl |]. split; [exact Hbin | exact Hext].
  - intros options g tile g' H.
    exact (sections_went_through_stage E options g tile g' H).
Qed.

Lemma encoding_failure_aborts_witness :
  @createPointCloudTile Sample.failingEnv
    (Some (dracoOptions Sample.failingEnv)) moduleInit
  = (Err EncodingFailed,
     snd (@attributeStage Sample.failingEnv (dracoOptions Sample.failingEnv) moduleInit)).
Proof.
  set (E := Sample.failingEnv).
  set (options := dracoOptions E).
  assert (Hall :
    match fst (@attributeStage E options moduleInit) with
    | Ok (points, bt) =>
        match selectDracoProperties (dracoSemantics options)
                (featurePropertiesOf options points) bt with
        | Ok dp =>
            match choosePreserveOrder dp (featurePropertiesOf options points) bt with
            | Ok _ => isOk (addAttributes 8 dp PointCloud_new [])
            | Err _ => false
            end
        | Err _ => false
        end
    | Err _ => false
    end = true) by (vm_compute; reflexivity).
  destruct (@attributeStage E options moduleInit) as [[[points bt] | e] g1] eqn:Hstage;
    cbn [fst snd] in *; [| discriminate Hall].
  destruct (selectDracoProperties (dracoSemantics options)
              (featurePropertiesOf options points) bt) as [dp | e] eqn:Hsel;
    [| discriminate Hall].
  destruct (choosePreserveOrder dp (featurePropertiesOf options points) bt)
    as [po | e] eqn:Hch; [| discriminate Hall].
  destruct (addAttributes 8 dp PointCloud_new []) as [[cloud ids] | e] eqn:Hadd;
    [| discriminate Hall].
  exact (proj1 (proj1 (proj2 (proj2 (encoding_failure_aborts E)))
                  options moduleInit points bt g1 dp po cloud ids
                  eq_refl Hstage Hsel Hch Hadd)
           (Z.le_refl 0)).
Defined.
